(** * SmartFileCabinet: extraction pipeline and duplicate detection

    A shallow embedding of the decision logic of

      - [backend/main.py]           ([_norm_invoice_no], [_norm_vendor],
                                     [_similar], [detect_duplicates],
                                     [upload_dupcheck]),
      - [backend/business_hub/ai.py] ([_chat_json_with_images],
                                     [_classify_document_vision],
                                     [_extract_invoice_fields_vision],
                                     [_normalize_invoice_fields],
                                     [_normalize_receipt_fields],
                                     [run_extraction]),
      - [backend/business_hub/models.py] (the pydantic models),

    together with the parts of the Python standard library these functions
    call ([str] methods, [re.sub] for the four patterns used,
    [difflib.SequenceMatcher.ratio], [datetime.strptime], [round]).

    Conventions.
      - A Python [str] is a Rocq [string] whose characters are the code points
        U+0000..U+00FF; the character classes below are Python's on that range.
      - A Python [float] is a binary64 primitive float.
      - A Python exception is a value of [exn]; a call that may raise returns
        a [result]. *)

From Stdlib Require Import ZArith Floats Ascii String DecimalString List Bool Lia.
From stdpp Require Import base option list.

Local Open Scope string_scope.
Set Warnings "-register-all,-inexact-float".

(* ===================================================================== *)
(** * Part I: definitions                                                 *)
(* ===================================================================== *)

(** ** Python built-ins *)

Module Py.

(** *** Characters *)

Definition code (c : ascii) : N := N_of_ascii c.

Definition in_range (lo hi : N) (c : ascii) : bool :=
  (lo <=? code c)%N && (code c <=? hi)%N.

Definition is_ascii_upper (c : ascii) : bool := in_range 65 90 c.

(** Characters [str.lower] changes: A-Z, and U+00C0..U+00DE but U+00D7. *)
Definition is_upper (c : ascii) : bool :=
  is_ascii_upper c || in_range 192 214 c || in_range 216 222 c.

Definition lower_char (c : ascii) : ascii :=
  if is_upper c then ascii_of_N (code c + 32) else c.

(** SQLite's built-in [lower()] folds the ASCII letters only. *)
Definition sqlite_lower_char (c : ascii) : ascii :=
  if is_ascii_upper c then ascii_of_N (code c + 32) else c.

(** [str.isspace], also the class [\s] of [re] on [str] patterns. *)
Definition isspace (c : ascii) : bool :=
  in_range 9 13 c || in_range 28 32 c
  || (code c =? 133)%N || (code c =? 160)%N.

Definition is_decimal (c : ascii) : bool := in_range 48 57 c.

(** The class [\w] of [re] on [str] patterns: alphanumeric or underscore. *)
Definition is_word (c : ascii) : bool :=
  is_decimal c || in_range 65 90 c || in_range 97 122 c
  || (code c =? 95)%N
  || (code c =? 170)%N || (code c =? 178)%N || (code c =? 179)%N
  || (code c =? 181)%N || (code c =? 185)%N || (code c =? 186)%N
  || in_range 188 190 c || in_range 192 214 c || in_range 216 246 c
  || in_range 248 255 c.

(** *** Strings *)

Fixpoint str_map (f : ascii -> ascii) (s : string) : string :=
  match s with
  | EmptyString => EmptyString
  | String c r => String (f c) (str_map f r)
  end.

Fixpoint str_filter (p : ascii -> bool) (s : string) : string :=
  match s with
  | EmptyString => EmptyString
  | String c r => if p c then String c (str_filter p r) else str_filter p r
  end.

Fixpoint str_forall (p : ascii -> bool) (s : string) : bool :=
  match s with
  | EmptyString => true
  | String c r => p c && str_forall p r
  end.

Definition is_empty (s : string) : bool :=
  match s with EmptyString => true | _ => false end.

Definition lower (s : string) : string := str_map lower_char s.

Definition sqlite_lower (s : string) : string := str_map sqlite_lower_char s.

(** The text up to its first U+0000: what is left of a text that is
    read as a C string. *)
Fixpoint until_nul (s : string) : string :=
  match s with
  | EmptyString => EmptyString
  | String c r => if (code c =? 0)%N then EmptyString else String c (until_nul r)
  end.

Fixpoint lstrip (s : string) : string :=
  match s with
  | EmptyString => EmptyString
  | String c r => if isspace c then lstrip r else s
  end.

Fixpoint rstrip (s : string) : string :=
  match s with
  | EmptyString => EmptyString
  | String c r =>
      let r' := rstrip r in
      if isspace c && is_empty r' then EmptyString else String c r'
  end.

Definition strip (s : string) : string := rstrip (lstrip s).

(** [s[-n:]] for [n > 0]. *)
Definition last_chars (n : nat) (s : string) : string :=
  substring (String.length s - n) n s.

Fixpoint starts_with (p s : string) : bool :=
  match p, s with
  | EmptyString, _ => true
  | String a p', String b s' => if ascii_dec a b then starts_with p' s' else false
  | String _ _, EmptyString => false
  end.

Fixpoint str_drop (n : nat) (s : string) : string :=
  match n, s with
  | O, _ => s
  | S k, String _ r => str_drop k r
  | S _, EmptyString => EmptyString
  end.

Definition head (s : string) : option ascii :=
  match s with EmptyString => None | String c _ => Some c end.

Fixpoint last (s : string) : option ascii :=
  match s with
  | EmptyString => None
  | String c EmptyString => Some c
  | String _ r => last r
  end.

(** A whitespace character, and not the start or end of the string. *)
Definition blank (o : option ascii) : bool := from_option isspace false o.

(** No character [str.lower] would change. *)
Definition lowered (s : string) : Prop :=
  str_forall (fun c => negb (is_upper c)) s = true.

(** No two whitespace characters in a row. *)
Fixpoint single_spaced (s : string) : bool :=
  match s with
  | EmptyString => true
  | String c r =>
      negb (isspace c && from_option isspace false (head r)) && single_spaced r
  end.

End Py.

(** ** The four [re.sub] calls of [backend/main.py] *)

Module Re.
Import Py.

(** [[\s\-_/\.]] *)
Definition is_separator (c : ascii) : bool :=
  isspace c || (code c =? 45)%N || (code c =? 95)%N
  || (code c =? 47)%N || (code c =? 46)%N.

(** [re.sub(r'[\s\-_/\.]', '', s)] *)
Definition sub_separators (s : string) : string :=
  str_filter (fun c => negb (is_separator c)) s.

(** [re.sub(r'^0+', '', s)] *)
Fixpoint sub_leading_zeros (s : string) : string :=
  match s with
  | String "0" r => sub_leading_zeros r
  | _ => s
  end.

(** [\b] between the character before the position ([None] at the start)
    and the character after it ([None] at the end). *)
Definition boundary (before after : option ascii) : bool :=
  xorb (from_option is_word false before) (from_option is_word false after).

(** One alternative [w] of the group followed by the closing [\b]:
    the length matched. *)
Definition word_then_boundary (w s : string) : option nat :=
  let n := String.length w in
  if starts_with w s && boundary (head (str_drop (n - 1) s)) (head (str_drop n s))
  then Some n else None.

(** [(llc|inc|corp|co\.?|ltd)\b] at the head of [s], the alternatives in
    the pattern's order, [\.?] greedy. *)
Definition legal_suffix_at (s : string) : option nat :=
  match word_then_boundary "llc" s with Some n => Some n | None =>
  match word_then_boundary "inc" s with Some n => Some n | None =>
  match word_then_boundary "corp" s with Some n => Some n | None =>
  match word_then_boundary "co." s with Some n => Some n | None =>
  match word_then_boundary "co" s with Some n => Some n | None =>
  word_then_boundary "ltd" s
  end end end end end.

(** [\b(llc|inc|corp|co\.?|ltd)\b] at the head of [s], where [prev] is the
    character before it. *)
Definition legal_match (prev : option ascii) (s : string) : option nat :=
  if boundary prev (head s) then legal_suffix_at s else None.

(** [re.sub(r'\b(llc|inc|corp|co\.?|ltd)\b', '', s)]: leftmost matches,
    left to right, the search resuming after each match; [skip] counts the
    characters of the current match still to drop. *)
Fixpoint sub_legal_from (prev : option ascii) (skip : nat) (s : string) : string :=
  match s with
  | EmptyString => EmptyString
  | String c r =>
      match skip with
      | S k => sub_legal_from (Some c) k r
      | O =>
          match legal_match prev s with
          | Some (S k) => sub_legal_from (Some c) k r
          | _ => String c (sub_legal_from (Some c) 0 r)
          end
      end
  end.

Definition sub_legal (s : string) : string := sub_legal_from None 0 s.

(** [re.sub(r'\s{2,}', ' ', s)]: every maximal run of two or more
    whitespace characters becomes one space; [in_run] tells that the
    previous character belonged to a run already replaced. *)
Fixpoint sub_space_runs_from (in_run : bool) (s : string) : string :=
  match s with
  | EmptyString => EmptyString
  | String c r =>
      if isspace c then
        if in_run then sub_space_runs_from true r
        else if from_option isspace false (head r)
             then String " " (sub_space_runs_from true r)
             else String c (sub_space_runs_from false r)
      else String c (sub_space_runs_from false r)
  end.

Definition sub_space_runs (s : string) : string := sub_space_runs_from false s.

End Re.

(** ** Python values, exceptions, dictionaries *)

Module Val.

(** [datetime.date] and [datetime.datetime] ([tz]: the UTC offset in
    minutes of an aware value). *)
Record date := Date { d_year : Z; d_month : Z; d_day : Z }.

Record datetime := Datetime {
  dt_date : date;
  dt_hour : Z; dt_minute : Z; dt_second : Z; dt_microsecond : Z;
  dt_tz : option Z }.

(** [models.LineItem] *)
Record LineItem := MkLineItem {
  qty : option float;
  description : string;
  unit_price : option float;
  amount : option float }.

(** What [json.loads] produces ([VNone] .. [VDict]) and the three kinds of
    object the normalizer puts into a dictionary on its way. *)
Inductive value :=
| VNone
| VBool (b : bool)
| VInt (z : Z)
| VFloat (f : float)
| VStr (s : string)
| VList (l : list value)
| VDict (d : list (string * value))
| VDate (d : date)
| VDatetime (d : datetime)
| VLineItem (li : LineItem).

(** A [dict] with [str] keys, in insertion order, keys distinct. *)
Definition dict := list (string * value).

(** The exceptions raised; [APIError] is an instance of [openai.APIError]
    of the class [cls], with its [message] and the text of its [body]. *)
Inductive exn :=
| AttributeError
| TypeError
| ValueError
| OverflowError
| ValidationError
| JSONDecodeError
| IntegrityError
| OperationalError
| RuntimeError (msg : string)
| HTTPException (status : Z) (detail : dict)
| APIError (cls : string) (message : string) (body : option string).

Inductive result (A : Type) :=
| Ok (a : A)
| Raise (e : exn).
Arguments Ok {A} a.
Arguments Raise {A} e.

Definition bind {A B} (m : result A) (k : A -> result B) : result B :=
  match m with Ok a => k a | Raise e => Raise e end.

Definition of_option {A} (e : exn) (o : option A) : result A :=
  match o with Some a => Ok a | None => Raise e end.

Fixpoint mapM {A B} (f : A -> result B) (l : list A) : result (list B) :=
  match l with
  | [] => Ok []
  | x :: r => bind (f x) (fun y => bind (mapM f r) (fun ys => Ok (y :: ys)))
  end.

(** *** Dictionaries *)

Fixpoint get (k : string) (d : dict) : option value :=
  match d with
  | [] => None
  | (k', v) :: r => if String.eqb k k' then Some v else get k r
  end.

(** [d.get(k)]: [None] for a missing key. *)
Definition get_or_none (k : string) (d : dict) : value :=
  default VNone (get k d).

(** [d[k] = v]: in place for a key that is there, appended otherwise. *)
Fixpoint set (k : string) (v : value) (d : dict) : dict :=
  match d with
  | [] => [(k, v)]
  | (k', v') :: r =>
      if String.eqb k k' then (k, v) :: r else (k', v') :: set k v r
  end.

(** [d.setdefault(k, v)] *)
Definition setdefault (k : string) (v : value) (d : dict) : dict :=
  match get k d with Some _ => d | None => set k v d end.

(** *** Floats *)

(** The exact value [m * 2^e] of a finite float, as a signed numerator and
    the exponent. *)
Definition float_of_nat (n : nat) : float :=
  PrimFloat.of_uint63 (Uint63.of_Z (Z.of_nat n)).

(** [float(z)] for a Python [int]: correctly rounded, [OverflowError] when
    the result is not finite. *)
Definition float_of_Z (z : Z) : result float :=
  let f := SF2Prim (binary_normalize prec emax z 0 false) in
  match Prim2SF f with
  | S754_infinity _ | S754_nan => Raise OverflowError
  | _ => Ok f
  end.

(** [z == f] for a Python [int] and a [float]: exact, no conversion. *)
Definition int_eq_float (z : Z) (f : float) : bool :=
  match Prim2SF f with
  | S754_zero _ => (z =? 0)%Z
  | S754_finite s m e =>
      let n := if s then Z.neg m else Z.pos m in
      if (0 <=? e)%Z then (z =? n * 2 ^ e)%Z else (z * 2 ^ (- e) =? n)%Z
  | _ => false
  end.

(** *** Truth value and [==] *)

Definition truthy (v : value) : bool :=
  match v with
  | VNone => false
  | VBool b => b
  | VInt z => negb (z =? 0)%Z
  | VFloat f => negb (PrimFloat.eqb f 0)
  | VStr s => negb (Py.is_empty s)
  | VList l => match l with [] => false | _ => true end
  | VDict d => match d with [] => false | _ => true end
  | VDate _ | VDatetime _ | VLineItem _ => true
  end.

Definition Z_of_bool (b : bool) : Z := if b then 1%Z else 0%Z.

Definition date_eqb (a b : date) : bool :=
  (d_year a =? d_year b)%Z && (d_month a =? d_month b)%Z
  && (d_day a =? d_day b)%Z.

Fixpoint has_key (k : string) (d : dict) : bool :=
  match d with
  | [] => false
  | (k', _) :: r => String.eqb k k' || has_key k r
  end.

(** [a == b] on the values [json.loads] produces; numbers compare by
    value across [bool], [int] and [float], lists element by element,
    dictionaries key by key. Dates, datetimes and model objects are only
    compared with JSON values here, which is [False]. *)
Fixpoint py_eq (a b : value) {struct a} : bool :=
  match a, b with
  | VNone, VNone => true
  | VBool x, VBool y => Bool.eqb x y
  | VBool x, VInt y => (Z_of_bool x =? y)%Z
  | VInt x, VBool y => (x =? Z_of_bool y)%Z
  | VBool x, VFloat y => int_eq_float (Z_of_bool x) y
  | VFloat x, VBool y => int_eq_float (Z_of_bool y) x
  | VInt x, VInt y => (x =? y)%Z
  | VInt x, VFloat y => int_eq_float x y
  | VFloat x, VInt y => int_eq_float y x
  | VFloat x, VFloat y => PrimFloat.eqb x y
  | VStr x, VStr y => String.eqb x y
  | VList xs, VList ys =>
      (fix go (xs ys : list value) : bool :=
         match xs, ys with
         | [], [] => true
         | x :: xs', y :: ys' => py_eq x y && go xs' ys'
         | _, _ => false
         end) xs ys
  | VDict xs, VDict ys =>
      (length xs =? length ys)%nat
      && (fix go (xs : list (string * value)) : bool :=
            match xs with
            | [] => true
            | (k, x) :: xs' =>
                match get k ys with
                | Some y => py_eq x y && go xs'
                | None => false
                end
            end) xs
  | _, _ => false
  end.

(** [float(v)] *)
Definition py_float (float_of_str : string -> option float) (v : value)
  : result float :=
  match v with
  | VFloat f => Ok f
  | VInt z => float_of_Z z
  | VBool b => float_of_Z (Z_of_bool b)
  | VStr s => of_option ValueError (float_of_str s)
  | _ => Raise TypeError
  end.

(** [isinstance(v, (int, float))]; [bool] is a subclass of [int]. *)
Definition is_number (v : value) : bool :=
  match v with
  | VBool _ | VInt _ | VFloat _ => true
  | _ => false
  end.

(** What [json.dumps] accepts: no date, datetime or model object. *)
Fixpoint json_safe (v : value) : bool :=
  match v with
  | VDate _ | VDatetime _ | VLineItem _ => false
  | VList l => forallb json_safe l
  | VDict d => forallb (fun kv => json_safe (snd kv)) d
  | _ => true
  end.

(** What SQLite reads as JSON of the texts [json.dumps] writes: the
    texts [NaN], [Infinity] and [-Infinity] that stand for the floats
    that are no finite number are malformed JSON to its functions
    (SQLite 3.40). *)
Fixpoint sqlite_json (v : value) : bool :=
  match v with
  | VFloat f => PrimFloat.is_finite f
  | VList l => forallb sqlite_json l
  | VDict d => forallb (fun kv => sqlite_json (snd kv)) d
  | _ => true
  end.

End Val.

Notation "'let*' x := m 'in' k" := (Val.bind m (fun x => k))
  (at level 10, x pattern, m at level 200, k at level 200).

(** ** [difflib.SequenceMatcher(None, a, b).ratio()] *)

Module Difflib.
Local Open Scope nat_scope.

Section SequenceMatcher.
Variable a b : list ascii.

(** [b2j[c]] before the popular elements are dropped: the indices of
    [c] in [b], increasing. *)
Fixpoint indices_from (j : nat) (c : ascii) (l : list ascii) : list nat :=
  match l with
  | [] => []
  | x :: r =>
      if ascii_dec x c then j :: indices_from (S j) c r
      else indices_from (S j) c r
  end.

(** [autojunk]: with [len(b) >= 200], an element occurring more than
    [len(b) // 100 + 1] times is removed from [b2j]. *)
Definition popular (c : ascii) : bool :=
  (200 <=? length b) && (length b / 100 + 1 <? length (indices_from 0 c b)).

Definition b2j (c : ascii) : list nat :=
  if popular c then [] else indices_from 0 c b.

(** [j2len.get(j, 0)] *)
Fixpoint j2len_get (j : nat) (m : list (nat * nat)) : nat :=
  match m with
  | [] => 0
  | (j', k) :: r => if j =? j' then k else j2len_get j r
  end.

(** The running best match [(besti, bestj, bestsize)]. *)
Definition best := (nat * nat * nat)%type.

(** The inner loop of [find_longest_match]: over [j in b2j[a[i]]],
    skipping [j < blo], stopping at [j >= bhi]. *)
Fixpoint inner (i blo bhi : nat) (j2len : list (nat * nat))
    (js : list nat) (newj2len : list (nat * nat)) (bst : best)
  : list (nat * nat) * best :=
  match js with
  | [] => (newj2len, bst)
  | j :: js' =>
      if j <? blo then inner i blo bhi j2len js' newj2len bst
      else if bhi <=? j then (newj2len, bst)
      else
        let k := (match j with O => 0 | S j' => j2len_get j' j2len end) + 1 in
        let '(_, _, bestsize) := bst in
        let bst' := if bestsize <? k then (i + 1 - k, j + 1 - k, k) else bst in
        inner i blo bhi j2len js' ((j, k) :: newj2len) bst'
  end.

(** The outer loop: [for i in range(alo, ahi)], [n = ahi - i] left. *)
Fixpoint outer (n i blo bhi : nat) (j2len : list (nat * nat)) (bst : best)
  : best :=
  match n with
  | O => bst
  | S n' =>
      let js := match nth_error a i with Some c => b2j c | None => [] end in
      let '(newj2len, bst') := inner i blo bhi j2len js [] bst in
      outer n' (S i) blo bhi newj2len bst'
  end.

Definition same_at (i j : nat) : bool :=
  match nth_error a i, nth_error b j with
  | Some x, Some y => if ascii_dec x y then true else false
  | _, _ => false
  end.

(** [while besti > alo and bestj > blo and a[besti-1] == b[bestj-1]];
    no element is junk, since [isjunk] is [None]. *)
Fixpoint extend_left (fuel alo blo : nat) (bst : best) : best :=
  match fuel with
  | O => bst
  | S fuel' =>
      let '(besti, bestj, bestsize) := bst in
      if (alo <? besti) && (blo <? bestj) && same_at (besti - 1) (bestj - 1)
      then extend_left fuel' alo blo (besti - 1, bestj - 1, bestsize + 1)
      else bst
  end.

(** [while besti+bestsize < ahi and bestj+bestsize < bhi and
    a[besti+bestsize] == b[bestj+bestsize]] *)
Fixpoint extend_right (fuel ahi bhi : nat) (bst : best) : best :=
  match fuel with
  | O => bst
  | S fuel' =>
      let '(besti, bestj, bestsize) := bst in
      if (besti + bestsize <? ahi) && (bestj + bestsize <? bhi)
         && same_at (besti + bestsize) (bestj + bestsize)
      then extend_right fuel' ahi bhi (besti, bestj, bestsize + 1)
      else bst
  end.

Definition find_longest_match (alo ahi blo bhi : nat) : best :=
  let bst := outer (ahi - alo) alo blo bhi [] (alo, blo, 0) in
  let bst := extend_left (length a) alo blo bst in
  extend_right (length a) ahi bhi bst.

(** The sum of the sizes of [get_matching_blocks()]: the longest match
    of the window, then the windows left and right of it. Every
    recursive call has a strictly shorter window of [a]: a fuel above
    [ahi - alo] is never exhausted (lemma [matches_in_fuel]). *)
Fixpoint matches_in (fuel alo ahi blo bhi : nat) : nat :=
  match fuel with
  | O => 0
  | S fuel' =>
      let '(i, j, k) := find_longest_match alo ahi blo bhi in
      match k with
      | O => 0
      | S _ =>
          k
          + (if (alo <? i) && (blo <? j)
             then matches_in fuel' alo i blo j else 0)
          + (if (i + k <? ahi) && (j + k <? bhi)
             then matches_in fuel' (i + k) ahi (j + k) bhi else 0)
      end
  end.

Definition matches : nat :=
  matches_in (S (length a)) 0 (length a) 0 (length b).

(** [_calculate_ratio(matches, len(a) + len(b))] *)
Definition ratio : float :=
  let len := length a + length b in
  match len with
  | O => 1%float
  | S _ => PrimFloat.div (PrimFloat.mul 2 (Val.float_of_nat matches))
                         (Val.float_of_nat len)
  end.

End SequenceMatcher.

(** A match lies in the window [alo, ahi) of [a]; the lengths recorded in
    a [j2len] are at most [n]. *)
Definition within (alo ahi : nat) (bst : best) : Prop :=
  let '(besti, _, bestsize) := bst in alo <= besti /\ besti + bestsize <= ahi.

Definition lengths_below (n : nat) (m : list (nat * nat)) : Prop :=
  forall j, j2len_get j m <= n.

End Difflib.

(** ** [round(x, 3)] on floats *)

Module Round.

(** [n / d] rounded to the nearest integer, ties to even ([d > 0]). *)
Definition div_half_even (n d : Z) : Z :=
  let q := (n / d)%Z in
  let r := (n mod d)%Z in
  match (2 * r ?= d)%Z with
  | Lt => q
  | Gt => (q + 1)%Z
  | Eq => if Z.even q then q else (q + 1)%Z
  end.

(** The thousandths nearest to the exact value of a finite float of
    magnitude [m * 2^e]. *)
Definition thousandths (m : positive) (e : Z) : Z :=
  if (0 <=? e)%Z then (Z.pos m * 1000 * 2 ^ e)%Z
  else div_half_even (Z.pos m * 1000) (2 ^ (- e)).

(** [round(x, 3)]: the decimal with three places nearest to the exact
    value of [x] (ties to even), then the float nearest to that decimal.
    An integral [x] is returned as it is; zeros, infinities and NaN too.
    The quotient below is correctly rounded as long as the thousandths
    are below [2^53]. *)
Definition round3 (x : float) : float :=
  match Prim2SF x with
  | S754_finite s m e =>
      if (0 <=? e)%Z then x
      else
        let k := PrimFloat.of_uint63 (Uint63.of_Z (thousandths m e)) in
        let r := PrimFloat.div k 1000 in
        if s then PrimFloat.opp r else r
  | _ => x
  end.

End Round.

(** ** [backend/main.py]: duplicate detection *)

Module Main.
Import Val.

(** [_norm_invoice_no(s)]; [None] is a missing or null field. A value that
    is true and not a [str] has no [lower]. *)
Definition _norm_invoice_no (s : value) : result (option string) :=
  if negb (truthy s) then Ok None
  else match s with
       | VStr s =>
           let s := Py.lower s in
           let s := Re.sub_separators s in
           let s := Re.sub_leading_zeros s in
           Ok (if Py.is_empty s then None else Some s)
       | _ => Raise AttributeError
       end.

(** [_norm_vendor(s)] *)
Definition _norm_vendor (s : value) : result (option string) :=
  if negb (truthy s) then Ok None
  else match s with
       | VStr s =>
           let s := Py.strip (Py.lower s) in
           let s := Re.sub_legal s in
           let s := Py.strip (Re.sub_space_runs s) in
           Ok (if Py.is_empty s then None else Some s)
       | _ => Raise AttributeError
       end.

(** The text each normalizer computes before its last line, [s or None]. *)
Definition vendor_text (s : string) : string :=
  Py.strip (Re.sub_space_runs (Re.sub_legal (Py.strip (Py.lower s)))).

Definition number_text (s : string) : string :=
  Re.sub_leading_zeros (Re.sub_separators (Py.lower s)).

(** The words the vendor pattern removes, and a plain name: one or more
    of the letters a-z. *)
Definition legal_words : list string := ["llc"; "inc"; "corp"; "co"; "ltd"].

Definition is_letter (c : ascii) : bool := Py.in_range 97 122 c.

Definition plain_name (s : string) : Prop :=
  s <> EmptyString /\ Py.str_forall is_letter s = true.

(** The value a normalizer result has as a Python object. *)
Definition value_of_norm (o : option string) : value :=
  match o with Some s => VStr s | None => VNone end.

(** The [documents] and [records] tables, each in the order in which
    SQLite yields its rows (the queries have no [ORDER BY]). A record's
    [fields] column holds the text [json.dumps] wrote for a JSON object,
    given here as the object Python reads from it. *)
Record document_row := { doc_id : string; hash_sha256 : option string }.
Record record_row := { rec_id : string; rec_fields : dict }.
Record connection := {
  documents : list document_row;
  records : list record_row }.

Definition opt_str_eqb (o : option string) (s : string) : bool :=
  match o with Some x => String.eqb x s | None => false end.

(** Every row of [records] is JSON to SQLite. *)
Definition readable (con : connection) : Prop :=
  Forall (fun r => sqlite_json (VDict (rec_fields r)) = true) (records con).

(** A [WHERE] clause selects the row: it is computed and true. *)
Definition holds (c : result bool) : bool :=
  match c with Ok b => b | Raise _ => false end.

Section Queries.

(** The text SQLite gives for a JSON value that is a real number, an
    integer outside 64 bits, an array or an object. *)
Variable sqlite_text : value -> string.

(** [SequenceMatcher(None, a, b).ratio()] for [b] a non-empty JSON array
    or object, taken as [0.0] where difflib raises. *)
Variable ratio_of_container : string -> value -> float.

(** [lower(json_extract(fields, '$.key'))] on fields SQLite reads:
    [NULL] for a missing or null member, the folded text of a string -
    which [json_extract] ends at its first U+0000 -, the decimal text of
    an integer, [1] or [0] for a boolean. *)
Definition extracted (key : string) (fields : dict) : option string :=
  match get key fields with
  | None | Some VNone => None
  | Some (VStr s) => Some (Py.sqlite_lower (Py.until_nul s))
  | Some (VBool b) => Some (if b then "1" else "0")
  | Some (VInt z) =>
      if ((- 2 ^ 63 <=? z) && (z <? 2 ^ 63))%Z
      then Some (NilZero.string_of_int (Z.to_int z))
      else Some (Py.sqlite_lower (sqlite_text (VInt z)))
  | Some v => Some (Py.sqlite_lower (sqlite_text v))
  end.

(** [lower(json_extract(fields, '$.key'))] on a row: the statement fails
    with [OperationalError], malformed JSON, on fields SQLite does not
    read. *)
Definition lower_json_extract (key : string) (fields : dict)
  : result (option string) :=
  if sqlite_json (VDict fields) then Ok (extracted key fields)
  else Raise OperationalError.

(** [SELECT id FROM documents WHERE hash_sha256=?] then [fetchone()] *)
Definition select_document_by_hash (con : connection) (file_hash : string)
  : option document_row :=
  List.find (fun d => opt_str_eqb (hash_sha256 d) file_hash) (documents con).

(** The [WHERE] clause of the second query on a row. *)
Definition same_vendor_and_number (vend invn : string) (r : record_row)
  : result bool :=
  let* v := lower_json_extract "vendor_norm" (rec_fields r) in
  let* n := lower_json_extract "invoice_number_norm" (rec_fields r) in
  Ok (opt_str_eqb v vend && opt_str_eqb n invn).

(** The [WHERE] clause of the third query on a row. *)
Definition same_vendor (vend : string) (r : record_row) : result bool :=
  let* v := lower_json_extract "vendor_norm" (rec_fields r) in
  Ok (opt_str_eqb v vend).

(** One step of a statement over the rows it has not visited: the next
    row its [WHERE] clause selects and the rows after that one, [None]
    at the end of the table, or the error of the clause on a row met on
    the way. *)
Fixpoint step (clause : record_row -> result bool) (rows : list record_row)
  : result (option (record_row * list record_row)) :=
  match rows with
  | [] => Ok None
  | r :: rest =>
      let* selected := clause r in
      if selected then Ok (Some (r, rest)) else step clause rest
  end.

(** [cur.execute(...).fetchone()]: the first row selected. The cursor
    steps the statement once more before it hands a row out, so an error
    on the way to the second row selected is raised as well. *)
Definition fetchone (clause : record_row -> result bool) (rows : list record_row)
  : result (option record_row) :=
  let* first := step clause rows in
  match first with
  | None => Ok None
  | Some (r, rest) =>
      let* _ := step clause rest in
      Ok (Some r)
  end.

(** [for ... in cur.execute(...)]: every row selected, the statement
    stepped to the end of the table. *)
Fixpoint fetchall (clause : record_row -> result bool) (rows : list record_row)
  : result (list record_row) :=
  match rows with
  | [] => Ok []
  | r :: rest =>
      let* selected := clause r in
      let* l := fetchall clause rest in
      Ok (if selected then r :: l else l)
  end.

(** [_similar(a, b)], [a] a normalizer result *)
Definition _similar (a : option string) (b : value) : float :=
  match a with
  | None => 0%float
  | Some a =>
      if negb (truthy b) then 0%float
      else match b with
           | VStr b => Difflib.ratio (list_ascii_of_string a)
                                     (list_ascii_of_string b)
           | VList _ | VDict _ => ratio_of_container a b
           | _ => 0%float
           end
  end.

(** [isinstance(total, (int, float)) and isinstance(t, (int, float))
    and abs(float(total) - float(t)) <= 1.00], [False] on an exception. *)
Definition total_close (total t : value) : bool :=
  if is_number total && is_number t then
    match py_float (fun _ => None) total, py_float (fun _ => None) t with
    | Ok x, Ok y => PrimFloat.leb (PrimFloat.abs (PrimFloat.sub x y)) 1
    | _, _ => false
    end
  else false.

(** [bool(invdate and d and invdate == d)] *)
Definition date_match (invdate d : value) : bool :=
  truthy invdate && truthy d && py_eq invdate d.

(** The body of the loop over the records of the vendor: the score of
    the record and whether it is appended to [suspects]. *)
Definition score_of (invn : option string) (r : record_row) : float :=
  _similar invn (get_or_none "invoice_number_norm" (rec_fields r)).

Definition is_suspect (invn : option string) (total invdate : value)
    (r : record_row) : bool :=
  let f := rec_fields r in
  PrimFloat.leb 0.9 (score_of invn r)
  || (match invn with
      | Some n => py_eq (get_or_none "invoice_number_norm" f) (VStr n)
      | None => false
      end)
  || (total_close total (get_or_none "total" f)
      && date_match invdate (get_or_none "invoice_date" f)).

Definition suspect_entry (invn : option string) (r : record_row) : value :=
  VDict [("type", VStr "record"); ("id", VStr (rec_id r));
         ("similarity", VFloat (Round.round3 (score_of invn r)))].

(** [suspects] after the loop. *)
Definition suspects_of (con : connection) (vend : option string)
    (invn : option string) (total invdate : value) : result (list value) :=
  match vend with
  | None => Ok []
  | Some v =>
      let* rows := fetchall (same_vendor v) (records con) in
      Ok (map (suspect_entry invn) (List.filter (is_suspect invn total invdate) rows))
  end.

Definition exact_verdict (id : string) : dict :=
  [("certainty", VStr "exact");
   ("reason", VStr "hash_sha256 matched an existing document");
   ("matches", VList [VDict [("type", VStr "document"); ("id", VStr id)]])].

Definition likely_verdict (id : string) : dict :=
  [("certainty", VStr "likely");
   ("reason", VStr "Same vendor + invoice number found");
   ("matches", VList [VDict [("type", VStr "record"); ("id", VStr id)]])].

Definition possible_verdict (suspects : list value) : dict :=
  [("certainty", VStr "possible");
   ("reason", VStr "Near-duplicate by vendor+invoice heuristics");
   ("matches", VList (firstn 5 suspects))].

(** The part of [detect_duplicates] after the hash lookup failed and
    the two normalizers returned. *)
Definition detect_by_fields (con : connection) (vend invn : option string)
    (total invdate : value) : result (option dict) :=
  let* likely :=
    match vend, invn with
    | Some v, Some n => fetchone (same_vendor_and_number v n) (records con)
    | _, _ => Ok None
    end in
  match likely with
  | Some rec => Ok (Some (likely_verdict (rec_id rec)))
  | None =>
      let* suspects := suspects_of con vend invn total invdate in
      Ok (match suspects with
          | [] => None
          | _ => Some (possible_verdict suspects)
          end)
  end.

(** [detect_duplicates(con, file_hash, fields)]; the result [None] is
    Python's [None]. *)
Definition detect_duplicates (con : connection) (file_hash : string)
    (fields : dict) : result (option dict) :=
  match select_document_by_hash con file_hash with
  | Some row => Ok (Some (exact_verdict (doc_id row)))
  | None =>
      let* vend := _norm_vendor (get_or_none "vendor" fields) in
      let* invn := _norm_invoice_no (get_or_none "invoice_number" fields) in
      let total := get_or_none "total" fields in
      let invdate := get_or_none "invoice_date" fields in
      detect_by_fields con vend invn total invdate
  end.

(** *** [upload_dupcheck] *)

(** The body of a [200] response. *)
Record upload_response := {
  notice : option string;
  duplicate_suspect : option dict;
  proposed_hash : string;
  proposed_filename : string;
  proposed_fields : dict }.

Definition certainty_is (c : string) (dup : dict) : bool :=
  py_eq (get_or_none "certainty" dup) (VStr c).

(** [(dup.get("matches") or [{}])[0].get("id")], [None] on an exception. *)
Definition first_match_id (dup : dict) : value :=
  let ms := get_or_none "matches" dup in
  let ms := if truthy ms then ms else VList [VDict []] in
  match ms with
  | VList (VDict m :: _) => get_or_none "id" m
  | _ => VNone
  end.

(** [upload_dupcheck] from the hash of the uploaded bytes and the
    [fields] that [json.loads] gave for [fields_json] on ([{}] when that
    is absent, empty or does not parse). Only a mapping has [get]. *)
Definition upload_dupcheck (con : connection) (file_hash filename : string)
    (fields : value) : result upload_response :=
  match fields with
  | VDict fields =>
      let* vn := _norm_vendor (get_or_none "vendor" fields) in
      let fields := set "vendor_norm" (value_of_norm vn) fields in
      let* inn := _norm_invoice_no (get_or_none "invoice_number" fields) in
      let fields := set "invoice_number_norm" (value_of_norm inn) fields in
      let* dup := detect_duplicates con file_hash fields in
      match dup with
      | Some d =>
          if certainty_is "exact" d then
            Raise (HTTPException 409
              [("title", VStr "Exact duplicate");
               (* the apostrophe is U+2019 in the source *)
               ("message", VStr "Looks like you've already uploaded this exact file.");
               ("existing_document_id", first_match_id d);
               ("reason", default (VStr "exact duplicate") (get "reason" d));
               ("matches", default (VList []) (get "matches" d))])
          else
            Ok {| notice :=
                    if certainty_is "likely" d
                    then Some "This appears to be the same invoice (same vendor and invoice number)."
                    else if certainty_is "possible" d
                    then Some "This looks similar to a previous invoice. Want to review the matches?"
                    else None;
                  duplicate_suspect := Some d;
                  proposed_hash := file_hash;
                  proposed_filename := filename;
                  proposed_fields := fields |}
      | None =>
          Ok {| notice := None;
                duplicate_suspect := None;
                proposed_hash := file_hash;
                proposed_filename := filename;
                proposed_fields := fields |}
      end
  | _ => Raise AttributeError
  end.

End Queries.

End Main.

(** ** [datetime.strptime] for the formats of the normalizer *)

Module Strptime.
Import Val.
Local Open Scope Z_scope.

Inductive directive :=
| Pm            (* %m *)
| Pd            (* %d *)
| PY            (* %Y *)
| Py_           (* %y *)
| Lit (c : ascii).

Definition cls := ascii -> bool.
Definition one (c : ascii) : cls := fun x => if ascii_dec x c then true else false.
Definition rng (lo hi : ascii) : cls := Py.in_range (Py.code lo) (Py.code hi).
Definition dig : cls := Py.is_decimal.

(** The regular expression [_strptime] compiles a directive to: its
    alternatives in order, each a sequence of character classes. *)
Definition alternatives (d : directive) : list (list cls) :=
  match d with
  | Pm => [[one "1"; rng "0" "2"]; [one "0"; rng "1" "9"]; [rng "1" "9"]]
  | Pd => [[one "3"; rng "0" "1"]; [rng "1" "2"; dig]; [one "0"; rng "1" "9"];
           [rng "1" "9"]; [one " "; rng "1" "9"]]
  | PY => [[dig; dig; dig; dig]]
  | Py_ => [[dig; dig]]
  | Lit c => [[one c]]
  end.

(** One alternative at the head of [s]: the text matched and the rest. *)
Fixpoint match_seq (cs : list cls) (s : string) : option (string * string) :=
  match cs, s with
  | [], _ => Some (EmptyString, s)
  | c :: cs', String x r =>
      if c x then
        match match_seq cs' r with
        | Some (t, rest) => Some (String x t, rest)
        | None => None
        end
      else None
  | _ :: _, EmptyString => None
  end.

(** [int(text)] for a group's text: decimal digits after optional blanks. *)
Fixpoint int_of (acc : Z) (t : string) : Z :=
  match t with
  | EmptyString => acc
  | String x r =>
      if Py.is_decimal x then int_of (10 * acc + (Z.of_N (Py.code x) - 48)) r
      else int_of acc r
  end.

(** The groups found: year, month, day ([1900], [1], [1] by default). *)
Record found := { f_year : Z; f_month : Z; f_day : Z }.

Definition store (d : directive) (t : string) (f : found) : found :=
  let n := int_of 0 t in
  match d with
  | Pm => {| f_year := f_year f; f_month := n; f_day := f_day f |}
  | Pd => {| f_year := f_year f; f_month := f_month f; f_day := n |}
  | PY => {| f_year := n; f_month := f_month f; f_day := f_day f |}
  | Py_ => {| f_year := if n <=? 68 then n + 2000 else n + 1900;
              f_month := f_month f; f_day := f_day f |}
  | Lit _ => f
  end.

(** [format_regex.match(data_string)]: a backtracking match at the start
    of the string, not anchored at its end. *)
Fixpoint re_match (fmt : list directive) (s : string) (f : found)
  : option (found * string) :=
  match fmt with
  | [] => Some (f, s)
  | d :: fmt' =>
      (fix try (alts : list (list cls)) : option (found * string) :=
         match alts with
         | [] => None
         | a :: alts' =>
             match match_seq a s with
             | Some (t, rest) =>
                 match re_match fmt' rest (store d t f) with
                 | Some r => Some r
                 | None => try alts'
                 end
             | None => try alts'
             end
         end) (alternatives d)
  end.

Definition is_leap (y : Z) : bool :=
  (y mod 4 =? 0) && (negb (y mod 100 =? 0) || (y mod 400 =? 0)).

Definition days_in_month (y m : Z) : Z :=
  if m =? 2 then (if is_leap y then 29 else 28)
  else if (m =? 4) || (m =? 6) || (m =? 9) || (m =? 11) then 30
  else 31.

(** [datetime.date(y, m, d)] is defined. *)
Definition valid_date (y m d : Z) : bool :=
  (1 <=? y) && (y <=? 9999) && (1 <=? m) && (m <=? 12)
  && (1 <=? d) && (d <=? days_in_month y m).

(** [datetime.strptime(s, fmt).date()], [None] for [ValueError]: no match,
    unconverted data after the match, or no such calendar day. *)
Definition strptime (fmt : list directive) (s : string) : option date :=
  match re_match fmt s {| f_year := 1900; f_month := 1; f_day := 1 |} with
  | Some (f, rest) =>
      if Py.is_empty rest && valid_date (f_year f) (f_month f) (f_day f)
      then Some (Date (f_year f) (f_month f) (f_day f))
      else None
  | None => None
  end.

Definition fmt_mdY : list directive := [Pm; Lit "/"; Pd; Lit "/"; PY].   (* %m/%d/%Y *)
Definition fmt_mdy : list directive := [Pm; Lit "/"; Pd; Lit "/"; Py_].  (* %m/%d/%y *)
Definition fmt_Ymd_dash : list directive := [PY; Lit "-"; Pm; Lit "-"; Pd].   (* %Y-%m-%d *)
Definition fmt_Ymd_slash : list directive := [PY; Lit "/"; Pm; Lit "/"; Pd].  (* %Y/%m/%d *)

(** *** [isoformat] *)

Definition digit_char (n : Z) : ascii := ascii_of_N (Z.to_N (48 + n mod 10)).

(** [n] in [w] decimal digits, zero padded ([0 <= n < 10^w]). *)
Fixpoint pad (w : nat) (n : Z) : string :=
  match w with
  | O => EmptyString
  | S w' => (pad w' (n / 10) ++ String (digit_char n) EmptyString)%string
  end.

Definition date_isoformat (d : date) : string :=
  (pad 4 (d_year d) ++ "-" ++ pad 2 (d_month d) ++ "-" ++ pad 2 (d_day d))%string.

Definition datetime_isoformat (t : datetime) : string :=
  (date_isoformat (dt_date t) ++ "T" ++ pad 2 (dt_hour t) ++ ":"
   ++ pad 2 (dt_minute t) ++ ":" ++ pad 2 (dt_second t)
   ++ (if (dt_microsecond t =? 0)%Z then "" else "." ++ pad 6 (dt_microsecond t))
   ++ match dt_tz t with
      | None => ""
      | Some off =>
          (if (off <? 0)%Z then "-" else "+")
          ++ pad 2 (Z.abs off / 60)%Z ++ ":" ++ pad 2 (Z.abs off mod 60)%Z
      end)%string.

Definition midnight (d : date) : datetime :=
  Datetime d 0 0 0 0 None.

End Strptime.

(** ** [backend/business_hub/models.py] and the field normalizer of
       [backend/business_hub/ai.py] *)

Module Models.
Import Val.

Inductive DocumentType := INVOICE | RECEIPT | PURCHASE_ORDER | EMAIL | OTHER.

Record InvoiceFields := {
  if_vendor : string;
  if_invoice_number : string;
  if_invoice_date : option datetime;
  if_due_date : option datetime;
  if_currency : option string;
  if_total : float;
  if_tax : option float;
  if_payment_terms : option string;
  if_line_items : list LineItem }.

Record ReceiptFields := {
  rf_merchant : string;
  rf_datetime : option datetime;
  rf_subtotal : option float;
  rf_tip : option float;
  rf_total : float;
  rf_category : option string }.

Record Document := {
  document_id : string;
  document_mime : string;
  document_storage_path : string }.

(** [id], [doc_id], [model], [schema], [fields], [confidence], [raw_json];
    [created_at] is left out. *)
Record Extraction := {
  ex_id : string;
  ex_doc_id : string;
  ex_model : string;
  ex_schema : string;
  ex_fields : dict;
  ex_confidence : float;
  ex_raw_json : dict }.

Record Record_ := {
  r_id : string;
  r_document_id : string;
  r_extraction_id : option string;
  r_type : DocumentType;
  r_fields : dict }.

(** What pydantic does with the value given for a field of type [str],
    [float] and [datetime]: the validated value, or [None] for a
    validation error. The library is not part of the repository; its
    conversions are parameters of the models. *)
Record schema := {
  validate_str : value -> option string;
  validate_float : value -> option float;
  validate_datetime : value -> option datetime }.

Section Validation.
Variable S : schema.

(** A required field: missing is an error. *)
Definition required {A} (validate : value -> option A) (k : string)
    (data : dict) : option A :=
  match get k data with
  | Some v => validate v
  | None => None
  end.

(** An [Optional[...] = None] field: missing and [None] give [None]. *)
Definition optional {A} (validate : value -> option A) (k : string)
    (data : dict) : option (option A) :=
  match get k data with
  | None | Some VNone => Some None
  | Some v => match validate v with Some a => Some (Some a) | None => None end
  end.

(** [LineItem( **item)]; keys that are no field are ignored. *)
Definition LineItem_init (item : dict) : result LineItem :=
  match optional (validate_float S) "qty" item,
        required (validate_str S) "description" item,
        optional (validate_float S) "unit_price" item,
        optional (validate_float S) "amount" item with
  | Some q, Some d, Some u, Some a => Ok (MkLineItem q d u a)
  | _, _, _, _ => Raise ValidationError
  end.

(** A [List[LineItem]] field: instances are taken as they are, mappings
    are validated. *)
Definition validate_line_items (v : value) : option (list LineItem) :=
  match v with
  | VList l =>
      (fix go (l : list value) : option (list LineItem) :=
         match l with
         | [] => Some []
         | x :: r =>
             match (match x with
                    | VLineItem li => Some li
                    | VDict d => match LineItem_init d with Ok li => Some li | Raise _ => None end
                    | _ => None
                    end), go r with
             | Some li, Some lis => Some (li :: lis)
             | _, _ => None
             end
         end) l
  | _ => None
  end.

(** [InvoiceFields( **data)] *)
Definition InvoiceFields_init (data : dict) : result InvoiceFields :=
  match required (validate_str S) "vendor" data,
        required (validate_str S) "invoice_number" data,
        optional (validate_datetime S) "invoice_date" data,
        optional (validate_datetime S) "due_date" data,
        optional (validate_str S) "currency" data,
        required (validate_float S) "total" data,
        optional (validate_float S) "tax" data,
        optional (validate_str S) "payment_terms" data,
        (match get "line_items" data with
         | None => Some []
         | Some v => validate_line_items v
         end) with
  | Some v, Some n, Some d1, Some d2, Some c, Some t, Some x, Some p, Some li =>
      Ok {| if_vendor := v; if_invoice_number := n; if_invoice_date := d1;
            if_due_date := d2; if_currency := c; if_total := t; if_tax := x;
            if_payment_terms := p; if_line_items := li |}
  | _, _, _, _, _, _, _, _, _ => Raise ValidationError
  end.

(** [ReceiptFields( **data)] *)
Definition ReceiptFields_init (data : dict) : result ReceiptFields :=
  match required (validate_str S) "merchant" data,
        optional (validate_datetime S) "datetime" data,
        optional (validate_float S) "subtotal" data,
        optional (validate_float S) "tip" data,
        required (validate_float S) "total" data,
        optional (validate_str S) "category" data with
  | Some m, Some d, Some s, Some t, Some tot, Some c =>
      Ok {| rf_merchant := m; rf_datetime := d; rf_subtotal := s;
            rf_tip := t; rf_total := tot; rf_category := c |}
  | _, _, _, _, _, _ => Raise ValidationError
  end.

End Validation.

(** [.dict(exclude_none=True)]: the fields in declaration order, those
    that are [None] left out. *)
Definition entry {A} (k : string) (f : A -> value) (o : option A) : dict :=
  match o with Some a => [(k, f a)] | None => [] end.

Definition LineItem_dict (li : LineItem) : dict :=
  (entry "qty" VFloat (qty li)
   ++ [("description", VStr (description li))]
   ++ entry "unit_price" VFloat (unit_price li)
   ++ entry "amount" VFloat (amount li))%list.

Definition InvoiceFields_dict (m : InvoiceFields) : dict :=
  ([("vendor", VStr (if_vendor m)); ("invoice_number", VStr (if_invoice_number m))]
   ++ entry "invoice_date" VDatetime (if_invoice_date m)
   ++ entry "due_date" VDatetime (if_due_date m)
   ++ entry "currency" VStr (if_currency m)
   ++ [("total", VFloat (if_total m))]
   ++ entry "tax" VFloat (if_tax m)
   ++ entry "payment_terms" VStr (if_payment_terms m)
   ++ [("line_items", VList (map (fun li => VDict (LineItem_dict li)) (if_line_items m)))])%list.

Definition ReceiptFields_dict (m : ReceiptFields) : dict :=
  ([("merchant", VStr (rf_merchant m))]
   ++ entry "datetime" VDatetime (rf_datetime m)
   ++ entry "subtotal" VFloat (rf_subtotal m)
   ++ entry "tip" VFloat (rf_tip m)
   ++ [("total", VFloat (rf_total m))]
   ++ entry "category" VStr (rf_category m))%list.

End Models.

Module Normalizer.
Import Val Models.

(** The formats of the loop, in its order. *)
Definition formats : list (list Strptime.directive) :=
  [Strptime.fmt_mdY; Strptime.fmt_mdy; Strptime.fmt_Ymd_dash; Strptime.fmt_Ymd_slash].

(** The inner loop: the first format [strptime] accepts. *)
Fixpoint first_parse (fmts : list (list Strptime.directive)) (s : string)
  : option date :=
  match fmts with
  | [] => None
  | fmt :: rest =>
      match Strptime.strptime fmt s with
      | Some d => Some d
      | None => first_parse rest s
      end
  end.

(** One round of the loop over [("invoice_date", "due_date")]. *)
Definition parse_date_field (k : string) (data : dict) : dict :=
  match get k data with
  | Some (VStr v) =>
      if negb (Py.is_empty (Py.strip v)) then
        match first_parse formats (Py.strip v) with
        | Some d => set k (VDate d) data
        | None => data
        end
      else data
  | _ => data
  end.

Definition parse_dates (data : dict) : dict :=
  parse_date_field "due_date" (parse_date_field "invoice_date" data).

(** What the date loop leaves under a key that held the string [v]. *)
Definition parsed (v : string) : value :=
  if negb (Py.is_empty (Py.strip v)) then
    match first_parse formats (Py.strip v) with
    | Some d => VDate d
    | None => VStr v
    end
  else VStr v.

(** The items of [for item in line_items]; only an empty string or
    mapping, or a list, gets through [LineItem( **item)]. *)
Definition iterate (v : value) : result (list value) :=
  match v with
  | VList l => Ok l
  | VStr EmptyString | VDict [] => Ok []
  | _ => Raise TypeError
  end.

(** [v.isoformat()] when [v] is a date or a datetime. *)
Definition isoformat_field (k : string) (normalized : dict) : dict :=
  match get k normalized with
  | Some (VDate d) => set k (VStr (Strptime.date_isoformat d)) normalized
  | Some (VDatetime t) => set k (VStr (Strptime.datetime_isoformat t)) normalized
  | _ => normalized
  end.

Section Normalize.
Variable S : schema.

Definition item_init (item : value) : result LineItem :=
  match item with
  | VDict d => LineItem_init S d
  | _ => Raise TypeError
  end.

(** [_normalize_invoice_fields(fields, fallback_id)] *)
Definition _normalize_invoice_fields (fields : dict) (fallback_id : string)
  : result dict :=
  let data := fields in
  let data := setdefault "vendor" (VStr "Unknown Vendor") data in
  let data := setdefault "invoice_number"
                (VStr (if negb (Py.is_empty fallback_id)
                       then "INV-" ++ Py.last_chars 6 fallback_id
                       else "INV-UNKNOWN")) data in
  let data := setdefault "total" (VFloat 0) data in
  let* line_items := match get "line_items" data with
                     | Some v => iterate v
                     | None => Ok []
                     end in
  let* normalized_items := mapM item_init line_items in
  let data := set "line_items" (VList (map VLineItem normalized_items)) data in
  let data := parse_dates data in
  let* model := InvoiceFields_init S data in
  let normalized := InvoiceFields_dict model in
  let normalized := set "line_items"
                      (VList (map (fun li => VDict (LineItem_dict li)) normalized_items))
                      normalized in
  let normalized := isoformat_field "invoice_date" normalized in
  let normalized := isoformat_field "due_date" normalized in
  Ok normalized.

(** The dictionary after the three [setdefault] calls, and the one
    returned for given validated items and model: the first and the last
    statements of [_normalize_invoice_fields], named for the proofs. *)
Definition invoice_defaults (fields : dict) (fallback_id : string) : dict :=
  setdefault "total" (VFloat 0)
    (setdefault "invoice_number"
       (VStr (if negb (Py.is_empty fallback_id)
              then "INV-" ++ Py.last_chars 6 fallback_id
              else "INV-UNKNOWN"))
       (setdefault "vendor" (VStr "Unknown Vendor") fields)).

Definition invoice_output (normalized_items : list LineItem) (model : InvoiceFields)
  : dict :=
  isoformat_field "due_date"
    (isoformat_field "invoice_date"
       (set "line_items"
            (VList (map (fun li => VDict (LineItem_dict li)) normalized_items))
            (InvoiceFields_dict model))).

(** [_normalize_receipt_fields(fields)] *)
Definition _normalize_receipt_fields (fields : dict) : result dict :=
  let data := fields in
  let data := setdefault "merchant" (VStr "Unknown Merchant") data in
  let data := setdefault "total" (VFloat 0) data in
  let* model := ReceiptFields_init S data in
  Ok (ReceiptFields_dict model).

End Normalize.

(** [json.loads(json.dumps(v))]: [json.dumps] raises [TypeError] on a
    date, datetime or model object, and parsing its output gives the
    value back. *)
Definition storage_roundtrip (v : value) : result value :=
  if json_safe v then Ok v else Raise TypeError.

End Normalizer.

(** ** [backend/business_hub/ai.py]: the vision gateway and the pipeline *)

Module Ai.
Import Val Models.

Definition FALLBACK_MODEL : string := "gpt-4o-mini".

(** The line feed of [\n]. *)
Definition nl : string := String (ascii_of_nat 10) EmptyString.

(** The keyword arguments of [client.chat.completions.create]; the
    response format is always [json_object]. The user content is the text
    part and one base64 image part per page. *)
Record request := {
  req_model : string;
  req_temperature : option float;
  req_system : string;
  req_user_text : string;
  req_images : list string }.

(** What a call does: it returns a completion whose first choice has
    [content] ([None] or a [str]), or it raises. *)
Inductive reply :=
| Completion (content : option string)
| Raises (e : exn).

(** The classes of the [openai] exception hierarchy the gateway names;
    every one is an [APIError]. *)
Definition BadRequestError := "BadRequestError".
Definition APIConnectionError := "APIConnectionError".
Definition RateLimitError := "RateLimitError".
Definition AuthenticationError := "AuthenticationError".

(** How many of the requests [rs] went to the model [m]. *)
Definition invocations (m : string) (rs : list request) : nat :=
  length (List.filter (fun r => String.eqb (req_model r) m) rs).

Definition is_bad_request (e : exn) : bool :=
  match e with
  | APIError k _ _ => String.eqb k BadRequestError
  | _ => false
  end.

Section Pipeline.

(** The outside world: the state of the model service and of the
    identifier source. *)
Variable St : Type.

(** [client.chat.completions.create( **kwargs)] *)
Variable create : request -> St -> reply * St.
(** [json.loads] on the content of a completion; [None] is
    [JSONDecodeError]. *)
Variable json_loads : string -> option value.
(** [float(s)] on a string; [None] is [ValueError]. *)
Variable float_of_str : string -> option float.
(** [uuid.uuid4().hex[:12]] *)
Variable uuid12 : St -> string * St.
(** [_pdf_to_images(path, MAX_PAGES, DPI)] with each page encoded by
    [_img_to_b64]; [None] when the file is missing or rendering raises. *)
Variable render : string -> option (list string).
(** The configuration read from the environment. *)
Variable api_key_set : bool.
Variable CLASSIFIER_MODEL EXTRACTION_MODEL : string.
Variable CLASSIFIER_PROMPT : string.
(** [INVOICE_PROMPT.format(schema=...)], [RECEIPT_PROMPT.format(...)]
    and the user prompt of the generic summary. *)
Variable invoice_user_prompt receipt_user_prompt summary_user_prompt : string.
Variable S : schema.
(** Whether the indexes of [ensure_indexes] on the normalized keys of
    [records] are there: start-up creates them when it finds the table
    and can read every row of it. *)
Variable indexed : bool.

(** The state the pipeline threads: the service, the requests sent so
    far (oldest first), and the two tables written. *)
Record world := {
  service : St;
  calls : list request;
  extractions : list Extraction;
  records : list Record_ }.

Definition M (A : Type) : Type := world -> result A * world.

Definition ret {A} (a : A) : M A := fun w => (Ok a, w).
Definition raise {A} (e : exn) : M A := fun w => (Raise e, w).
Definition lift {A} (r : result A) : M A := fun w => (r, w).
Definition bindM {A B} (m : M A) (k : A -> M B) : M B :=
  fun w => match m w with
           | (Ok a, w') => k a w'
           | (Raise e, w') => (Raise e, w')
           end.
(** [try: m  except <e>: h e] *)
Definition catch {A} (m : M A) (h : exn -> option (M A)) : M A :=
  fun w => match m w with
           | (Ok a, w') => (Ok a, w')
           | (Raise e, w') =>
               match h e with
               | Some handler => handler w'
               | None => (Raise e, w')
               end
           end.

Notation "'do*' x := m 'in' k" := (bindM m (fun x => k))
  (at level 10, x pattern, m at level 200, k at level 200).

(** The world once the requests [rs] were sent and left the service in
    state [st]. *)
Definition sent (w : world) (st : St) (rs : list request) : world :=
  {| service := st; calls := calls w ++ rs;
     extractions := extractions w; records := records w |}.

Definition send (r : request) : M (option string) :=
  fun w =>
    let '(rep, st) := create r (service w) in
    match rep with
    | Completion c => (Ok c, sent w st [r])
    | Raises e => (Raise e, sent w st [r])
    end.

(** The [kwargs] of [_once(use_model)]. *)
Definition kwargs (system_prompt user_prompt : string) (images : list string)
    (use_model : string) : request :=
  {| req_model := use_model;
     req_temperature :=
       if negb (Py.starts_with "o3" use_model) then Some 0.2%float else None;
     req_system := system_prompt
                   ++ " Always respond with a valid JSON object and nothing else.";
     req_user_text := user_prompt ++ nl ++ nl ++ "Return JSON only.";
     req_images := images |}.

(** [_once(use_model)] *)
Definition _once (system_prompt user_prompt : string) (images : list string)
    (use_model : string) : M value :=
  do* raw := send (kwargs system_prompt user_prompt images use_model) in
  match raw with
  | Some s => lift (of_option JSONDecodeError (json_loads s))
  | None => raise TypeError
  end.

Definition vision_error (model message : string) (body : option string) : exn :=
  RuntimeError ("OpenAI vision call failed for model '" ++ model
                ++ "'. Message: " ++ message
                ++ ". Body: " ++ default "None" body).

(** [_chat_json_with_images(system_prompt, user_prompt, images, model=model)] *)
Definition _chat_json_with_images (system_prompt user_prompt : string)
    (images : list string) (model : string) : M value :=
  if negb api_key_set then raise (RuntimeError "OPENAI_API_KEY is not set.")
  else
    catch
      (catch (_once system_prompt user_prompt images model)
         (fun bre =>
            if is_bad_request bre then
              Some (if negb (String.eqb model FALLBACK_MODEL)
                    then _once system_prompt user_prompt images FALLBACK_MODEL
                    else raise bre)
            else None))
      (fun exc =>
         match exc with
         | APIError _ msg body => Some (raise (vision_error model msg body))
         | JSONDecodeError =>
             Some (raise (RuntimeError "Invalid JSON returned by OpenAI (non-JSON output)."))
         | _ => None
         end).

(** [DOC_TYPE_MAP.get(kind, DocumentType.OTHER)]; a list or a mapping
    cannot be looked up. *)
Definition DOC_TYPE_MAP_get (kind : value) : result DocumentType :=
  match kind with
  | VStr k =>
      Ok (if String.eqb k "invoice_ar" then INVOICE
          else if String.eqb k "vendor_bill_ap" then INVOICE
          else if String.eqb k "receipt" then RECEIPT
          else if String.eqb k "estimate" then PURCHASE_ORDER
          else if String.eqb k "purchase_order" then PURCHASE_ORDER
          else if String.eqb k "email" then EMAIL
          else OTHER)
  | VList _ | VDict _ => Raise TypeError
  | _ => Ok OTHER
  end.

(** [payload.get(k, dflt)]; only a mapping has [get]. *)
Definition payload_get (payload : value) (k : string) (dflt : value)
  : result value :=
  match payload with
  | VDict d => Ok (default dflt (get k d))
  | _ => Raise AttributeError
  end.

(** [_classify_document_vision(images)] *)
Definition _classify_document_vision (images : list string)
  : M (DocumentType * float * dict) :=
  do* payload := _chat_json_with_images CLASSIFIER_PROMPT
                   "Classify the document shown in the following images."
                   images CLASSIFIER_MODEL in
  do* kind := lift (payload_get payload "type" (VStr "other")) in
  do* doc_type := lift (DOC_TYPE_MAP_get kind) in
  do* c := lift (payload_get payload "confidence" (VFloat 0)) in
  do* confidence := lift (py_float float_of_str c) in
  let metadata := [("payload", payload); ("model", VStr CLASSIFIER_MODEL)] in
  ret (doc_type, confidence, metadata).

(** [_extract_invoice_fields_vision(images)] *)
Definition _extract_invoice_fields_vision (images : list string)
  : M (value * dict) :=
  do* payload := _chat_json_with_images
                   "You are an expert at reading invoices from images into strict JSON."
                   invoice_user_prompt images EXTRACTION_MODEL in
  let metadata := [("model", VStr EXTRACTION_MODEL); ("payload", payload)] in
  ret (payload, metadata).

(** [_extract_receipt_fields_vision(images)] *)
Definition _extract_receipt_fields_vision (images : list string)
  : M (value * dict) :=
  do* payload := _chat_json_with_images
                   "You are an expert at reading receipts from images into strict JSON."
                   receipt_user_prompt images EXTRACTION_MODEL in
  let metadata := [("model", VStr EXTRACTION_MODEL); ("payload", payload)] in
  ret (payload, metadata).

(** [dict(fields)] on what the extractor returned; anything but a JSON
    object is rejected here. *)
Definition as_dict (v : value) : result dict :=
  match v with
  | VDict d => Ok d
  | _ => Raise TypeError
  end.

Definition fresh_id (prefix : string) : M string :=
  fun w =>
    let '(u, st) := uuid12 (service w) in
    (Ok (prefix ++ u),
     {| service := st; calls := calls w;
        extractions := extractions w; records := records w |}).

(** [INSERT ... ON CONFLICT(id) DO UPDATE] *)
Fixpoint upsert {A} (id_of : A -> string) (x : A) (rows : list A) : list A :=
  match rows with
  | [] => [x]
  | y :: r => if String.eqb (id_of y) (id_of x) then x :: r
              else y :: upsert id_of x r
  end.

(** [upsert_extraction(extraction)]; [json.dumps] of the fields and of
    the raw payload comes first. The column [confidence] is
    [REAL NOT NULL], and SQLite binds a NaN as [NULL]. *)
Definition upsert_extraction (e : Extraction) : M unit :=
  fun w =>
    if json_safe (VDict (ex_fields e)) && json_safe (VDict (ex_raw_json e)) then
      if PrimFloat.is_nan (ex_confidence e) then (Raise IntegrityError, w)
      else
        (Ok tt, {| service := service w; calls := calls w;
                   extractions := upsert ex_id e (extractions w);
                   records := records w |})
    else (Raise TypeError, w).

(** [upsert_record(record)]; [json.dumps] of the fields comes first.
    With the indexes the statement computes the keys of the row, and
    fails with [OperationalError] on fields SQLite does not read. *)
Definition upsert_record (r : Record_) : M unit :=
  fun w =>
    if json_safe (VDict (r_fields r)) then
      if indexed && negb (sqlite_json (VDict (r_fields r)))
      then (Raise OperationalError, w)
      else
        (Ok tt, {| service := service w; calls := calls w;
                   extractions := extractions w;
                   records := upsert r_id r (records w) |})
    else (Raise TypeError, w).

(** [images] after the [try] block of [run_extraction]: the pages of a
    PDF that is there and renders, nothing otherwise. *)
Definition pages_of (document : Document) : list string :=
  if String.eqb (document_mime document) "application/pdf"
  then default [] (render (document_storage_path document))
  else [].

(** [run_extraction(document, text)]. The suggestion sentence written
    to [raw_json], which nothing else reads and whose failure is
    swallowed, and the [created_at] stamps are left out. *)
Definition run_extraction (document : Document) (text : string) : M Extraction :=
  let images := pages_of document in
  do* (raw_json, fields, schema_, model_used, confidence, doc_type) :=
    match images with
    | _ :: _ =>
        do* (doc_type, confidence, classifier_meta) := _classify_document_vision images in
        let payload := default (VDict []) (get "payload" classifier_meta) in
        let payload := if truthy payload then payload else VDict [] in
        do* direction := lift (payload_get payload "direction" VNone) in
        let raw_json := [("classifier", VDict classifier_meta); ("direction", direction)] in
        do* (raw_json, fields, schema_, model_used) :=
          match doc_type with
          | INVOICE =>
              do* (invoice_payload, meta) := _extract_invoice_fields_vision images in
              do* d := lift (as_dict invoice_payload) in
              do* fields := lift (Normalizer._normalize_invoice_fields S d (document_id document)) in
              ret (set "extraction" (VDict meta) raw_json, fields, "invoice_v1",
                   match get "model" meta with Some (VStr m) => m | _ => EXTRACTION_MODEL end)
          | RECEIPT =>
              do* (receipt_payload, meta) := _extract_receipt_fields_vision images in
              do* d := lift (as_dict receipt_payload) in
              do* fields := lift (Normalizer._normalize_receipt_fields S d) in
              ret (set "extraction" (VDict meta) raw_json, fields, "receipt_v1",
                   match get "model" meta with Some (VStr m) => m | _ => EXTRACTION_MODEL end)
          | _ =>
              do* payload := _chat_json_with_images
                               "Summarize the main contents of the document as JSON."
                               summary_user_prompt
                               images EXTRACTION_MODEL in
              do* summary := lift (payload_get payload "summary" (VStr "")) in
              ret (raw_json, [("summary", summary)], "generic_v1", EXTRACTION_MODEL)
          end in
        let fields := if truthy direction then set "direction" direction fields else fields in
        ret (raw_json, fields, schema_, model_used, confidence, doc_type)
    | [] =>
        ret ([("classifier",
               VDict [("payload", VDict [("type", VStr "other"); ("confidence", VFloat 0)]);
                      ("model", VStr CLASSIFIER_MODEL)])],
             [("summary", VStr (substring 0 500 text))],
             "generic_v1", EXTRACTION_MODEL, 0%float, OTHER)
    end in
  do* eid := fresh_id "ext_" in
  let extraction :=
    {| ex_id := eid; ex_doc_id := document_id document; ex_model := model_used;
       ex_schema := schema_; ex_fields := fields; ex_confidence := confidence;
       ex_raw_json := raw_json |} in
  do* _ := upsert_extraction extraction in
  do* rid := fresh_id "rec_" in
  let record :=
    {| r_id := rid; r_document_id := document_id document;
       r_extraction_id := Some eid; r_type := doc_type; r_fields := fields |} in
  do* _ := upsert_record record in
  ret extraction.

End Pipeline.

End Ai.

(** ** Concrete stores, schemas and services used by the examples *)

Module Examples.
Import Val Models.

(** On the stores below the two keys hold strings only, so neither
    SQLite's rendering of other JSON values nor difflib on containers is
    ever asked for. *)
Definition sqlite_text (_ : value) : string := EmptyString.
Definition ratio_of_container (_ : string) (_ : value) : float := 0%float.

Definition record (id vendor_norm invoice_number_norm : string) : Main.record_row :=
  {| Main.rec_id := id;
     Main.rec_fields := [("vendor_norm", VStr vendor_norm);
                         ("invoice_number_norm", VStr invoice_number_norm)] |}.

(** Document [doc_1] stored with hash [H1]; one record of vendor [acme]
    with number [1023]. *)
Definition store_1 : Main.connection :=
  {| Main.documents := [{| Main.doc_id := "doc_1"; Main.hash_sha256 := Some "H1" |}];
     Main.records := [record "rec_1" "acme" "1023"] |}.

(** The record of the scenario: vendor "Acme Corp", number "INV-1024",
    with the keys [upload_dupcheck] computes for them. *)
Definition store_acme : Main.connection :=
  {| Main.documents := [];
     Main.records :=
       [{| Main.rec_id := "rec_1";
           Main.rec_fields :=
             [("vendor", VStr "Acme Corp"); ("invoice_number", VStr "INV-1024");
              ("vendor_norm", VStr "acme"); ("invoice_number_norm", VStr "inv1024")] |}] |}.

(** Six records of one vendor; the sixth is the closest to [2024000100]. *)
Definition store_six : Main.connection :=
  {| Main.documents := [];
     Main.records :=
       [record "rec_1" "acme" "2024000101"; record "rec_2" "acme" "2024000102";
        record "rec_3" "acme" "2024000103"; record "rec_4" "acme" "2024000104";
        record "rec_5" "acme" "2024000105"; record "rec_6" "acme" "20240001000"] |}.

Definition fields_six : dict :=
  [("vendor", VStr "Acme"); ("invoice_number", VStr "2024-000-100")].





(** *** A schema: pydantic's lax conversions on the inputs of the
    examples. A [str] field takes a string; a [float] field a float or an
    integer; a [datetime] field a datetime, a date (midnight of that day)
    or a string [YYYY-MM-DD] or [YYYY-MM-DDTHH:MM:SS]. The other inputs
    pydantic converts (numbers as timestamps, zone suffixes, fractions of
    a second, numeric strings) are rejected here and used nowhere. *)

Definition iso_date_part : list Strptime.cls :=
  [Strptime.dig; Strptime.dig; Strptime.dig; Strptime.dig; Strptime.one "-";
   Strptime.dig; Strptime.dig; Strptime.one "-"; Strptime.dig; Strptime.dig].

Definition iso_time_part : list Strptime.cls :=
  [Strptime.one "T"; Strptime.dig; Strptime.dig; Strptime.one ":";
   Strptime.dig; Strptime.dig; Strptime.one ":"; Strptime.dig; Strptime.dig].

Definition field (from len : nat) (t : string) : Z :=
  Strptime.int_of 0 (substring from len t).

Definition iso_datetime (s : string) : option datetime :=
  match Strptime.match_seq iso_date_part s with
  | Some (d, rest) =>
      let y := field 0 4 d in
      let m := field 5 2 d in
      let dd := field 8 2 d in
      if Strptime.valid_date y m dd then
        match rest with
        | EmptyString => Some (Strptime.midnight (Date y m dd))
        | _ =>
            match Strptime.match_seq iso_time_part rest with
            | Some (t, EmptyString) =>
                let h := field 1 2 t in
                let mi := field 4 2 t in
                let se := field 7 2 t in
                if ((h <? 24) && (mi <? 60) && (se <? 60))%Z
                then Some (Datetime (Date y m dd) h mi se 0 None)
                else None
            | _ => None
            end
        end
      else None
  | None => None
  end.

Definition lax : schema :=
  {| validate_str := fun v => match v with VStr s => Some s | _ => None end;
     validate_float := fun v =>
       match v with
       | VFloat f => Some f
       | VInt z => match float_of_Z z with Ok f => Some f | Raise _ => None end
       | _ => None
       end;
     validate_datetime := fun v =>
       match v with
       | VDatetime t => Some t
       | VDate d => Some (Strptime.midnight d)
       | VStr s => iso_datetime s
       | _ => None
       end |}.

(** *** A model service. Its state counts the calls. The model [o3] rejects
    every request as a bad request; the other models answer the classifier
    prompt with a classification whose confidence is 1.5 and anything else
    with a summary. [json_loads] is [json.loads] on the two texts the
    service returns. *)

Definition dq : string := String (ascii_of_nat 34) EmptyString.

Definition classification_text : string :=
  "{" ++ dq ++ "type" ++ dq ++ ": " ++ dq ++ "other" ++ dq ++ ", "
  ++ dq ++ "confidence" ++ dq ++ ": 1.5}".

Definition summary_text : string :=
  "{" ++ dq ++ "summary" ++ dq ++ ": " ++ dq ++ "a letter" ++ dq ++ "}".

Definition classification : value :=
  VDict [("type", VStr "other"); ("confidence", VFloat 1.5)].

Definition summary : value := VDict [("summary", VStr "a letter")].

Definition json_loads (s : string) : option value :=
  if String.eqb s classification_text then Some classification
  else if String.eqb s summary_text then Some summary
  else None.

Definition classifier_prompt : string := "You classify business documents.".

Definition create (r : Ai.request) (calls : nat) : Ai.reply * nat :=
  (if String.eqb (Ai.req_model r) "o3"
   then Ai.Raises (APIError Ai.BadRequestError "model o3 does not take images" None)
   else if Py.starts_with classifier_prompt (Ai.req_system r)
        then Ai.Completion (Some classification_text)
        else Ai.Completion (Some summary_text),
   S calls).

Definition float_of_str (_ : string) : option float := None.
Definition uuid12 (calls : nat) : string * nat := ("0123456789ab", calls).
Definition render (path : string) : option (list string) := Some ["page-1"].

Definition world_0 : Ai.world nat :=
  {| Ai.service := 0; Ai.calls := []; Ai.extractions := []; Ai.records := [] |}.

Definition document_1 : Document :=
  {| document_id := "doc_1"; document_mime := "application/pdf";
     document_storage_path := "storage/doc_1.pdf" |}.

(** The normalized number of the new document of [fields_six]. *)
Definition number_six : option string := Some "2024000100".

Definition invoice (invoice_date : string) : dict :=
  [("vendor", VStr "Acme Corp"); ("invoice_number", VStr "INV-1024");
   ("total", VFloat 120.5); ("invoice_date", VStr invoice_date)].

End Examples.

(** ** What a pipeline computation leaves alone *)

Module Effects.
Import Val Models Ai.

Section Effects.
Variable St : Type.

(** A computation that writes neither table, whatever it returns. *)
Definition keeps_tables {A} (m : M St A) : Prop :=
  forall w, extractions St (snd (m w)) = extractions St w
            /\ records St (snd (m w)) = records St w.

(** A computation that sends the requests [rs w] from the world [w] and
    does nothing else to the list of calls. *)
Definition sends {A} (m : M St A) (rs : world St -> list request) : Prop :=
  forall w, calls St (snd (m w)) = (calls St w ++ rs w)%list.

End Effects.

End Effects.

(** ** A model service that reads a receipt *)

Module ReceiptExample.
Import Val Models.

(** The classifier prompt is answered with a receipt, every other prompt
    with the fields of a receipt that has a time of purchase. *)
Definition classification_text : string :=
  "{" ++ Examples.dq ++ "type" ++ Examples.dq ++ ": "
  ++ Examples.dq ++ "receipt" ++ Examples.dq ++ ", "
  ++ Examples.dq ++ "confidence" ++ Examples.dq ++ ": 0.5}".

Definition receipt_text : string :=
  "{" ++ Examples.dq ++ "merchant" ++ Examples.dq ++ ": "
  ++ Examples.dq ++ "Cafe" ++ Examples.dq ++ ", "
  ++ Examples.dq ++ "total" ++ Examples.dq ++ ": 4.5, "
  ++ Examples.dq ++ "datetime" ++ Examples.dq ++ ": "
  ++ Examples.dq ++ "2024-01-05T10:30:00" ++ Examples.dq ++ "}".

Definition classification : value :=
  VDict [("type", VStr "receipt"); ("confidence", VFloat 0.5)].

Definition receipt : dict :=
  [("merchant", VStr "Cafe"); ("total", VFloat 4.5);
   ("datetime", VStr "2024-01-05T10:30:00")].

Definition json_loads (s : string) : option value :=
  if String.eqb s classification_text then Some classification
  else if String.eqb s receipt_text then Some (VDict receipt)
  else None.

Definition create (r : Ai.request) (calls : nat) : Ai.reply * nat :=
  (if Py.starts_with Examples.classifier_prompt (Ai.req_system r)
   then Ai.Completion (Some classification_text)
   else Ai.Completion (Some receipt_text),
   S calls).

End ReceiptExample.

(** ** [backend/main.py]: vendor bills, record status, record removal

    The [records] table is the list of its rows in the order in which
    SQLite yields them; the column [fields] of a row holds the JSON object
    [upsert_record] wrote, the column [type] the value of its type. *)

Module Ap.
Import Val Models.

(** [a or b] *)
Definition or_ (a b : value) : value := if truthy a then a else b.

(** [(fields.get(k) or {}).get("company")]; only a mapping has [get]. *)
Definition company (k : string) (fields : dict) : result value :=
  match or_ (get_or_none k fields) (VDict []) with
  | VDict d => Ok (get_or_none "company" d)
  | _ => Raise AttributeError
  end.

(** [_row_to_ap_item(row)]; the result [None] is Python's [None]. *)
Definition _row_to_ap_item (row : Record_) : result (option dict) :=
  let fields := r_fields row in
  let direction := get_or_none "direction" fields in
  let status := or_ (get_or_none "status" fields) (VStr "open") in
  if negb (py_eq direction (VStr "incoming")) then Ok None
  else
    let* vendor :=
      if truthy (get_or_none "vendor" fields) then Ok (get_or_none "vendor" fields)
      else
        let* b := company "bill_to" fields in
        if truthy b then Ok b
        else
          let* s := company "ship_to" fields in
          Ok (or_ s (VStr "Unknown vendor")) in
    let total := or_ (get_or_none "total" fields) (VInt 0) in
    let due := or_ (get_or_none "due_date" fields) (VStr "") in
    let number := or_ (get_or_none "invoice_number" fields)
                      (or_ (get_or_none "number" fields) (VStr "")) in
    let memo := or_ (get_or_none "memo" fields)
                    (or_ (get_or_none "summary" fields)
                         (or_ (get_or_none "description" fields) (VStr ""))) in
    let description := or_ (get_or_none "description" fields) (VStr "") in
    Ok (Some [("id", VStr (r_id row)); ("vendor", vendor); ("total", total);
              ("due_date", due); ("number", number); ("memo", memo);
              ("description", description); ("status", status)]).

(** [WHERE type = 'invoice'] *)
Definition is_invoice (r : Record_) : bool :=
  match r_type r with INVOICE => true | _ => false end.

(** [(item.get("status") or "open") == "open"] *)
Definition is_open (item : dict) : bool :=
  py_eq (or_ (get_or_none "status" item) (VStr "open")) (VStr "open").

(** The loop over the rows fetched: the items that are not [None] and
    that [keep] lets through, in the order of the rows. *)
Fixpoint bills (keep : dict -> bool) (rows : list Record_) : result (list dict) :=
  match rows with
  | [] => Ok []
  | row :: rest =>
      let* item := _row_to_ap_item row in
      let* items := bills keep rest in
      Ok (match item with
          | Some it => if keep it then it :: items else items
          | None => items
          end)
  end.

(** [list_ap_bills(status)] *)
Definition list_ap_bills (records : list Record_) (status : string)
  : result (list dict) :=
  bills (fun item => if String.eqb status "open" then is_open item else true)
        (List.filter is_invoice records).

Definition with_fields (fields : dict) (r : Record_) : Record_ :=
  {| r_id := r_id r; r_document_id := r_document_id r;
     r_extraction_id := r_extraction_id r; r_type := r_type r;
     r_fields := fields |}.

(** [SELECT ... FROM records WHERE id = ?] then [fetchone()] *)
Definition select_record (records : list Record_) (rid : string) : option Record_ :=
  List.find (fun r => String.eqb (r_id r) rid) records.

(** [UPDATE records SET fields = ? WHERE id = ?] *)
Definition update_fields (records : list Record_) (rid : string) (fields : dict)
  : list Record_ :=
  map (fun r => if String.eqb (r_id r) rid then with_fields fields r else r) records.

(** One round of the loop of [mark_ap_bills_paid]: the table and the
    count of updates. *)
Definition mark_one (st : list Record_ * nat) (rid : string) : list Record_ * nat :=
  match select_record (fst st) rid with
  | None => st
  | Some row =>
      (update_fields (fst st) rid (set "status" (VStr "paid") (r_fields row)),
       S (snd st))
  end.

(** [mark_ap_bills_paid(payload)] for a payload whose [ids] is missing,
    null or a list of strings: the table afterwards - the updates are
    committed before the open bills are read - and the [updated] and
    [open] of the answer. *)
Definition mark_ap_bills_paid (records : list Record_) (ids : list string)
  : list Record_ * result (nat * list dict) :=
  match ids with
  | [] => (records, Ok (0, []))
  | _ =>
      let st := fold_left mark_one ids (records, 0) in
      (fst st,
       let* open_items := bills is_open (List.filter is_invoice (fst st)) in
       Ok (snd st, open_items))
  end.

(** What an endpoint answers: its body, or the [HTTPException] raised. *)
Inductive answer (A : Type) :=
| Body (a : A)
| HTTPError (status : Z) (detail : string).
Arguments Body {A} a.
Arguments HTTPError {A} status detail.

(** [set_record_status(record_id, body)]: the table afterwards and the
    answer [{"id": ..., "status": ...}]. *)
Definition set_record_status (records : list Record_) (record_id status : string)
  : list Record_ * answer (string * string) :=
  if negb (String.eqb status "open" || String.eqb status "paid") then
    (records, HTTPError 400 "status must be 'open' or 'paid'")
  else
    match select_record records record_id with
    | None => (records, HTTPError 404 "record not found")
    | Some row =>
        (update_fields records record_id (set "status" (VStr status) (r_fields row)),
         Body (record_id, status))
    end.

(** [delete_record(record_id)]: the table afterwards and the answer
    [{"deleted": ...}]. *)
Definition delete_record (records : list Record_) (record_id : string)
  : list Record_ * answer string :=
  match select_record records record_id with
  | None => (records, HTTPError 404 "record not found")
  | Some _ =>
      (List.filter (fun r => negb (String.eqb (r_id r) record_id)) records,
       Body record_id)
  end.

End Ap.

(** ** Further stores and documents used by the examples *)

Module Examples2.
Import Val Models.

Definition empty_store : Main.connection :=
  {| Main.documents := []; Main.records := [] |}.

(** Two records of the vendor [acme] without a number: one of 100.0 dated
    2024-01-05, one of 250.0 dated 2024-02-01. *)
Definition store_dated : Main.connection :=
  {| Main.documents := [];
     Main.records :=
       [{| Main.rec_id := "rec_1";
           Main.rec_fields := [("vendor_norm", VStr "acme"); ("total", VFloat 100);
                               ("invoice_date", VStr "2024-01-05")] |};
        {| Main.rec_id := "rec_2";
           Main.rec_fields := [("vendor_norm", VStr "acme"); ("total", VFloat 250);
                               ("invoice_date", VStr "2024-02-01")] |}] |}.

(** A new document of the same vendor, without a number. *)
Definition fields_dated : dict :=
  [("vendor", VStr "Acme Inc"); ("total", VFloat 100.5);
   ("invoice_date", VStr "2024-01-05")].

Definition fields_acme : dict :=
  [("vendor", VStr "Acme Corp"); ("invoice_number", VStr "INV-1024")].

Definition fields_acme_again : dict :=
  [("vendor", VStr "ACME corp"); ("invoice_number", VStr "inv-1024");
   ("total", VFloat 12)].

(** A text file. *)
Definition document_txt : Document :=
  {| document_id := "doc_2"; document_mime := "text/plain";
     document_storage_path := "storage/doc_2.txt" |}.

Definition record_1 : Record_ :=
  {| r_id := "rec_1"; r_document_id := "doc_1"; r_extraction_id := Some "ext_1";
     r_type := INVOICE; r_fields := [("vendor", VStr "Acme")] |}.

(** A record whose total is no finite number. *)
Definition record_infinity : Record_ :=
  {| r_id := "rec_2"; r_document_id := "doc_1"; r_extraction_id := Some "ext_1";
     r_type := INVOICE;
     r_fields := [("vendor", VStr "Acme"); ("total", VFloat PrimFloat.infinity)] |}.

Definition extraction_1 : Extraction :=
  {| ex_id := "ext_1"; ex_doc_id := "doc_1"; ex_model := "o3";
     ex_schema := "invoice_v1"; ex_fields := [("vendor", VStr "Acme")];
     ex_confidence := 0.5; ex_raw_json := [] |}.

(** A table of records: an open bill of Acme, a paid bill whose vendor
    is only named under [bill_to], an invoice of ours, and a receipt. *)
Definition bills_table : list Record_ :=
  [{| r_id := "rec_1"; r_document_id := "doc_1"; r_extraction_id := Some "ext_1";
      r_type := INVOICE;
      r_fields := [("vendor", VStr "Acme"); ("direction", VStr "incoming");
                   ("total", VFloat 120.5)] |};
   {| r_id := "rec_2"; r_document_id := "doc_2"; r_extraction_id := Some "ext_2";
      r_type := INVOICE;
      r_fields := [("direction", VStr "incoming"); ("status", VStr "paid");
                   ("bill_to", VDict [("company", VStr "Bolt")])] |};
   {| r_id := "rec_3"; r_document_id := "doc_3"; r_extraction_id := None;
      r_type := INVOICE;
      r_fields := [("vendor", VStr "Customer"); ("direction", VStr "outgoing")] |};
   {| r_id := "rec_4"; r_document_id := "doc_4"; r_extraction_id := None;
      r_type := RECEIPT;
      r_fields := [("direction", VStr "incoming")] |}].

End Examples2.

(** ** [backend/business_hub/pdf_fill.py]: the rows of the CSV and the
       placement log *)

Module PdfFill.
Import Val Models.

(** [models.PdfFillRow] *)
Record PdfFillRow := {
  row_id : string;
  row_label : string;
  row_x : float;
  row_y : float;
  row_value : string;
  opt_font_size : option float;
  opt_page : option Z }.

(** A row of [csv.DictReader]: for each column of the header the text
    of the cell, or [None] for a cell the line does not have. *)
Definition csv_row := list (string * option string).

(** [raw.get(k)]: the column may be absent from the header. *)
Fixpoint cell (k : string) (raw : csv_row) : option (option string) :=
  match raw with
  | [] => None
  | (k', v) :: r => if String.eqb k k' then Some v else cell k r
  end.

(** A page index [page - 1]: an [int], or a [float] when the default
    page of the profile is one. *)
Inductive index :=
| IInt (z : Z)
| IFloat (f : float).

(** [PlacementLog]; the font size is a float of the row or the default
    of the profile, whatever that is. *)
Record PlacementLog := {
  log_row : PdfFillRow;
  page_index : nat;
  font_size : value }.

(** What [fill_pdf] raises: a [PdfFillError] - with the path, the row or
    the row and its page index - or another exception. *)
Inductive error :=
| TemplateNotFound
| CsvNotFound
| InvalidRow (raw : csv_row)
| OutOfRangePage (id : string) (page_index : index)
| Other (e : exn).

Inductive outcome (A : Type) :=
| Done (a : A)
| Failed (e : error).
Arguments Done {A} a.
Arguments Failed {A} e.

Section Fill.

(** [float(s)] and [int(s)] on the text of a cell; [None] is
    [ValueError]. *)
Variable float_of_str : string -> option float.
Variable int_of_str : string -> option Z.
(** What pydantic does with a [str], a [float] and an [int] given for a
    field of that type ([None]: a validation error, a [ValueError]). *)
Variable T : schema.
Variable validate_int : Z -> option Z.
(** Drawing the overlay of a page and merging it, and writing the
    output: the exception raised, if any. Reading the template and
    adding a page to the writer are taken to succeed. *)
Variable draw : nat -> list PdfFillRow -> option exn.
Variable save : option exn.

(** [raw.get(k, "")] given to a [str] field. *)
Definition text_field (k : string) (raw : csv_row) : option string :=
  match cell k raw with
  | None => validate_str T (VStr "")
  | Some None => validate_str T VNone
  | Some (Some s) => validate_str T (VStr s)
  end.

(** [float(raw.get(k, 0))] given to a [float] field. *)
Definition number_field (k : string) (raw : csv_row) : option float :=
  match cell k raw with
  | None => validate_float T (VFloat 0)
  | Some None => None
  | Some (Some s) =>
      match float_of_str s with
      | Some f => validate_float T (VFloat f)
      | None => None
      end
  end.

(** [conv(raw[k]) if raw.get(k) else None] given to an optional field. *)
Definition optional_field {A B} (conv : string -> option A)
    (validate : A -> option B) (k : string) (raw : csv_row)
  : option (option B) :=
  match cell k raw with
  | Some (Some s) =>
      if Py.is_empty s then Some None
      else match conv s with
           | Some a => option_map Some (validate a)
           | None => None
           end
  | _ => Some None
  end.

(** The body of the loop of [parse_csv]; [None] is [PdfFillError]. *)
Definition parse_row (raw : csv_row) : option PdfFillRow :=
  let id := match cell "id" raw with Some (Some s) => VStr s | _ => VStr "None" end in
  match validate_str T id,
        text_field "label" raw, number_field "x" raw, number_field "y" raw,
        text_field "value" raw,
        optional_field float_of_str (fun f => validate_float T (VFloat f))
                       "opt_font_size" raw,
        optional_field int_of_str validate_int "opt_page" raw with
  | Some i, Some l, Some x, Some y, Some v, Some fs, Some pg =>
      Some {| row_id := i; row_label := l; row_x := x; row_y := y; row_value := v;
              opt_font_size := fs; opt_page := pg |}
  | _, _, _, _, _, _, _ => None
  end.

(** [parse_csv(csv_path)] on the rows the reader yields. *)
Fixpoint parse_csv (rows : list csv_row) : outcome (list PdfFillRow) :=
  match rows with
  | [] => Done []
  | raw :: rest =>
      match parse_row raw with
      | None => Failed (InvalidRow raw)
      | Some row =>
          match parse_csv rest with
          | Done l => Done (row :: l)
          | Failed e => Failed e
          end
      end
  end.

(** [(row.opt_page or defaults.get("page", 1)) - 1] *)
Definition target (defaults : dict) (row : PdfFillRow) : result index :=
  let page := match opt_page row with
              | Some z => if (z =? 0)%Z then default (VInt 1) (get "page" defaults)
                          else VInt z
              | None => default (VInt 1) (get "page" defaults)
              end in
  match page with
  | VInt z => Ok (IInt (z - 1))
  | VBool b => Ok (IInt (Z_of_bool b - 1))
  | VFloat f => Ok (IFloat (PrimFloat.sub f 1))
  | _ => Raise TypeError
  end.

(** [f >= n] for a float and an [int], exact. *)
Definition float_ge_int (f : float) (n : Z) : bool :=
  match Prim2SF f with
  | S754_zero _ => (n <=? 0)%Z
  | S754_infinity s => negb s
  | S754_nan => false
  | S754_finite s m e =>
      let v := if s then Z.neg m else Z.pos m in
      if (0 <=? e)%Z then (n <=? v * 2 ^ e)%Z else (n * 2 ^ (- e) <=? v)%Z
  end.

(** [page_index < 0 or page_index >= len(reader.pages)] *)
Definition out_of_range (pages : nat) (i : index) : bool :=
  match i with
  | IInt z => (z <? 0)%Z || (Z.of_nat pages <=? z)%Z
  | IFloat f => PrimFloat.ltb f 0 || float_ge_int f (Z.of_nat pages)
  end.

(** The key [i] of [page_groups] is the index: keys are compared as
    numbers. *)
Definition on_page (i : nat) (ix : index) : bool :=
  match ix with
  | IInt z => (z =? Z.of_nat i)%Z
  | IFloat f => int_eq_float (Z.of_nat i) f
  end.

(** The first loop: the index of every row, in order, or the first
    error. *)
Fixpoint targets (defaults : dict) (pages : nat) (rows : list PdfFillRow)
  : outcome (list (PdfFillRow * index)) :=
  match rows with
  | [] => Done []
  | row :: rest =>
      match target defaults row with
      | Raise e => Failed (Other e)
      | Ok ix =>
          if out_of_range pages ix then Failed (OutOfRangePage (row_id row) ix)
          else match targets defaults pages rest with
               | Done l => Done ((row, ix) :: l)
               | Failed e => Failed e
               end
      end
  end.

(** [row.opt_font_size or defaults.get("fontSize", 10)] *)
Definition font_size_of (defaults : dict) (row : PdfFillRow) : value :=
  match opt_font_size row with
  | Some f => if truthy (VFloat f) then VFloat f
              else default (VInt 10) (get "fontSize" defaults)
  | None => default (VInt 10) (get "fontSize" defaults)
  end.

(** [page_groups.get(i)] *)
Definition overlays (i : nat) (placed : list (PdfFillRow * index)) : list PdfFillRow :=
  map fst (List.filter (fun p => on_page i (snd p)) placed).

(** The second loop, over the pages [i, i + n). *)
Fixpoint place (defaults : dict) (placed : list (PdfFillRow * index)) (n i : nat)
  : outcome (list PlacementLog) :=
  match n with
  | O => Done []
  | S n' =>
      let rows := overlays i placed in
      match (match rows with [] => None | _ => draw i rows end) with
      | Some e => Failed (Other e)
      | None =>
          match place defaults placed n' (S i) with
          | Done l =>
              Done (map (fun row => {| log_row := row; page_index := i;
                                       font_size := font_size_of defaults row |}) rows
                    ++ l)%list
          | Failed e => Failed e
          end
      end
  end.

(** [fill_pdf(template_path, csv_path, output_path, profile)]: the
    placement log. The template, when it exists, is a PDF of [pages]
    pages; [profile] is the [defaults] of the profile given, if any. *)
Definition fill_pdf (template_exists csv_exists : bool) (csv : list csv_row)
    (pages : nat) (profile : option dict) : outcome (list PlacementLog) :=
  if negb template_exists then Failed TemplateNotFound
  else if negb csv_exists then Failed CsvNotFound
  else
    match parse_csv csv with
    | Failed e => Failed e
    | Done rows =>
        let defaults := match profile with
                        | Some d => d
                        | None => [("fontSize", VInt 10); ("page", VInt 1)]
                        end in
        match targets defaults pages rows with
        | Failed e => Failed e
        | Done placed =>
            match place defaults placed pages 0 with
            | Failed e => Failed e
            | Done log =>
                match save with
                | Some e => Failed (Other e)
                | None => Done log
                end
            end
        end
    end.

End Fill.

End PdfFill.

(** ** A CSV and a template for the examples of [fill_pdf] *)

Module PdfExample.
Import Val Models PdfFill.

(** [float(s)] and [int(s)] on the cells of the examples: a text of
    decimal digits. The other texts Python converts (signs, blanks,
    fractions, exponents) are rejected here and used nowhere. *)
Fixpoint digits (s : string) : bool :=
  match s with
  | EmptyString => true
  | String c r => Py.is_decimal c && digits r
  end.

Definition int_of_str (s : string) : option Z :=
  if negb (Py.is_empty s) && digits s then Some (Strptime.int_of 0 s) else None.

Definition float_of_str (s : string) : option float :=
  match int_of_str s with
  | Some z => match float_of_Z z with Ok f => Some f | Raise _ => None end
  | None => None
  end.

Definition validate_int (z : Z) : option Z := Some z.

(** Drawing and writing succeed. *)
Definition draw (i : nat) (rows : list PdfFillRow) : option exn := None.
Definition save : option exn := None.

Definition fill_pdf := PdfFill.fill_pdf float_of_str int_of_str Examples.lax validate_int draw save.
Definition parse_csv := PdfFill.parse_csv float_of_str int_of_str Examples.lax validate_int.
Definition parse_row := PdfFill.parse_row float_of_str int_of_str Examples.lax validate_int.

(** The two lines of [tests/test_pdf_fill.py], under the header
    [id,label,x,y,value]. *)
Definition line_vendor : csv_row :=
  [("id", Some "1"); ("label", Some "Vendor"); ("x", Some "72"); ("y", Some "680");
   ("value", Some "Acme")].
Definition line_total : csv_row :=
  [("id", Some "2"); ("label", Some "Total"); ("x", Some "400"); ("y", Some "200");
   ("value", Some "$100")].
Definition fields_csv : list csv_row := [line_vendor; line_total].

Definition row_vendor : PdfFillRow :=
  {| row_id := "1"; row_label := "Vendor"; row_x := 72; row_y := 680;
     row_value := "Acme"; opt_font_size := None; opt_page := None |}.
Definition row_total : PdfFillRow :=
  {| row_id := "2"; row_label := "Total"; row_x := 400; row_y := 200;
     row_value := "$100"; opt_font_size := None; opt_page := None |}.

(** Lines under the header [id,label,x,y,value,opt_font_size,opt_page]:
    one for page 2 in 12 points, one for page 1, and one that stops
    after the label. *)
Definition line_second_page : csv_row :=
  [("id", Some "a"); ("label", Some "Memo"); ("x", Some "10"); ("y", Some "20");
   ("value", Some "net 30"); ("opt_font_size", Some "12"); ("opt_page", Some "2")].
Definition line_first_page : csv_row :=
  [("id", Some "b"); ("label", Some "Total"); ("x", Some "30"); ("y", Some "40");
   ("value", Some "100"); ("opt_font_size", Some ""); ("opt_page", Some "")].
Definition line_short : csv_row :=
  [("id", Some "c"); ("label", Some "Date"); ("x", None); ("y", None);
   ("value", None); ("opt_font_size", None); ("opt_page", None)].

Definition row_second_page : PdfFillRow :=
  {| row_id := "a"; row_label := "Memo"; row_x := 10; row_y := 20;
     row_value := "net 30"; opt_font_size := Some 12%float; opt_page := Some 2%Z |}.
Definition row_first_page : PdfFillRow :=
  {| row_id := "b"; row_label := "Total"; row_x := 30; row_y := 40;
     row_value := "100"; opt_font_size := None; opt_page := None |}.

End PdfExample.

(** ** [backend/main.py]: confirming a record *)

Module Confirm.
Import Val Models.

(** [type_map.get(kind, DocumentType.OTHER)] *)
Definition type_map_get (kind : string) : DocumentType :=
  if String.eqb kind "invoice" then INVOICE
  else if String.eqb kind "vendor_bill_ap" then INVOICE
  else if String.eqb kind "invoice_ar" then INVOICE
  else if String.eqb kind "receipt" then RECEIPT
  else if String.eqb kind "purchase_order" then PURCHASE_ORDER
  else if String.eqb kind "email" then EMAIL
  else OTHER.

(** [v.lower()]; only a [str] has [lower]. *)
Definition lower_of (v : value) : result string :=
  match v with
  | VStr s => Ok (Py.lower s)
  | _ => Raise AttributeError
  end.

Section Endpoint.

Variable St : Type.
(** [uuid.uuid4().hex[:12]] *)
Variable uuid12 : St -> string * St.
(** [float(s)] on a string; [None] is [ValueError]. *)
Variable float_of_str : string -> option float.
Variable S : schema.
(** What pydantic does with the value given for a field of type [dict]. *)
Variable validate_dict : value -> option dict.
(** Whether the indexes of [ensure_indexes] on [records] are there. *)
Variable indexed : bool.

Notation "'do*' x := m 'in' k" := (Ai.bindM St m (fun x => k))
  (at level 10, x pattern, m at level 200, k at level 200).

(** [Extraction(id=..., doc_id=..., ...)]; [created_at] is left out. *)
Definition Extraction_init (id doc_id model schema_ fields : value)
    (confidence : float) (raw_json : value) : result Extraction :=
  match validate_str S id, validate_str S doc_id, validate_str S model,
        validate_str S schema_, validate_dict fields,
        validate_float S (VFloat confidence), validate_dict raw_json with
  | Some i, Some d, Some m, Some s, Some f, Some c, Some r =>
      Ok {| ex_id := i; ex_doc_id := d; ex_model := m; ex_schema := s;
            ex_fields := f; ex_confidence := c; ex_raw_json := r |}
  | _, _, _, _, _, _, _ => Raise ValidationError
  end.

(** [Record(id=..., document_id=..., ...)]; [created_at] is left out. *)
Definition Record_init (id document_id extraction_id : value)
    (type : DocumentType) (fields : value) : result Record_ :=
  match validate_str S id, validate_str S document_id,
        validate_str S extraction_id, validate_dict fields with
  | Some i, Some d, Some e, Some f =>
      Ok {| r_id := i; r_document_id := d; r_extraction_id := Some e;
            r_type := type; r_fields := f |}
  | _, _, _, _ => Raise ValidationError
  end.

(** [confirm_record(payload)]: the [record_id] of the answer
    [{"ok": True, "record_id": ...}], or the [HTTPException] raised. *)
Definition confirm_record (payload : dict) : Ai.M St (Ap.answer string) :=
  let doc_id := get_or_none "doc_id" payload in
  if negb (truthy doc_id) then Ai.ret St (Ap.HTTPError 400 "doc_id is required")
  else
    let fields := Ap.or_ (get_or_none "fields" payload) (VDict []) in
    let model := Ap.or_ (get_or_none "model" payload) (VStr "o3") in
    let schema_ := Ap.or_ (get_or_none "schema" payload) (VStr "generic_v1") in
    do* kind := Ai.lift St (lower_of (Ap.or_ (get_or_none "type" payload)
                                             (VStr "other"))) in
    let doc_type := type_map_get kind in
    let extraction_id := get_or_none "extraction_id" payload in
    do* id := if truthy extraction_id then Ai.ret St extraction_id
              else do* u := Ai.fresh_id St uuid12 "ext_" in Ai.ret St (VStr u) in
    do* confidence :=
      Ai.lift St (py_float float_of_str
                    (Ap.or_ (get_or_none "confidence" payload) (VFloat 0))) in
    let raw_json := Ap.or_ (get_or_none "raw_json" payload) (VDict []) in
    do* extraction :=
      Ai.lift St (Extraction_init id doc_id model schema_ fields confidence raw_json) in
    do* _ := Ai.upsert_extraction St extraction in
    do* rid := Ai.fresh_id St uuid12 "rec_" in
    do* record :=
      Ai.lift St (Record_init (VStr rid) doc_id (VStr (ex_id extraction)) doc_type
                    fields) in
    do* _ := Ai.upsert_record St indexed record in
    Ai.ret St (Ap.Body (r_id record)).

End Endpoint.

End Confirm.

(** ** A payload and an identifier source for the examples of
       [confirm_record] *)

Module ConfirmExample.
Import Val Models.

(** The identifiers drawn: a counter, twelve digits wide. *)
Definition uuid12 (n : nat) : string * nat :=
  (Strptime.pad 12 (Z.of_nat n), S n).

(** A [dict] field takes a dictionary. *)
Definition validate_dict (v : value) : option dict :=
  match v with VDict d => Some d | _ => None end.

(** A database without the indexes. *)
Definition confirm_record :=
  Confirm.confirm_record nat uuid12 Examples.float_of_str Examples.lax validate_dict
                         false.

(** A receipt confirmed for the document [doc_1], with the extraction
    [ext_a] and without one. *)
Definition payload_receipt : dict :=
  [("doc_id", VStr "doc_1"); ("type", VStr "Receipt");
   ("fields", VDict [("merchant", VStr "Cafe"); ("total", VFloat 12)]);
   ("extraction_id", VStr "ext_a")].

Definition payload_plain : dict :=
  [("doc_id", VStr "doc_1"); ("fields", VDict [("summary", VStr "memo")])].

(** A payload without a document. *)
Definition payload_no_doc : dict :=
  [("doc_id", VStr ""); ("type", VStr "receipt")].

End ConfirmExample.

(** ** [backend/main.py] and [business_hub/storage.py]: the CSV export

    [list_records()] yields the rows of [records], newest first, as
    models; the records here are the rows in that order. *)

Module CsvExport.
Import Val Models.

(** [record.type.value] *)
Definition type_value (t : DocumentType) : string :=
  match t with
  | INVOICE => "invoice"
  | RECEIPT => "receipt"
  | PURCHASE_ORDER => "purchase_order"
  | EMAIL => "email"
  | OTHER => "other"
  end.

(** A row of the export: a [dict] from [str] to [str]. *)
Definition row := list (string * string).

Fixpoint lookup (h : string) (r : row) : option string :=
  match r with
  | [] => None
  | (k, v) :: rest => if String.eqb h k then Some v else lookup h rest
  end.

(** [sep.join(l)] *)
Fixpoint join (sep : string) (l : list string) : string :=
  match l with
  | [] => EmptyString
  | [x] => x
  | x :: r => (x ++ sep ++ join sep r)%string
  end.

(** What the endpoint answers: the empty list, the text of the CSV, or
    the [KeyError] raised. *)
Inductive response :=
| Empty
| Csv (text : string)
| KeyError (key : string).

Section Csv.

(** [str(v)] on a value of the fields. *)
Variable str_of : value -> string.

(** The row [export_records] yields for a record. *)
Definition export_row (record : Record_) : row :=
  ([("id", r_id record); ("document_id", r_document_id record);
    ("type", type_value (r_type record))]
   ++ map (fun kv => (("field_" ++ fst kv)%string, str_of (snd kv)))
          (r_fields record))%list.

Definition export_records (records : list Record_) : list row :=
  map export_row records.

(** [str(row[h]) for h in headers]: the cells, or the first key the row
    does not have. *)
Fixpoint cells (headers : list string) (r : row) : string + list string :=
  match headers with
  | [] => inr []
  | h :: rest =>
      match lookup h r with
      | None => inl h
      | Some v =>
          match cells rest r with
          | inl k => inl k
          | inr vs => inr (v :: vs)
          end
      end
  end.

(** The loop that writes one line per row. *)
Fixpoint write_rows (headers : list string) (rows : list row) : string + string :=
  match rows with
  | [] => inr EmptyString
  | r :: rest =>
      match cells headers r with
      | inl k => inl k
      | inr vs =>
          match write_rows headers rest with
          | inl k => inl k
          | inr text => inr (join "," vs ++ Ai.nl ++ text)%string
          end
      end
  end.

(** [export_records_csv()] *)
Definition export_records_csv (records : list Record_) : response :=
  match export_records records with
  | [] => Empty
  | (first :: _) as rows =>
      let headers := map fst first in
      match write_rows headers rows with
      | inl k => KeyError k
      | inr text => Csv (join "," headers ++ Ai.nl ++ text)
      end
  end.

End Csv.

End CsvExport.

(** ** Records for the examples of the export *)

Module ExportExample.
Import Val Models.

(** [str(v)] on the values of the examples, which are texts; the other
    values are used nowhere and given the empty text. *)
Definition str_of (v : value) : string :=
  match v with VStr s => s | _ => EmptyString end.

Definition record_acme : Record_ :=
  {| r_id := "rec_1"; r_document_id := "doc_1"; r_extraction_id := None;
     r_type := INVOICE; r_fields := [("vendor", VStr "Acme, Inc")] |}.

Definition record_bolt : Record_ :=
  {| r_id := "rec_2"; r_document_id := "doc_2"; r_extraction_id := None;
     r_type := RECEIPT;
     r_fields := [("memo", VStr "paid"); ("vendor", VStr "Bolt")] |}.

Definition record_bare : Record_ :=
  {| r_id := "rec_3"; r_document_id := "doc_3"; r_extraction_id := None;
     r_type := OTHER; r_fields := [("summary", VStr "note")] |}.

End ExportExample.

(** ** [business_hub/storage.py] and [backend/main.py]: listing records

    The table is the list of its rows in the order [ORDER BY created_at
    DESC] puts them; the column [fields] of a row is the text
    [json.dumps] gave for its fields, the column [type] the value of its
    type. *)

Module Listing.
Import Val Models.

(** Two characters SQLite's [LIKE] takes for the same: equal once the
    ASCII letters are folded. *)
Definition like_char (c d : ascii) : bool :=
  Ascii.eqb (Py.sqlite_lower_char c) (Py.sqlite_lower_char d).

(** The match of [LIKE], without [ESCAPE], on a pattern and a text as
    the engine reads them: [%] stands for any characters, [_] for any
    one. *)
Fixpoint like (pattern text : string) : bool :=
  match pattern with
  | EmptyString => Py.is_empty text
  | String c p =>
      if Ascii.eqb c "%" then
        (fix any (t : string) : bool :=
           like p t || match t with
                       | EmptyString => false
                       | String _ t' => any t'
                       end) text
      else
        match text with
        | EmptyString => false
        | String d t => (Ascii.eqb c "_" || like_char c d) && like p t
        end
  end.

(** The bytes of a text in UTF-8, as the [sqlite3] module binds it: two
    for a character from U+0080 on. *)
Fixpoint utf8_length (s : string) : N :=
  match s with
  | EmptyString => 0%N
  | String c r => ((if (Py.code c <? 128)%N then 1 else 2) + utf8_length r)%N
  end.

(** [SQLITE_MAX_LIKE_PATTERN_LENGTH] *)
Definition like_limit : N := 50000%N.

(** [text LIKE pattern] of SQLite: a pattern of more bytes than the limit
    is the error [LIKE or GLOB pattern too complex]; otherwise the
    pattern and the text are read as C strings, up to their first
    U+0000, and matched. *)
Definition sqlite_like (pattern text : string) : result bool :=
  if (like_limit <? utf8_length pattern)%N then Raise OperationalError
  else Ok (like (Py.until_nul pattern) (Py.until_nul text)).

(** A filter of [filters] that is set and not empty. *)
Definition given (o : option string) : option string :=
  match o with
  | Some s => if Py.is_empty s then None else Some s
  | None => None
  end.

Section Records.

(** [json.dumps(fields)] *)
Variable json_dumps : dict -> string.

(** The [WHERE] clause on one row: [type = ?], and on the rows that
    pass it [fields LIKE ?] with the pattern [f"%{text}%"]; a filter that
    is missing or empty adds no clause. *)
Definition where_ (type_ query : option string) (r : Record_) : result bool :=
  if match given type_ with
     | Some doc_type => String.eqb (CsvExport.type_value (r_type r)) doc_type
     | None => true
     end
  then
    match given query with
    | Some text => sqlite_like ("%" ++ text ++ "%") (json_dumps (r_fields r))
    | None => Ok true
    end
  else Ok false.

(** The rows a statement yields, or the error of the first row on which
    its clause fails. *)
Fixpoint select (clause : Record_ -> result bool) (rows : list Record_)
  : result (list Record_) :=
  match rows with
  | [] => Ok []
  | r :: rest =>
      let* b := clause r in
      let* l := select clause rest in
      Ok (if b then r :: l else l)
  end.

(** [list_records(filters=filters)] for the filters [type] and [query],
    each possibly missing. *)
Definition list_records (records : list Record_) (type_ query : option string)
  : result (list Record_) :=
  select (where_ type_ query) records.

(** [get_records(type, query)]: the records listed, as dictionaries in
    the answer. *)
Definition get_records (records : list Record_) (type_ query : option string)
  : result (list Record_) :=
  list_records records (given type_) (given query).

End Records.

End Listing.

(** ** The stored text of the example records *)

Module ListingExample.
Import Val Models.

Definition quote : string := String (ascii_of_nat 34) EmptyString.

(** [json.dumps] on the fields of the examples: flat objects of plain
    ASCII texts. Other values are used nowhere and written [null]. *)
Definition member (kv : string * value) : string :=
  quote ++ fst kv ++ quote ++ ": "
  ++ match snd kv with
     | VStr s => quote ++ s ++ quote
     | _ => "null"
     end.

Definition json_dumps (d : dict) : string :=
  "{" ++ CsvExport.join ", " (map member d) ++ "}".

Definition table : list Record_ :=
  [ExportExample.record_acme; ExportExample.record_bolt; ExportExample.record_bare].

End ListingExample.

(* ===================================================================== *)
(** * Part II: properties                                                 *)
(* ===================================================================== *)

(** ** Characters and strings *)

Section CharFacts.
Import Py.

Lemma lower_char_not_upper (c : ascii) : is_upper (lower_char c) = false.
Proof. destruct c as [[] [] [] [] [] [] [] []]; reflexivity. Qed.

Lemma not_upper_not_ascii_upper (c : ascii) :
  is_upper c = false -> is_ascii_upper c = false.
Proof. unfold is_upper. intros H. destruct (is_ascii_upper c); [discriminate H | reflexivity]. Qed.

Lemma space_not_upper : is_upper " " = false.
Proof. reflexivity. Qed.

Lemma sqlite_lower_char_id (c : ascii) :
  is_ascii_upper c = false -> sqlite_lower_char c = c.
Proof. unfold sqlite_lower_char. intros ->. reflexivity. Qed.

End CharFacts.

Section StringFacts.
Import Py Re.

Variable p : ascii -> bool.

Lemma str_forall_filter (q : ascii -> bool) (s : string) :
  str_forall p s = true -> str_forall p (str_filter q s) = true.
Proof.
  induction s as [|c r IH]; simpl; [reflexivity|].
  intros H. apply andb_prop in H as [Hc Hr].
  destruct (q c); simpl; [rewrite Hc|]; auto.
Qed.

Lemma str_forall_lstrip (s : string) :
  str_forall p s = true -> str_forall p (lstrip s) = true.
Proof.
  induction s as [|c r IH]; simpl; [reflexivity|].
  intros H. destruct (isspace c); [|exact H].
  apply andb_prop in H as [_ Hr]. auto.
Qed.

Lemma str_forall_rstrip (s : string) :
  str_forall p s = true -> str_forall p (rstrip s) = true.
Proof.
  induction s as [|c r IH]; simpl; [reflexivity|].
  intros H. apply andb_prop in H as [Hc Hr].
  destruct (isspace c && is_empty (rstrip r)); simpl; [reflexivity|].
  rewrite Hc. auto.
Qed.

Lemma str_forall_strip (s : string) :
  str_forall p s = true -> str_forall p (strip s) = true.
Proof. intros H. apply str_forall_rstrip, str_forall_lstrip, H. Qed.

Lemma str_forall_leading_zeros (s : string) :
  str_forall p s = true -> str_forall p (sub_leading_zeros s) = true.
Proof.
  induction s as [|c r IH]; [reflexivity|].
  intros H. pose proof H as H'. simpl in H'. apply andb_prop in H' as [_ Hr].
  simpl. destruct c as [[] [] [] [] [] [] [] []]; try exact H. apply IH, Hr.
Qed.

Lemma str_forall_sub_legal_from (prev : option ascii) (skip : nat) (s : string) :
  str_forall p s = true -> str_forall p (sub_legal_from prev skip s) = true.
Proof.
  revert prev skip.
  induction s as [|c r IH]; intros prev skip H; [reflexivity|].
  pose proof H as H'. simpl in H'. apply andb_prop in H' as [Hc Hr].
  cbn [sub_legal_from]. destruct skip as [|k]; [|apply IH, Hr].
  destruct (legal_match prev (String c r)) as [[|k]|].
  - simpl. rewrite Hc. apply IH, Hr.
  - apply IH, Hr.
  - simpl. rewrite Hc. apply IH, Hr.
Qed.

Lemma str_forall_space_runs_from (b : bool) (s : string) :
  p " " = true ->
  str_forall p s = true -> str_forall p (sub_space_runs_from b s) = true.
Proof.
  intros Hsp. revert b.
  induction s as [|c r IH]; intros b H; [reflexivity|].
  simpl in H. apply andb_prop in H as [Hc Hr].
  cbn [sub_space_runs_from].
  destruct (isspace c).
  - destruct b; [apply IH, Hr|].
    destruct (from_option isspace false (head r)); simpl.
    + rewrite Hsp. apply IH, Hr.
    + rewrite Hc. apply IH, Hr.
  - simpl. rewrite Hc. apply IH, Hr.
Qed.

End StringFacts.

Section NormalizedText.
Import Py Re Main.

Lemma lowered_lower (s : string) : lowered (lower s).
Proof.
  unfold lowered, lower. induction s as [|c r IH]; simpl; [reflexivity|].
  rewrite lower_char_not_upper. exact IH.
Qed.

Lemma lowered_sqlite_lower (s : string) : lowered s -> sqlite_lower s = s.
Proof.
  unfold lowered, sqlite_lower. induction s as [|c r IH]; simpl; [reflexivity|].
  intros H. apply andb_prop in H as [Hc Hr].
  rewrite (IH Hr), sqlite_lower_char_id; [reflexivity|].
  apply not_upper_not_ascii_upper. destruct (is_upper c); [discriminate Hc | reflexivity].
Qed.

Lemma lowered_vendor_text (s : string) : lowered (vendor_text s).
Proof.
  unfold lowered, vendor_text, sub_space_runs, sub_legal.
  apply str_forall_strip, str_forall_space_runs_from; [reflexivity|].
  apply str_forall_sub_legal_from, str_forall_strip, lowered_lower.
Qed.

Lemma lowered_number_text (s : string) : lowered (number_text s).
Proof.
  unfold lowered, number_text, sub_separators.
  apply str_forall_leading_zeros, str_forall_filter, lowered_lower.
Qed.

Lemma norm_vendor_text (x : Val.value) (v : string) :
  Main._norm_vendor x = Val.Ok (Some v) ->
  exists s, x = Val.VStr s /\ v = vendor_text s /\ v <> EmptyString.
Proof.
  unfold Main._norm_vendor. destruct (negb (Val.truthy x)); [discriminate|].
  destruct x; try discriminate. fold (vendor_text s).
  destruct (vendor_text s) eqn:E; simpl; [discriminate|].
  intros [= <-]. exists s. rewrite E. split; [reflexivity|]. split; [reflexivity | discriminate].
Qed.

Lemma norm_invoice_no_text (x : Val.value) (n : string) :
  Main._norm_invoice_no x = Val.Ok (Some n) ->
  exists s, x = Val.VStr s /\ n = number_text s /\ n <> EmptyString.
Proof.
  unfold Main._norm_invoice_no. destruct (negb (Val.truthy x)); [discriminate|].
  destruct x; try discriminate. fold (number_text s).
  destruct (number_text s) eqn:E; simpl; [discriminate|].
  intros [= <-]. exists s. rewrite E. split; [reflexivity|]. split; [reflexivity | discriminate].
Qed.

Lemma norm_vendor_sqlite_lower (x : Val.value) (v : string) :
  Main._norm_vendor x = Val.Ok (Some v) -> sqlite_lower v = v.
Proof.
  intros H. apply norm_vendor_text in H as (s & _ & -> & _).
  apply lowered_sqlite_lower, lowered_vendor_text.
Qed.

Lemma norm_invoice_no_sqlite_lower (x : Val.value) (n : string) :
  Main._norm_invoice_no x = Val.Ok (Some n) -> sqlite_lower n = n.
Proof.
  intros H. apply norm_invoice_no_text in H as (s & _ & -> & _).
  apply lowered_sqlite_lower, lowered_number_text.
Qed.

End NormalizedText.

Section StripFacts.
Import Py Re.

Lemma head_lstrip (s : string) : blank (head (lstrip s)) = false.
Proof.
  induction s as [|c r IH]; simpl; [reflexivity|].
  destruct (isspace c) eqn:E; [exact IH | simpl; exact E].
Qed.

Lemma head_rstrip (s : string) :
  head (rstrip s) = None \/ head (rstrip s) = head s.
Proof.
  destruct s as [|c r]; simpl; [now left|].
  destruct (isspace c && is_empty (rstrip r)); [now left | now right].
Qed.

Lemma last_rstrip (s : string) : blank (last (rstrip s)) = false.
Proof.
  induction s as [|c r IH]; simpl; [reflexivity|].
  destruct (rstrip r) as [|c' r'] eqn:E.
  - rewrite andb_true_r. destruct (isspace c) eqn:Ec; simpl; [reflexivity | exact Ec].
  - rewrite andb_false_r. exact IH.
Qed.

Lemma head_strip (s : string) : blank (head (strip s)) = false.
Proof.
  unfold strip. destruct (head_rstrip (lstrip s)) as [-> | ->];
    [reflexivity | apply head_lstrip].
Qed.

Lemma last_strip (s : string) : blank (last (strip s)) = false.
Proof. apply last_rstrip. Qed.

Lemma single_spaced_lstrip (s : string) :
  single_spaced s = true -> single_spaced (lstrip s) = true.
Proof.
  induction s as [|c r IH]; [reflexivity|].
  intros H. cbn [lstrip]. destruct (isspace c); [|exact H].
  cbn [single_spaced] in H. apply andb_prop in H as [_ Hr]. auto.
Qed.

Lemma single_spaced_rstrip (s : string) :
  single_spaced s = true -> single_spaced (rstrip s) = true.
Proof.
  induction s as [|c r IH]; simpl; [reflexivity|].
  intros H. apply andb_prop in H as [Hc Hr].
  destruct (isspace c && is_empty (rstrip r)); simpl; [reflexivity|].
  rewrite (IH Hr), andb_true_r.
  destruct (head_rstrip r) as [-> | ->]; [|exact Hc].
  simpl. rewrite andb_false_r. reflexivity.
Qed.

Lemma single_spaced_strip (s : string) :
  single_spaced s = true -> single_spaced (strip s) = true.
Proof. intros H. apply single_spaced_rstrip, single_spaced_lstrip, H. Qed.

(** After [\s{2,}] has been replaced no two whitespace characters are
    adjacent; the output starts with no whitespace when it continues a
    replaced run, or when the input starts with none. *)
Lemma space_runs_spec (s : string) (b : bool) :
  single_spaced (sub_space_runs_from b s) = true
  /\ (b = true \/ blank (head s) = false ->
      blank (head (sub_space_runs_from b s)) = false).
Proof.
  revert b. induction s as [|c r IH]; intros b; [split; reflexivity|].
  cbn [sub_space_runs_from]. destruct (isspace c) eqn:Ec.
  - destruct b.
    + destruct (IH true) as [H1 H2]. split; [exact H1|]. intros _. apply H2. now left.
    + fold (blank (head r)). destruct (blank (head r)) eqn:Er.
      * destruct (IH true) as [H1 H2]. split.
        -- cbn [single_spaced]. fold (blank (head (sub_space_runs_from true r))).
           rewrite H2 by now left. rewrite andb_false_r. exact H1.
        -- intros [H | H]; [discriminate H|]. simpl in H. congruence.
      * destruct (IH false) as [H1 H2]. split.
        -- cbn [single_spaced]. fold (blank (head (sub_space_runs_from false r))).
           rewrite H2 by now right. rewrite andb_false_r. exact H1.
        -- intros [H | H]; [discriminate H|]. simpl in H. congruence.
  - destruct (IH false) as [H1 _]. split.
    + cbn [single_spaced]. rewrite Ec. exact H1.
    + intros _. simpl. exact Ec.
Qed.

Lemma single_spaced_vendor_text (s : string) :
  single_spaced (Main.vendor_text s) = true.
Proof.
  unfold Main.vendor_text, sub_space_runs.
  apply single_spaced_strip, space_runs_spec.
Qed.

Lemma no_separator_number_text (s : string) :
  str_forall (fun c => negb (is_separator c)) (Main.number_text s) = true.
Proof.
  unfold Main.number_text, sub_separators.
  apply str_forall_leading_zeros.
  generalize (lower s). intros t.
  induction t as [|c r IH]; simpl; [reflexivity|].
  destruct (is_separator c) eqn:E; simpl; [exact IH | rewrite E; exact IH].
Qed.

Lemma head_leading_zeros (s : string) :
  head (sub_leading_zeros s) <> Some "0"%char.
Proof.
  induction s as [|c r IH]; simpl; [discriminate|].
  destruct c as [[] [] [] [] [] [] [] []]; try (simpl; discriminate). exact IH.
Qed.

End StripFacts.

(** ** A legal-suffix word after a plain name *)

Section LegalSuffix.
Import Py Re Main.

Lemma letter_facts (c : ascii) :
  is_letter c = true ->
  is_word c = true /\ isspace c = false /\ lower_char c = c.
Proof.
destruct c as [[] [] [] [] [] [] [] []]; intros H; try discriminate H;
  repeat split; reflexivity.
Qed.

Lemma append_assoc_string (s1 s2 s3 : string) :
  (s1 ++ s2) ++ s3 = s1 ++ (s2 ++ s3).
Proof. induction s1 as [|c r IH]; simpl; [reflexivity | rewrite IH; reflexivity]. Qed.

Lemma append_empty_r (s : string) : s ++ "" = s.
Proof. induction s as [|c r IH]; simpl; [reflexivity | rewrite IH; reflexivity]. Qed.

Lemma lower_app (s1 s2 : string) : lower (s1 ++ s2) = lower s1 ++ lower s2.
Proof.
unfold lower. induction s1 as [|c r IH]; simpl; [reflexivity | rewrite IH; reflexivity].
Qed.

Lemma lower_letters (s : string) : str_forall is_letter s = true -> lower s = s.
Proof.
unfold lower. induction s as [|c r IH]; simpl; [reflexivity|].
intros H. apply andb_prop in H as [Hc Hr].
destruct (letter_facts c Hc) as (_ & _ & ->). rewrite (IH Hr). reflexivity.
Qed.

Lemma rstrip_app (s1 s2 : string) :
  rstrip s2 <> EmptyString -> rstrip (s1 ++ s2) = s1 ++ rstrip s2.
Proof.
intros H. induction s1 as [|c r IH]; simpl; [reflexivity|].
rewrite IH. destruct (r ++ rstrip s2) as [|x y] eqn:E.
- destruct r; simpl in E; [contradiction | discriminate E].
- rewrite andb_false_r. reflexivity.
Qed.

Lemma rstrip_letters_blank (s : string) :
  str_forall is_letter s = true -> rstrip (s ++ " ") = s.
Proof.
induction s as [|c r IH]; simpl; [reflexivity|].
intros H. apply andb_prop in H as [Hc Hr]. rewrite (IH Hr).
destruct (letter_facts c Hc) as (_ & -> & _). reflexivity.
Qed.

Lemma lstrip_letter (c : ascii) (r : string) :
  is_letter c = true -> lstrip (String c r) = String c r.
Proof. intros Hc. simpl. destruct (letter_facts c Hc) as (_ & -> & _). reflexivity. Qed.

Lemma space_runs_letters_blank (s : string) :
  str_forall is_letter s = true ->
  sub_space_runs_from false (s ++ " ") = s ++ " ".
Proof.
induction s as [|c r IH]; simpl; [reflexivity|].
intros H. apply andb_prop in H as [Hc Hr].
destruct (letter_facts c Hc) as (_ & -> & _). rewrite (IH Hr). reflexivity.
Qed.

Lemma legal_match_blank (prev : option ascii) (rest : string) :
  legal_match prev (String " " rest) = None.
Proof. unfold legal_match. destruct (boundary _ _); reflexivity. Qed.

(** Inside a name, after a letter, the pattern matches nowhere; after the
    name it takes the word. *)
Lemma sub_legal_after_letter (w : string) (name : string) (c : ascii) :
  In w legal_words ->
  is_letter c = true -> str_forall is_letter name = true ->
  sub_legal_from (Some c) 0 (name ++ String " " w) = name ++ " ".
Proof.
intros Hw Hc. revert c Hc.
induction name as [|c' r IH]; intros c Hc Hn.
- cbn [append sub_legal_from]. rewrite legal_match_blank.
  unfold legal_words in Hw. simpl in Hw.
  repeat (destruct Hw as [<- | Hw]; [reflexivity|]). destruct Hw.
- simpl in Hn. apply andb_prop in Hn as [Hc' Hr].
  destruct (letter_facts c Hc) as (Hword & _ & _).
  destruct (letter_facts c' Hc') as (Hword' & _ & _).
  cbn [append sub_legal_from]. unfold legal_match at 1.
  unfold boundary, from_option, head. rewrite Hword, Hword'. cbn [xorb].
  rewrite (IH c' Hc' Hr). reflexivity.
Qed.

Lemma letter_not_blank (c : ascii) : is_letter c = true -> c <> " "%char.
Proof. intros H ->. discriminate H. Qed.

(** A word of letters at the start of a name followed by a blank is a
    prefix of the name. *)
Lemma starts_with_name (lw name rest : string) :
  str_forall is_letter lw = true -> str_forall is_letter name = true ->
  starts_with lw (name ++ String " " rest) = true ->
  exists tail, name = lw ++ tail.
Proof.
revert name. induction lw as [|c lw' IH]; intros name Hlw Hn Hs.
- exists name. reflexivity.
- simpl in Hlw. apply andb_prop in Hlw as [Hc Hlw'].
  destruct name as [|c1 r]; cbn [append starts_with] in Hs.
  + destruct (ascii_dec c " ") as [-> | _]; [discriminate Hc | discriminate Hs].
  + destruct (ascii_dec c c1) as [<- | _]; [|discriminate Hs].
    simpl in Hn. apply andb_prop in Hn as [_ Hr].
    destruct (IH r Hlw' Hr Hs) as [tail ->]. exists tail. reflexivity.
Qed.

Lemma str_drop_app (s x : string) : str_drop (String.length s) (s ++ x) = x.
Proof. induction s as [|c r IH]; simpl; [destruct x; reflexivity | exact IH]. Qed.

Lemma head_str_drop_last (s x : string) :
  s <> EmptyString ->
  head (str_drop (String.length s - 1) (s ++ x)) = last s.
Proof.
induction s as [|c r IH]; intros Hne; [contradiction|].
destruct r as [|c' r']; [reflexivity|].
replace (String.length (String c (String c' r')) - 1)
  with (S (String.length (String c' r') - 1)) by (simpl; lia).
change (last (String c (String c' r'))) with (last (String c' r')).
cbn [append str_drop]. apply IH. discriminate.
Qed.

Lemma last_letter (s : string) :
  s <> EmptyString -> str_forall is_letter s = true ->
  exists c, last s = Some c /\ is_word c = true.
Proof.
induction s as [|c r IH]; intros Hne Hl; [contradiction|].
simpl in Hl. apply andb_prop in Hl as [Hc Hr].
destruct r as [|c' r'].
- exists c. split; [reflexivity | apply letter_facts, Hc].
- destruct (IH ltac:(discriminate) Hr) as (x & Hx & Hw). exists x. split; [exact Hx | exact Hw].
Qed.

(** A word of letters that matches, with its closing boundary, at the start
    of a name followed by a blank is the whole name. *)
Lemma word_then_boundary_name (lw name rest : string) (n : nat) :
  lw <> EmptyString -> str_forall is_letter lw = true ->
  str_forall is_letter name = true ->
  word_then_boundary lw (name ++ String " " rest) = Some n -> name = lw.
Proof.
intros Hne Hlw Hn. unfold word_then_boundary.
destruct (starts_with lw (name ++ String " " rest)) eqn:Hs; [|discriminate].
destruct (starts_with_name lw name rest Hlw Hn Hs) as [tail ->].
rewrite append_assoc_string.
rewrite head_str_drop_last by exact Hne. rewrite str_drop_app.
destruct (last_letter lw Hne Hlw) as (c & -> & Hw).
destruct tail as [|t ts].
- intros _. apply append_empty_r.
- assert (Ht : is_word t = true).
  { assert (Hall : str_forall is_letter (String t ts) = true).
    { clear - Hn. induction lw as [|x l IH]; [exact Hn|].
      simpl in Hn. apply andb_prop in Hn as [_ Hn]. exact (IH Hn). }
    simpl in Hall. apply andb_prop in Hall as [Ht _]. apply letter_facts, Ht. }
  cbn [append head andb]. unfold boundary, from_option. rewrite Hw, Ht.
  discriminate.
Qed.

Lemma starts_with_co_dot (name rest : string) :
  str_forall is_letter name = true ->
  starts_with "co." (name ++ String " " rest) = false.
Proof.
intros Hn.
destruct name as [|c1 [|c2 [|c3 r]]]; cbn [append starts_with].
- reflexivity.
- destruct (ascii_dec "c" c1); reflexivity.
- destruct (ascii_dec "c" c1); [|reflexivity]. destruct (ascii_dec "o" c2); reflexivity.
- destruct (ascii_dec "c" c1); [|reflexivity].
  destruct (ascii_dec "o" c2); [|reflexivity].
  destruct (ascii_dec "." c3) as [<- | _]; [|reflexivity].
  simpl in Hn. rewrite !andb_false_r in Hn. discriminate Hn.
Qed.

(** At the start of a plain name that is none of the words, followed by a
    blank, the group matches nothing. *)
Lemma legal_suffix_at_name (name rest : string) :
  plain_name name -> ~ In name legal_words ->
  legal_suffix_at (name ++ String " " rest) = None.
Proof.
intros [Hne Hl] Hnot. unfold legal_words in Hnot. simpl in Hnot.
assert (W : forall lw, lw <> EmptyString -> str_forall is_letter lw = true ->
                       name <> lw ->
                       word_then_boundary lw (name ++ String " " rest) = None).
{ intros lw H1 H2 H3.
  destruct (word_then_boundary lw _) as [n|] eqn:E; [|reflexivity].
  exfalso. exact (H3 (word_then_boundary_name lw name rest n H1 H2 Hl E)). }
unfold legal_suffix_at.
rewrite (W "llc"), (W "inc"), (W "corp"), (W "co"), (W "ltd");
  try discriminate; try reflexivity; try (intros ->; tauto).
unfold word_then_boundary. rewrite starts_with_co_dot by exact Hl. reflexivity.
Qed.

Lemma sub_legal_plain_name (name w : string) :
  plain_name name -> ~ In name legal_words -> In w legal_words ->
  sub_legal (name ++ " " ++ w) = name ++ " ".
Proof.
intros Hp Hnot Hw. pose proof Hp as [Hne Hl].
destruct name as [|c r]; [contradiction|].
pose proof Hl as Hl'. simpl in Hl'. apply andb_prop in Hl' as [Hc Hr].
destruct (letter_facts c Hc) as (Hword & _ & _).
unfold sub_legal. cbn [append sub_legal_from]. unfold legal_match.
unfold boundary at 1. unfold from_option, head. rewrite Hword. cbn [xorb].
change (String c (r ++ String " " w)) with (String c r ++ String " " w).
rewrite (legal_suffix_at_name (String c r) w Hp Hnot).
rewrite (sub_legal_after_letter w r c Hw Hc Hr). reflexivity.
Qed.

(** A plain name followed by a blank and one of the words normalizes to the
    name. *)
Lemma norm_vendor_plain_name (name w : string) :
  plain_name name -> ~ In name legal_words -> In w legal_words ->
  _norm_vendor (Val.VStr (name ++ " " ++ w)) = Val.Ok (Some name).
Proof.
intros Hp Hnot Hw. pose proof Hp as [Hne Hl].
assert (Hlw : lower (" " ++ w) = " " ++ w /\ rstrip (" " ++ w) = " " ++ w).
{ unfold legal_words in Hw. simpl in Hw.
  repeat (destruct Hw as [<- | Hw]; [split; reflexivity|]). destruct Hw. }
destruct Hlw as [Hlow Hrs].
assert (Hv : vendor_text (name ++ " " ++ w) = name).
{ unfold vendor_text. rewrite lower_app, (lower_letters name Hl), Hlow.
  unfold strip at 2.
  destruct name as [|c r]; [contradiction|].
  pose proof Hl as Hl'. simpl in Hl'. apply andb_prop in Hl' as [Hc Hr].
  change (String c r ++ " " ++ w) with (String c (r ++ " " ++ w)).
  rewrite (lstrip_letter c _ Hc).
  change (String c (r ++ " " ++ w)) with (String c r ++ " " ++ w).
  rewrite rstrip_app by (rewrite Hrs; discriminate). rewrite Hrs.
  rewrite (sub_legal_plain_name (String c r) w Hp Hnot Hw).
  unfold sub_space_runs. rewrite (space_runs_letters_blank (String c r) Hl).
  unfold strip.
  change (String c r ++ " ") with (String c (r ++ " ")).
  rewrite (lstrip_letter c _ Hc).
  change (String c (r ++ " ")) with (String c r ++ " ").
  apply rstrip_letters_blank, Hl. }
unfold _norm_vendor. fold (vendor_text (name ++ " " ++ w)). rewrite Hv.
destruct name as [|c r]; [contradiction|]. reflexivity.
Qed.

End LegalSuffix.

(** ** Rounding to three places *)

Section RoundFacts.
Import Round.
Local Open Scope Z_scope.

(** [div_half_even n d] is an integer nearest to [n / d], the even one of
    the two when [n / d] lies half way. *)
Lemma div_half_even_nearest (n d : Z) :
  0 < d -> 2 * Z.abs (n - div_half_even n d * d) <= d.
Proof.
intros Hd. unfold div_half_even.
pose proof (Z.div_mod n d ltac:(lia)) as Hdiv.
pose proof (Z.mod_pos_bound n d Hd) as Hmod.
set (q := n / d) in *. set (r := n mod d) in *. clearbody q r.
assert (H0 : n - q * d = r) by (rewrite Hdiv; ring).
assert (H1 : n - (q + 1) * d = r - d) by (rewrite Hdiv; ring).
destruct (2 * r ?= d) eqn:E.
- apply Z.compare_eq in E. destruct (Z.even q); rewrite ?H0, ?H1; lia.
- change (2 * r < d) in E. rewrite H0. lia.
- apply -> Z.compare_gt_iff in E. rewrite H1. lia.
Qed.

Lemma div_half_even_tie (n d : Z) :
  0 < d -> 2 * (n mod d) = d -> Z.even (div_half_even n d) = true.
Proof.
intros Hd Ht. unfold div_half_even. rewrite Ht, Z.compare_refl.
destruct (Z.even (n / d)) eqn:E; [exact E|].
rewrite Z.even_add, E. reflexivity.
Qed.

(** What [round3] returns for a finite float that is no integer: the
    thousandths nearest to its exact value, divided by 1000. *)
Lemma round3_finite (x : float) (s : bool) (m : positive) (e : Z) :
  Prim2SF x = S754_finite s m e -> e < 0 ->
  round3 x
  = (let r := PrimFloat.div (PrimFloat.of_uint63 (Uint63.of_Z (thousandths m e))) 1000 in
     if s then PrimFloat.opp r else r)
  /\ 2 * Z.abs (Z.pos m * 1000 - thousandths m e * 2 ^ (- e)) <= 2 ^ (- e).
Proof.
intros Hx He. unfold round3, thousandths. rewrite Hx.
destruct (Z.leb_spec 0 e) as [H | _]; [lia|].
split; [reflexivity|].
apply div_half_even_nearest. apply Z.pow_pos_nonneg; lia.
Qed.

End RoundFacts.

(** ** Dictionaries *)

Section DictFacts.
Import Val.

Lemma get_set_eq (k : string) (v : value) (d : dict) :
  get k (set k v d) = Some v.
Proof.
  induction d as [|[k' v'] r IH]; simpl.
  - rewrite String.eqb_refl. reflexivity.
  - destruct (String.eqb k k') eqn:E; simpl.
    + rewrite String.eqb_refl. reflexivity.
    + rewrite E. exact IH.
Qed.

Lemma get_set_ne (k k' : string) (v : value) (d : dict) :
  k <> k' -> get k (set k' v d) = get k d.
Proof.
  intros Hne. induction d as [|[k0 v0] r IH]; simpl.
  - destruct (String.eqb_spec k k'); [contradiction | reflexivity].
  - destruct (String.eqb_spec k' k0) as [<- | Hk0]; simpl.
    + destruct (String.eqb_spec k k'); [contradiction | reflexivity].
    + destruct (String.eqb k k0); [reflexivity | exact IH].
Qed.

Lemma get_setdefault_ne (k k' : string) (v : value) (d : dict) :
  k <> k' -> get k (setdefault k' v d) = get k d.
Proof.
  intros Hne. unfold setdefault. destruct (get k' d); [reflexivity|].
  apply get_set_ne, Hne.
Qed.

Lemma get_setdefault_present (k : string) (v x : value) (d : dict) :
  get k d = Some x -> get k (setdefault k v d) = Some x.
Proof. intros H. unfold setdefault. rewrite H. exact H. Qed.

Lemma get_setdefault_absent (k : string) (v : value) (d : dict) :
  get k d = None -> get k (setdefault k v d) = Some v.
Proof. intros H. unfold setdefault. rewrite H. apply get_set_eq. Qed.

Lemma get_or_none_set_ne (k k' : string) (v : value) (d : dict) :
  k <> k' -> get_or_none k (set k' v d) = get_or_none k d.
Proof. intros H. unfold get_or_none. rewrite get_set_ne by exact H. reflexivity. Qed.

End DictFacts.

(** ** The duplicate detector *)

Section DuplicateDetection.
Import Val Main.

Variable sqlite_text : value -> string.
Variable ratio_of_container : string -> value -> float.

Abbreviation detect := (detect_duplicates sqlite_text ratio_of_container).
Abbreviation by_fields := (detect_by_fields sqlite_text ratio_of_container).
Abbreviation same_pair := (same_vendor_and_number sqlite_text).
Abbreviation suspects := (suspects_of sqlite_text ratio_of_container).
Abbreviation upload := (upload_dupcheck sqlite_text ratio_of_container).
Abbreviation suspect := (is_suspect ratio_of_container).
Abbreviation same_vend := (same_vendor sqlite_text).
Abbreviation entry_of := (suspect_entry ratio_of_container).
Abbreviation similar := (_similar ratio_of_container).

Lemma opt_str_eqb_true (o : option string) (s : string) :
  opt_str_eqb o s = true <-> o = Some s.
Proof.
  destruct o as [x|]; simpl; [|split; discriminate].
  rewrite String.eqb_eq. split; [intros -> | intros [= ->]]; reflexivity.
Qed.


Lemma select_document_none (con : connection) (h : string) :
  (forall d, In d (documents con) -> hash_sha256 d <> Some h) ->
  select_document_by_hash con h = None.
Proof.
  intros H. unfold select_document_by_hash.
  destruct (List.find _ (documents con)) as [d'|] eqn:E; [|reflexivity].
  apply find_some in E as [Hin Heq]. apply opt_str_eqb_true in Heq.
  exfalso. exact (H d' Hin Heq).
Qed.

Lemma select_document_none_inv (con : connection) (h : string) :
  select_document_by_hash con h = None ->
  forall d, In d (documents con) -> hash_sha256 d <> Some h.
Proof.
  intros E d Hin Hh. apply (find_none _ _ E) in Hin.
  rewrite Hh in Hin. simpl in Hin. rewrite String.eqb_refl in Hin. discriminate.
Qed.

Lemma find_none_intro {A} (f : A -> bool) (l : list A) :
  (forall x, In x l -> f x = false) -> List.find f l = None.
Proof.
induction l as [|a l IH]; intros H; simpl; [reflexivity|].
rewrite (H a (or_introl eq_refl)). apply IH. intros x Hx. apply H. now right.
Qed.

(** *** The statements over the rows *)

Lemma clause_pair (v n : string) (r : record_row) :
  same_pair v n r
  = if sqlite_json (VDict (rec_fields r))
    then Ok (opt_str_eqb (extracted sqlite_text "vendor_norm" (rec_fields r)) v
             && opt_str_eqb (extracted sqlite_text "invoice_number_norm" (rec_fields r)) n)
    else Raise OperationalError.
Proof.
unfold same_vendor_and_number, lower_json_extract.
destruct (sqlite_json (VDict (rec_fields r))); reflexivity.
Qed.

Lemma clause_vendor (v : string) (r : record_row) :
  same_vend v r
  = if sqlite_json (VDict (rec_fields r))
    then Ok (opt_str_eqb (extracted sqlite_text "vendor_norm" (rec_fields r)) v)
    else Raise OperationalError.
Proof.
unfold same_vendor, lower_json_extract.
destruct (sqlite_json (VDict (rec_fields r))); reflexivity.
Qed.

Lemma readable_pair (con : connection) (v n : string) (r : record_row) :
  readable con -> In r (records con) -> exists b, same_pair v n r = Ok b.
Proof.
intros Hr Hin. rewrite clause_pair.
rewrite (proj1 (List.Forall_forall _ _) Hr r Hin). eauto.
Qed.

Lemma readable_vendor (con : connection) (v : string) (r : record_row) :
  readable con -> In r (records con) -> exists b, same_vend v r = Ok b.
Proof.
intros Hr Hin. rewrite clause_vendor.
rewrite (proj1 (List.Forall_forall _ _) Hr r Hin). eauto.
Qed.

Lemma step_none (clause : record_row -> result bool) (rows : list record_row) :
  step clause rows = Ok None <-> forall r, In r rows -> clause r = Ok false.
Proof.
induction rows as [|r rest IH]; simpl.
- split; [intros _ r [] | reflexivity].
- destruct (clause r) as [[|]|e] eqn:E; simpl.
  + split; [discriminate|]. intros H. specialize (H r (or_introl eq_refl)). congruence.
  + rewrite IH. split.
    * intros H x [<-|Hx]; [exact E | apply H, Hx].
    * intros H x Hx. apply H. now right.
  + split; [discriminate|]. intros H. specialize (H r (or_introl eq_refl)). congruence.
Qed.

Lemma step_some (clause : record_row -> result bool) (rows rest : list record_row)
    (r : record_row) :
  step clause rows = Ok (Some (r, rest)) ->
  exists before, rows = (before ++ r :: rest)%list
                 /\ clause r = Ok true
                 /\ forall x, In x before -> clause x = Ok false.
Proof.
revert rest r. induction rows as [|x xs IH]; intros rest r; simpl; [discriminate|].
destruct (clause x) as [[|]|e] eqn:E; simpl; [| |discriminate].
- intros [= <- <-]. exists []. split; [reflexivity|]. split; [exact E | intros ? []].
- intros H. destruct (IH _ _ H) as (b & -> & Hr & Hb). exists (x :: b).
  split; [reflexivity|]. split; [exact Hr|]. intros y [<-|Hy]; [exact E | apply Hb, Hy].
Qed.

Lemma step_computed (clause : record_row -> result bool) (rows : list record_row) :
  (forall r, In r rows -> exists b, clause r = Ok b) ->
  exists o, step clause rows = Ok o.
Proof.
induction rows as [|r rest IH]; intros H; simpl; [eauto|].
destruct (H r (or_introl eq_refl)) as [b ->]. simpl.
destruct b; [eauto|]. apply IH. intros x Hx. apply H. now right.
Qed.

Lemma fetchone_none (clause : record_row -> result bool) (rows : list record_row) :
  fetchone clause rows = Ok None <-> forall r, In r rows -> clause r = Ok false.
Proof.
unfold fetchone. rewrite <- step_none.
destruct (step clause rows) as [[[r rest]|]|e]; simpl.
- split; [|discriminate]. destruct (step clause rest); discriminate.
- tauto.
- split; discriminate.
Qed.

Lemma fetchone_some (clause : record_row -> result bool) (rows : list record_row)
    (r : record_row) :
  fetchone clause rows = Ok (Some r) ->
  In r rows /\ clause r = Ok true
  /\ List.find (fun x => holds (clause x)) rows = Some r.
Proof.
unfold fetchone. destruct (step clause rows) as [[[r' rest]|]|e] eqn:E; simpl;
  [|discriminate|discriminate].
destruct (step clause rest); simpl; [|discriminate]. intros [= ->].
apply step_some in E as (b & -> & Hr & Hb).
split; [apply in_elt|]. split; [exact Hr|].
induction b as [|x b IH]; simpl.
- rewrite Hr. reflexivity.
- rewrite (Hb x (or_introl eq_refl)). simpl. apply IH. intros y Hy. apply Hb. now right.
Qed.

Lemma fetchone_computed (clause : record_row -> result bool) (rows : list record_row) :
  (forall r, In r rows -> exists b, clause r = Ok b) ->
  fetchone clause rows = Ok (List.find (fun x => holds (clause x)) rows).
Proof.
intros H. unfold fetchone.
destruct (step clause rows) as [[[r rest]|]|e] eqn:E; simpl.
- apply step_some in E as (b & -> & Hr & Hb).
  destruct (step_computed clause rest) as [o ->].
  { intros x Hx. apply H. apply in_or_app. right. now right. }
  simpl. f_equal. symmetry. clear H.
  induction b as [|x b IH]; simpl.
  + rewrite Hr. reflexivity.
  + rewrite (Hb x (or_introl eq_refl)). simpl. apply IH. intros y Hy. apply Hb. now right.
- f_equal. symmetry. apply find_none_intro. intros x Hx.
  rewrite (proj1 (step_none _ _) E x Hx). reflexivity.
- exfalso. destruct (step_computed clause rows H) as [o Ho]. congruence.
Qed.

Lemma fetchall_inv (clause : record_row -> result bool) (rows l : list record_row) :
  fetchall clause rows = Ok l ->
  (forall r, In r rows -> exists b, clause r = Ok b)
  /\ l = List.filter (fun x => holds (clause x)) rows.
Proof.
revert l. induction rows as [|r rest IH]; intros l; simpl.
- intros [= <-]. split; [intros ? [] | reflexivity].
- destruct (clause r) as [b|e] eqn:E; simpl; [|discriminate].
  destruct (fetchall clause rest) as [l'|e]; simpl; [|discriminate].
  intros [= <-]. destruct (IH l' eq_refl) as [H1 ->]. split.
  + intros x [<-|Hx]; [eauto | apply H1, Hx].
  + destruct b; reflexivity.
Qed.

Lemma fetchall_computed (clause : record_row -> result bool) (rows : list record_row) :
  (forall r, In r rows -> exists b, clause r = Ok b) ->
  fetchall clause rows = Ok (List.filter (fun x => holds (clause x)) rows).
Proof.
induction rows as [|r rest IH]; intros H; simpl; [reflexivity|].
destruct (H r (or_introl eq_refl)) as [b ->]. simpl.
rewrite IH by (intros x Hx; apply H; now right). simpl. destruct b; reflexivity.
Qed.

(** The suspects of a vendor, once the statement has run over the table. *)
Lemma suspects_inv (con : connection) (v : string) (invn : option string)
    (total invdate : value) (l : list value) :
  suspects con (Some v) invn total invdate = Ok l ->
  (forall r, In r (records con) -> exists b, same_vend v r = Ok b)
  /\ l = map (suspect_entry ratio_of_container invn)
             (List.filter (fun r => holds (same_vend v r)
                                    && is_suspect ratio_of_container invn total invdate r)
                          (records con)).
Proof.
unfold suspects_of. destruct (fetchall _ _) as [rows|e] eqn:E; simpl; [|discriminate].
intros [= <-]. apply fetchall_inv in E as [H ->]. split; [exact H|].
f_equal. clear H. induction (records con) as [|r rs IH]; simpl; [reflexivity|].
destruct (holds (same_vend v r)); simpl; [|exact IH].
destruct (is_suspect _ _ _ _ r); simpl; [f_equal|]; exact IH.
Qed.

(** What [detect_duplicates] is once the hash is not stored and both
    normalizers returned. *)
Lemma detect_unfold (con : connection) (h : string) (fields : dict)
    (vend invn : option string) :
  select_document_by_hash con h = None ->
  _norm_vendor (get_or_none "vendor" fields) = Ok vend ->
  _norm_invoice_no (get_or_none "invoice_number" fields) = Ok invn ->
  detect con h fields =
    by_fields con vend invn (get_or_none "total" fields)
              (get_or_none "invoice_date" fields).
Proof.
  intros Hs Hv Hn. unfold detect_duplicates. rewrite Hs, Hv. simpl. rewrite Hn.
  reflexivity.
Qed.

Lemma detect_inv (con : connection) (h : string) (fields : dict) (d : dict) :
  detect con h fields = Ok (Some d) ->
  (exists row, select_document_by_hash con h = Some row
               /\ d = exact_verdict (doc_id row))
  \/ (select_document_by_hash con h = None
      /\ exists vend invn,
           _norm_vendor (get_or_none "vendor" fields) = Ok vend
           /\ _norm_invoice_no (get_or_none "invoice_number" fields) = Ok invn
           /\ by_fields con vend invn (get_or_none "total" fields)
                        (get_or_none "invoice_date" fields) = Ok (Some d)).
Proof.
  unfold detect_duplicates.
  destruct (select_document_by_hash con h) as [row|] eqn:Es.
  - intros [= <-]. left. eauto.
  - destruct (_norm_vendor (get_or_none "vendor" fields)) as [vend|] eqn:Ev;
      simpl; [|discriminate].
    destruct (_norm_invoice_no (get_or_none "invoice_number" fields)) as [invn|] eqn:En;
      simpl; [|discriminate].
    intros H. right. split; [reflexivity|]. exists vend, invn. auto.
Qed.

(** The verdict of the second and third tier, by case. *)
Lemma by_fields_inv (con : connection) (vend invn : option string)
    (total invdate : value) (o : option dict) :
  by_fields con vend invn total invdate = Ok o ->
  (exists v n r, vend = Some v /\ invn = Some n
                 /\ fetchone (same_pair v n) (records con) = Ok (Some r)
                 /\ o = Some (likely_verdict (rec_id r)))
  \/ ((forall v n x, vend = Some v -> invn = Some n -> In x (records con) ->
                     same_pair v n x = Ok false)
      /\ exists l, suspects con vend invn total invdate = Ok l
                   /\ o = match l with [] => None | _ => Some (possible_verdict l) end).
Proof.
unfold detect_by_fields.
destruct vend as [v|]; [destruct invn as [n|]|].
- destruct (fetchone (same_pair v n) (records con)) as [[r|]|e] eqn:E; cbn [bind];
    [|  |discriminate].
  + intros [= <-]. left. exists v, n, r. auto.
  + destruct (suspects con (Some v) (Some n) total invdate) as [l|e]; cbn [bind];
      [|discriminate].
    intros [= <-]. right. split; [|eauto].
    intros v' n' x [= <-] [= <-]. apply (proj1 (fetchone_none _ _) E).
- cbn [bind]. destruct (suspects con (Some v) None total invdate) as [l|e]; cbn [bind];
    [|discriminate].
  intros [= <-]. right. split; [discriminate | eauto].
- cbn [bind suspects_of]. intros [= <-]. right. split; [discriminate|]. exists []. auto.
Qed.

Lemma by_fields_unmatched (con : connection) (vend invn : option string)
    (total invdate : value) :
  (forall v n x, vend = Some v -> invn = Some n -> In x (records con) ->
                 same_pair v n x = Ok false) ->
  by_fields con vend invn total invdate
  = let* l := suspects con vend invn total invdate in
    Ok (match l with [] => None | _ => Some (possible_verdict l) end).
Proof.
intros H. unfold detect_by_fields.
replace (match vend with
         | Some v => match invn with
                     | Some n => fetchone (same_pair v n) (records con)
                     | None => Ok None
                     end
         | None => Ok None
         end) with (@Ok (option record_row) None); [reflexivity|].
destruct vend as [v|]; [|reflexivity]. destruct invn as [n|]; [|reflexivity].
symmetry. apply fetchone_none. intros x Hx. exact (H v n x eq_refl eq_refl Hx).
Qed.

Lemma stored_pair_matches (x y : value) (v n : string) (r : record_row) :
  _norm_vendor x = Ok (Some v) -> _norm_invoice_no y = Ok (Some n) ->
  Py.until_nul v = v -> Py.until_nul n = n ->
  sqlite_json (VDict (rec_fields r)) = true ->
  get "vendor_norm" (rec_fields r) = Some (VStr v) ->
  get "invoice_number_norm" (rec_fields r) = Some (VStr n) ->
  same_pair v n r = Ok true.
Proof.
  intros Hv Hn Cv Cn Hr Gv Gn. rewrite clause_pair, Hr. unfold extracted.
  rewrite Gv, Gn, Cv, Cn.
  rewrite (norm_vendor_sqlite_lower _ _ Hv), (norm_invoice_no_sqlite_lower _ _ Hn).
  simpl. rewrite !String.eqb_refl. reflexivity.
Qed.


Lemma filter_nil_intro {A} (f : A -> bool) (l : list A) :
  (forall x, In x l -> f x = false) -> List.filter f l = [].
Proof.
induction l as [|a l IH]; intros H; simpl; [reflexivity|].
rewrite (H a (or_introl eq_refl)). apply IH. intros x Hx. apply H. now right.
Qed.

Lemma suspects_computed (con : connection) (v : string) (invn : option string)
    (total invdate : value) :
  (forall r, In r (records con) -> exists b, same_vend v r = Ok b) ->
  suspects con (Some v) invn total invdate
  = Ok (map (entry_of invn)
            (List.filter (fun r => holds (same_vend v r)
                                   && suspect invn total invdate r)
                         (records con))).
Proof.
intros H. unfold suspects_of. rewrite (fetchall_computed _ _ H). cbn [bind].
do 2 f_equal. clear H. induction (records con) as [|r rs IH]; simpl; [reflexivity|].
destruct (holds (same_vend v r)); simpl; [|exact IH].
destruct (is_suspect _ _ _ _ r); simpl; [f_equal|]; exact IH.
Qed.

Lemma by_fields_none (con : connection) (vend invn : option string)
    (total invdate : value) :
  (forall v n r, vend = Some v -> invn = Some n -> In r (records con) ->
                 same_pair v n r = Ok false) ->
  (forall v r, vend = Some v -> In r (records con) ->
               exists b, same_vend v r = Ok b
                         /\ (b = true -> suspect invn total invdate r = false)) ->
  by_fields con vend invn total invdate = Ok None.
Proof.
intros Hl Hp. rewrite (by_fields_unmatched con vend invn total invdate Hl).
destruct vend as [v|]; [|reflexivity].
rewrite suspects_computed.
- rewrite filter_nil_intro; [reflexivity|].
  intros x Hx. destruct (Hp v x eq_refl Hx) as (b & -> & Hb). simpl.
  destruct b; [apply Hb; reflexivity | reflexivity].
- intros x Hx. destruct (Hp v x eq_refl Hx) as (b & Hb & _). eauto.
Qed.

(** C2 (as amended). When no tier matches - the hash is stored for no
    document, the statements read every row, no record has the normalized
    vendor and number, no record of the vendor is a suspect - the
    detector returns [None] (there is no verdict object, and no certainty
    ["none"]), and [upload_dupcheck] answers normally, with no notice and
    no suspect, proposing the record. *)
Theorem no_match_returns_None (con : connection) (file_hash filename : string)
    (fields : dict) (vend invn : option string) :
  (forall d, In d (documents con) -> hash_sha256 d <> Some file_hash) ->
  _norm_vendor (get_or_none "vendor" fields) = Ok vend ->
  _norm_invoice_no (get_or_none "invoice_number" fields) = Ok invn ->
  (forall v n r, vend = Some v -> invn = Some n -> In r (records con) ->
                 same_pair v n r = Ok false) ->
  (forall v r, vend = Some v -> In r (records con) ->
               exists b, same_vend v r = Ok b
                         /\ (b = true ->
                             suspect invn (get_or_none "total" fields)
                                     (get_or_none "invoice_date" fields) r = false)) ->
  detect con file_hash fields = Ok None
  /\ upload con file_hash filename (VDict fields)
     = Ok {| notice := None;
             duplicate_suspect := None;
             proposed_hash := file_hash;
             proposed_filename := filename;
             proposed_fields :=
               set "invoice_number_norm" (value_of_norm invn)
                   (set "vendor_norm" (value_of_norm vend) fields) |}.
Proof.
intros Hh Hv Hn Hl Hp.
pose proof (select_document_none con file_hash Hh) as Es.
split.
- rewrite (detect_unfold con file_hash fields vend invn Es Hv Hn).
  apply by_fields_none; [exact Hl | exact Hp].
- unfold upload_dupcheck. rewrite Hv. cbn [bind].
  rewrite get_or_none_set_ne by discriminate. rewrite Hn. cbn [bind].
  set (fields2 := set "invoice_number_norm" _ _).
  assert (G : forall k, k <> "vendor_norm" -> k <> "invoice_number_norm" ->
                        get_or_none k fields2 = get_or_none k fields).
  { intros k H1 H2. unfold fields2.
    rewrite get_or_none_set_ne by exact H2. apply get_or_none_set_ne, H1. }
  rewrite (detect_unfold con file_hash fields2 vend invn Es).
  + rewrite !G by discriminate.
    rewrite by_fields_none; [reflexivity | exact Hl | exact Hp].
  + rewrite G by discriminate. exact Hv.
  + rewrite G by discriminate. exact Hn.
Qed.

(** C3 (as amended). A [possible] verdict lists at most five matches: the
    first five suspects in the order of the table - the records of the
    normalized vendor that pass the test of the loop - whatever their
    scores, each with its score rounded by [round(score, 3)]. *)
Theorem possible_matches_first_five (con : connection) (file_hash : string)
    (fields : dict) (d : dict) :
  detect con file_hash fields = Ok (Some d) ->
  get "certainty" d = Some (VStr "possible") ->
  exists v invn,
    _norm_vendor (get_or_none "vendor" fields) = Ok (Some v)
    /\ _norm_invoice_no (get_or_none "invoice_number" fields) = Ok invn
    /\ (forall r, In r (records con) -> exists b, same_vend v r = Ok b)
    /\ let qualifying :=
         List.filter (fun r => holds (same_vend v r)
                               && suspect invn (get_or_none "total" fields)
                                          (get_or_none "invoice_date" fields) r)
                     (records con) in
       get "matches" d
       = Some (VList (map (fun r =>
                 VDict [("type", VStr "record"); ("id", VStr (rec_id r));
                        ("similarity",
                         VFloat (Round.round3
                                   (similar invn (get_or_none "invoice_number_norm"
                                                              (rec_fields r)))))])
               (firstn 5 qualifying)))
       /\ length (firstn 5 qualifying) <= 5
       /\ qualifying <> [].
Proof.
intros Hd Hc.
apply detect_inv in Hd as [(row & _ & ->) | (Es & vend & invn & Hv & Hn & Hb)];
  [discriminate Hc|].
apply by_fields_inv in Hb
  as [(v & n & r & _ & _ & _ & [= ->]) | (_ & l & Hs & Hd)];
  [discriminate Hc|].
destruct vend as [v|]; [|injection Hs as <-; discriminate Hd].
exists v, invn. split; [exact Hv|]. split; [exact Hn|].
apply suspects_inv in Hs as [Hread ->]. split; [exact Hread|]. cbv zeta.
set (q := List.filter _ (records con)) in *.
destruct (map (entry_of invn) q) as [|e l] eqn:Em; [discriminate Hd|].
injection Hd as ->. rewrite <- Em.
split; [|split].
- cbn [possible_verdict get String.eqb Ascii.eqb Bool.eqb]. rewrite firstn_map. reflexivity.
- apply firstn_le_length.
- intros E. rewrite E in Em. discriminate Em.
Qed.

(** C4 (as amended). [_norm_invoice_no] lower-cases, removes whitespace,
    [-], [_], [/] and [.], and removes the zeros the text starts with;
    [_norm_vendor] lower-cases, removes the words llc, inc, corp, ltd (and
    co) - after a plain name the word and the blank before it go -,
    replaces runs of whitespace by one space and trims. A prefix of
    letters is kept: "INV-1024" and "INV-01024" become "inv1024" and
    "inv01024", the ratio of the two is 14/15, which is at least 0.90, and
    against a record of "Acme Corp" with "INV-1024" the verdict for "Acme"
    with "INV-01024" is [possible], with similarity 0.933. *)
Theorem normalizers_and_acme_scenario :
  (forall s r, _norm_invoice_no (VStr s) = Ok (Some r) ->
     r = number_text s /\ Py.lowered r
     /\ Py.str_forall (fun c => negb (Re.is_separator c)) r = true
     /\ Py.head r <> Some "0"%char)
  /\ (forall s r, _norm_vendor (VStr s) = Ok (Some r) ->
        r = vendor_text s /\ Py.lowered r /\ Py.single_spaced r = true
        /\ Py.blank (Py.head r) = false /\ Py.blank (Py.last r) = false)
  /\ (forall name w, plain_name name -> ~ In name legal_words -> In w legal_words ->
        _norm_vendor (VStr (name ++ " " ++ w)) = Ok (Some name))
  /\ Forall (fun w => _norm_vendor (VStr ("Acme " ++ w)) = Ok (Some "acme"))
            ["LLC"; "Inc"; "Corp"; "Ltd"; "Co"]
  /\ _norm_vendor (VStr "Acme Corp") = Ok (Some "acme")
  /\ _norm_vendor (VStr "Acme") = Ok (Some "acme")
  /\ _norm_invoice_no (VStr "INV-1024") = Ok (Some "inv1024")
  /\ _norm_invoice_no (VStr "INV-01024") = Ok (Some "inv01024")
  /\ similar (Some "inv01024") (VStr "inv1024") = PrimFloat.div 14 15
  /\ PrimFloat.leb 0.9 (similar (Some "inv01024") (VStr "inv1024")) = true
  /\ detect Examples.store_acme "H2"
            [("vendor", VStr "Acme"); ("invoice_number", VStr "INV-01024")]
     = Ok (Some (possible_verdict
                   [VDict [("type", VStr "record"); ("id", VStr "rec_1");
                           ("similarity", VFloat 0.933)]])).
Proof.
split; [|split; [|split; [|split]]].
- intros s r H. apply norm_invoice_no_text in H as (s' & [= <-] & -> & _).
  split; [reflexivity|]. split; [apply lowered_number_text|].
  split; [apply no_separator_number_text | apply head_leading_zeros].
- intros s r H. apply norm_vendor_text in H as (s' & [= <-] & -> & _).
  split; [reflexivity|]. split; [apply lowered_vendor_text|].
  split; [apply single_spaced_vendor_text|].
  split; [apply head_strip | apply last_strip].
- intros name w. apply norm_vendor_plain_name.
- repeat constructor.
- repeat split; vm_compute; reflexivity.
Qed.

(** C10. Neither normalizer returns the empty string. A value that is
    [None], empty or otherwise false, and a string whose normalized text is
    empty (only legal-suffix words; only separators and zeros), give [None].
    With a normalized vendor of [None] the detector returns a verdict only
    for a stored hash, and that verdict is [exact]; when the hash is not
    stored it returns [None] whatever the records are. *)
Theorem normalizers_never_empty :
  (forall x, _norm_vendor x <> Ok (Some EmptyString)
             /\ _norm_invoice_no x <> Ok (Some EmptyString))
  /\ (forall x, truthy x = false ->
                _norm_vendor x = Ok None /\ _norm_invoice_no x = Ok None)
  /\ (forall s, vendor_text s = EmptyString -> _norm_vendor (VStr s) = Ok None)
  /\ (forall s, number_text s = EmptyString -> _norm_invoice_no (VStr s) = Ok None)
  /\ Forall (fun w => _norm_vendor (VStr w) = Ok None)
            ["LLC"; "Inc"; "Corp"; "Ltd"; "co"; "Corp Inc"; "  "]
  /\ Forall (fun w => _norm_invoice_no (VStr w) = Ok None)
            ["000"; "-0 0_/."; "0.0"; "--"]
  /\ (forall con file_hash fields d,
        _norm_vendor (get_or_none "vendor" fields) = Ok None ->
        detect con file_hash fields = Ok (Some d) ->
        exists row, In row (documents con) /\ hash_sha256 row = Some file_hash
                    /\ d = exact_verdict (doc_id row))
  /\ (forall con file_hash fields invn,
        _norm_vendor (get_or_none "vendor" fields) = Ok None ->
        _norm_invoice_no (get_or_none "invoice_number" fields) = Ok invn ->
        (forall d, In d (documents con) -> hash_sha256 d <> Some file_hash) ->
        detect con file_hash fields = Ok None).
Proof.
split; [|split; [|split; [|split; [|split; [|split; [|split]]]]]].
- intros x. split; intros H.
  + apply norm_vendor_text in H as (_ & _ & _ & Hne). now apply Hne.
  + apply norm_invoice_no_text in H as (_ & _ & _ & Hne). now apply Hne.
- intros x Hx. unfold _norm_vendor, _norm_invoice_no. rewrite Hx. split; reflexivity.
- intros s H. unfold _norm_vendor. destruct (negb (truthy (VStr s))); [reflexivity|].
  fold (vendor_text s). rewrite H. reflexivity.
- intros s H. unfold _norm_invoice_no. destruct (negb (truthy (VStr s))); [reflexivity|].
  fold (number_text s). rewrite H. reflexivity.
- repeat constructor.
- repeat constructor.
- intros con h fields d Hv Hd.
  apply detect_inv in Hd as [(row & Es & ->) | (_ & vend & invn & Hv' & _ & Hb)].
  + exists row. apply find_some in Es as [Hin Heq]. apply opt_str_eqb_true in Heq.
    split; [exact Hin|]. split; [exact Heq | reflexivity].
  + rewrite Hv in Hv'. injection Hv' as <-. discriminate Hb.
- intros con h fields invn Hv Hn Hh.
  rewrite (detect_unfold con h fields None invn (select_document_none _ _ Hh) Hv Hn).
  reflexivity.
Qed.

End DuplicateDetection.

(** ** The matching blocks of [difflib] *)

Section DifflibFacts.
Import Difflib.
Local Open Scope nat_scope.

Variable a b : list ascii.

Lemma inner_within (alo ahi i blo bhi : nat) (j2len : list (nat * nat))
    (js : list nat) (newj2len : list (nat * nat)) (bst : best) :
  alo <= i -> i < ahi ->
  lengths_below (i - alo) j2len -> lengths_below (i + 1 - alo) newj2len ->
  within alo ahi bst ->
  lengths_below (i + 1 - alo) (fst (inner i blo bhi j2len js newj2len bst))
  /\ within alo ahi (snd (inner i blo bhi j2len js newj2len bst)).
Proof.
intros Hlo Hhi Hold. revert newj2len bst.
induction js as [|j js IH]; intros newj2len bst Hnew Hb; simpl; [easy|].
destruct (j <? blo); [apply IH; assumption|].
destruct (bhi <=? j); [easy|].
destruct bst as [[besti bestj] bestsize].
set (k := match j with O => 0 | S j' => j2len_get j' j2len end + 1).
assert (Hk : k <= i + 1 - alo).
{ unfold k. destruct j as [|j']; [lia|]. specialize (Hold j'). lia. }
apply IH.
- intros j0. simpl. destruct (j0 =? j); [exact Hk | apply Hnew].
- destruct (bestsize <? k); [|exact Hb]. simpl. lia.
Qed.

Lemma outer_within (n alo ahi i blo bhi : nat) (j2len : list (nat * nat))
    (bst : best) :
  alo <= i -> i + n <= ahi ->
  lengths_below (i - alo) j2len -> within alo ahi bst ->
  within alo ahi (outer a b n i blo bhi j2len bst).
Proof.
revert i j2len bst. induction n as [|n IH]; intros i j2len bst Hlo Hhi Hold Hb;
  simpl; [exact Hb|].
set (js := match nth_error a i with Some c => b2j b c | None => [] end).
destruct (inner_within alo ahi i blo bhi j2len js [] bst) as [H1 H2];
  try assumption; try lia.
{ intros j. simpl. lia. }
destruct (inner i blo bhi j2len js [] bst) as [newj2len bst'].
apply IH; try lia; [|exact H2].
replace (S i - alo) with (i + 1 - alo) by lia. exact H1.
Qed.

Lemma extend_left_within (fuel alo ahi blo : nat) (bst : best) :
  within alo ahi bst -> within alo ahi (extend_left a b fuel alo blo bst).
Proof.
revert bst. induction fuel as [|fuel IH]; intros [[besti bestj] bestsize] Hb;
  simpl; [exact Hb|].
destruct ((alo <? besti) && (blo <? bestj) && same_at a b (besti - 1) (bestj - 1))
  eqn:E; [|exact Hb].
apply IH. apply andb_prop in E as [E _]. apply andb_prop in E as [E _].
apply Nat.ltb_lt in E. simpl in *. lia.
Qed.

Lemma extend_right_within (fuel alo ahi bhi : nat) (bst : best) :
  within alo ahi bst -> within alo ahi (extend_right a b fuel ahi bhi bst).
Proof.
revert bst. induction fuel as [|fuel IH]; intros [[besti bestj] bestsize] Hb;
  simpl; [exact Hb|].
destruct ((besti + bestsize <? ahi) && (bestj + bestsize <? bhi)
          && same_at a b (besti + bestsize) (bestj + bestsize)) eqn:E; [|exact Hb].
apply IH. apply andb_prop in E as [E _]. apply andb_prop in E as [E _].
apply Nat.ltb_lt in E. simpl in *. lia.
Qed.

Lemma find_longest_match_within (alo ahi blo bhi : nat) :
  alo <= ahi -> within alo ahi (find_longest_match a b alo ahi blo bhi).
Proof.
intros H. unfold find_longest_match.
apply extend_right_within, extend_left_within, outer_within; try lia.
- intros j. simpl. lia.
- simpl. lia.
Qed.

(** The count of matching characters does not depend on the fuel once it
    exceeds the length of the window of [a]. *)
Lemma matches_in_fuel (fuel alo ahi blo bhi : nat) :
  alo <= ahi -> ahi - alo < fuel ->
  matches_in a b fuel alo ahi blo bhi
  = matches_in a b (S (ahi - alo)) alo ahi blo bhi.
Proof.
revert alo ahi blo bhi.
induction fuel as [fuel IH] using lt_wf_ind. intros alo ahi blo bhi Hle Hf.
destruct fuel as [|f]; [lia|].
cbn [matches_in].
pose proof (find_longest_match_within alo ahi blo bhi Hle) as Hw.
destruct (find_longest_match a b alo ahi blo bhi) as [[i j] k].
simpl in Hw. destruct k as [|k']; [reflexivity|].
assert (L : forall blo' bhi',
          matches_in a b f alo i blo' bhi'
          = matches_in a b (ahi - alo) alo i blo' bhi').
{ intros blo' bhi'.
  rewrite (IH f) by lia. rewrite (IH (ahi - alo)) by lia. reflexivity. }
assert (R : forall blo' bhi',
          matches_in a b f (i + S k') ahi blo' bhi'
          = matches_in a b (ahi - alo) (i + S k') ahi blo' bhi').
{ intros blo' bhi'.
  rewrite (IH f) by lia. rewrite (IH (ahi - alo)) by lia. reflexivity. }
rewrite L, R. reflexivity.
Qed.

Lemma matches_fuel (fuel : nat) :
  length a < fuel ->
  matches_in a b fuel 0 (length a) 0 (length b) = matches a b.
Proof.
intros H. unfold matches. rewrite matches_in_fuel by lia.
rewrite (matches_in_fuel (S (length a))) by lia. reflexivity.
Qed.

End DifflibFacts.

(** *** The duplicate detector on the example stores *)

Section DuplicateDetectionExamples.
Import Val Main.

Abbreviation detect_ex :=
  (detect_duplicates Examples.sqlite_text Examples.ratio_of_container).



Lemma no_match_returns_None_witness :
  detect_ex Examples.store_1 "H2" [("vendor", VStr "Other")] = Ok None
  /\ upload_dupcheck Examples.sqlite_text Examples.ratio_of_container
       Examples.store_1 "H2" "scan.pdf" (VDict [("vendor", VStr "Other")])
     = Ok {| notice := None;
             duplicate_suspect := None;
             proposed_hash := "H2";
             proposed_filename := "scan.pdf";
             proposed_fields := [("vendor", VStr "Other"); ("vendor_norm", VStr "other");
                                 ("invoice_number_norm", VNone)] |}.
Proof.
apply (no_match_returns_None Examples.sqlite_text Examples.ratio_of_container
         Examples.store_1 "H2" "scan.pdf" [("vendor", VStr "Other")]
         (Some "other") None).
- intros d [<- | []]; discriminate.
- reflexivity.
- reflexivity.
- intros v n r _ Hn. discriminate Hn.
- intros v r [= <-] [<- | []]. exists false. split; [reflexivity | discriminate].
Defined.

(** The claim C2 as stated fails: what is returned is no verdict, so it has
    no certainty ["none"]. *)
Lemma no_match_is_not_a_verdict :
  ~ exists d, detect_ex Examples.store_1 "H2" [("vendor", VStr "Other")] = Ok (Some d)
              /\ get "certainty" d = Some (VStr "none").
Proof. intros (d & H & _). vm_compute in H. discriminate H. Qed.

Lemma possible_matches_first_five_witness :
  exists l, get "matches"
              (possible_verdict
                 (map (suspect_entry Examples.ratio_of_container Examples.number_six)
                      (records Examples.store_six)))
            = Some (VList l)
            /\ length l <= 5.
Proof.
destruct (possible_matches_first_five Examples.sqlite_text Examples.ratio_of_container
            Examples.store_six "H" Examples.fields_six
            (possible_verdict
               (map (suspect_entry Examples.ratio_of_container Examples.number_six)
                    (records Examples.store_six)))
            eq_refl eq_refl) as (v & invn & _ & _ & _ & Hm & Hlen & _).
eexists. split; [exact Hm|]. rewrite length_map. exact Hlen.
Defined.

(** The claim C3 as stated fails: of six suspects the first five are
    listed, and the sixth, left out, has a higher score than each of them. *)
Lemma sixth_suspect_left_out :
  detect_ex Examples.store_six "H" Examples.fields_six
  = Ok (Some (possible_verdict
                (map (fun id => VDict [("type", VStr "record"); ("id", VStr id);
                                       ("similarity", VFloat 0.9)])
                     ["rec_1"; "rec_2"; "rec_3"; "rec_4"; "rec_5"])))
  /\ same_vendor Examples.sqlite_text "acme"
       (Examples.record "rec_6" "acme" "20240001000") = Ok true
  /\ is_suspect Examples.ratio_of_container Examples.number_six VNone VNone
       (Examples.record "rec_6" "acme" "20240001000") = true
  /\ Round.round3 (score_of Examples.ratio_of_container Examples.number_six
                     (Examples.record "rec_6" "acme" "20240001000")) = 0.952%float
  /\ Forall (fun r => PrimFloat.ltb
                        (score_of Examples.ratio_of_container Examples.number_six r)
                        (score_of Examples.ratio_of_container Examples.number_six
                           (Examples.record "rec_6" "acme" "20240001000")) = true)
            (firstn 5 (records Examples.store_six)).
Proof.
split; [vm_compute; reflexivity|].
split; [vm_compute; reflexivity|].
split; [vm_compute; reflexivity|].
split; [vm_compute; reflexivity|].
repeat (constructor; [vm_compute; reflexivity|]). constructor.
Qed.

Lemma normalizers_and_acme_scenario_witness :
  Py.lowered "inv1024" /\ Py.head "inv1024" <> Some "0"%char
  /\ Py.single_spaced "acme" = true
  /\ _norm_vendor (VStr "acme ltd") = Ok (Some "acme").
Proof.
destruct (normalizers_and_acme_scenario Examples.sqlite_text Examples.ratio_of_container)
  as (Hn & Hv & Hw & _).
destruct (Hn "INV-1024" "inv1024" eq_refl) as (_ & Hlow & _ & Hhead).
destruct (Hv "Acme Corp" "acme" eq_refl) as (_ & _ & Hsp & _).
split; [exact Hlow|]. split; [exact Hhead|]. split; [exact Hsp|].
apply (Hw "acme" "ltd").
- split; [discriminate | reflexivity].
- intros H. repeat (destruct H as [H | H]; [discriminate H|]). exact H.
- right. right. right. right. now left.
Defined.

(** The claim C4 as stated fails: neither number normalizes to "1024", the
    two normalized numbers differ, and their ratio is not 1.0. *)
Lemma invoice_prefix_is_kept :
  _norm_invoice_no (VStr "INV-1024") <> Ok (Some "1024")
  /\ _norm_invoice_no (VStr "INV-01024") <> Ok (Some "1024")
  /\ _norm_invoice_no (VStr "INV-1024") <> _norm_invoice_no (VStr "INV-01024")
  /\ PrimFloat.eqb (_similar Examples.ratio_of_container (Some "inv01024") (VStr "inv1024")) 1
     = false.
Proof.
split; [vm_compute; discriminate|].
split; [vm_compute; discriminate|].
split; [vm_compute; discriminate|].
vm_compute; reflexivity.
Qed.

Lemma normalizers_never_empty_witness :
  _norm_vendor (VStr "LLC") = Ok None
  /\ _norm_invoice_no (VStr "-000") = Ok None
  /\ detect_ex Examples.store_1 "H2" [("vendor", VStr "LLC")] = Ok None.
Proof.
destruct (normalizers_never_empty Examples.sqlite_text Examples.ratio_of_container)
  as (_ & _ & Hv & Hn & _ & _ & _ & Hd).
split; [apply Hv; reflexivity|]. split; [apply Hn; reflexivity|].
apply (Hd Examples.store_1 "H2" [("vendor", VStr "LLC")] None); try reflexivity.
intros d [<- | []]; discriminate.
Defined.

End DuplicateDetectionExamples.

(** ** The field normalizer *)

Section NormalizerFacts.
Import Val Models Normalizer.

Variable S : schema.

Lemma first_parse_none (fmts : list (list Strptime.directive)) (s : string) :
  first_parse fmts s = None <-> forall fmt, In fmt fmts -> Strptime.strptime fmt s = None.
Proof.
induction fmts as [|f r IH]; simpl.
- split; [intros _ fmt [] | reflexivity].
- destruct (Strptime.strptime f s) as [d|] eqn:E.
  + split; [discriminate|]. intros H. rewrite (H f) in E by now left. discriminate E.
  + rewrite IH. split.
    * intros H fmt [<- | Hin]; [exact E | exact (H fmt Hin)].
    * intros H fmt Hin. apply H. now right.
Qed.

(** The first format of the list that parses decides. *)
Lemma first_parse_some (fmts : list (list Strptime.directive)) (s : string) (d : date) :
  first_parse fmts s = Some d <->
  exists before fmt after,
    fmts = (before ++ fmt :: after)%list
    /\ (forall f, In f before -> Strptime.strptime f s = None)
    /\ Strptime.strptime fmt s = Some d.
Proof.
induction fmts as [|f r IH]; simpl.
- split; [discriminate|]. intros (b & fmt & a & H & _). destruct b; discriminate H.
- destruct (Strptime.strptime f s) as [d'|] eqn:E.
  + split.
    * intros [= <-]. exists [], f, r. split; [reflexivity|]. split; [intros ? []|exact E].
    * intros ([|f' b] & fmt & a & H & Hb & Hf); simpl in H; injection H as <- ->.
      -- congruence.
      -- rewrite (Hb f) in E by now left. discriminate E.
  + rewrite IH. split.
    * intros (b & fmt & a & -> & Hb & Hf). exists (f :: b), fmt, a.
      split; [reflexivity|]. split; [|exact Hf].
      intros f' [<- | Hin]; [exact E | exact (Hb f' Hin)].
    * intros ([|f' b] & fmt & a & H & Hb & Hf); simpl in H; injection H as <- ->.
      -- congruence.
      -- exists b, fmt, a. split; [reflexivity|]. split; [|exact Hf].
         intros f' Hin. apply Hb. now right.
Qed.

Lemma get_parse_date_field_ne (k k' : string) (d : dict) :
  k <> k' -> get k (parse_date_field k' d) = get k d.
Proof.
intros Hne. unfold parse_date_field.
destruct (get k' d) as [[]|]; try reflexivity.
destruct (negb _); [|reflexivity].
destruct (first_parse _ _); [|reflexivity].
apply get_set_ne, Hne.
Qed.

Lemma get_parse_date_field_str (k : string) (d : dict) (v : string) :
  get k d = Some (VStr v) -> get k (parse_date_field k d) = Some (parsed v).
Proof.
intros H. unfold parse_date_field, parsed. rewrite H.
destruct (negb _); [|exact H].
destruct (first_parse _ _); [apply get_set_eq | exact H].
Qed.

Lemma get_parse_dates_other (k : string) (d : dict) :
  k <> "invoice_date" -> k <> "due_date" -> get k (parse_dates d) = get k d.
Proof.
intros H1 H2. unfold parse_dates.
rewrite get_parse_date_field_ne by exact H2. apply get_parse_date_field_ne, H1.
Qed.

Lemma get_parse_dates_invoice_date (d : dict) (v : string) :
  get "invoice_date" d = Some (VStr v) ->
  get "invoice_date" (parse_dates d) = Some (parsed v).
Proof.
intros H. unfold parse_dates. rewrite get_parse_date_field_ne by discriminate.
apply get_parse_date_field_str, H.
Qed.

Lemma get_parse_dates_due_date (d : dict) (v : string) :
  get "due_date" d = Some (VStr v) ->
  get "due_date" (parse_dates d) = Some (parsed v).
Proof.
intros H. unfold parse_dates. apply get_parse_date_field_str.
rewrite get_parse_date_field_ne by discriminate. exact H.
Qed.

(** The dictionary handed to [InvoiceFields]. *)
Lemma normalize_invoice_inv (fields : dict) (fallback_id : string) (n : dict) :
  _normalize_invoice_fields S fields fallback_id = Ok n ->
  exists items m,
    InvoiceFields_init S
      (parse_dates (set "line_items" (VList (map VLineItem items))
                        (invoice_defaults fields fallback_id))) = Ok m
    /\ n = invoice_output items m.
Proof.
unfold _normalize_invoice_fields. fold (invoice_defaults fields fallback_id).
destruct (match get "line_items" (invoice_defaults fields fallback_id) with
          | Some v => iterate v
          | None => Ok []
          end) as [line_items|]; cbn [bind]; [|discriminate].
destruct (mapM (item_init S) line_items) as [items|]; cbn [bind]; [|discriminate].
destruct (InvoiceFields_init S _) as [m|] eqn:Em; cbn [bind]; [|discriminate].
intros [= <-]. exists items, m. split; [exact Em | reflexivity].
Qed.

Lemma InvoiceFields_init_inv (data : dict) (m : InvoiceFields) :
  InvoiceFields_init S data = Ok m ->
  required (validate_str S) "vendor" data = Some (if_vendor m)
  /\ required (validate_str S) "invoice_number" data = Some (if_invoice_number m)
  /\ optional (validate_datetime S) "invoice_date" data = Some (if_invoice_date m)
  /\ optional (validate_datetime S) "due_date" data = Some (if_due_date m)
  /\ required (validate_float S) "total" data = Some (if_total m).
Proof.
unfold InvoiceFields_init.
destruct (required (validate_str S) "vendor" data); [|discriminate].
destruct (required (validate_str S) "invoice_number" data); [|discriminate].
destruct (optional (validate_datetime S) "invoice_date" data); [|discriminate].
destruct (optional (validate_datetime S) "due_date" data); [|discriminate].
destruct (optional (validate_str S) "currency" data); [|discriminate].
destruct (required (validate_float S) "total" data); [|discriminate].
destruct (optional (validate_float S) "tax" data); [|discriminate].
destruct (optional (validate_str S) "payment_terms" data); [|discriminate].
destruct (match get "line_items" data with
          | Some v => validate_line_items S v
          | None => Some []
          end); [|discriminate].
intros [= <-]. simpl. repeat split; reflexivity.
Qed.

Lemma invoice_output_get (items : list LineItem) (m : InvoiceFields) :
  get "vendor" (invoice_output items m) = Some (VStr (if_vendor m))
  /\ get "invoice_number" (invoice_output items m) = Some (VStr (if_invoice_number m))
  /\ get "total" (invoice_output items m) = Some (VFloat (if_total m))
  /\ get "invoice_date" (invoice_output items m)
     = option_map (fun t => VStr (Strptime.datetime_isoformat t)) (if_invoice_date m)
  /\ get "due_date" (invoice_output items m)
     = option_map (fun t => VStr (Strptime.datetime_isoformat t)) (if_due_date m).
Proof.
destruct m as [v n d1 d2 c t x p li].
destruct d1, d2, c, x, p; repeat split; reflexivity.
Qed.

Lemma get_invoice_defaults_other (k : string) (fields : dict) (id : string) :
  k <> "vendor" -> k <> "invoice_number" -> k <> "total" ->
  get k (invoice_defaults fields id) = get k fields.
Proof.
intros H1 H2 H3. unfold invoice_defaults.
rewrite !get_setdefault_ne by assumption. reflexivity.
Qed.

Lemma get_invoice_defaults (fields : dict) (id : string) :
  get "vendor" (invoice_defaults fields id)
  = Some (default (VStr "Unknown Vendor") (get "vendor" fields))
  /\ get "invoice_number" (invoice_defaults fields id)
     = Some (default (VStr (if negb (Py.is_empty id)
                            then "INV-" ++ Py.last_chars 6 id else "INV-UNKNOWN"))
                     (get "invoice_number" fields))
  /\ get "total" (invoice_defaults fields id)
     = Some (default (VFloat 0) (get "total" fields)).
Proof.
unfold invoice_defaults. split; [|split].
- rewrite !get_setdefault_ne by discriminate.
  destruct (get "vendor" fields) as [x|] eqn:E; simpl.
  + apply get_setdefault_present, E.
  + apply get_setdefault_absent, E.
- rewrite get_setdefault_ne by discriminate.
  set (d := setdefault "vendor" _ fields).
  assert (E : get "invoice_number" d = get "invoice_number" fields)
    by (apply get_setdefault_ne; discriminate).
  destruct (get "invoice_number" fields) as [x|]; simpl.
  + apply get_setdefault_present, E.
  + apply get_setdefault_absent, E.
- set (d := setdefault "invoice_number" _ _).
  assert (E : get "total" d = get "total" fields)
    by (unfold d; rewrite !get_setdefault_ne by discriminate; reflexivity).
  destruct (get "total" fields) as [x|]; simpl.
  + apply get_setdefault_present, E.
  + apply get_setdefault_absent, E.
Qed.

(** The keys the loop over the line items and the date loop leave alone. *)
Lemma get_invoice_data (k : string) (x : value) (d : dict) :
  k <> "line_items" -> k <> "invoice_date" -> k <> "due_date" ->
  get k (parse_dates (set "line_items" x d)) = get k d.
Proof.
intros H1 H2 H3. rewrite get_parse_dates_other by assumption.
apply get_set_ne, H1.
Qed.

Lemma normalize_receipt_inv (fields : dict) (n : dict) :
  _normalize_receipt_fields S fields = Ok n ->
  exists m,
    ReceiptFields_init S
      (setdefault "total" (VFloat 0)
         (setdefault "merchant" (VStr "Unknown Merchant") fields)) = Ok m
    /\ n = ReceiptFields_dict m.
Proof.
unfold _normalize_receipt_fields.
destruct (ReceiptFields_init S _) as [m|] eqn:Em; cbn [bind]; [|discriminate].
intros [= <-]. exists m. split; reflexivity.
Qed.

Lemma ReceiptFields_init_inv (data : dict) (m : ReceiptFields) :
  ReceiptFields_init S data = Ok m ->
  required (validate_str S) "merchant" data = Some (rf_merchant m)
  /\ required (validate_float S) "total" data = Some (rf_total m).
Proof.
unfold ReceiptFields_init.
destruct (required (validate_str S) "merchant" data); [|discriminate].
destruct (optional (validate_datetime S) "datetime" data); [|discriminate].
destruct (optional (validate_float S) "subtotal" data); [|discriminate].
destruct (optional (validate_float S) "tip" data); [|discriminate].
destruct (required (validate_float S) "total" data); [|discriminate].
destruct (optional (validate_str S) "category" data); [|discriminate].
intros [= <-]. simpl. split; reflexivity.
Qed.

Lemma receipt_output_get (m : ReceiptFields) :
  get "merchant" (ReceiptFields_dict m) = Some (VStr (rf_merchant m))
  /\ get "total" (ReceiptFields_dict m) = Some (VFloat (rf_total m)).
Proof.
destruct m as [me d s t tot c]. destruct d, s, t, c; split; reflexivity.
Qed.

(** C7. With a schema that accepts a string for a [str] field and a float
    for a [float] field as they are: whenever the invoice or the receipt
    normalizer returns, the result has a float under [total], which is 0.0
    when the input had no [total]; an invoice has strings under [vendor] and
    [invoice_number], which are "Unknown Vendor" and the number made from
    the last six characters of the document id ("INV-UNKNOWN" for an empty
    id) when the input had none; a receipt has a string under [merchant],
    "Unknown Merchant" when the input had none. *)
Theorem normalized_total_and_identifiers :
  (forall s, validate_str S (VStr s) = Some s) ->
  (forall x, validate_float S (VFloat x) = Some x) ->
  (forall fields fallback_id n,
     _normalize_invoice_fields S fields fallback_id = Ok n ->
     (exists t, get "total" n = Some (VFloat t))
     /\ (get "total" fields = None -> get "total" n = Some (VFloat 0))
     /\ (exists s, get "vendor" n = Some (VStr s))
     /\ (get "vendor" fields = None -> get "vendor" n = Some (VStr "Unknown Vendor"))
     /\ (exists s, get "invoice_number" n = Some (VStr s))
     /\ (get "invoice_number" fields = None ->
         get "invoice_number" n
         = Some (VStr (if negb (Py.is_empty fallback_id)
                       then "INV-" ++ Py.last_chars 6 fallback_id
                       else "INV-UNKNOWN"))))
  /\ (forall fields n,
        _normalize_receipt_fields S fields = Ok n ->
        (exists t, get "total" n = Some (VFloat t))
        /\ (get "total" fields = None -> get "total" n = Some (VFloat 0))
        /\ (exists s, get "merchant" n = Some (VStr s))
        /\ (get "merchant" fields = None ->
            get "merchant" n = Some (VStr "Unknown Merchant"))).
Proof.
intros Hstr Hfloat. split.
- intros fields id n Hn.
  apply normalize_invoice_inv in Hn as (items & m & Hm & ->).
  apply InvoiceFields_init_inv in Hm as (Hv & Hi & _ & _ & Ht).
  unfold required in Hv, Hi, Ht.
  rewrite get_invoice_data in Hv, Hi, Ht by discriminate.
  destruct (get_invoice_defaults fields id) as (Dv & Di & Dt).
  rewrite Dv in Hv. rewrite Di in Hi. rewrite Dt in Ht.
  destruct (invoice_output_get items m) as (Gv & Gi & Gt & _ & _).
  rewrite Gv, Gi, Gt.
  split; [eauto|]. split.
  { intros E. rewrite E in Ht. simpl in Ht. rewrite Hfloat in Ht.
  injection Ht as <-. reflexivity. }
  split; [eauto|]. split.
  { intros E. rewrite E in Hv. simpl in Hv. rewrite Hstr in Hv.
  injection Hv as <-. reflexivity. }
  split; [eauto|].
  intros E. rewrite E in Hi. simpl in Hi. rewrite Hstr in Hi.
  injection Hi as <-. reflexivity.
- intros fields n Hn.
  apply normalize_receipt_inv in Hn as (m & Hm & ->).
  apply ReceiptFields_init_inv in Hm as (Hme & Ht).
  unfold required in Hme, Ht.
  destruct (receipt_output_get m) as (Gm & Gt). rewrite Gm, Gt.
  split; [eauto|]. split.
  { intros E. rewrite get_setdefault_absent in Ht.
    - rewrite Hfloat in Ht. injection Ht as <-. reflexivity.
    - rewrite get_setdefault_ne by discriminate. exact E. }
  split; [eauto|].
  intros E. rewrite get_setdefault_ne in Hme by discriminate.
  rewrite get_setdefault_absent in Hme by exact E.
  rewrite Hstr in Hme. injection Hme as <-. reflexivity.
Qed.

Lemma parsed_cases (v : string) :
  (exists d, parsed v = VDate d
             /\ Py.strip v <> EmptyString
             /\ first_parse formats (Py.strip v) = Some d)
  \/ (parsed v = VStr v
      /\ (Py.strip v = EmptyString \/ first_parse formats (Py.strip v) = None)).
Proof.
unfold parsed. destruct (Py.strip v) as [|c r] eqn:E; cbn [Py.is_empty negb].
- right. split; [reflexivity | now left].
- destruct (first_parse formats (String c r)) as [d|] eqn:F.
  + left. exists d. split; [reflexivity|]. split; [discriminate | reflexivity].
  + right. split; [reflexivity | now right].
Qed.

Lemma optional_validated {A} (validate : value -> option A) (k : string)
    (data : dict) (x : value) (r : option A) :
  get k data = Some x -> x <> VNone ->
  optional validate k data = Some r ->
  exists a, validate x = Some a /\ r = Some a.
Proof.
intros G Hx. unfold optional. rewrite G.
destruct x; try contradiction;
  (destruct (validate _) as [a|]; [intros [= <-]; eauto | discriminate]).
Qed.

Lemma parsed_not_None (v : string) : parsed v <> VNone.
Proof.
destruct (parsed_cases v) as [(d & -> & _) | (-> & _)]; discriminate.
Qed.

(** A date field that held the string [v]: the schema is given what the
    date loop left, and the result has the ISO text of what it returned. *)
Lemma normalized_date_field (k : string) (fields : dict) (id : string)
    (n : dict) (v : string) :
  k = "invoice_date" \/ k = "due_date" ->
  get k fields = Some (VStr v) ->
  _normalize_invoice_fields S fields id = Ok n ->
  exists t, validate_datetime S (parsed v) = Some t
            /\ get k n = Some (VStr (Strptime.datetime_isoformat t)).
Proof.
intros Hk G Hn.
apply normalize_invoice_inv in Hn as (items & m & Hm & ->).
apply InvoiceFields_init_inv in Hm as (_ & _ & H1 & H2 & _).
destruct (invoice_output_get items m) as (_ & _ & _ & G1 & G2).
destruct Hk as [-> | ->].
- eapply optional_validated in H1 as (t & Ht & Hd).
  + exists t. split; [exact Ht|]. rewrite G1, Hd. reflexivity.
  + apply get_parse_dates_invoice_date. rewrite get_set_ne by discriminate.
    rewrite get_invoice_defaults_other by discriminate. exact G.
  + apply parsed_not_None.
- eapply optional_validated in H2 as (t & Ht & Hd).
  + exists t. split; [exact Ht|]. rewrite G2, Hd. reflexivity.
  + apply get_parse_dates_due_date. rewrite get_set_ne by discriminate.
    rewrite get_invoice_defaults_other by discriminate. exact G.
  + apply parsed_not_None.
Qed.

Lemma length_append (s1 s2 : string) :
  String.length (s1 ++ s2) = String.length s1 + String.length s2.
Proof. induction s1 as [|c r IH]; simpl; [reflexivity | rewrite IH; reflexivity]. Qed.

Lemma pad_length (w : nat) (n : Z) : String.length (Strptime.pad w n) = w.
Proof.
revert n. induction w as [|w IH]; intros n; simpl; [reflexivity|].
rewrite length_append, IH. simpl. lia.
Qed.

Lemma datetime_isoformat_length (t : datetime) :
  19 <= String.length (Strptime.datetime_isoformat t).
Proof.
unfold Strptime.datetime_isoformat, Strptime.date_isoformat.
repeat (rewrite length_append; cbn [String.length]).
rewrite !pad_length. lia.
Qed.

(** Whatever the schema does, a date field that held a string is never
    stored as a text of fewer than 19 characters. *)
Lemma stored_date_has_a_time (k : string) (fields : dict) (id : string)
    (n : dict) (v s : string) :
  k = "invoice_date" \/ k = "due_date" ->
  get k fields = Some (VStr v) ->
  _normalize_invoice_fields S fields id = Ok n ->
  get k n = Some (VStr s) -> 19 <= String.length s.
Proof.
intros Hk G Hn Gs.
destruct (normalized_date_field k fields id n v Hk G Hn) as (t & _ & Gt).
rewrite Gt in Gs. injection Gs as <-. apply datetime_isoformat_length.
Qed.

Lemma line_items_json_safe (items : list LineItem) :
  forallb json_safe (map (fun li => VDict (LineItem_dict li)) items) = true.
Proof.
induction items as [|[q d u a] r IH]; [reflexivity|].
cbn [map forallb]. rewrite IH, andb_true_r.
destruct q, u, a; reflexivity.
Qed.

Lemma invoice_output_json_safe (items : list LineItem) (m : InvoiceFields) :
  json_safe (VDict (invoice_output items m)) = true.
Proof.
pose proof (line_items_json_safe items) as H.
destruct m as [v n d1 d2 c t x p li].
destruct d1, d2, c, x, p; vm_compute; vm_compute in H; rewrite H; reflexivity.
Qed.

(** C5 (as amended). For a string under [invoice_date] or [due_date] the
    loop tries MM/DD/YYYY, MM/DD/YY, YYYY-MM-DD, YYYY/MM/DD in that order and
    takes the date of the first that parses; with a string that none of them
    parses it leaves the field as it is and raises nothing. What the loop
    left is then validated as a datetime by the schema: the normalized field
    is the ISO text of the datetime the schema returned, and when the schema
    rejects the value the normalizer raises. *)
Theorem date_formats_first_match (k : string) (fields : dict) (id : string)
    (v : string) :
  k = "invoice_date" \/ k = "due_date" ->
  get k fields = Some (VStr v) ->
  formats = [Strptime.fmt_mdY; Strptime.fmt_mdy;
             Strptime.fmt_Ymd_dash; Strptime.fmt_Ymd_slash]
  /\ (forall d, parsed v = VDate d <->
        Py.strip v <> EmptyString
        /\ exists before fmt after,
             formats = (before ++ fmt :: after)%list
             /\ (forall f, In f before -> Strptime.strptime f (Py.strip v) = None)
             /\ Strptime.strptime fmt (Py.strip v) = Some d)
  /\ (forall data, get k data = Some (VStr v) ->
        get k (parse_date_field k data) = Some (parsed v))
  /\ ((forall fmt, In fmt formats -> Strptime.strptime fmt (Py.strip v) = None) ->
      parsed v = VStr v
      /\ forall data, get k data = Some (VStr v) -> parse_date_field k data = data)
  /\ (forall n, _normalize_invoice_fields S fields id = Ok n ->
        exists t, validate_datetime S (parsed v) = Some t
                  /\ get k n = Some (VStr (Strptime.datetime_isoformat t)))
  /\ (validate_datetime S (parsed v) = None ->
      exists e, _normalize_invoice_fields S fields id = Raise e).
Proof.
intros Hk G. split; [reflexivity|]. split; [|split; [|split; [|split]]].
- intros d. split.
  + intros Hp. destruct (parsed_cases v) as [(d' & Hd & Hne & Hf) | (Hs & _)].
    * rewrite Hd in Hp. injection Hp as ->.
      split; [exact Hne | apply first_parse_some, Hf].
    * rewrite Hs in Hp. discriminate Hp.
  + intros (Hne & Hf). apply first_parse_some in Hf.
    unfold parsed. destruct (Py.strip v); [contradiction|].
    cbn [Py.is_empty negb]. rewrite Hf. reflexivity.
- intros data. apply get_parse_date_field_str.
- intros Hnone. apply first_parse_none in Hnone.
  assert (Hp : parsed v = VStr v).
  { unfold parsed. rewrite Hnone. destruct (negb _); reflexivity. }
  split; [exact Hp|]. intros data Gd.
  unfold parse_date_field. rewrite Gd, Hnone. destruct (negb _); reflexivity.
- intros n Hn. exact (normalized_date_field k fields id n v Hk G Hn).
- intros Hrej. destruct (_normalize_invoice_fields S fields id) as [n|e] eqn:Hn.
  + destruct (normalized_date_field k fields id n v Hk G Hn) as (t & Ht & _).
    rewrite Hrej in Ht. discriminate Ht.
  + exists e. reflexivity.
Qed.

(** C6 (as amended). With a schema that turns a date into the datetime at
    midnight of that day, an invoice whose [invoice_date] is "01/05/2024",
    "2024-01-05" or "2024/01/05" is stored with the same ISO-8601 text in
    the three cases, "2024-01-05T00:00:00": the field of the model is a
    datetime. A normalized invoice holds nothing but JSON values, so that
    writing it to storage and reading it back gives the same dictionary. *)
Theorem iso_dates_and_roundtrip :
  (forall d, validate_datetime S (VDate d) = Some (Strptime.midnight d)) ->
  (forall fields id n s,
     In s ["01/05/2024"; "2024-01-05"; "2024/01/05"] ->
     get "invoice_date" fields = Some (VStr s) ->
     _normalize_invoice_fields S fields id = Ok n ->
     get "invoice_date" n = Some (VStr "2024-01-05T00:00:00"))
  /\ (forall fields id n,
        _normalize_invoice_fields S fields id = Ok n ->
        storage_roundtrip (VDict n) = Ok (VDict n)).
Proof.
intros Hdate. split.
- intros fields id n s Hs G Hn.
  destruct (normalized_date_field "invoice_date" fields id n s (or_introl eq_refl) G Hn)
    as (t & Ht & Gt).
  assert (Hp : parsed s = VDate (Date 2024 1 5)).
  { destruct Hs as [<- | [<- | [<- | []]]]; vm_compute; reflexivity. }
  rewrite Hp, Hdate in Ht. injection Ht as <-. rewrite Gt. reflexivity.
- intros fields id n Hn.
  apply normalize_invoice_inv in Hn as (items & m & _ & ->).
  unfold storage_roundtrip. rewrite invoice_output_json_safe. reflexivity.
Qed.
End NormalizerFacts.

(** *** The normalizer on the example schema *)

Section NormalizerExamples.
Import Val Models Normalizer.

Lemma normalized_total_and_identifiers_witness :
  (exists n, _normalize_invoice_fields Examples.lax [] "doc_abcdef123456" = Ok n
             /\ get "total" n = Some (VFloat 0)
             /\ get "vendor" n = Some (VStr "Unknown Vendor")
             /\ get "invoice_number" n = Some (VStr "INV-123456"))
  /\ (exists n, _normalize_receipt_fields Examples.lax [] = Ok n
                /\ get "total" n = Some (VFloat 0)
                /\ get "merchant" n = Some (VStr "Unknown Merchant")).
Proof.
destruct (normalized_total_and_identifiers Examples.lax
            ltac:(reflexivity) ltac:(reflexivity)) as [Hi Hr].
split.
- eexists. split; [vm_compute; reflexivity|].
  destruct (Hi [] "doc_abcdef123456" _ eq_refl) as (_ & Ht & _ & Hv & _ & Hn).
  split; [exact (Ht eq_refl)|]. split; [exact (Hv eq_refl) | exact (Hn eq_refl)].
- eexists. split; [vm_compute; reflexivity|].
  destruct (Hr [] _ eq_refl) as (_ & Ht & _ & Hm).
  split; [exact (Ht eq_refl) | exact (Hm eq_refl)].
Defined.

Lemma date_formats_first_match_witness :
  parsed "1/5/24" = VDate (Date 2024 1 5)
  /\ (exists e, _normalize_invoice_fields Examples.lax (Examples.invoice "n/a") "doc_1"
                = Raise e).
Proof.
destruct (date_formats_first_match Examples.lax "invoice_date"
            (Examples.invoice "1/5/24") "doc_1" "1/5/24" (or_introl eq_refl) eq_refl)
  as (_ & Hfirst & _).
destruct (date_formats_first_match Examples.lax "invoice_date"
            (Examples.invoice "n/a") "doc_1" "n/a" (or_introl eq_refl) eq_refl)
  as (_ & _ & _ & _ & _ & Hrej).
split.
- apply Hfirst. split; [discriminate|].
  exists [Strptime.fmt_mdY], Strptime.fmt_mdy,
         [Strptime.fmt_Ymd_dash; Strptime.fmt_Ymd_slash].
  split; [reflexivity|]. split; [|vm_compute; reflexivity].
  intros f [<- | []]. vm_compute. reflexivity.
- apply Hrej. vm_compute. reflexivity.
Defined.

(** The claim C5 as stated fails: "n/a" matches none of the four formats,
    and the normalizer raises instead of returning the string. *)
Lemma unparseable_date_raises :
  Forall (fun fmt => Strptime.strptime fmt (Py.strip "n/a") = None) formats
  /\ _normalize_invoice_fields Examples.lax (Examples.invoice "n/a") "doc_1"
     = Raise ValidationError.
Proof.
split; [|vm_compute; reflexivity].
repeat (constructor; [vm_compute; reflexivity|]). constructor.
Qed.

Lemma iso_dates_and_roundtrip_witness :
  Forall (fun s =>
            exists n, _normalize_invoice_fields Examples.lax (Examples.invoice s) "doc_1"
                      = Ok n
                      /\ get "invoice_date" n = Some (VStr "2024-01-05T00:00:00")
                      /\ storage_roundtrip (VDict n) = Ok (VDict n))
         ["01/05/2024"; "2024-01-05"; "2024/01/05"].
Proof.
destruct (iso_dates_and_roundtrip Examples.lax ltac:(reflexivity)) as [Hiso Hrt].
apply List.Forall_forall. intros s Hs.
assert (Hn : exists n, _normalize_invoice_fields Examples.lax (Examples.invoice s) "doc_1"
                       = Ok n).
{ destruct Hs as [<- | [<- | [<- | []]]]; eexists; vm_compute; reflexivity. }
destruct Hn as [n Hn]. exists n. split; [exact Hn|]. split.
- exact (Hiso (Examples.invoice s) "doc_1" n s Hs eq_refl Hn).
- exact (Hrt (Examples.invoice s) "doc_1" n Hn).
Defined.

(** The claim C6 as stated fails: what is stored for "01/05/2024" is not
    "2024-01-05". *)
Lemma stored_date_is_not_date_only :
  exists n, _normalize_invoice_fields Examples.lax (Examples.invoice "01/05/2024") "doc_1"
            = Ok n
            /\ get "invoice_date" n = Some (VStr "2024-01-05T00:00:00")
            /\ get "invoice_date" n <> Some (VStr "2024-01-05").
Proof.
eexists. split; [vm_compute; reflexivity|].
split; [vm_compute; reflexivity | vm_compute; discriminate].
Qed.

End NormalizerExamples.

(** ** The vision gateway and the pipeline *)

Section GatewayFacts.
Import Val Models Ai.

Variable St : Type.
Variable create : request -> St -> reply * St.
Variable json_loads : string -> option value.
Variable float_of_str : string -> option float.
Variable uuid12 : St -> string * St.
Variable render : string -> option (list string).
Variable CLASSIFIER_MODEL EXTRACTION_MODEL : string.
Variable CLASSIFIER_PROMPT : string.
Variable invoice_user_prompt receipt_user_prompt summary_user_prompt : string.
Variable S : schema.
Variable indexed : bool.

(** The client is configured: [OPENAI_API_KEY] is set. *)
Abbreviation once := (_once St create json_loads).
Abbreviation chat := (_chat_json_with_images St create json_loads true).
Abbreviation extract_invoice :=
  (_extract_invoice_fields_vision St create json_loads true
     EXTRACTION_MODEL invoice_user_prompt).
Abbreviation classify :=
  (_classify_document_vision St create json_loads float_of_str true
     CLASSIFIER_MODEL CLASSIFIER_PROMPT).
Abbreviation run :=
  (run_extraction St create json_loads float_of_str uuid12 render true
     CLASSIFIER_MODEL EXTRACTION_MODEL CLASSIFIER_PROMPT
     invoice_user_prompt receipt_user_prompt summary_user_prompt S indexed).

Lemma sent_sent (w : world St) (st1 st2 : St) (rs1 rs2 : list request) :
  sent St (sent St w st1 rs1) st2 rs2 = sent St w st2 (rs1 ++ rs2).
Proof. unfold sent. simpl. rewrite <- app_assoc. reflexivity. Qed.

Lemma once_completion (sys user : string) (images : list string) (m : string)
    (w : world St) (text : string) (st : St) :
  create (kwargs sys user images m) (service St w) = (Completion (Some text), st) ->
  once sys user images m w
  = (of_option JSONDecodeError (json_loads text), sent St w st [kwargs sys user images m]).
Proof.
intros H. unfold _once, bindM, send. rewrite H. unfold lift. reflexivity.
Qed.

Lemma once_raises (sys user : string) (images : list string) (m : string)
    (w : world St) (e : exn) (st : St) :
  create (kwargs sys user images m) (service St w) = (Raises e, st) ->
  once sys user images m w = (Raise e, sent St w st [kwargs sys user images m]).
Proof. intros H. unfold _once, bindM, send. rewrite H. reflexivity. Qed.

(** A rejected primary model that is not the fallback model: the gateway
    returns what one call to the fallback model gives, an API error of that
    call being wrapped with the name of the primary model. *)
Lemma chat_after_rejection (sys user : string) (images : list string)
    (model : string) (w : world St) (msg : string) (body : option string) (st1 : St) :
  model <> FALLBACK_MODEL ->
  create (kwargs sys user images model) (service St w)
  = (Raises (APIError BadRequestError msg body), st1) ->
  chat sys user images model w
  = match once sys user images FALLBACK_MODEL
            (sent St w st1 [kwargs sys user images model]) with
    | (Raise (APIError _ m2 b2), w2) => (Raise (vision_error model m2 b2), w2)
    | (Raise JSONDecodeError, w2) =>
        (Raise (RuntimeError "Invalid JSON returned by OpenAI (non-JSON output)."), w2)
    | other => other
    end.
Proof.
intros Hne H. unfold _chat_json_with_images. cbn [negb].
unfold catch at 1. unfold catch at 1.
rewrite (once_raises _ _ _ _ _ _ _ H). cbn [is_bad_request].
replace (String.eqb BadRequestError BadRequestError) with true by reflexivity.
destruct (String.eqb_spec model FALLBACK_MODEL) as [->|_]; [contradiction|].
cbn [negb].
destruct (once sys user images FALLBACK_MODEL _) as [[p|e] w2]; [reflexivity|].
destruct e; reflexivity.
Qed.

(** C8 (as amended). With a primary model other than the fallback model
    that rejects the request as a bad request, the fallback model is called
    exactly once, after the primary. If that call returns JSON, the gateway
    returns it, and the metadata built by the extractor carries the
    configured extraction model, not the fallback model. If that call
    raises an API error, or if the primary call raises an API error that is
    no bad request (connection, authentication, rate limit), one
    [RuntimeError] is raised whose message has the name of the primary
    model, the message and the body of the error; no further call is made. *)
Theorem gateway_fallback_policy (sys user : string) (images : list string)
    (model : string) (w : world St) :
  let primary := kwargs sys user images model in
  let fallback := kwargs sys user images FALLBACK_MODEL in
  (forall msg body st1,
     model <> FALLBACK_MODEL ->
     create primary (service St w) = (Raises (APIError BadRequestError msg body), st1) ->
     (forall text st2 payload,
        create fallback st1 = (Completion (Some text), st2) ->
        json_loads text = Some payload ->
        chat sys user images model w = (Ok payload, sent St w st2 [primary; fallback])
        /\ invocations FALLBACK_MODEL [primary; fallback] = 1)
     /\ (forall kind m2 b2 st2,
           create fallback st1 = (Raises (APIError kind m2 b2), st2) ->
           chat sys user images model w
           = (Raise (vision_error model m2 b2), sent St w st2 [primary; fallback])
           /\ invocations FALLBACK_MODEL [primary; fallback] = 1))
  /\ (forall kind msg body st1,
        kind <> BadRequestError ->
        create primary (service St w) = (Raises (APIError kind msg body), st1) ->
        chat sys user images model w
        = (Raise (vision_error model msg body), sent St w st1 [primary]))
  /\ (forall msg body st1 text st2 payload,
        sys = "You are an expert at reading invoices from images into strict JSON." ->
        user = invoice_user_prompt -> model = EXTRACTION_MODEL ->
        EXTRACTION_MODEL <> FALLBACK_MODEL ->
        create primary (service St w) = (Raises (APIError BadRequestError msg body), st1) ->
        create fallback st1 = (Completion (Some text), st2) ->
        json_loads text = Some payload ->
        extract_invoice images w
        = (Ok (payload, [("model", VStr EXTRACTION_MODEL); ("payload", payload)]),
           sent St w st2 [primary; fallback])).
Proof.
intros primary fallback.
assert (Hcount : model <> FALLBACK_MODEL ->
                 invocations FALLBACK_MODEL [primary; fallback] = 1).
{ intros Hne. unfold invocations. cbn [List.filter primary fallback kwargs req_model].
  destruct (String.eqb_spec model FALLBACK_MODEL) as [->|_]; [contradiction|].
  rewrite String.eqb_refl. reflexivity. }
subst primary fallback.
split; [|split].
- intros msg body st1 Hne Hrej. split.
  + intros text st2 payload Hc Hj. split; [|exact (Hcount Hne)].
    rewrite (chat_after_rejection _ _ _ _ _ _ _ _ Hne Hrej).
    rewrite (once_completion sys user images FALLBACK_MODEL
               (sent St w st1 [kwargs sys user images model]) text st2 Hc).
    rewrite Hj, sent_sent. reflexivity.
  + intros kind m2 b2 st2 Hc. split; [|exact (Hcount Hne)].
    rewrite (chat_after_rejection _ _ _ _ _ _ _ _ Hne Hrej).
    rewrite (once_raises sys user images FALLBACK_MODEL
               (sent St w st1 [kwargs sys user images model]) _ st2 Hc).
    rewrite sent_sent. reflexivity.
- intros kind msg body st1 Hk Hrej.
  unfold _chat_json_with_images. cbn [negb].
  unfold catch at 1. unfold catch at 1.
  rewrite (once_raises _ _ _ _ _ _ _ Hrej). cbn [is_bad_request].
  destruct (String.eqb_spec kind BadRequestError) as [->|_]; [contradiction|].
  reflexivity.
- intros msg body st1 text st2 payload -> -> -> Hne Hrej Hc Hj.
  unfold _extract_invoice_fields_vision, bindM.
  rewrite (chat_after_rejection _ _ _ _ _ _ _ _ Hne Hrej).
  rewrite (once_completion _ _ images FALLBACK_MODEL
             (sent St w st1 [kwargs _ _ images EXTRACTION_MODEL]) text st2 Hc).
  rewrite Hj, sent_sent. reflexivity.
Qed.

Lemma bindM_ok {A B} (m : M St A) (k : A -> M St B) (w w' : world St) (b : B) :
  bindM St m k w = (Ok b, w') ->
  exists a w1, m w = (Ok a, w1) /\ k a w1 = (Ok b, w').
Proof.
unfold bindM. destruct (m w) as [[a|e] w1]; [|discriminate].
intros H. exists a, w1. split; [reflexivity | exact H].
Qed.

Lemma lift_ok {A} (r : result A) (w w' : world St) (a : A) :
  lift St r w = (Ok a, w') -> r = Ok a /\ w' = w.
Proof. unfold lift. intros [= -> ->]. split; reflexivity. Qed.

Lemma upsert_In {A} (id_of : A -> string) (x : A) (rows : list A) :
  In x (upsert id_of x rows).
Proof.
induction rows as [|y r IH]; simpl; [now left|].
destruct (String.eqb (id_of y) (id_of x)); [now left | now right].
Qed.

(** What the classifier returns is made of the payload alone. *)
Lemma classify_inv (images : list string) (w w' : world St)
    (dt : DocumentType) (conf : float) (meta : dict) :
  classify images w = (Ok (dt, conf, meta), w') ->
  exists d,
    meta = [("payload", VDict d); ("model", VStr CLASSIFIER_MODEL)]
    /\ py_float float_of_str (default (VFloat 0) (get "confidence" d)) = Ok conf.
Proof.
unfold _classify_document_vision. intros H.
apply bindM_ok in H as (payload & w1 & _ & H).
apply bindM_ok in H as (kind & w2 & Hk & H).
apply bindM_ok in H as (doc_type & w3 & _ & H).
apply bindM_ok in H as (c & w4 & Hc & H).
apply bindM_ok in H as (confidence & w5 & Hf & H).
apply lift_ok in Hk as [Hk _]. apply lift_ok in Hc as [Hc _].
apply lift_ok in Hf as [Hf _].
unfold ret in H. injection H as <- <- <- <-.
destruct payload; try discriminate Hk. exists d. split; [reflexivity|].
simpl in Hc. injection Hc as <-. exact Hf.
Qed.

Abbreviation pages := (pages_of render).

(** What [run_extraction] returns was written to the table of
    extractions; its confidence is no NaN (which the column would refuse),
    and it is the one the classifier returned, or 0.0 without pages. *)
Lemma run_extraction_inv (document : Document) (text : string)
    (w w' : world St) (e : Extraction) :
  run document text w = (Ok e, w') ->
  In e (extractions St w')
  /\ PrimFloat.is_nan (ex_confidence e) = false
  /\ (pages document = [] -> ex_confidence e = 0%float)
  /\ (pages document <> [] ->
      exists dt meta w1,
        classify (pages document) w = (Ok (dt, ex_confidence e, meta), w1)).
Proof.
unfold run_extraction. intros H.
apply bindM_ok in H as ([[[[[rj f] sc] mu] conf] dt] & w1 & Hstage & H).
apply bindM_ok in H as (eid & w2 & Hid & H).
apply bindM_ok in H as ([] & w3 & Hup & H).
apply bindM_ok in H as (rid & w4 & Hrid & H).
apply bindM_ok in H as ([] & w5 & Hrec & H).
unfold ret in H. injection H as <- <-.
cbn [ex_confidence].
unfold upsert_extraction in Hup. cbn [ex_fields ex_raw_json ex_confidence ex_id] in Hup.
destruct (json_safe (VDict f) && json_safe (VDict rj)); [|discriminate Hup].
destruct (PrimFloat.is_nan conf) eqn:Hnan; [discriminate Hup|].
injection Hup as <-.
unfold fresh_id in Hrid. destruct (uuid12 _) as [u st] in Hrid.
injection Hrid as <- <-.
unfold upsert_record in Hrec. cbn [r_fields] in Hrec.
destruct (json_safe (VDict f)); [|discriminate Hrec].
destruct (indexed && negb (sqlite_json (VDict f))); [discriminate Hrec|].
injection Hrec as <-.
split; [cbn [extractions]; apply upsert_In|].
split; [reflexivity|].
destruct (pages document) as [|p ps] eqn:Hp.
- split; [|intros Hne; contradiction].
  intros _. unfold ret in Hstage. injection Hstage as <- <- <- <- <- <- <-.
  reflexivity.
- split; [discriminate|]. intros _.
  apply bindM_ok in Hstage as ([[dt' c] meta] & w1' & Hcl & Hstage).
  exists dt', meta, w1'. rewrite Hcl.
  apply bindM_ok in Hstage as (direction & w2' & _ & Hstage).
  apply bindM_ok in Hstage as ([[[rj' f'] sc'] mu'] & w3' & _ & Hstage).
  unfold ret in Hstage. injection Hstage as <- <- <- <- <- <- <-.
  reflexivity.
Qed.

(** C9 (as amended). The confidence of a classification is [float] of the
    payload's [confidence], 0.0 when the key is absent: it lies in [0,1]
    whenever the payload's value does, and nothing clamps it. It is never
    null: with a null confidence the classifier does not return. The
    extraction [run_extraction] returns is the one it persisted; its
    confidence is the classifier's (0.0 on the text-only path) and no NaN. *)
Theorem confidence_is_payload_value :
  (forall images w dt conf meta w',
     classify images w = (Ok (dt, conf, meta), w') ->
     exists d,
       meta = [("payload", VDict d); ("model", VStr CLASSIFIER_MODEL)]
       /\ py_float float_of_str (default (VFloat 0) (get "confidence" d)) = Ok conf
       /\ (get "confidence" d = None -> conf = 0%float)
       /\ (forall c, get "confidence" d = Some (VFloat c) -> conf = c)
       /\ get "confidence" d <> Some VNone)
  /\ (forall document text w e w',
        run document text w = (Ok e, w') ->
        In e (extractions St w')
        /\ PrimFloat.is_nan (ex_confidence e) = false
        /\ (pages document = [] -> ex_confidence e = 0%float)
        /\ (pages document <> [] ->
            exists dt meta w1,
              classify (pages document) w = (Ok (dt, ex_confidence e, meta), w1))).
Proof.
split.
- intros images w dt conf meta w' H.
  apply classify_inv in H as (d & Hm & Hf). exists d.
  split; [exact Hm|]. split; [exact Hf|]. split; [|split].
  + intros E. rewrite E in Hf. simpl in Hf. injection Hf as <-. reflexivity.
  + intros c E. rewrite E in Hf. simpl in Hf. injection Hf as <-. reflexivity.
  + intros E. rewrite E in Hf. discriminate Hf.
- intros document text w e w'. apply run_extraction_inv.
Qed.

End GatewayFacts.

(** *** The gateway on the example service *)

Section GatewayExamples.
Import Val Models Ai.

Abbreviation extract_ex :=
  (_extract_invoice_fields_vision nat Examples.create Examples.json_loads true
     "o3" "Extract an invoice.").
Abbreviation run_ex :=
  (run_extraction nat Examples.create Examples.json_loads Examples.float_of_str
     Examples.uuid12 Examples.render true "gpt-4o" "o3" Examples.classifier_prompt
     "Extract an invoice." "Extract a receipt." "Summarize." Examples.lax false).

Lemma gateway_fallback_policy_witness :
  exists w', extract_ex ["page-1"] Examples.world_0
             = (Ok (Examples.summary,
                    [("model", VStr "o3"); ("payload", Examples.summary)]), w')
             /\ map req_model (calls nat w') = ["o3"; "gpt-4o-mini"].
Proof.
destruct (gateway_fallback_policy nat Examples.create Examples.json_loads
            "o3" "Extract an invoice."
            "You are an expert at reading invoices from images into strict JSON."
            "Extract an invoice." ["page-1"] "o3" Examples.world_0)
  as (_ & _ & Hmeta).
eexists. split.
- apply (Hmeta "model o3 does not take images" None 1 Examples.summary_text 2
               Examples.summary);
    try reflexivity; discriminate.
- reflexivity.
Defined.

(** The claim C8 as stated fails: after a fallback that succeeded the
    metadata names the primary model, not the fallback model. *)
Lemma metadata_names_primary_model :
  exists payload meta w',
    extract_ex ["page-1"] Examples.world_0 = (Ok (payload, meta), w')
    /\ map req_model (calls nat w') = ["o3"; FALLBACK_MODEL]
    /\ get "model" meta = Some (VStr "o3")
    /\ get "model" meta <> Some (VStr FALLBACK_MODEL).
Proof.
eexists _, _, _. split; [vm_compute; reflexivity|].
split; [reflexivity|]. split; [reflexivity | discriminate].
Qed.

Lemma confidence_is_payload_value_witness :
  exists e w', run_ex Examples.document_1 "text" Examples.world_0 = (Ok e, w')
               /\ In e (extractions nat w')
               /\ PrimFloat.is_nan (ex_confidence e) = false.
Proof.
destruct (confidence_is_payload_value nat Examples.create Examples.json_loads
            Examples.float_of_str Examples.uuid12 Examples.render "gpt-4o" "o3"
            Examples.classifier_prompt "Extract an invoice." "Extract a receipt."
            "Summarize." Examples.lax false) as [_ Hrun].
eexists _, _. split; [vm_compute; reflexivity|].
destruct (Hrun Examples.document_1 "text" Examples.world_0 _ _ eq_refl) as (Hin & Hnan & _).
split; [exact Hin | exact Hnan].
Defined.

(** The claim C9 as stated fails: a payload with confidence 1.5 gives a
    persisted extraction whose confidence is 1.5, outside [0,1]. *)
Lemma confidence_above_one :
  exists e w', run_ex Examples.document_1 "text" Examples.world_0 = (Ok e, w')
               /\ In e (extractions nat w')
               /\ ex_confidence e = 1.5%float
               /\ PrimFloat.leb (ex_confidence e) 1 = false.
Proof.
eexists _, _. split; [vm_compute; reflexivity|].
split; [now left|]. split; reflexivity.
Qed.

End GatewayExamples.

(* ===================================================================== *)
(** * Part III: further facts about the code                              *)
(* ===================================================================== *)

(** ** The normalizers applied to their own output *)

Section NormalizerIdempotence.
Import Py Re Val Main.

Lemma lower_lowered (s : string) : lowered s -> lower s = s.
Proof.
unfold lowered, lower. induction s as [|c r IH]; simpl; [reflexivity|].
intros H. apply andb_prop in H as [Hc Hr]. rewrite (IH Hr).
unfold lower_char. apply negb_true_iff in Hc. rewrite Hc. reflexivity.
Qed.

Lemma str_filter_all (p : ascii -> bool) (s : string) :
  str_forall p s = true -> str_filter p s = s.
Proof.
induction s as [|c r IH]; simpl; [reflexivity|].
intros H. apply andb_prop in H as [Hc Hr]. rewrite Hc, (IH Hr). reflexivity.
Qed.

Lemma sub_leading_zeros_head (s : string) :
  head s <> Some "0"%char -> sub_leading_zeros s = s.
Proof.
destruct s as [|c r]; [reflexivity|]. simpl. intros H.
destruct (ascii_dec c "0") as [->|Hc]; [now contradiction H|].
destruct c as [[] [] [] [] [] [] [] []]; try reflexivity. now contradiction Hc.
Qed.

(** X1. [_norm_invoice_no] is idempotent: a number it returned is
    returned unchanged when it is normalized again, so the key stored as
    [invoice_number_norm] is its own normal form. *)
Theorem norm_invoice_no_idempotent (x : value) (n : string) :
  _norm_invoice_no x = Ok (Some n) -> _norm_invoice_no (VStr n) = Ok (Some n).
Proof.
intros H. apply norm_invoice_no_text in H as (s & _ & Hn & Hne).
assert (E : number_text n = n).
{ unfold number_text.
  rewrite lower_lowered by (rewrite Hn; apply lowered_number_text).
  unfold sub_separators.
  rewrite str_filter_all by (rewrite Hn; apply no_separator_number_text).
  apply sub_leading_zeros_head. rewrite Hn. apply head_leading_zeros. }
unfold _norm_invoice_no. destruct n as [|c r]; [contradiction|].
cbn [truthy is_empty negb]. fold (number_text (String c r)). rewrite E. reflexivity.
Qed.

End NormalizerIdempotence.

(** ** The upload endpoint *)

Section UploadFacts.
Import Val Main.

Variable sqlite_text : value -> string.
Variable ratio_of_container : string -> value -> float.

Abbreviation detect' := (detect_duplicates sqlite_text ratio_of_container).
Abbreviation upload' := (upload_dupcheck sqlite_text ratio_of_container).
Abbreviation same_pair' := (same_vendor_and_number sqlite_text).
Abbreviation same_vend' := (same_vendor sqlite_text).
Abbreviation suspect' := (is_suspect ratio_of_container).

(** The fields [upload_dupcheck] hands to the detector and proposes. *)
Lemma upload_unfold (con : connection) (h name : string) (fields : dict)
    (vend invn : option string) :
  _norm_vendor (get_or_none "vendor" fields) = Ok vend ->
  _norm_invoice_no (get_or_none "invoice_number" fields) = Ok invn ->
  let fields2 := set "invoice_number_norm" (value_of_norm invn)
                     (set "vendor_norm" (value_of_norm vend) fields) in
  (forall k, k <> "vendor_norm" -> k <> "invoice_number_norm" ->
             get_or_none k fields2 = get_or_none k fields)
  /\ upload' con h name (VDict fields)
     = match detect' con h fields2 with
       | Raise e => Raise e
       | Ok None =>
           Ok {| notice := None; duplicate_suspect := None; proposed_hash := h;
                 proposed_filename := name; proposed_fields := fields2 |}
       | Ok (Some d) =>
           if certainty_is "exact" d then
             Raise (HTTPException 409
               [("title", VStr "Exact duplicate");
                ("message", VStr "Looks like you've already uploaded this exact file.");
                ("existing_document_id", first_match_id d);
                ("reason", default (VStr "exact duplicate") (get "reason" d));
                ("matches", default (VList []) (get "matches" d))])
           else
             Ok {| notice :=
                     if certainty_is "likely" d
                     then Some "This appears to be the same invoice (same vendor and invoice number)."
                     else if certainty_is "possible" d
                     then Some "This looks similar to a previous invoice. Want to review the matches?"
                     else None;
                   duplicate_suspect := Some d; proposed_hash := h;
                   proposed_filename := name; proposed_fields := fields2 |}
       end.
Proof.
intros Hv Hn fields2. split.
- intros k H1 H2. unfold fields2.
  rewrite get_or_none_set_ne by exact H2. apply get_or_none_set_ne, H1.
- unfold upload_dupcheck. rewrite Hv. cbn [bind].
  rewrite get_or_none_set_ne by discriminate. rewrite Hn. cbn [bind].
  fold fields2. destruct (detect' con h fields2) as [[d|]|e]; reflexivity.
Qed.

(** The verdicts of the detector, by tier. *)
Lemma detect_forms (con : connection) (h : string) (fields : dict) (d : dict) :
  detect' con h fields = Ok (Some d) ->
  (exists row, In row (documents con) /\ hash_sha256 row = Some h
               /\ d = exact_verdict (doc_id row))
  \/ ((forall x, In x (documents con) -> hash_sha256 x <> Some h)
      /\ ((exists v n r,
             _norm_vendor (get_or_none "vendor" fields) = Ok (Some v)
             /\ _norm_invoice_no (get_or_none "invoice_number" fields) = Ok (Some n)
             /\ In r (records con) /\ same_pair' v n r = Ok true
             /\ d = likely_verdict (rec_id r))
          \/ exists l, d = possible_verdict l)).
Proof.
intros H.
apply detect_inv in H as [(row & Es & ->) | (Es & vend & invn & Hv & Hn & Hb)].
- left. exists row. apply find_some in Es as [Hin Heq].
  apply opt_str_eqb_true in Heq. auto.
- right. split; [apply select_document_none_inv, Es|].
  apply by_fields_inv in Hb
    as [(v & n & r & -> & -> & Hf & [= ->]) | (_ & l & _ & Hd)].
  + apply fetchone_some in Hf as (Hin & Hm & _). left. exists v, n, r. auto.
  + destruct l; [discriminate Hd | injection Hd as ->]. right. eauto.
Qed.

(** A statement fails on a row SQLite does not read, and only there. *)
Lemma step_raise (clause : record_row -> result bool) (rows : list record_row)
    (e : exn) :
  step clause rows = Raise e -> exists r, In r rows /\ clause r = Raise e.
Proof.
induction rows as [|r rest IH]; simpl; [discriminate|].
destruct (clause r) as [[|]|e'] eqn:E; simpl.
- discriminate.
- intros H. destruct (IH H) as (x & Hx & Hc). exists x. auto.
- intros [= <-]. exists r. auto.
Qed.

Lemma fetchone_raise (clause : record_row -> result bool) (rows : list record_row)
    (e : exn) :
  fetchone clause rows = Raise e -> exists r, In r rows /\ clause r = Raise e.
Proof.
unfold fetchone. destruct (step clause rows) as [[[r rest]|]|e'] eqn:E; simpl.
- destruct (step clause rest) as [o|e'] eqn:E'; simpl; [discriminate|].
  intros [= <-]. apply step_some in E as (b & -> & _).
  apply step_raise in E' as (x & Hx & Hc). exists x.
  split; [apply in_or_app; right; now right | exact Hc].
- discriminate.
- intros [= <-]. apply (step_raise _ _ _ E).
Qed.

Lemma fetchall_raise (clause : record_row -> result bool) (rows : list record_row)
    (e : exn) :
  fetchall clause rows = Raise e -> exists r, In r rows /\ clause r = Raise e.
Proof.
induction rows as [|r rest IH]; simpl; [discriminate|].
destruct (clause r) as [b|e'] eqn:E; simpl.
- destruct (fetchall clause rest) as [l|e']; simpl; [discriminate|].
  intros [= <-]. destruct (IH eq_refl) as (x & Hx & Hc). exists x. auto.
- intros [= <-]. exists r. auto.
Qed.

Lemma by_fields_raise (con : connection) (vend invn : option string)
    (total invdate : value) (e : exn) :
  detect_by_fields sqlite_text ratio_of_container con vend invn total invdate = Raise e ->
  e = OperationalError
  /\ exists r, In r (records con) /\ sqlite_json (VDict (rec_fields r)) = false.
Proof.
assert (Hp : forall v n r, same_pair' v n r = Raise e ->
               e = OperationalError /\ sqlite_json (VDict (rec_fields r)) = false).
{ intros v n r. rewrite (clause_pair sqlite_text).
  destruct (sqlite_json _); [discriminate | intros [= <-]; auto]. }
assert (Hv : forall v r, same_vend' v r = Raise e ->
               e = OperationalError /\ sqlite_json (VDict (rec_fields r)) = false).
{ intros v r. rewrite (clause_vendor sqlite_text).
  destruct (sqlite_json _); [discriminate | intros [= <-]; auto]. }
assert (Hs : forall vend,
          suspects_of sqlite_text ratio_of_container con vend invn total invdate = Raise e ->
          e = OperationalError
          /\ exists r, In r (records con) /\ sqlite_json (VDict (rec_fields r)) = false).
{ intros [v|]; unfold suspects_of; [|discriminate].
  destruct (fetchall _ _) as [l|e'] eqn:E; cbn [bind]; [discriminate|].
  intros [= <-]. apply fetchall_raise in E as (r & Hin & Hc).
  destruct (Hv _ _ Hc). eauto. }
unfold detect_by_fields.
destruct (match vend with Some v => _ | None => _ end) as [[rec|]|e'] eqn:E; cbn [bind].
- discriminate.
- destruct (suspects_of _ _ _ _ _ _ _) as [l|e'] eqn:E'; cbn [bind]; [discriminate|].
  intros [= <-]. apply (Hs _ E').
- intros [= <-]. destruct vend as [v|]; [|discriminate E].
  destruct invn as [n|]; [|discriminate E].
  apply fetchone_raise in E as (r & Hin & Hc). destruct (Hp _ _ _ Hc). eauto.
Qed.

(** X2. [upload_dupcheck] answers 409 exactly for a hash that
    is stored: the response names the first document with that hash. Any
    other failure is an [AttributeError] - of fields that are no JSON
    object, or of a vendor or invoice number that is true and no string -
    or the [OperationalError] of a stored row that SQLite does not read.
    A normal answer proposes the uploaded fields with the two normalized
    keys added, whatever the verdict. *)
Theorem upload_conflict_iff_hash_stored (con : connection)
    (file_hash filename : string) (fields : value) :
  (forall e, upload' con file_hash filename fields = Raise e ->
     (e = AttributeError
      /\ ((forall d, fields <> VDict d)
          \/ exists d, fields = VDict d
               /\ (_norm_vendor (get_or_none "vendor" d) = Raise AttributeError
                   \/ _norm_invoice_no (get_or_none "invoice_number" d)
                      = Raise AttributeError)))
     \/ (exists row detail,
          e = HTTPException 409 detail
          /\ In row (documents con) /\ hash_sha256 row = Some file_hash
          /\ get "existing_document_id" detail = Some (VStr (doc_id row))
          /\ get "matches" detail
             = Some (VList [VDict [("type", VStr "document"); ("id", VStr (doc_id row))]]))
     \/ (e = OperationalError
         /\ (forall row, In row (documents con) -> hash_sha256 row <> Some file_hash)
         /\ exists r, In r (records con)
                      /\ sqlite_json (VDict (rec_fields r)) = false))
  /\ (forall d vend invn row,
        fields = VDict d ->
        _norm_vendor (get_or_none "vendor" d) = Ok vend ->
        _norm_invoice_no (get_or_none "invoice_number" d) = Ok invn ->
        In row (documents con) -> hash_sha256 row = Some file_hash ->
        exists detail, upload' con file_hash filename fields
                       = Raise (HTTPException 409 detail))
  /\ (forall resp, upload' con file_hash filename fields = Ok resp ->
        (forall row, In row (documents con) -> hash_sha256 row <> Some file_hash)
        /\ exists d vend invn,
             fields = VDict d
             /\ _norm_vendor (get_or_none "vendor" d) = Ok vend
             /\ _norm_invoice_no (get_or_none "invoice_number" d) = Ok invn
             /\ proposed_fields resp
                = set "invoice_number_norm" (value_of_norm invn)
                      (set "vendor_norm" (value_of_norm vend) d)
             /\ get "vendor_norm" (proposed_fields resp) = Some (value_of_norm vend)
             /\ get "invoice_number_norm" (proposed_fields resp)
                = Some (value_of_norm invn)
             /\ proposed_hash resp = file_hash).
Proof.
assert (Hraise : forall x e, _norm_vendor x = Raise e -> e = AttributeError).
{ intros x e. unfold _norm_vendor. destruct (negb (truthy x)); [discriminate|].
  destruct x; intros [= <-]; reflexivity. }
assert (Hraise' : forall x e, _norm_invoice_no x = Raise e -> e = AttributeError).
{ intros x e. unfold _norm_invoice_no. destruct (negb (truthy x)); [discriminate|].
  destruct x; intros [= <-]; reflexivity. }
assert (Hother : (forall d, fields <> VDict d) ->
                 upload' con file_hash filename fields = Raise AttributeError).
{ intros Hd. destruct fields; try reflexivity. exfalso. exact (Hd _ eq_refl). }
destruct (match fields with VDict d => Some d | _ => None end) as [d|] eqn:Ed.
2:{ assert (Hd : forall d, fields <> VDict d) by (intros d ->; discriminate Ed).
    rewrite (Hother Hd). split; [|split].
    - intros e [= <-]. left. auto.
    - intros d vend invn row ->. exfalso. exact (Hd d eq_refl).
    - intros resp [=]. }
assert (Ef : fields = VDict d) by (destruct fields; try discriminate Ed; congruence).
subst fields. clear Ed Hother.
destruct (_norm_vendor (get_or_none "vendor" d)) as [vend|e1] eqn:Hv.
2:{ assert (E : upload' con file_hash filename (VDict d) = Raise e1).
    { unfold upload_dupcheck. rewrite Hv. reflexivity. }
    pose proof (Hraise _ _ Hv) as ->.
    split; [|split].
    - intros e. rewrite E. intros [= <-]. left. split; [reflexivity|]. right.
      exists d. auto.
    - intros d' vend invn row [= <-]. rewrite Hv. discriminate.
    - intros resp. rewrite E. discriminate. }
destruct (_norm_invoice_no (get_or_none "invoice_number" d)) as [invn|e2] eqn:Hn.
2:{ assert (E : upload' con file_hash filename (VDict d) = Raise e2).
    { unfold upload_dupcheck. rewrite Hv. cbn [bind].
      rewrite get_or_none_set_ne by discriminate. rewrite Hn. reflexivity. }
    pose proof (Hraise' _ _ Hn) as ->.
    split; [|split].
    - intros e. rewrite E. intros [= <-]. left. split; [reflexivity|]. right.
      exists d. auto.
    - intros d' vend' invn' row [= <-] _. rewrite Hn. discriminate.
    - intros resp. rewrite E. discriminate. }
destruct (upload_unfold con file_hash filename d vend invn Hv Hn) as [G E].
cbv zeta in G, E. set (fields2 := set "invoice_number_norm" _ _) in *.
assert (Hv2 : _norm_vendor (get_or_none "vendor" fields2) = Ok vend)
  by (rewrite G by discriminate; exact Hv).
assert (Hn2 : _norm_invoice_no (get_or_none "invoice_number" fields2) = Ok invn)
  by (rewrite G by discriminate; exact Hn).
assert (Hresp : forall resp,
          proposed_fields resp = fields2 -> proposed_hash resp = file_hash ->
          exists d' vend' invn',
            VDict d = VDict d'
            /\ _norm_vendor (get_or_none "vendor" d') = Ok vend'
            /\ _norm_invoice_no (get_or_none "invoice_number" d') = Ok invn'
            /\ proposed_fields resp
               = set "invoice_number_norm" (value_of_norm invn')
                     (set "vendor_norm" (value_of_norm vend') d')
            /\ get "vendor_norm" (proposed_fields resp) = Some (value_of_norm vend')
            /\ get "invoice_number_norm" (proposed_fields resp)
               = Some (value_of_norm invn')
            /\ proposed_hash resp = file_hash).
{ intros resp Hf Hh. exists d, vend, invn. rewrite Hf.
  split; [reflexivity|]. split; [exact Hv|]. split; [exact Hn|].
  split; [reflexivity|]. split; [|split; [apply get_set_eq | exact Hh]].
  unfold fields2. rewrite get_set_ne by discriminate. apply get_set_eq. }
destruct (detect' con file_hash fields2) as [[v|]|e0] eqn:Hd.
- apply detect_forms in Hd
    as [(row & Hin & Hh & ->) | (Hno & [(v' & n & r & _ & _ & _ & _ & ->) | (l & ->)])].
  + change (certainty_is "exact" (exact_verdict (doc_id row))) with true in E.
    cbn match in E. split; [|split].
    * intros e. rewrite E. intros [= <-]. right. left.
      eexists row, _. split; [reflexivity|]. auto.
    * intros. eexists. exact E.
    * intros resp. rewrite E. discriminate.
  + change (certainty_is "exact" (likely_verdict (rec_id r))) with false in E.
    cbn match in E. split; [|split].
    * intros e. rewrite E. discriminate.
    * intros d' vend' invn' row _ _ _ Hin Hh. exfalso. exact (Hno row Hin Hh).
    * intros resp. rewrite E. intros [= <-]. split; [exact Hno|].
      apply Hresp; reflexivity.
  + change (certainty_is "exact" (possible_verdict l)) with false in E.
    cbn match in E. split; [|split].
    * intros e. rewrite E. discriminate.
    * intros d' vend' invn' row _ _ _ Hin Hh. exfalso. exact (Hno row Hin Hh).
    * intros resp. rewrite E. intros [= <-]. split; [exact Hno|].
      apply Hresp; reflexivity.
- assert (Hno : forall row, In row (documents con) -> hash_sha256 row <> Some file_hash).
  { apply select_document_none_inv. unfold detect_duplicates in Hd.
    destruct (select_document_by_hash con file_hash); [discriminate Hd | reflexivity]. }
  split; [|split].
  + intros e. rewrite E. discriminate.
  + intros d' vend' invn' row _ _ _ Hin Hh. exfalso. exact (Hno row Hin Hh).
  + intros resp. rewrite E. intros [= <-]. split; [exact Hno|].
    apply Hresp; reflexivity.
- assert (Hno : forall row, In row (documents con) -> hash_sha256 row <> Some file_hash).
  { apply select_document_none_inv. unfold detect_duplicates in Hd.
    destruct (select_document_by_hash con file_hash); [discriminate Hd | reflexivity]. }
  assert (Hop : e0 = OperationalError
                /\ exists r, In r (records con)
                             /\ sqlite_json (VDict (rec_fields r)) = false).
  { unfold detect_duplicates in Hd.
    destruct (select_document_by_hash con file_hash); [discriminate Hd|].
    rewrite Hv2 in Hd. cbn [bind] in Hd. rewrite Hn2 in Hd. cbn [bind] in Hd.
    apply (by_fields_raise _ _ _ _ _ _ Hd). }
  destruct Hop as [-> Hr].
  split; [|split].
  + intros e. rewrite E. intros [= <-]. right. right. auto.
  + intros d' vend' invn' row _ _ _ Hin Hh. exfalso. exact (Hno row Hin Hh).
  + intros resp. rewrite E. discriminate.
Qed.

(** X3. What [upload_dupcheck] proposes is found again: once a
    record holding the proposed fields of an upload is stored in a table
    SQLite reads, a later upload whose vendor and invoice number
    normalize to the same two keys - neither holding a U+0000 -, with a
    hash that is not stored, is answered with the verdict [likely] and
    the notice of a same invoice. *)
Theorem proposed_record_found_again (con con' : connection)
    (h1 h2 name1 name2 : string) (fields1 fields2 : dict)
    (resp1 : upload_response) (r : record_row) (v n : string) :
  upload' con h1 name1 (VDict fields1) = Ok resp1 ->
  _norm_vendor (get_or_none "vendor" fields1) = Ok (Some v) ->
  _norm_invoice_no (get_or_none "invoice_number" fields1) = Ok (Some n) ->
  Py.until_nul v = v -> Py.until_nul n = n ->
  readable con' ->
  In r (records con') -> rec_fields r = proposed_fields resp1 ->
  _norm_vendor (get_or_none "vendor" fields2) = Ok (Some v) ->
  _norm_invoice_no (get_or_none "invoice_number" fields2) = Ok (Some n) ->
  (forall d, In d (documents con') -> hash_sha256 d <> Some h2) ->
  exists r',
    In r' (records con') /\ same_pair' v n r' = Ok true
    /\ upload' con' h2 name2 (VDict fields2)
       = Ok {| notice := Some "This appears to be the same invoice (same vendor and invoice number).";
               duplicate_suspect := Some (likely_verdict (rec_id r'));
               proposed_hash := h2;
               proposed_filename := name2;
               proposed_fields :=
                 set "invoice_number_norm" (VStr n) (set "vendor_norm" (VStr v) fields2) |}.
Proof.
intros H1 Hv1 Hn1 Cv Cn Hread Hin Hr Hv2 Hn2 Hno.
assert (Hp : proposed_fields resp1
             = set "invoice_number_norm" (VStr n) (set "vendor_norm" (VStr v) fields1)).
{ destruct (upload_unfold con h1 name1 fields1 _ _ Hv1 Hn1) as [_ E].
  cbv zeta in E. rewrite E in H1. cbn [value_of_norm] in H1.
  destruct (detect' con h1 _) as [[d|]|e]; [|injection H1 as <-; reflexivity|discriminate].
  destruct (certainty_is "exact" d); [discriminate|].
  injection H1 as <-. reflexivity. }
assert (Hm : same_pair' v n r = Ok true).
{ apply (stored_pair_matches sqlite_text _ _ v n r Hv1 Hn1 Cv Cn).
  - apply (proj1 (List.Forall_forall _ _) Hread r Hin).
  - rewrite Hr, Hp. rewrite get_set_ne by discriminate. apply get_set_eq.
  - rewrite Hr, Hp. apply get_set_eq. }
pose proof (fetchone_computed (same_pair' v n) (records con')
              (fun x Hx => readable_pair sqlite_text con' v n x Hread Hx)) as Ef.
destruct (List.find _ (records con')) as [r'|] eqn:Efind.
2:{ apply (find_none _ _ Efind) in Hin. rewrite Hm in Hin. discriminate Hin. }
apply find_some in Efind as [Hin' Hm'].
assert (Hok : same_pair' v n r' = Ok true).
{ destruct (same_pair' v n r') as [[|]|e]; [reflexivity | discriminate Hm'
                                            | discriminate Hm']. }
exists r'. split; [exact Hin'|]. split; [exact Hok|].
destruct (upload_unfold con' h2 name2 fields2 _ _ Hv2 Hn2) as [G E].
cbv zeta in G, E. cbn [value_of_norm] in G, E. rewrite E.
rewrite (detect_unfold sqlite_text ratio_of_container con' h2 _ (Some v) (Some n)
           (select_document_none _ _ Hno)).
- unfold detect_by_fields. rewrite Ef. reflexivity.
- rewrite G by discriminate. exact Hv2.
- rewrite G by discriminate. exact Hn2.
Qed.

(** X4. A document without an invoice number (none given, or
    one that normalizes to nothing) whose hash is not stored never gets
    the verdict [likely]: a verdict is then [possible], and lists - up to
    five - the records of the same normalized vendor whose total is within
    1.00 of the document's and whose invoice date equals the document's,
    each with similarity 0.0. The statement has then read every row of
    the table. *)
Theorem without_number_total_and_date (con : connection) (file_hash : string)
    (fields : dict) (d : dict) :
  _norm_invoice_no (get_or_none "invoice_number" fields) = Ok None ->
  (forall x, In x (documents con) -> hash_sha256 x <> Some file_hash) ->
  detect' con file_hash fields = Ok (Some d) ->
  exists v,
    _norm_vendor (get_or_none "vendor" fields) = Ok (Some v)
    /\ readable con
    /\ d = possible_verdict
             (map (fun r => VDict [("type", VStr "record"); ("id", VStr (rec_id r));
                                   ("similarity", VFloat 0)])
                  (List.filter
                     (fun r => holds (same_vend' v r)
                               && (total_close (get_or_none "total" fields)
                                               (get_or_none "total" (rec_fields r))
                                   && date_match (get_or_none "invoice_date" fields)
                                                 (get_or_none "invoice_date" (rec_fields r))))
                     (records con))).
Proof.
intros Hn Hno Hd.
apply detect_inv in Hd as [(row & Es & _) | (_ & vend & invn & Hv & Hn' & Hb)].
{ apply find_some in Es as [Hin Heq]. apply opt_str_eqb_true in Heq.
  exfalso. exact (Hno row Hin Heq). }
rewrite Hn in Hn'. injection Hn' as <-.
apply by_fields_inv in Hb
  as [(v & n & r & _ & [=] & _) | (_ & l & Hs & Hd)].
destruct vend as [v|]; [|injection Hs as <-; discriminate Hd].
exists v. split; [exact Hv|].
apply suspects_inv in Hs as [Hread ->]. split.
- apply List.Forall_forall. intros x Hx. destruct (Hread x Hx) as [b Hb].
  rewrite (clause_vendor sqlite_text) in Hb.
  destruct (sqlite_json _); [reflexivity | discriminate Hb].
- destruct (map _ _) as [|e l] eqn:Em; [discriminate Hd|].
  injection Hd as ->. rewrite <- Em. reflexivity.
Qed.

End UploadFacts.

(** ** The count of matching characters *)

Section DifflibBounds.
Import Difflib.
Local Open Scope nat_scope.

Variable a b : list ascii.

Lemma inner_window (i blo bhi : nat) (j2len : list (nat * nat))
    (js : list nat) (newj2len : list (nat * nat)) (bst : best) :
  (forall j, j2len_get j j2len <= j + 1 - blo) ->
  (forall j, j2len_get j newj2len <= j + 1 - blo) ->
  blo <= snd (fst bst) /\ snd (fst bst) + snd bst <= bhi ->
  (forall j, j2len_get j (fst (inner i blo bhi j2len js newj2len bst)) <= j + 1 - blo)
  /\ blo <= snd (fst (snd (inner i blo bhi j2len js newj2len bst)))
  /\ snd (fst (snd (inner i blo bhi j2len js newj2len bst)))
     + snd (snd (inner i blo bhi j2len js newj2len bst)) <= bhi.
Proof.
intros Hold. revert newj2len bst.
induction js as [|j js IH]; intros newj2len bst Hnew Hb; simpl; [tauto|].
destruct (Nat.ltb_spec j blo) as [_|Hlo]; [apply IH; assumption|].
destruct (Nat.leb_spec bhi j) as [_|Hhi]; [tauto|].
destruct bst as [[besti bestj] bestsize].
set (k := match j with O => 0 | S j' => j2len_get j' j2len end + 1).
assert (Hk : k <= j + 1 - blo).
{ unfold k. destruct j as [|j']; [lia|]. specialize (Hold j'). lia. }
apply IH.
- intros j0. simpl. destruct (Nat.eqb_spec j0 j) as [->|_]; [exact Hk | apply Hnew].
- destruct (bestsize <? k); [|exact Hb]. simpl. lia.
Qed.

Lemma outer_window (n i blo bhi : nat) (j2len : list (nat * nat)) (bst : best) :
  (forall j, j2len_get j j2len <= j + 1 - blo) ->
  blo <= snd (fst bst) /\ snd (fst bst) + snd bst <= bhi ->
  blo <= snd (fst (outer a b n i blo bhi j2len bst))
  /\ snd (fst (outer a b n i blo bhi j2len bst))
     + snd (outer a b n i blo bhi j2len bst) <= bhi.
Proof.
revert i j2len bst. induction n as [|n IH]; intros i j2len bst Hold Hb;
  simpl; [exact Hb|].
set (js := match nth_error a i with Some c => b2j b c | None => [] end).
destruct (inner_window i blo bhi j2len js [] bst Hold) as [H1 H2];
  [intros j; simpl; lia | exact Hb |].
destruct (inner i blo bhi j2len js [] bst) as [newj2len bst'].
apply IH; [exact H1 | exact H2].
Qed.

Lemma extend_left_window (fuel alo blo bhi : nat) (bst : best) :
  blo <= snd (fst bst) /\ snd (fst bst) + snd bst <= bhi ->
  blo <= snd (fst (extend_left a b fuel alo blo bst))
  /\ snd (fst (extend_left a b fuel alo blo bst))
     + snd (extend_left a b fuel alo blo bst) <= bhi.
Proof.
revert bst. induction fuel as [|fuel IH]; intros [[besti bestj] bestsize] Hb;
  simpl; [exact Hb|].
destruct ((alo <? besti) && (blo <? bestj) && same_at a b (besti - 1) (bestj - 1))
  eqn:E; [|exact Hb].
apply IH. apply andb_prop in E as [E _]. apply andb_prop in E as [_ E].
apply Nat.ltb_lt in E. simpl in *. lia.
Qed.

Lemma extend_right_window (fuel ahi blo bhi : nat) (bst : best) :
  blo <= snd (fst bst) /\ snd (fst bst) + snd bst <= bhi ->
  blo <= snd (fst (extend_right a b fuel ahi bhi bst))
  /\ snd (fst (extend_right a b fuel ahi bhi bst))
     + snd (extend_right a b fuel ahi bhi bst) <= bhi.
Proof.
revert bst. induction fuel as [|fuel IH]; intros [[besti bestj] bestsize] Hb;
  simpl; [exact Hb|].
destruct ((besti + bestsize <? ahi) && (bestj + bestsize <? bhi)
          && same_at a b (besti + bestsize) (bestj + bestsize)) eqn:E; [|exact Hb].
apply IH. apply andb_prop in E as [E _]. apply andb_prop in E as [_ E].
apply Nat.ltb_lt in E. simpl in *. lia.
Qed.

Lemma find_longest_match_window (alo ahi blo bhi : nat) :
  blo <= bhi ->
  blo <= snd (fst (find_longest_match a b alo ahi blo bhi))
  /\ snd (fst (find_longest_match a b alo ahi blo bhi))
     + snd (find_longest_match a b alo ahi blo bhi) <= bhi.
Proof.
intros H. unfold find_longest_match.
apply extend_right_window, extend_left_window, outer_window.
- intros j. simpl. lia.
- simpl. lia.
Qed.

Lemma matches_in_le (fuel alo ahi blo bhi : nat) :
  alo <= ahi -> blo <= bhi ->
  matches_in a b fuel alo ahi blo bhi <= ahi - alo
  /\ matches_in a b fuel alo ahi blo bhi <= bhi - blo.
Proof.
revert alo ahi blo bhi.
induction fuel as [|fuel IH]; intros alo ahi blo bhi Ha Hb; cbn [matches_in]; [lia|].
pose proof (find_longest_match_within a b alo ahi blo bhi Ha) as Hw.
pose proof (find_longest_match_window alo ahi blo bhi Hb) as Hv.
destruct (find_longest_match a b alo ahi blo bhi) as [[i j] k].
simpl in Hw, Hv. destruct k as [|k']; [lia|].
assert (L : (if (alo <? i) && (blo <? j) then matches_in a b fuel alo i blo j else 0)
            <= i - alo
            /\ (if (alo <? i) && (blo <? j) then matches_in a b fuel alo i blo j else 0)
               <= j - blo).
{ destruct ((alo <? i) && (blo <? j)); [apply IH; lia | lia]. }
assert (R : (if (i + S k' <? ahi) && (j + S k' <? bhi)
             then matches_in a b fuel (i + S k') ahi (j + S k') bhi else 0)
            <= ahi - (i + S k')
            /\ (if (i + S k' <? ahi) && (j + S k' <? bhi)
                then matches_in a b fuel (i + S k') ahi (j + S k') bhi else 0)
               <= bhi - (j + S k')).
{ destruct ((i + S k' <? ahi) && (j + S k' <? bhi)); [apply IH; lia | lia]. }
lia.
Qed.

(** X5. The characters [SequenceMatcher] counts as matching are
    never more than either string has: twice their number is at most the
    sum of the two lengths, so that the similarity [2.0*M/T] is a quotient
    of at most one. For an empty second string nothing matches. *)
Theorem matches_at_most_lengths :
  matches a b <= length a
  /\ matches a b <= length b
  /\ 2 * matches a b <= length a + length b
  /\ (b = [] -> matches a b = 0).
Proof.
destruct (matches_in_le (S (length a)) 0 (length a) 0 (length b)) as [Ha Hb]; [lia|lia|].
fold (matches a b) in Ha, Hb.
split; [lia|]. split; [lia|]. split; [lia|].
intros ->. simpl in Hb. lia.
Qed.

End DifflibBounds.

(** ** The four date formats *)

Section DateFormats.
Import Val Strptime Normalizer.

(** The two characters that separate the parts of a date. *)
Abbreviation sep := (fun c : ascii => one "/" c || one "-" c).
Abbreviation plain := (fun c : ascii => negb (sep c)).

Lemma re_match_cons (d : directive) (fmt : list directive) (s : string)
    (f : found) (r : found * string) :
  re_match (d :: fmt) s f = Some r ->
  exists a t rest,
    In a (alternatives d) /\ match_seq a s = Some (t, rest)
    /\ re_match fmt rest (store d t f) = Some r.
Proof.
cbn [re_match]. generalize (alternatives d). intros alts.
induction alts as [|a alts IH]; [discriminate|].
destruct (match_seq a s) as [[t rest]|] eqn:E.
- destruct (re_match fmt rest (store d t f)) as [r'|] eqn:E2.
  + intros [= <-]. exists a, t, rest. split; [now left|]. auto.
  + intros H. destruct (IH H) as (a' & t' & rest' & Hin & H1 & H2).
    exists a', t', rest'. split; [now right|]. auto.
- intros H. destruct (IH H) as (a' & t' & rest' & Hin & H1 & H2).
  exists a', t', rest'. split; [now right|]. auto.
Qed.

Lemma match_seq_spec (cs : list cls) (s t rest : string) :
  match_seq cs s = Some (t, rest) ->
  s = t ++ rest /\ String.length t = length cs
  /\ forall P : ascii -> bool,
       Forall (fun c : cls => forall x, c x = true -> P x = true) cs ->
       Py.str_forall P t = true.
Proof.
revert s t rest. induction cs as [|c cs IH]; intros s t rest; simpl.
- intros [= <- <-]. split; [reflexivity|]. split; [reflexivity|]. reflexivity.
- destruct s as [|x r]; [discriminate|].
  destruct (c x) eqn:Hc; [|discriminate].
  destruct (match_seq cs r) as [[t' rest']|] eqn:E; [|discriminate].
  intros [= <- <-]. destruct (IH _ _ _ E) as (-> & Hl & Hp).
  split; [reflexivity|]. split; [simpl; now rewrite Hl|].
  intros P HP. inversion HP as [|c0 cs0 H1 H2]; subst. simpl.
  rewrite (H1 x Hc). apply Hp, H2.
Qed.

Lemma digits_plain (lo hi : ascii) :
  (48 <=? Py.code lo)%N = true -> (Py.code hi <=? 57)%N = true ->
  forall x, rng lo hi x = true -> plain x = true.
Proof.
unfold rng, Py.in_range. intros H1 H2 x H.
apply andb_prop in H as [Ha Hb].
apply N.leb_le in H1, H2, Ha, Hb.
unfold one.
destruct (ascii_dec x "/") as [->|_];
  [change (Py.code "/") with 47%N in Ha; lia|].
destruct (ascii_dec x "-") as [->|_];
  [change (Py.code "-") with 45%N in Ha; lia|].
reflexivity.
Qed.

Lemma one_plain (c : ascii) :
  plain c = true -> forall x, one c x = true -> plain x = true.
Proof.
intros H x. unfold one at 1. destruct (ascii_dec x c) as [->|_]; [auto | discriminate].
Qed.

Lemma dig_plain (x : ascii) : dig x = true -> plain x = true.
Proof. apply (digits_plain "0" "9"); reflexivity. Qed.

(** The text a numeric directive matches has no separator; a month has at
    most two characters, a year [%Y] four and a year [%y] two. *)
Lemma numeric_text (d : directive) (a : list cls) (s t rest : string) :
  d = Pm \/ d = Pd \/ d = PY \/ d = Py_ ->
  In a (alternatives d) -> match_seq a s = Some (t, rest) ->
  s = t ++ rest /\ Py.str_forall plain t = true
  /\ (d = Pm -> String.length t <= 2)
  /\ (d = PY -> String.length t = 4) /\ (d = Py_ -> String.length t = 2).
Proof.
intros Hd Hin Hm. destruct (match_seq_spec _ _ _ _ Hm) as (Hs & Hl & Hp).
split; [exact Hs|].
assert (Hcls : Forall (fun c : cls => forall x, c x = true -> plain x = true) a
               /\ (d = Pm -> length a <= 2)
               /\ (d = PY -> length a = 4) /\ (d = Py_ -> length a = 2)).
{ destruct Hd as [-> | [-> | [-> | ->]]]; simpl in Hin;
    repeat (destruct Hin as [<- | Hin]); try contradiction;
    (split; [repeat constructor;
             try (apply one_plain; reflexivity);
             try (apply digits_plain; reflexivity);
             try apply dig_plain
            | repeat split; intros; try discriminate; simpl; lia]).
}
destruct Hcls as (Hc & H1 & H2 & H3).
split; [apply Hp, Hc|]. rewrite Hl. auto.
Qed.

Lemma literal_text (c : ascii) (a : list cls) (s t rest : string) :
  In a (alternatives (Lit c)) -> match_seq a s = Some (t, rest) ->
  s = String c rest.
Proof.
simpl. intros [<-|[]]. simpl. destruct s as [|x r]; [discriminate|].
unfold one. destruct (ascii_dec x c) as [->|_]; [|discriminate].
intros [= _ <-]. reflexivity.
Qed.

(** A date of three numeric parts with separators [c1] and [c2]. *)
Lemma strptime_parts (d1 d2 d3 : directive) (c1 c2 : ascii) (s : string) (r : date) :
  d1 = Pm \/ d1 = Pd \/ d1 = PY \/ d1 = Py_ ->
  d2 = Pm \/ d2 = Pd \/ d2 = PY \/ d2 = Py_ ->
  d3 = Pm \/ d3 = Pd \/ d3 = PY \/ d3 = Py_ ->
  strptime [d1; Lit c1; d2; Lit c2; d3] s = Some r ->
  exists t1 t2 t3,
    s = t1 ++ String c1 (t2 ++ String c2 t3)
    /\ Py.str_forall plain t1 = true /\ Py.str_forall plain t2 = true
    /\ Py.str_forall plain t3 = true
    /\ (d1 = Pm -> String.length t1 <= 2) /\ (d1 = PY -> String.length t1 = 4)
    /\ (d3 = PY -> String.length t3 = 4) /\ (d3 = Py_ -> String.length t3 = 2).
Proof.
intros H1 H2 H3. unfold strptime.
destruct (re_match _ s _) as [[f rest]|] eqn:E; [|discriminate].
destruct (Py.is_empty rest) eqn:Hr; [|discriminate]. intros _.
destruct rest; [|discriminate Hr].
apply re_match_cons in E as (a1 & t1 & r1 & Hi1 & Hm1 & E).
apply re_match_cons in E as (a2 & t2 & r2 & Hi2 & Hm2 & E).
apply re_match_cons in E as (a3 & t3 & r3 & Hi3 & Hm3 & E).
apply re_match_cons in E as (a4 & t4 & r4 & Hi4 & Hm4 & E).
apply re_match_cons in E as (a5 & t5 & r5 & Hi5 & Hm5 & E).
simpl in E. injection E as _ ->.
destruct (numeric_text _ _ _ _ _ H1 Hi1 Hm1) as (-> & P1 & L1 & L1' & _).
destruct (numeric_text _ _ _ _ _ H2 Hi3 Hm3) as (-> & P2 & _).
destruct (numeric_text _ _ _ _ _ H3 Hi5 Hm5) as (-> & P3 & _ & L3 & L3').
rewrite (literal_text _ _ _ _ _ Hi2 Hm2), (literal_text _ _ _ _ _ Hi4 Hm4).
exists t1, t3, t5. rewrite append_empty_r.
split; [reflexivity|]. auto 10.
Qed.

(** The first separator of a string and the text before it. *)
Lemma first_separator (u1 u2 v1 v2 : string) (c1 c2 : ascii) :
  Py.str_forall plain u1 = true -> Py.str_forall plain u2 = true ->
  sep c1 = true -> sep c2 = true ->
  u1 ++ String c1 v1 = u2 ++ String c2 v2 ->
  u1 = u2 /\ c1 = c2 /\ v1 = v2.
Proof.
revert u2. induction u1 as [|x u1 IH]; intros [|y u2]; simpl; intros P1 P2 S1 S2 E.
- injection E as -> ->. auto.
- injection E as -> _. apply andb_prop in P2 as [P2 _].
  rewrite S1 in P2. discriminate.
- injection E as -> _. apply andb_prop in P1 as [P1 _].
  rewrite S2 in P1. discriminate.
- injection E as -> E. apply andb_prop in P1 as [_ P1]. apply andb_prop in P2 as [_ P2].
  destruct (IH u2 P1 P2 S1 S2 E) as (-> & -> & ->). auto.
Qed.

(** X6. No string is read by two of the four formats of the
    date loop: the formats exclude each other, so the order in which the
    loop tries them does not change what it finds. *)
Theorem date_formats_exclusive (s : string) :
  (forall f1 f2 d1 d2,
     In f1 formats -> In f2 formats ->
     strptime f1 s = Some d1 -> strptime f2 s = Some d2 -> f1 = f2)
  /\ (forall fmts, Permutation formats fmts ->
        first_parse fmts s = first_parse formats s).
Proof.
assert (Hex : forall f1 f2 d1 d2,
          In f1 formats -> In f2 formats ->
          strptime f1 s = Some d1 -> strptime f2 s = Some d2 -> f1 = f2).
{ assert (Hs1 : sep "/"%char = true) by reflexivity.
  assert (Hs2 : sep "-"%char = true) by reflexivity.
  intros f1 f2 d1 d2 Hf1 Hf2 E1 E2. unfold formats in Hf1, Hf2. simpl in Hf1, Hf2.
  destruct Hf1 as [<-|[<-|[<-|[<-|[]]]]]; destruct Hf2 as [<-|[<-|[<-|[<-|[]]]]];
    try reflexivity; exfalso;
    apply strptime_parts in E1 as (a1 & a2 & a3 & -> & A1 & A2 & A3 & La & La' & Lb & Lb');
    auto;
    apply strptime_parts in E2 as (b1 & b2 & b3 & E & B1 & B2 & B3 & Ma & Ma' & Mb & Mb');
    auto;
    apply first_separator in E as (-> & Ec & E); auto; try discriminate Ec;
    try (specialize (La eq_refl); specialize (Ma' eq_refl); lia);
    try (specialize (Ma eq_refl); specialize (La' eq_refl); lia);
    apply first_separator in E as (-> & Ec2 & ->); auto; try discriminate Ec2;
    try (specialize (Lb eq_refl); specialize (Mb' eq_refl); lia);
    try (specialize (Lb' eq_refl); specialize (Mb eq_refl); lia). }
split; [exact Hex|].
intros fmts Hp.
destruct (first_parse formats s) as [d|] eqn:E.
- apply first_parse_some in E as (before & f & after & Hf & _ & Hd).
  assert (Hin : In f formats) by (rewrite Hf; apply in_elt).
  assert (Hin' : In f fmts) by (apply (Permutation_in _ Hp), Hin).
  assert (Hu : forall g d', In g fmts -> strptime g s = Some d' -> g = f /\ d' = d).
  { intros g d' Hg Hd'.
    assert (g = f).
    { apply (Hex g f d' d); [|exact Hin|exact Hd'|exact Hd].
      apply (Permutation_in _ (Permutation_sym Hp)), Hg. }
    subst g. rewrite Hd in Hd'. injection Hd' as <-. auto. }
  clear Hp Hf. induction fmts as [|g fmts IH]; [contradiction|]. simpl.
  destruct (strptime g s) as [d'|] eqn:Eg.
  + destruct (Hu g d' (or_introl eq_refl) Eg) as [_ ->]. reflexivity.
  + destruct Hin' as [->|Hin']; [congruence|].
    apply IH; [exact Hin'|]. intros g' d' Hg'. apply Hu. now right.
- apply first_parse_none. intros f Hf.
  apply (proj1 (first_parse_none formats s) E).
  apply (Permutation_in _ (Permutation_sym Hp)), Hf.
Qed.

End DateFormats.

(** ** The shape of a normalized invoice *)

Section NormalizedShape.
Import Val Models Normalizer.

Variable S : schema.

Lemma mapM_length {A B} (f : A -> result B) (l : list A) (r : list B) :
  mapM f l = Ok r -> length r = length l.
Proof.
revert r. induction l as [|x l IH]; intros r; simpl.
- intros [= <-]. reflexivity.
- destruct (f x) as [y|e]; [|discriminate]. simpl.
  destruct (mapM f l) as [ys|e]; [|discriminate]. simpl.
  intros [= <-]. simpl. now rewrite (IH ys eq_refl).
Qed.

Lemma set_In (k0 : string) (v0 : value) (d : dict) (k : string) (v : value) :
  In (k, v) (set k0 v0 d) -> (k = k0 /\ v = v0) \/ In (k, v) d.
Proof.
induction d as [|[k' v'] d IH]; simpl.
- intros [[= <- <-]|[]]. now left.
- destruct (String.eqb k0 k'); simpl.
  + intros [[= <- <-]|H]; [now left | right; now right].
  + intros [H|H]; [right; now left|]. destruct (IH H); [now left | right; now right].
Qed.

Lemma keys_set (k0 : string) (v0 : value) (d : dict) :
  get k0 d <> None -> map fst (set k0 v0 d) = map fst d.
Proof.
induction d as [|[k' v'] d IH]; simpl; [congruence|].
destruct (String.eqb_spec k0 k') as [->|_]; simpl; [reflexivity|].
intros H. now rewrite IH.
Qed.

Lemma isoformat_field_In (k0 : string) (d : dict) (k : string) (v : value) :
  In (k, v) (isoformat_field k0 d) -> (exists s, v = VStr s) \/ In (k, v) d.
Proof.
unfold isoformat_field. destruct (get k0 d) as [[]|]; try (now right);
  intros H; apply set_In in H as [[_ ->]|H]; eauto.
Qed.

Lemma keys_isoformat_field (k0 : string) (d : dict) :
  map fst (isoformat_field k0 d) = map fst d.
Proof.
unfold isoformat_field. destruct (get k0 d) as [[]|] eqn:E; try reflexivity;
  apply keys_set; congruence.
Qed.

Lemma entry_In {A} (k : string) (f : A -> value) (o : option A)
    (k' : string) (v : value) :
  In (k', v) (entry k f o) -> k' = k /\ exists a, v = f a.
Proof. destruct o as [a|]; simpl; [|tauto]. intros [[= <- <-]|[]]. eauto. Qed.

Lemma InvoiceFields_dict_In (m : InvoiceFields) (k : string) (v : value) :
  In (k, v) (InvoiceFields_dict m) ->
  In k ["vendor"; "invoice_number"; "invoice_date"; "due_date"; "currency";
        "total"; "tax"; "payment_terms"; "line_items"]
  /\ v <> VNone.
Proof.
unfold InvoiceFields_dict. rewrite !in_app_iff. simpl.
intros [[[= <- <-]|[[= <- <-]|[]]]
       |[H|[H|[H|[[[= <- <-]|[]]|[H|[H|[[= <- <-]|[]]]]]]]]];
  try (apply entry_In in H as [-> [a ->]]); (split; [simpl; tauto | discriminate]).
Qed.

Lemma InvoiceFields_dict_keys (m : InvoiceFields) :
  List.NoDup (map fst (InvoiceFields_dict m))
  /\ get "vendor" (InvoiceFields_dict m) <> None
  /\ get "invoice_number" (InvoiceFields_dict m) <> None
  /\ get "total" (InvoiceFields_dict m) <> None
  /\ get "line_items" (InvoiceFields_dict m) <> None.
Proof.
destruct m as [v nb [d1|] [d2|] [c|] t [x|] [p|] li];
  (split; [|repeat split; discriminate]); cbn;
  repeat (apply List.NoDup_cons; [simpl; intuition discriminate|]);
  apply List.NoDup_nil.
Qed.

Lemma LineItem_dict_shape (li : LineItem) :
  get "description" (LineItem_dict li) = Some (VStr (description li))
  /\ forall k v, In (k, v) (LineItem_dict li) ->
       In k ["qty"; "description"; "unit_price"; "amount"] /\ v <> VNone.
Proof.
split; [destruct li as [[q|] d [u|] [a|]]; reflexivity|].
intros k v. unfold LineItem_dict. rewrite !in_app_iff. simpl.
intros [H|[[[= <- <-]|[]]|[H|H]]];
  try (apply entry_In in H as [-> [a ->]]); (split; [simpl; tauto | discriminate]).
Qed.

Lemma get_keys (k : string) (d d' : dict) :
  map fst d = map fst d' -> get k d <> None -> get k d' <> None.
Proof.
revert d'. induction d as [|[k1 v1] d IH]; intros [|[k2 v2] d']; simpl;
  try discriminate; [congruence|].
intros [= <- E]. destruct (String.eqb k k1); [discriminate | apply IH, E].
Qed.

(** X7. A normalized invoice holds fields of the model only - keys
    of the payload that the model does not declare are dropped -, each
    once and none of them null; [vendor], [invoice_number], [total] and
    [line_items] are always there. [line_items] is a list with one object
    per item of the payload, each with its description, with members of
    the item model only and none of them null; without the key in the
    payload it is empty. *)
Theorem normalized_invoice_shape (fields : dict) (id : string) (n : dict) :
  _normalize_invoice_fields S fields id = Ok n ->
  (forall k v, In (k, v) n ->
     In k ["vendor"; "invoice_number"; "invoice_date"; "due_date"; "currency";
           "total"; "tax"; "payment_terms"; "line_items"]
     /\ v <> VNone)
  /\ List.NoDup (map fst n)
  /\ (forall k, In k ["vendor"; "invoice_number"; "total"; "line_items"] ->
                get k n <> None)
  /\ exists items,
       get "line_items" n = Some (VList (map (fun li => VDict (LineItem_dict li)) items))
       /\ (forall li, In li items ->
             get "description" (LineItem_dict li) = Some (VStr (description li))
             /\ forall k v, In (k, v) (LineItem_dict li) ->
                  In k ["qty"; "description"; "unit_price"; "amount"] /\ v <> VNone)
       /\ (forall l, get "line_items" fields = Some (VList l) -> length items = length l)
       /\ (get "line_items" fields = None -> items = []).
Proof.
unfold _normalize_invoice_fields.
set (data := setdefault "total" _ _).
assert (Hli : get "line_items" data = get "line_items" fields).
{ unfold data. rewrite !get_setdefault_ne by discriminate. reflexivity. }
rewrite Hli.
destruct (match get "line_items" fields with
          | Some v => iterate v
          | None => Ok []
          end) as [line_items|e] eqn:Eit; [|discriminate]. cbn [bind].
destruct (mapM (item_init S) line_items) as [items|e] eqn:Em; [|discriminate].
cbn [bind].
destruct (InvoiceFields_init S _) as [m|e]; [|discriminate]. cbn [bind].
intros Hn. assert (En : n = invoice_output items m) by (injection Hn as <-; reflexivity).
clear Hn. subst n. unfold invoice_output.
destruct (InvoiceFields_dict_keys m) as (Hnd & K1 & K2 & K3 & K4).
set (n1 := set "line_items"
                (VList (map (fun li => VDict (LineItem_dict li)) items))
                (InvoiceFields_dict m)).
assert (Hk : map fst (isoformat_field "due_date" (isoformat_field "invoice_date" n1))
             = map fst (InvoiceFields_dict m)).
{ rewrite !keys_isoformat_field. unfold n1. apply keys_set. exact K4. }
assert (Hn1 : forall k v, In (k, v) n1 -> v <> VNone).
{ intros k v H. unfold n1 in H. apply set_In in H as [[_ ->]|H]; [discriminate|].
  apply (InvoiceFields_dict_In m k v H). }
assert (Hg1 : get "line_items" n1
              = Some (VList (map (fun li => VDict (LineItem_dict li)) items)))
  by apply get_set_eq.
clearbody n1.
split; [|split; [|split]].
- intros k v H.
  assert (Hkey : In k (map fst (InvoiceFields_dict m))).
  { rewrite <- Hk. apply (in_map fst _ (k, v)), H. }
  split.
  { apply in_map_iff in Hkey as ([k' v'] & <- & Hin).
    apply (InvoiceFields_dict_In m k' v' Hin). }
  apply isoformat_field_In in H as [[s ->]|H]; [discriminate|].
  apply isoformat_field_In in H as [[s ->]|H]; [discriminate|].
  exact (Hn1 k v H).
- rewrite Hk. exact Hnd.
- intros k Hin. apply (get_keys k (InvoiceFields_dict m)); [now rewrite Hk|].
  simpl in Hin. destruct Hin as [<-|[<-|[<-|[<-|[]]]]]; assumption.
- exists items. split; [|split; [|split]].
  + assert (G : forall k d, k <> "line_items" ->
                  get "line_items" (isoformat_field k d) = get "line_items" d).
    { intros k d Hne. unfold isoformat_field.
      destruct (get k d) as [[]|]; try reflexivity; apply get_set_ne; congruence. }
    rewrite !G by discriminate. exact Hg1.
  + intros li _. apply LineItem_dict_shape.
  + intros l E. rewrite E in Eit. injection Eit as <-. exact (mapM_length _ _ _ Em).
  + intros E. rewrite E in Eit. injection Eit as <-. injection Em as <-. reflexivity.
Qed.

End NormalizedShape.

(** ** The pipeline and the two tables *)

Section PipelineFacts.
Import Val Models Ai Effects.

Variable St : Type.
Variable create : request -> St -> reply * St.
Variable json_loads : string -> option value.
Variable float_of_str : string -> option float.
Variable uuid12 : St -> string * St.
Variable render : string -> option (list string).
Variable api_key_set : bool.
Variable CLASSIFIER_MODEL EXTRACTION_MODEL : string.
Variable CLASSIFIER_PROMPT : string.
Variable invoice_user_prompt receipt_user_prompt summary_user_prompt : string.
Variable S : schema.
Variable indexed : bool.

Abbreviation gateway := (_chat_json_with_images St create json_loads api_key_set).
Abbreviation classifier :=
  (_classify_document_vision St create json_loads float_of_str api_key_set
     CLASSIFIER_MODEL CLASSIFIER_PROMPT).
Abbreviation invoice_extractor :=
  (_extract_invoice_fields_vision St create json_loads api_key_set
     EXTRACTION_MODEL invoice_user_prompt).
Abbreviation receipt_extractor :=
  (_extract_receipt_fields_vision St create json_loads api_key_set
     EXTRACTION_MODEL receipt_user_prompt).
Abbreviation pipeline :=
  (run_extraction St create json_loads float_of_str uuid12 render api_key_set
     CLASSIFIER_MODEL EXTRACTION_MODEL CLASSIFIER_PROMPT
     invoice_user_prompt receipt_user_prompt summary_user_prompt S indexed).
Abbreviation images_of := (pages_of render).

Lemma keeps_ret {A} (a : A) : keeps_tables St (ret St a).
Proof. intros w. split; reflexivity. Qed.

Lemma keeps_raise {A} (e : exn) : keeps_tables St (@raise St A e).
Proof. intros w. split; reflexivity. Qed.

Lemma keeps_lift {A} (r : result A) : keeps_tables St (lift St r).
Proof. intros w. split; reflexivity. Qed.

Lemma keeps_bindM {A B} (m : M St A) (k : A -> M St B) :
  keeps_tables St m -> (forall a, keeps_tables St (k a)) ->
  keeps_tables St (bindM St m k).
Proof.
intros Hm Hk w. unfold bindM. specialize (Hm w).
destruct (m w) as [[a|e] w1]; simpl in Hm; [|exact Hm].
destruct (Hk a w1) as [H1 H2]. destruct Hm as [H3 H4].
split; congruence.
Qed.

Lemma keeps_catch {A} (m : M St A) (h : exn -> option (M St A)) :
  keeps_tables St m -> (forall e m', h e = Some m' -> keeps_tables St m') ->
  keeps_tables St (catch St m h).
Proof.
intros Hm Hh w. unfold catch. specialize (Hm w).
destruct (m w) as [[a|e] w1]; simpl in Hm; [exact Hm|].
destruct (h e) as [m'|] eqn:E; [|exact Hm].
destruct (Hh e m' E w1) as [H1 H2]. destruct Hm as [H3 H4].
split; congruence.
Qed.

Lemma keeps_send (r : request) : keeps_tables St (send St create r).
Proof.
intros w. unfold send. destruct (create r (service St w)) as [[c|e] st];
  split; reflexivity.
Qed.

Lemma keeps_once (sys user : string) (images : list string) (m : string) :
  keeps_tables St (_once St create json_loads sys user images m).
Proof.
unfold _once. apply keeps_bindM; [apply keeps_send|].
intros [s|]; [apply keeps_lift | apply keeps_raise].
Qed.

Lemma keeps_gateway (sys user : string) (images : list string) (m : string) :
  keeps_tables St (gateway sys user images m).
Proof.
unfold _chat_json_with_images.
destruct (negb api_key_set); [apply keeps_raise|].
apply keeps_catch; [apply keeps_catch; [apply keeps_once|]|].
- intros e m'. destruct (is_bad_request e); [|discriminate].
  intros [= <-]. destruct (negb (String.eqb m FALLBACK_MODEL));
    [apply keeps_once | apply keeps_raise].
- intros e m'. destruct e; try discriminate; intros [= <-]; apply keeps_raise.
Qed.

Lemma keeps_classifier (images : list string) :
  keeps_tables St (classifier images).
Proof.
unfold _classify_document_vision.
apply keeps_bindM; [apply keeps_gateway|]. intros payload.
apply keeps_bindM; [apply keeps_lift|]. intros kind.
apply keeps_bindM; [apply keeps_lift|]. intros doc_type.
apply keeps_bindM; [apply keeps_lift|]. intros c.
apply keeps_bindM; [apply keeps_lift|]. intros conf. apply keeps_ret.
Qed.

Lemma keeps_fresh_id (prefix : string) : keeps_tables St (fresh_id St uuid12 prefix).
Proof.
intros w. unfold fresh_id. destruct (uuid12 (service St w)). split; reflexivity.
Qed.

Lemma bindM_raise {A B} (m : M St A) (k : A -> M St B) (w w' : world St) (e : exn) :
  bindM St m k w = (Raise e, w') ->
  m w = (Raise e, w')
  \/ exists a w1, m w = (Ok a, w1) /\ k a w1 = (Raise e, w').
Proof.
unfold bindM. destruct (m w) as [[a|e0] w1]; [right; eauto|].
intros [= -> ->]. now left.
Qed.

Lemma extractor_meta (sys user : string) (images : list string)
    (w w' : world St) (payload : value) (meta : dict) :
  bindM St (gateway sys user images EXTRACTION_MODEL)
    (fun payload => ret St (payload, [("model", VStr EXTRACTION_MODEL); ("payload", payload)])) w
  = (Ok (payload, meta), w') ->
  meta = [("model", VStr EXTRACTION_MODEL); ("payload", payload)].
Proof.
intros H. apply bindM_ok in H as (p & w1 & _ & H). unfold ret in H.
injection H as <- <- <-. reflexivity.
Qed.

(** The first stage of [run_extraction], up to the direction written
    into the fields: it writes no table, and what it returns names the
    extraction model and a schema that goes with the type. *)
Lemma stage_spec (document : Document) (text : string) :
  exists stage : M St (dict * dict * string * string * float * DocumentType),
    keeps_tables St stage
    /\ (forall w rj f sc mu conf dt w1,
          stage w = (Ok (rj, f, sc, mu, conf, dt), w1) ->
          mu = EXTRACTION_MODEL
          /\ sc = match dt with
                  | INVOICE => "invoice_v1"
                  | RECEIPT => "receipt_v1"
                  | _ => "generic_v1"
                  end)
    /\ pipeline document text
       = bindM St stage
           (fun '(raw_json, fields, schema_, model_used, confidence, doc_type) =>
              bindM St (fresh_id St uuid12 "ext_") (fun eid =>
              let extraction :=
                {| ex_id := eid; ex_doc_id := document_id document;
                   ex_model := model_used; ex_schema := schema_; ex_fields := fields;
                   ex_confidence := confidence; ex_raw_json := raw_json |} in
              bindM St (upsert_extraction St extraction) (fun _ =>
              bindM St (fresh_id St uuid12 "rec_") (fun rid =>
              let record :=
                {| r_id := rid; r_document_id := document_id document;
                   r_extraction_id := Some eid; r_type := doc_type;
                   r_fields := fields |} in
              bindM St (upsert_record St indexed record) (fun _ => ret St extraction))))).
Proof.
eexists. split; [|split; [|unfold run_extraction; reflexivity]].
- destruct (images_of document) as [|p ps]; [apply keeps_ret|].
  apply keeps_bindM; [apply keeps_classifier|]. intros [[dt conf] meta].
  apply keeps_bindM; [apply keeps_lift|]. intros direction.
  apply keeps_bindM; [|intros [[[rj f] sc] mu]; apply keeps_ret].
  destruct dt.
  + apply keeps_bindM.
    { unfold _extract_invoice_fields_vision.
      apply keeps_bindM; [apply keeps_gateway | intros; apply keeps_ret]. }
    intros [ip meta']. apply keeps_bindM; [apply keeps_lift|]. intros d.
    apply keeps_bindM; [apply keeps_lift|]. intros f. apply keeps_ret.
  + apply keeps_bindM.
    { unfold _extract_receipt_fields_vision.
      apply keeps_bindM; [apply keeps_gateway | intros; apply keeps_ret]. }
    intros [ip meta']. apply keeps_bindM; [apply keeps_lift|]. intros d.
    apply keeps_bindM; [apply keeps_lift|]. intros f. apply keeps_ret.
  + apply keeps_bindM; [apply keeps_gateway|]. intros payload.
    apply keeps_bindM; [apply keeps_lift|]. intros s. apply keeps_ret.
  + apply keeps_bindM; [apply keeps_gateway|]. intros payload.
    apply keeps_bindM; [apply keeps_lift|]. intros s. apply keeps_ret.
  + apply keeps_bindM; [apply keeps_gateway|]. intros payload.
    apply keeps_bindM; [apply keeps_lift|]. intros s. apply keeps_ret.
- intros w rj f sc mu conf dt w1.
  destruct (images_of document) as [|p ps].
  { unfold ret. intros [= <- <- <- <- <- <- <-]. auto. }
  intros H.
  apply bindM_ok in H as ([[dt' conf'] meta] & w2 & _ & H).
  apply bindM_ok in H as (direction & w3 & _ & H).
  apply bindM_ok in H as ([[[rj' f'] sc'] mu'] & w4 & Hb & H).
  unfold ret in H. injection H as <- <- <- <- <- <- <-.
  destruct dt'.
  + apply bindM_ok in Hb as ([ip meta'] & w5 & He & Hb).
    apply extractor_meta in He as ->.
    apply bindM_ok in Hb as (d & w6 & _ & Hb).
    apply bindM_ok in Hb as (f0 & w7 & _ & Hb).
    unfold ret in Hb. injection Hb as <- <- <- <- <-. auto.
  + apply bindM_ok in Hb as ([ip meta'] & w5 & He & Hb).
    apply extractor_meta in He as ->.
    apply bindM_ok in Hb as (d & w6 & _ & Hb).
    apply bindM_ok in Hb as (f0 & w7 & _ & Hb).
    unfold ret in Hb. injection Hb as <- <- <- <- <-. auto.
  + apply bindM_ok in Hb as (payload & w5 & _ & Hb).
    apply bindM_ok in Hb as (s & w6 & _ & Hb).
    unfold ret in Hb. injection Hb as <- <- <- <- <-. auto.
  + apply bindM_ok in Hb as (payload & w5 & _ & Hb).
    apply bindM_ok in Hb as (s & w6 & _ & Hb).
    unfold ret in Hb. injection Hb as <- <- <- <- <-. auto.
  + apply bindM_ok in Hb as (payload & w5 & _ & Hb).
    apply bindM_ok in Hb as (s & w6 & _ & Hb).
    unfold ret in Hb. injection Hb as <- <- <- <- <-. auto.
Qed.

(** X8. What [run_extraction] has written when it ends. When
    it raises - in the gateway, in the normalizer, or because the fields
    or the confidence cannot be stored - the records are what they were,
    and so are the extractions, with one exception: with the indexes on
    [records] in place, fields that hold a number that is not finite get
    past [upsert_extraction] and fail in [upsert_record] with an
    [OperationalError], and the extraction stays written without its
    record. When it returns, it has upserted the extraction it returns
    and one record: the record carries the identifier of that
    extraction, the identifier of the document and the same fields, the
    schema goes with the type of the record, and the model recorded is the
    configured extraction model on every path. *)
Theorem run_extraction_tables (document : Document) (text : string)
    (w : world St) :
  (forall e w', pipeline document text w = (Raise e, w') ->
     records St w' = records St w
     /\ (extractions St w' = extractions St w
         \/ (e = OperationalError /\ indexed = true
             /\ exists ex,
                  extractions St w' = upsert ex_id ex (extractions St w)
                  /\ ex_doc_id ex = document_id document
                  /\ json_safe (VDict (ex_fields ex)) = true
                  /\ sqlite_json (VDict (ex_fields ex)) = false)))
  /\ (forall ex w', pipeline document text w = (Ok ex, w') ->
        exists rec,
          extractions St w' = upsert ex_id ex (extractions St w)
          /\ records St w' = upsert r_id rec (records St w)
          /\ r_extraction_id rec = Some (ex_id ex)
          /\ r_document_id rec = document_id document
          /\ ex_doc_id ex = document_id document
          /\ r_fields rec = ex_fields ex
          /\ ex_model ex = EXTRACTION_MODEL
          /\ ex_schema ex = match r_type rec with
                            | INVOICE => "invoice_v1"
                            | RECEIPT => "receipt_v1"
                            | _ => "generic_v1"
                            end
          /\ json_safe (VDict (ex_fields ex)) = true
          /\ (indexed = true -> sqlite_json (VDict (ex_fields ex)) = true)).
Proof.
destruct (stage_spec document text) as (stage & Hkeep & Hst & ->).
unfold bindM. specialize (Hkeep w). specialize (Hst w).
destruct (stage w) as [[[[[[[rj f] sc] mu] conf] dt]|e0] w1]; simpl in Hkeep;
  cbn beta iota.
2:{ split; [intros e w' [= <- <-]; split; [apply Hkeep | left; apply Hkeep]
           | intros ex w'; discriminate]. }
destruct (Hst rj f sc mu conf dt w1 eq_refl) as [-> ->]. clear Hst.
destruct Hkeep as [Ke Kr].
unfold fresh_id, upsert_extraction, upsert_record, ret.
cbn [ex_fields ex_raw_json ex_confidence r_fields service].
destruct (uuid12 (service St w1)) as [u1 st1].
destruct (json_safe (VDict f)) eqn:Hf; cbn [andb].
2:{ split; [intros e w' [= <- <-]; cbn; auto | intros ex w'; discriminate]. }
destruct (json_safe (VDict rj)).
2:{ split; [intros e w' [= <- <-]; cbn; auto | intros ex w'; discriminate]. }
destruct (PrimFloat.is_nan conf).
{ split; [intros e w' [= <- <-]; cbn; auto | intros ex w'; discriminate]. }
cbn [service]. destruct (uuid12 st1) as [u2 st2]. cbn [r_fields]. rewrite ?Hf.
destruct indexed eqn:Hi; cbn [andb].
- destruct (sqlite_json (VDict f)) eqn:Hq; cbn [negb].
  + split; [intros e w'; discriminate|].
    intros ex w' [= <- <-].
    eexists {| r_id := "rec_" ++ u2; r_document_id := document_id document;
               r_extraction_id := Some ("ext_" ++ u1); r_type := dt; r_fields := f |}.
    cbn. rewrite Ke, Kr. repeat split; auto.
  + split; [|intros ex w'; discriminate].
    intros e w' [= <- <-]. cbn [records extractions]. split; [exact Kr|].
    right. split; [reflexivity|]. split; [reflexivity|].
    eexists {| ex_id := "ext_" ++ u1; ex_doc_id := document_id document;
               ex_model := EXTRACTION_MODEL; ex_schema := _; ex_fields := f;
               ex_confidence := conf; ex_raw_json := rj |}.
    cbn. rewrite Ke. auto.
- split; [intros e w'; discriminate|].
  intros ex w' [= <- <-].
  eexists {| r_id := "rec_" ++ u2; r_document_id := document_id document;
             r_extraction_id := Some ("ext_" ++ u1); r_type := dt; r_fields := f |}.
  cbn. rewrite Ke, Kr. repeat split; auto. discriminate.
Qed.

(** X9. A document that is no PDF, or whose pages cannot be
    rendered, is stored without any request to a model - no API key is
    needed -: the extraction has the schema [generic_v1], the confidence
    0.0 and, as only field, a summary that is the first 500 characters of
    the text; the record has the type [other]. *)
Theorem text_only_extraction (document : Document) (text : string) (w : world St) :
  (document_mime document <> "application/pdf" -> images_of document = [])
  /\ (render (document_storage_path document) = None -> images_of document = [])
  /\ (images_of document = [] ->
      exists ex rec w',
        pipeline document text w = (Ok ex, w')
        /\ calls St w' = calls St w
        /\ ex_schema ex = "generic_v1" /\ ex_confidence ex = 0%float
        /\ ex_model ex = EXTRACTION_MODEL
        /\ ex_fields ex = [("summary", VStr (substring 0 500 text))]
        /\ String.length (substring 0 500 text) <= 500
        /\ ex_id ex = "ext_" ++ fst (uuid12 (service St w))
        /\ extractions St w' = upsert ex_id ex (extractions St w)
        /\ records St w' = upsert r_id rec (records St w)
        /\ r_type rec = OTHER /\ r_fields rec = ex_fields ex
        /\ r_extraction_id rec = Some (ex_id ex)).
Proof.
split; [|split].
- intros H. unfold pages_of. destruct (String.eqb_spec (document_mime document)
                                                      "application/pdf"); [contradiction|].
  reflexivity.
- intros H. unfold pages_of. rewrite H. destruct (String.eqb _ _); reflexivity.
- intros H. unfold run_extraction. rewrite H.
  unfold bindM, ret, fresh_id, upsert_extraction, upsert_record.
  cbn [ex_fields ex_raw_json ex_confidence r_fields service json_safe sqlite_json
       forallb snd andb negb].
  rewrite andb_false_r.
  destruct (uuid12 (service St w)) as [u1 st1]. cbn [fst].
  change (PrimFloat.is_nan 0) with false.
  cbn [service calls extractions records].
  destruct (uuid12 st1) as [u2 st2].
  eexists _, {| r_id := "rec_" ++ u2; r_document_id := document_id document;
                r_extraction_id := Some ("ext_" ++ u1); r_type := OTHER;
                r_fields := [("summary", VStr (substring 0 500 text))] |}, _.
  split; [reflexivity|]. cbn.
  repeat split; try reflexivity.
  clear. generalize 500 as n. generalize 0 as m. revert text.
  assert (L : forall n s, String.length (substring 0 n s) <= n).
  { induction n as [|n IH]; intros [|c s]; simpl; try lia. specialize (IH s). lia. }
  induction text as [|c s IH]; intros m n.
  + destruct m; destruct n; simpl; lia.
  + destruct m as [|m]; [apply L|]. simpl. apply IH.
Qed.

(** X10. Whatever the service does, one call of the gateway
    sends at most two requests: none without an API key, otherwise one to
    the requested model and, only after that model rejected the request as
    a bad request and only if it is not the fallback model itself, a
    second one to the fallback model. No API error and no JSON error
    leaves the gateway: they surface as [RuntimeError]. *)
Theorem gateway_requests_and_faults (sys user : string) (images : list string)
    (model : string) (w w' : world St) (r : result value) :
  gateway sys user images model w = (r, w') ->
  exists rs,
    calls St w' = (calls St w ++ rs)%list
    /\ (api_key_set = false ->
        rs = [] /\ r = Raise (RuntimeError "OPENAI_API_KEY is not set."))
    /\ (api_key_set = true ->
        rs = [kwargs sys user images model]
        \/ (model <> FALLBACK_MODEL
            /\ rs = [kwargs sys user images model; kwargs sys user images FALLBACK_MODEL]
            /\ exists msg body st,
                 create (kwargs sys user images model) (service St w)
                 = (Raises (APIError BadRequestError msg body), st)))
    /\ (forall e, r = Raise e ->
          e <> JSONDecodeError /\ forall k m b, e <> APIError k m b).
Proof.
unfold _chat_json_with_images. destruct api_key_set; cbn [negb].
2:{ unfold raise. intros [= <- <-]. exists []. rewrite app_nil_r.
    split; [reflexivity|]. split; [auto|]. split; [discriminate|].
    intros e [= <-]. split; [discriminate | intros; discriminate]. }
unfold catch, _once, bindM, send, lift, raise.
destruct (create (kwargs sys user images model) (service St w)) as [[c|e1] st1] eqn:E1.
- (* the requested model answered *)
  intros H. exists [kwargs sys user images model].
  assert (Hw : calls St w' = (calls St w ++ [kwargs sys user images model])%list
               /\ forall e, r = Raise e ->
                    e <> JSONDecodeError /\ forall k m b, e <> APIError k m b).
  { revert H. destruct c as [s|]; [destruct (json_loads s)|]; cbn;
      intros [= <- <-]; (split; [reflexivity|]); intros e [= <-];
      (split; [discriminate | intros; discriminate]). }
  destruct Hw as [Hc He]. split; [exact Hc|]. split; [discriminate|].
  split; [now left | exact He].
- (* the requested model raised *)
  cbn [is_bad_request].
  destruct (is_bad_request e1) eqn:Hb.
  + destruct (String.eqb_spec model FALLBACK_MODEL) as [->|Hne]; cbn [negb].
    * intros H. exists [kwargs sys user images FALLBACK_MODEL].
      destruct e1; try discriminate Hb. cbn in H. revert H. intros [= <- <-].
      split; [reflexivity|]. split; [discriminate|]. split; [now left|].
      intros e [= <-]. split; [discriminate | intros; discriminate].
    * unfold sent at 1. cbn [service].
      destruct (create (kwargs sys user images FALLBACK_MODEL) st1) as [[c|e2] st2].
      -- intros H.
         exists [kwargs sys user images model; kwargs sys user images FALLBACK_MODEL].
         assert (Hw : calls St w'
                      = (calls St w ++ [kwargs sys user images model;
                                        kwargs sys user images FALLBACK_MODEL])%list
                      /\ forall e, r = Raise e ->
                           e <> JSONDecodeError /\ forall k m b, e <> APIError k m b).
         { revert H. destruct c as [s|]; [destruct (json_loads s)|]; cbn;
             intros [= <- <-];
             (split; [unfold sent; cbn [calls]; rewrite <- app_assoc; reflexivity|]);
             intros e [= <-];
             (split; [discriminate | intros; discriminate]). }
         destruct Hw as [Hc He]. split; [exact Hc|]. split; [discriminate|].
         split; [|exact He]. intros _. right. split; [exact Hne|]. split; [reflexivity|].
         destruct e1; try discriminate Hb. cbn in Hb. apply String.eqb_eq in Hb as ->.
         eauto.
      -- intros H.
         exists [kwargs sys user images model; kwargs sys user images FALLBACK_MODEL].
         assert (Hw : calls St w'
                      = (calls St w ++ [kwargs sys user images model;
                                        kwargs sys user images FALLBACK_MODEL])%list
                      /\ forall e, r = Raise e ->
                           e <> JSONDecodeError /\ forall k m b, e <> APIError k m b).
         { revert H. destruct e2; cbn; intros [= <- <-];
             (split; [unfold sent; cbn [calls]; rewrite <- app_assoc; reflexivity|]);
             intros e [= <-];
             (split; [discriminate | intros; discriminate]). }
         destruct Hw as [Hc He]. split; [exact Hc|]. split; [discriminate|].
         split; [|exact He]. intros _. right. split; [exact Hne|]. split; [reflexivity|].
         destruct e1; try discriminate Hb. cbn in Hb. apply String.eqb_eq in Hb as ->.
         eauto.
  + intros H. exists [kwargs sys user images model].
    assert (Hw : calls St w' = (calls St w ++ [kwargs sys user images model])%list
                 /\ forall e, r = Raise e ->
                      e <> JSONDecodeError /\ forall k m b, e <> APIError k m b).
    { revert H. destruct e1; cbn; intros [= <- <-];
        (split; [reflexivity|]); intros e [= <-];
        (split; [discriminate | intros; discriminate]). }
    destruct Hw as [Hc He]. split; [exact Hc|]. split; [discriminate|].
    split; [now left | exact He].
Qed.

Lemma json_unsafe_member (d : dict) (k : string) (v : value) :
  get k d = Some v -> json_safe v = false -> json_safe (VDict d) = false.
Proof.
intros Hg Hv. cbn [json_safe]. induction d as [|[k' v'] d IH]; [discriminate|].
simpl in Hg |- *. destruct (String.eqb k k').
- injection Hg as ->. rewrite Hv. reflexivity.
- rewrite (IH Hg). apply andb_false_r.
Qed.

(** A receipt normalized from a payload with a time of purchase holds a
    datetime object. *)
Lemma receipt_keeps_datetime (fields n : dict) (v : value) :
  Normalizer._normalize_receipt_fields S fields = Ok n ->
  get "datetime" fields = Some v -> v <> VNone ->
  exists t, validate_datetime S v = Some t
            /\ get "datetime" n = Some (VDatetime t).
Proof.
intros Hn Hg Hv.
apply normalize_receipt_inv in Hn as (m & Hm & ->).
unfold ReceiptFields_init in Hm.
destruct (required _ "merchant" _) as [mm|]; [|discriminate].
destruct (optional (validate_datetime S) "datetime" _) as [dm|] eqn:Ed; [|discriminate].
destruct (optional _ "subtotal" _) as [sm|]; [|discriminate].
destruct (optional _ "tip" _) as [tm|]; [|discriminate].
destruct (required _ "total" _) as [tt|]; [|discriminate].
destruct (optional _ "category" _) as [cm|]; [|discriminate].
injection Hm as <-.
apply (optional_validated _ _ _ v) in Ed as (t & Ht & ->); [|..|exact Hv].
- exists t. split; [exact Ht | reflexivity].
- rewrite !get_setdefault_ne by discriminate. exact Hg.
Qed.

Lemma normalize_receipt_raises (fields : dict) (e : exn) :
  Normalizer._normalize_receipt_fields S fields = Raise e -> e = ValidationError.
Proof.
unfold Normalizer._normalize_receipt_fields, ReceiptFields_init.
destruct (required _ "merchant" _); [|intros [= <-]; reflexivity].
destruct (optional (validate_datetime S) "datetime" _); [|intros [= <-]; reflexivity].
destruct (optional _ "subtotal" _); [|intros [= <-]; reflexivity].
destruct (optional _ "tip" _); [|intros [= <-]; reflexivity].
destruct (required _ "total" _); [|intros [= <-]; reflexivity].
destruct (optional _ "category" _); [|intros [= <-]; reflexivity].
discriminate.
Qed.

Lemma classifier_inv (images : list string) (w w' : world St)
    (dt : DocumentType) (conf : float) (meta : dict) :
  classifier images w = (Ok (dt, conf, meta), w') ->
  exists d, meta = [("payload", VDict d); ("model", VStr CLASSIFIER_MODEL)].
Proof.
unfold _classify_document_vision. intros H.
apply bindM_ok in H as (payload & w1 & _ & H).
apply bindM_ok in H as (kind & w2 & Hk & H).
apply bindM_ok in H as (doc_type & w3 & _ & H).
apply bindM_ok in H as (c & w4 & _ & H).
apply bindM_ok in H as (confidence & w5 & _ & H).
apply lift_ok in Hk as [Hk _].
unfold ret in H. injection H as <- <- <- <-.
destruct payload; try discriminate Hk. eauto.
Qed.

(** X11. A receipt whose payload gives a time of purchase is
    never stored. If the model accepts the payload, the normalized fields
    hold the datetime as an object - nothing turns it into text, as is
    done for the dates of an invoice -, [json.dumps] refuses it and
    [run_extraction] raises [TypeError] from [upsert_extraction]; if the
    model rejects the payload it raises the validation error. Either way
    neither table is written. *)
Theorem receipt_with_datetime_is_not_stored (document : Document) (text : string)
    (w w1 w2 : world St) (conf : float) (meta meta2 d : dict) (v : value) :
  images_of document <> [] ->
  classifier (images_of document) w = (Ok (RECEIPT, conf, meta), w1) ->
  receipt_extractor (images_of document) w1 = (Ok (VDict d, meta2), w2) ->
  get "datetime" d = Some v -> v <> VNone ->
  exists e w',
    pipeline document text w = (Raise e, w')
    /\ extractions St w' = extractions St w2 /\ records St w' = records St w2
    /\ match Normalizer._normalize_receipt_fields S d with
       | Ok n => e = TypeError
                 /\ (exists t, get "datetime" n = Some (VDatetime t))
                 /\ json_safe (VDict n) = false
       | Raise _ => e = ValidationError
       end.
Proof.
intros Hp Hcl Hex Hg Hv. unfold run_extraction.
destruct (images_of document) as [|p ps] eqn:Ei; [contradiction|].
destruct (classifier_inv _ _ _ _ _ _ Hcl) as (d0 & ->).
unfold bindM, lift, ret. rewrite Hcl.
cbn [get String.eqb Ascii.eqb Bool.eqb default from_option id].
assert (Hpay : exists d1, (if truthy (VDict d0) then VDict d0 else VDict []) = VDict d1)
  by (destruct (truthy (VDict d0)); eauto).
destruct Hpay as (d1 & ->). cbn [payload_get]. rewrite Hex. cbn [as_dict].
destruct (Normalizer._normalize_receipt_fields S d) as [n|e0] eqn:En.
- destruct (receipt_keeps_datetime d n v En Hg Hv) as (t & _ & Ht).
  assert (Hn : json_safe (VDict n) = false)
    by (apply (json_unsafe_member n "datetime" (VDatetime t) Ht); reflexivity).
  set (fields := if truthy (default VNone (get "direction" d1))
                 then set "direction" (default VNone (get "direction" d1)) n else n).
  assert (Hf : json_safe (VDict fields) = false).
  { apply (json_unsafe_member fields "datetime" (VDatetime t)); [|reflexivity].
    unfold fields. destruct (truthy _); [|exact Ht].
    rewrite get_set_ne by discriminate. exact Ht. }
  unfold fresh_id, upsert_extraction.
  cbn [ex_fields ex_raw_json]. destruct (uuid12 (service St w2)) as [u st].
  rewrite Hf. cbn [andb]. eexists _, _. split; [reflexivity|].
  cbn [extractions records]. eauto 10.
- pose proof (normalize_receipt_raises d e0 En) as ->.
  eexists _, _. split; [reflexivity|]. auto.
Qed.

End PipelineFacts.

(** ** The storage writes *)

Section StorageFacts.
Import Val Models Ai.

Variable St : Type.
Variable indexed : bool.

Lemma upsert_find {A} (id_of : A -> string) (x : A) (rows : list A) :
  List.find (fun y => String.eqb (id_of y) (id_of x)) (upsert id_of x rows) = Some x.
Proof.
induction rows as [|y r IH]; simpl.
- rewrite String.eqb_refl. reflexivity.
- destruct (String.eqb (id_of y) (id_of x)) eqn:E; simpl.
  + rewrite String.eqb_refl. reflexivity.
  + rewrite E. exact IH.
Qed.

Lemma upsert_other {A} (id_of : A -> string) (x : A) (rows : list A) (k : string) :
  k <> id_of x ->
  List.filter (fun y => String.eqb (id_of y) k) (upsert id_of x rows)
  = List.filter (fun y => String.eqb (id_of y) k) rows.
Proof.
intros Hk.
assert (Hx : String.eqb (id_of x) k = false)
  by (apply String.eqb_neq; congruence).
induction rows as [|y r IH]; simpl.
- rewrite Hx. reflexivity.
- destruct (String.eqb_spec (id_of y) (id_of x)) as [E|_]; simpl.
  + rewrite Hx, E, Hx. reflexivity.
  + rewrite IH. reflexivity.
Qed.

Lemma upsert_ids {A} (id_of : A -> string) (x : A) (rows : list A) :
  (forall k, In k (map id_of (upsert id_of x rows)) <->
             k = id_of x \/ In k (map id_of rows))
  /\ (List.NoDup (map id_of rows) -> List.NoDup (map id_of (upsert id_of x rows))).
Proof.
induction rows as [|y r [IH1 IH2]]; simpl.
- split; [intros k; intuition congruence|]. intros _. constructor; [simpl; tauto | constructor].
- destruct (String.eqb_spec (id_of y) (id_of x)) as [E|Hne]; simpl.
  + rewrite E. split; [intros k; intuition congruence|]. intros H. exact H.
  + split.
    * intros k. rewrite IH1. intuition congruence.
    * intros H. inversion H as [|a l Hn Hd]; subst. constructor; [|apply IH2, Hd].
      rewrite IH1. intros [E|Hin]; [congruence | contradiction].
Qed.

(** X12. The storage writes are insert-or-replace by identifier:
    after [upsert_record] the table yields the written record for its
    identifier, the rows of every other identifier are what they were, in
    their order, identifiers that were distinct stay distinct, and writing
    the same record twice is writing it once. A record whose fields hold
    a value JSON cannot encode is refused with [TypeError], and one whose
    fields hold a number that is not finite is refused with
    [OperationalError] when the indexes on [records] are in place - it
    is stored when they are not -; nothing is written then. The same
    holds for [upsert_extraction], which has no index and also refuses a
    confidence that is no number. *)
Theorem upsert_is_insert_or_replace (r : Record_) (e : Extraction) (w : world St) :
  (json_safe (VDict (r_fields r)) = true ->
   indexed && negb (sqlite_json (VDict (r_fields r))) = false ->
   exists w',
     upsert_record St indexed r w = (Ok tt, w')
     /\ extractions St w' = extractions St w
     /\ List.find (fun y => String.eqb (r_id y) (r_id r)) (records St w') = Some r
     /\ (forall k, k <> r_id r ->
           List.filter (fun y => String.eqb (r_id y) k) (records St w')
           = List.filter (fun y => String.eqb (r_id y) k) (records St w))
     /\ (List.NoDup (map r_id (records St w)) -> List.NoDup (map r_id (records St w')))
     /\ upsert_record St indexed r w' = (Ok tt, w'))
  /\ (json_safe (VDict (r_fields r)) = false ->
      upsert_record St indexed r w = (Raise TypeError, w))
  /\ (json_safe (VDict (r_fields r)) = true -> indexed = true ->
      sqlite_json (VDict (r_fields r)) = false ->
      upsert_record St indexed r w = (Raise OperationalError, w))
  /\ (json_safe (VDict (ex_fields e)) = true ->
      json_safe (VDict (ex_raw_json e)) = true ->
      PrimFloat.is_nan (ex_confidence e) = false ->
      exists w',
        upsert_extraction St e w = (Ok tt, w')
        /\ records St w' = records St w
        /\ List.find (fun y => String.eqb (ex_id y) (ex_id e)) (extractions St w') = Some e
        /\ (forall k, k <> ex_id e ->
              List.filter (fun y => String.eqb (ex_id y) k) (extractions St w')
              = List.filter (fun y => String.eqb (ex_id y) k) (extractions St w))
        /\ (List.NoDup (map ex_id (extractions St w)) ->
            List.NoDup (map ex_id (extractions St w'))))
  /\ (PrimFloat.is_nan (ex_confidence e) = true ->
      exists x, upsert_extraction St e w = (Raise x, w)).
Proof.
assert (Hidem : forall A (id_of : A -> string) x rows,
          upsert id_of x (upsert id_of x rows) = upsert id_of x rows).
{ intros A id_of x rows. induction rows as [|y l IH]; simpl.
  - rewrite String.eqb_refl. reflexivity.
  - destruct (String.eqb (id_of y) (id_of x)) eqn:E; simpl.
    + rewrite String.eqb_refl. reflexivity.
    + rewrite E, IH. reflexivity. }
split; [|split; [|split; [|split]]].
- intros Hs Hq. unfold upsert_record. rewrite Hs, Hq. eexists. split; [reflexivity|].
  cbn [extractions records service calls].
  split; [reflexivity|]. split; [apply upsert_find|].
  split; [intros k; apply upsert_other|]. split; [apply upsert_ids|].
  rewrite Hidem. reflexivity.
- intros Hs. unfold upsert_record. rewrite Hs. reflexivity.
- intros Hs Hi Hq. unfold upsert_record. rewrite Hs, Hi, Hq. reflexivity.
- intros H1 H2 H3. unfold upsert_extraction. rewrite H1, H2, H3. eexists.
  split; [reflexivity|]. cbn [extractions records].
  split; [reflexivity|]. split; [apply upsert_find|].
  split; [intros k; apply upsert_other | apply upsert_ids].
- intros H. unfold upsert_extraction. rewrite H.
  destruct (json_safe _ && json_safe _); eauto.
Qed.

End StorageFacts.

(** ** Vendor bills *)

Section ApFacts.
Import Val Models Ap.

Lemma or_not_none (a b : value) : b <> VNone -> or_ a b <> VNone.
Proof.
unfold or_. destruct (truthy a) eqn:E; [|auto]. intros _ ->. discriminate E.
Qed.

Lemma or_truthy (a b : value) : truthy b = true -> truthy (or_ a b) = true.
Proof. unfold or_. destruct (truthy a) eqn:E; auto. Qed.

Lemma truthy_not_none (v : value) : truthy v = true -> v <> VNone.
Proof. intros H ->. discriminate H. Qed.

Lemma py_eq_str (v : value) (s : string) : py_eq v (VStr s) = true -> v = VStr s.
Proof.
destruct v; try discriminate. simpl. intros H. apply String.eqb_eq in H. now subst.
Qed.

Lemma py_eq_str_refl (s : string) : py_eq (VStr s) (VStr s) = true.
Proof. simpl. apply String.eqb_refl. Qed.

(** The vendor of an item: true, whatever the fields are. *)
Lemma ap_item_inv (row : Record_) (item : dict) :
  _row_to_ap_item row = Ok (Some item) ->
  get_or_none "direction" (r_fields row) = VStr "incoming"
  /\ exists vendor,
       truthy vendor = true
       /\ (get "vendor" (r_fields row) = None -> get "bill_to" (r_fields row) = None ->
           get "ship_to" (r_fields row) = None -> vendor = VStr "Unknown vendor")
       /\ item = [("id", VStr (r_id row)); ("vendor", vendor);
                  ("total", or_ (get_or_none "total" (r_fields row)) (VInt 0));
                  ("due_date", or_ (get_or_none "due_date" (r_fields row)) (VStr ""));
                  ("number", or_ (get_or_none "invoice_number" (r_fields row))
                                 (or_ (get_or_none "number" (r_fields row)) (VStr "")));
                  ("memo", or_ (get_or_none "memo" (r_fields row))
                               (or_ (get_or_none "summary" (r_fields row))
                                    (or_ (get_or_none "description" (r_fields row))
                                         (VStr ""))));
                  ("description", or_ (get_or_none "description" (r_fields row)) (VStr ""));
                  ("status", or_ (get_or_none "status" (r_fields row)) (VStr "open"))].
Proof.
unfold _row_to_ap_item.
destruct (py_eq (get_or_none "direction" (r_fields row)) (VStr "incoming")) eqn:Ed;
  cbn [negb]; [|discriminate].
apply py_eq_str in Ed. intros H. split; [exact Ed|]. revert H.
destruct (truthy (get_or_none "vendor" (r_fields row))) eqn:Ev.
- cbn [bind]. intros [= <-]. exists (get_or_none "vendor" (r_fields row)).
  split; [exact Ev|]. split; [|reflexivity].
  intros H. unfold get_or_none in Ev. rewrite H in Ev. discriminate Ev.
- unfold company.
  destruct (or_ (get_or_none "bill_to" (r_fields row)) (VDict [])) as [| | | | | |b| | |] eqn:Eb;
    try discriminate. cbn [bind].
  destruct (truthy (get_or_none "company" b)) eqn:Ec.
  + cbn [bind]. intros [= <-]. exists (get_or_none "company" b).
    split; [exact Ec|]. split; [|reflexivity].
    intros _ H. unfold get_or_none, or_ in Eb. rewrite H in Eb. simpl in Eb.
    injection Eb as <-. discriminate Ec.
  + destruct (or_ (get_or_none "ship_to" (r_fields row)) (VDict []))
      as [| | | | | |s| | |] eqn:Es; try discriminate. cbn [bind].
    intros [= <-]. exists (or_ (get_or_none "company" s) (VStr "Unknown vendor")).
    split; [apply or_truthy; reflexivity|].
    split; [|reflexivity].
    intros _ _ H. unfold get_or_none, or_ in Es. rewrite H in Es. simpl in Es.
    injection Es as <-. reflexivity.
Qed.

(** X13. [_row_to_ap_item] returns an item exactly for a record
    whose direction is ["incoming"] (and [None] for every other record,
    without reading anything else). An item has the eight keys of the
    widget, in order, and no null among their values: the vendor and the
    status are never empty - ["Unknown vendor"] when the record names no
    vendor, no [bill_to] and no [ship_to], ["open"] when it has no status -
    and the total, due date, number, memo and description default to [0]
    and [""]. *)
Theorem ap_item_is_complete (row : Record_) :
  (py_eq (get_or_none "direction" (r_fields row)) (VStr "incoming") = false ->
   _row_to_ap_item row = Ok None)
  /\ (_row_to_ap_item row = Ok None ->
      get "direction" (r_fields row) <> Some (VStr "incoming"))
  /\ (forall item, _row_to_ap_item row = Ok (Some item) ->
        get "direction" (r_fields row) = Some (VStr "incoming")
        /\ map fst item = ["id"; "vendor"; "total"; "due_date"; "number"; "memo";
                           "description"; "status"]
        /\ (forall k v, In (k, v) item -> v <> VNone)
        /\ get "id" item = Some (VStr (r_id row))
        /\ (exists v, get "vendor" item = Some v /\ truthy v = true)
        /\ (exists s, get "status" item = Some s /\ truthy s = true)
        /\ (get "vendor" (r_fields row) = None -> get "bill_to" (r_fields row) = None ->
            get "ship_to" (r_fields row) = None ->
            get "vendor" item = Some (VStr "Unknown vendor"))
        /\ (get "status" (r_fields row) = None -> get "status" item = Some (VStr "open"))
        /\ (get "total" (r_fields row) = None -> get "total" item = Some (VInt 0))).
Proof.
split; [|split].
- intros H. unfold _row_to_ap_item. rewrite H. reflexivity.
- unfold _row_to_ap_item. intros H E.
  unfold get_or_none in H. rewrite E in H. cbn [default py_eq] in H.
  change (String.eqb "incoming" "incoming") with true in H. cbn [negb] in H.
  destruct (truthy _); [discriminate|].
  unfold bind in H. destruct (company _ _) as [b|]; [|discriminate].
  destruct (truthy b); [discriminate|].
  destruct (company _ _); discriminate.
- intros item H. apply ap_item_inv in H as (Hd & vendor & Hv & Hu & ->).
  split.
  { unfold get_or_none in Hd. destruct (get "direction" (r_fields row)) as [x|];
      simpl in Hd; [now subst | discriminate]. }
  split; [reflexivity|]. split.
  { intros k v H. simpl in H.
    destruct H as [[= <- <-]|[[= <- <-]|[[= <- <-]|[[= <- <-]|[[= <- <-]
                  |[[= <- <-]|[[= <- <-]|[[= <- <-]|[]]]]]]]]];
      try discriminate; try (apply truthy_not_none, Hv);
      repeat apply or_not_none; discriminate. }
  split; [reflexivity|]. split; [exists vendor; split; [reflexivity | exact Hv]|].
  split; [eexists; split; [reflexivity | apply or_truthy; reflexivity]|].
  split; [intros H1 H2 H3; rewrite (Hu H1 H2 H3); reflexivity|].
  split; intros H; cbn [get String.eqb Ascii.eqb Bool.eqb];
    unfold get_or_none; rewrite H; reflexivity.
Qed.

(** The loop that collects the bills, whatever it keeps, and the same loop
    keeping every item. *)
Lemma bills_filter (keep : dict -> bool) (rows : list Record_) :
  bills keep rows
  = match bills (fun _ => true) rows with
    | Ok all => Ok (List.filter keep all)
    | Raise e => Raise e
    end.
Proof.
induction rows as [|row rest IH]; simpl; [reflexivity|].
destruct (_row_to_ap_item row) as [[it|]|e]; cbn [bind]; [| |reflexivity].
- rewrite IH. destruct (bills (fun _ => true) rest) as [all|e]; cbn [bind]; [|reflexivity].
  simpl. destruct (keep it); reflexivity.
- rewrite IH. destruct (bills (fun _ => true) rest) as [all|e]; reflexivity.
Qed.

Lemma bills_In (keep : dict -> bool) (rows : list Record_) (items : list dict)
    (it : dict) :
  bills keep rows = Ok items -> In it items ->
  keep it = true /\ exists row, In row rows /\ _row_to_ap_item row = Ok (Some it).
Proof.
revert items. induction rows as [|row rest IH]; intros items; simpl.
- intros [= <-] [].
- destruct (_row_to_ap_item row) as [[it0|]|e] eqn:E; cbn [bind]; [| |discriminate];
    (destruct (bills keep rest) as [l|e] eqn:Eb; cbn [bind]; [|discriminate]).
  + destruct (keep it0) eqn:K; intros [= <-] Hin.
    * destruct Hin as [<-|Hin]; [split; [exact K|]; exists row; auto|].
      destruct (IH l eq_refl Hin) as (H1 & r & H2 & H3). split; [exact H1|]. eauto.
    * destruct (IH l eq_refl Hin) as (H1 & r & H2 & H3). split; [exact H1|]. eauto.
  + intros [= <-] Hin.
    destruct (IH l eq_refl Hin) as (H1 & r & H2 & H3). split; [exact H1|]. eauto.
Qed.

Lemma ap_item_direction (row : Record_) :
  match _row_to_ap_item row with
  | Ok (Some _) => py_eq (get_or_none "direction" (r_fields row)) (VStr "incoming") = true
  | Ok None => py_eq (get_or_none "direction" (r_fields row)) (VStr "incoming") = false
  | Raise _ => py_eq (get_or_none "direction" (r_fields row)) (VStr "incoming") = true
  end.
Proof.
unfold _row_to_ap_item.
destruct (py_eq (get_or_none "direction" (r_fields row)) (VStr "incoming"));
  cbn [negb]; [|reflexivity].
match goal with |- match (let* _ := ?v in _) with _ => _ end => destruct v end;
  reflexivity.
Qed.

(** The loop keeping every item: one item for each row whose direction is
    incoming, in the order of the rows. *)
Lemma bills_all (rows : list Record_) (all : list dict) :
  bills (fun _ => true) (List.filter is_invoice rows) = Ok all ->
  Forall2 (fun row it => _row_to_ap_item row = Ok (Some it))
          (List.filter
             (fun row => is_invoice row
                         && py_eq (get_or_none "direction" (r_fields row))
                                  (VStr "incoming"))
             rows)
          all.
Proof.
revert all. induction rows as [|row rest IH]; intros all; simpl.
- intros [= <-]. constructor.
- destruct (is_invoice row); cbn [andb]; [|apply IH]. simpl.
  pose proof (ap_item_direction row) as Hd.
  destruct (_row_to_ap_item row) as [[it|]|e] eqn:E; cbn [bind]; [| |discriminate];
    rewrite Hd;
    (destruct (bills (fun _ => true) (List.filter is_invoice rest)) as [l|e] eqn:Eb;
     cbn [bind]; [|discriminate]); intros [= <-].
  + constructor; [exact E | apply IH; reflexivity].
  + apply IH; reflexivity.
Qed.

(** The loop ends well when the item of every row is computed, and the
    exception it raises is that of a row. *)
Lemma bills_total (keep : dict -> bool) (rows : list Record_) :
  (forall row, In row rows -> exists o, _row_to_ap_item row = Ok o) ->
  exists items, bills keep rows = Ok items.
Proof.
induction rows as [|row rest IH]; intros H; simpl; [eauto|].
destruct (H row (or_introl eq_refl)) as [o ->]. cbn [bind].
destruct IH as [items ->]; [intros r Hr; apply H; right; exact Hr|].
cbn [bind]. eauto.
Qed.

Lemma bills_raise (keep : dict -> bool) (rows : list Record_) (e : exn) :
  bills keep rows = Raise e ->
  exists row, In row rows /\ _row_to_ap_item row = Raise e.
Proof.
induction rows as [|row rest IH]; simpl; [discriminate|].
destruct (_row_to_ap_item row) as [o|e0] eqn:E; cbn [bind].
- destruct (bills keep rest) as [l|e1]; cbn [bind]; [discriminate|].
  intros [= <-]. destruct (IH eq_refl) as (r & Hr & He). eauto.
- intros [= <-]. eauto.
Qed.

(** X14. [list_ap_bills] lists the items of the records of type
    invoice whose direction is incoming: one item for each such record,
    in the order of the table, and nothing else. Only the status ["open"]
    filters: for any other status - ["paid"] too - every such bill is
    listed, whatever its own status, and the bills listed for ["open"]
    are those of that list whose status is ["open"]. The call ends well
    when the item of every invoice row is computed; the exception it
    raises is that of an invoice row. *)
Theorem list_ap_bills_status_filter (records : list Record_) (status : string) :
  status <> "open" ->
  list_ap_bills records status = list_ap_bills records "paid"
  /\ (forall all, list_ap_bills records status = Ok all ->
        list_ap_bills records "open" = Ok (List.filter is_open all)
        /\ forall it, In it all ->
             exists row, In row records /\ r_type row = INVOICE
                         /\ get "direction" (r_fields row) = Some (VStr "incoming")
                         /\ _row_to_ap_item row = Ok (Some it))
  /\ (forall e, list_ap_bills records status = Raise e ->
        list_ap_bills records "open" = Raise e)
  /\ (forall items it, list_ap_bills records "open" = Ok items -> In it items ->
        get "status" it = Some (VStr "open"))
  /\ (forall all, list_ap_bills records status = Ok all ->
        Forall2 (fun row it => _row_to_ap_item row = Ok (Some it))
                (List.filter
                   (fun row => is_invoice row
                               && py_eq (get_or_none "direction" (r_fields row))
                                        (VStr "incoming"))
                   records)
                all)
  /\ ((forall row, In row records -> r_type row = INVOICE ->
         exists o, _row_to_ap_item row = Ok o) ->
      exists all, list_ap_bills records status = Ok all)
  /\ (forall e, list_ap_bills records status = Raise e ->
        exists row, In row records /\ r_type row = INVOICE
                    /\ _row_to_ap_item row = Raise e).
Proof.
intros Hs. unfold list_ap_bills.
destruct (String.eqb_spec status "open") as [->|_]; [contradiction|].
change (String.eqb "paid" "open") with false. change (String.eqb "open" "open") with true.
assert (Hinv : forall row, In row (List.filter is_invoice records) ->
                 In row records /\ r_type row = INVOICE).
{ intros row Hr. apply filter_In in Hr as [Hr Ht]. split; [exact Hr|].
  unfold is_invoice in Ht. destruct (r_type row); try discriminate; reflexivity. }
split; [reflexivity|]. split; [|split; [|split; [|split; [|split]]]].
- intros all H. split.
  + rewrite bills_filter, H. reflexivity.
  + intros it Hin. destruct (bills_In _ _ _ it H Hin) as (_ & row & Hr & Hi).
    destruct (Hinv row Hr) as [Hr' Ht]. exists row. split; [exact Hr'|].
    split; [exact Ht|]. split; [|exact Hi].
    apply ap_item_inv in Hi as (Hd & _). unfold get_or_none in Hd.
    destruct (get "direction" (r_fields row)) as [x|]; simpl in Hd;
      [now subst | discriminate].
- intros e H. rewrite bills_filter, H. reflexivity.
- intros items it H Hin. destruct (bills_In _ _ _ it H Hin) as (Ho & row & _ & Hi).
  apply ap_item_inv in Hi as (_ & vendor & _ & _ & ->).
  unfold is_open in Ho. cbn [get_or_none get String.eqb Ascii.eqb Bool.eqb default] in Ho.
  cbn [get String.eqb Ascii.eqb Bool.eqb].
  set (s := or_ (get_or_none "status" (r_fields row)) (VStr "open")) in *.
  assert (Hts : truthy s = true) by (apply or_truthy; reflexivity).
  clearbody s. unfold or_, id in Ho. rewrite Hts in Ho. apply py_eq_str in Ho.
  now rewrite Ho.
- intros all H. apply bills_all. exact H.
- intros H. apply bills_total. intros row Hr. destruct (Hinv row Hr) as [Hr' Ht].
  apply H; assumption.
- intros e H. apply bills_raise in H as (row & Hr & He).
  destruct (Hinv row Hr) as [Hr' Ht]. eauto.
Qed.

Abbreviation paid row :=
  (with_fields (set "status" (VStr "paid") (r_fields row)) row).
Abbreviation among ids row := (existsb (String.eqb (r_id row)) ids).
Abbreviation stored records :=
  (fun rid : string => existsb (fun row => String.eqb (r_id row) rid) records).

Lemma set_set (k : string) (v : value) (d : dict) : set k v (set k v d) = set k v d.
Proof.
induction d as [|[k' v'] d IH]; simpl.
- rewrite String.eqb_refl. reflexivity.
- destruct (String.eqb k k') eqn:E; simpl.
  + rewrite String.eqb_refl. reflexivity.
  + rewrite E, IH. reflexivity.
Qed.

Lemma select_record_some (records : list Record_) (rid : string) (row : Record_) :
  select_record records rid = Some row -> In row records /\ r_id row = rid.
Proof.
unfold select_record. intros H. apply find_some in H as [H1 H2].
apply String.eqb_eq in H2. auto.
Qed.

Lemma select_record_none (records : list Record_) (rid : string) :
  select_record records rid = None <-> forall row, In row records -> r_id row <> rid.
Proof.
unfold select_record. split.
- intros H row Hin E. apply (find_none _ _ H) in Hin. rewrite E, String.eqb_refl in Hin.
  discriminate.
- intros H. apply find_none_intro. intros row Hin. apply String.eqb_neq, H, Hin.
Qed.

Lemma unique_id (records : list Record_) (r1 r2 : Record_) :
  List.NoDup (map r_id records) -> In r1 records -> In r2 records ->
  r_id r1 = r_id r2 -> r1 = r2.
Proof.
induction records as [|r rs IH]; simpl; [contradiction|].
intros Hnd [<-|H1] [<-|H2] E; try reflexivity; inversion Hnd as [|a l Hn Hd]; subst.
- exfalso. apply Hn. rewrite E. apply in_map, H2.
- exfalso. apply Hn. rewrite <- E. apply in_map, H1.
- apply IH; assumption.
Qed.

Lemma select_record_map (f : Record_ -> Record_) (records : list Record_) (rid : string) :
  (forall r, r_id (f r) = r_id r) ->
  select_record (map f records) rid = option_map f (select_record records rid).
Proof.
intros Hf. unfold select_record. induction records as [|r rs IH]; simpl; [reflexivity|].
rewrite Hf. destruct (String.eqb (r_id r) rid); [reflexivity | exact IH].
Qed.

Lemma existsb_snoc {A} (f : A -> bool) (l : list A) (x : A) :
  existsb f (l ++ [x]) = existsb f l || f x.
Proof. rewrite existsb_app. simpl. now rewrite orb_false_r. Qed.

Lemma stored_false (records : list Record_) (rid : string) :
  (forall row, In row records -> r_id row <> rid) -> stored records rid = false.
Proof.
intros H. induction records as [|r rs IH]; simpl; [reflexivity|].
rewrite IH by (intros row Hr; apply H; now right).
rewrite orb_false_r. apply String.eqb_neq, H. now left.
Qed.

Lemma stored_true (records : list Record_) (rid : string) (row : Record_) :
  In row records -> r_id row = rid -> stored records rid = true.
Proof.
intros Hin E. apply existsb_exists. exists row. split; [exact Hin|].
rewrite E. apply String.eqb_refl.
Qed.

(** The loop of [mark_ap_bills_paid], from a table in which the records
    named by [done] are already paid. *)
Lemma mark_loop (records : list Record_) (ids done : list string) (n : nat) :
  List.NoDup (map r_id records) ->
  fold_left mark_one ids
    (map (fun row => if among done row then paid row else row) records, n)
  = (map (fun row => if among (done ++ ids) row then paid row else row) records,
     n + length (List.filter (stored records) ids)).
Proof.
intros Hnd. revert done n. induction ids as [|rid ids IH]; intros done n.
- simpl. rewrite app_nil_r, Nat.add_0_r. reflexivity.
- cbn [fold_left]. unfold mark_one at 2. cbn [fst snd].
  rewrite select_record_map by (intros r; destruct (among done r); reflexivity).
  replace (done ++ rid :: ids)%list with ((done ++ [rid]) ++ ids)%list
    by (rewrite <- app_assoc; reflexivity).
  destruct (select_record records rid) as [row|] eqn:Es; cbn [option_map].
  + apply select_record_some in Es as [Hin Hid].
    cbn [List.filter]. rewrite (stored_true records rid row Hin Hid). cbn [length].
    rewrite <- Nat.add_succ_comm. rewrite <- IH. f_equal. f_equal.
    unfold update_fields. rewrite map_map. apply map_ext_in. intros r Hr.
    rewrite existsb_snoc.
    assert (Eid : r_id (if among done r then paid r else r) = r_id r)
      by (destruct (among done r); reflexivity).
    rewrite Eid. destruct (String.eqb_spec (r_id r) rid) as [E|E].
    * rewrite orb_true_r.
      assert (r = row) by (apply (unique_id records); congruence). subst r.
      destruct (among done row); unfold with_fields; cbn [r_fields r_id r_document_id
        r_extraction_id r_type]; rewrite ?set_set; reflexivity.
    * rewrite orb_false_r. reflexivity.
  + pose proof (proj1 (select_record_none records rid) Es) as Hno.
    cbn [List.filter]. rewrite (stored_false records rid Hno).
    rewrite <- IH. f_equal. f_equal. apply map_ext_in. intros r Hr.
    rewrite existsb_snoc.
    destruct (String.eqb_spec (r_id r) rid) as [E|E]; [exfalso; exact (Hno r Hr E)|].
    rewrite orb_false_r. reflexivity.
Qed.

(** X15. [mark_ap_bills_paid] sets the status of exactly the
    records named in [ids] to ["paid"] and leaves every other record and
    every other field as it was; [updated] counts the identifiers that
    name a record, one that is named twice being counted twice. The open
    bills answered are those of the table after the update and contain
    none of the records named. With no identifier nothing is written and
    the answer lists no open bill at all, whatever the table holds. *)
Theorem mark_paid_effect (records : list Record_) (ids : list string) :
  List.NoDup (map r_id records) ->
  (ids = [] -> mark_ap_bills_paid records ids = (records, Ok (0, [])))
  /\ fst (mark_ap_bills_paid records ids)
     = map (fun row => if among ids row then paid row else row) records
  /\ map r_id (fst (mark_ap_bills_paid records ids)) = map r_id records
  /\ (ids <> [] ->
      snd (mark_ap_bills_paid records ids)
      = match list_ap_bills (fst (mark_ap_bills_paid records ids)) "open" with
        | Ok open_items => Ok (length (List.filter (stored records) ids), open_items)
        | Raise e => Raise e
        end)
  /\ (forall updated open_items it rid,
        snd (mark_ap_bills_paid records ids) = Ok (updated, open_items) ->
        In it open_items -> In rid ids -> get "id" it <> Some (VStr rid)).
Proof.
intros Hnd.
assert (Hloop : fold_left mark_one ids (records, 0)
                = (map (fun row => if among ids row then paid row else row) records,
                   length (List.filter (stored records) ids))).
{ pose proof (mark_loop records ids [] 0 Hnd) as H. simpl in H.
  rewrite map_id in H. exact H. }
assert (Hfst : fst (mark_ap_bills_paid records ids)
               = map (fun row => if among ids row then paid row else row) records).
{ unfold mark_ap_bills_paid. destruct ids as [|rid ids']; [simpl; now rewrite map_id|].
  rewrite Hloop. reflexivity. }
split; [intros ->; reflexivity|]. split; [exact Hfst|]. split; [|split].
- rewrite Hfst, map_map. apply map_ext. intros r. destruct (among ids r); reflexivity.
- intros Hne. unfold mark_ap_bills_paid at 1. rewrite Hfst.
  destruct ids as [|rid ids']; [contradiction|]. rewrite Hloop. cbn [fst snd].
  unfold list_ap_bills. change (String.eqb "open" "open") with true.
  destruct (bills _ _); reflexivity.
- intros updated open_items it rid Hsnd Hin Hrid Hget.
  unfold mark_ap_bills_paid in Hsnd. destruct ids as [|rid0 ids']; [contradiction|].
  rewrite Hloop in Hsnd. cbn [fst snd] in Hsnd.
  destruct (bills is_open _) as [l|e] eqn:Eb; [|discriminate].
  cbn [bind] in Hsnd. injection Hsnd as _ <-.
  destruct (bills_In _ _ _ it Eb Hin) as (Ho & row' & Hr & Hi).
  apply filter_In in Hr as [Hr _]. apply in_map_iff in Hr as (row & <- & Hrow).
  apply ap_item_inv in Hi as (_ & vendor & _ & _ & ->).
  cbn [get String.eqb Ascii.eqb Bool.eqb] in Hget. injection Hget as Hid.
  assert (Hrow_id : r_id row = rid).
  { rewrite <- Hid. destruct (_ || _); reflexivity. }
  assert (Ha : among (rid0 :: ids') row = true).
  { apply existsb_exists. exists rid. split; [exact Hrid|].
    rewrite Hrow_id. apply String.eqb_refl. }
  rewrite Ha in Ho. unfold is_open in Ho.
  cbn [get_or_none get String.eqb Ascii.eqb Bool.eqb default with_fields r_fields] in Ho.
  unfold get_or_none in Ho. rewrite get_set_eq in Ho. discriminate Ho.
Qed.

Abbreviation with_status status row :=
  (with_fields (set "status" (VStr status) (r_fields row)) row).

Lemma item_status (row : Record_) (status : string) (it : dict) :
  status <> EmptyString ->
  _row_to_ap_item (with_status status row) = Ok (Some it) ->
  get "status" it = Some (VStr status).
Proof.
intros Hne H. apply ap_item_inv in H as (_ & vendor & _ & _ & ->).
cbn [get String.eqb Ascii.eqb Bool.eqb with_fields r_fields].
unfold get_or_none. rewrite get_set_eq. cbn [default]. unfold or_.
destruct status; [contradiction | reflexivity].
Qed.

(** X16. [set_record_status] refuses a status other than
    ["open"] and ["paid"] with 400 and an unknown record with 404, and
    writes nothing then. Otherwise it sets the status of that record and
    of no other, keeps its other fields and the order of the table, and
    the bill of the record - if it has one - carries the status set: it
    is listed as open after ["open"] and not after ["paid"]. *)
Theorem set_record_status_effect (records : list Record_) (record_id status : string) :
  (status <> "open" -> status <> "paid" ->
   set_record_status records record_id status
   = (records, HTTPError 400 "status must be 'open' or 'paid'"))
  /\ (status = "open" \/ status = "paid" ->
      (forall row, In row records -> r_id row <> record_id) ->
      set_record_status records record_id status
      = (records, HTTPError 404 "record not found"))
  /\ (status = "open" \/ status = "paid" ->
      List.NoDup (map r_id records) ->
      forall row, In row records -> r_id row = record_id ->
        set_record_status records record_id status
        = (map (fun r => if String.eqb (r_id r) record_id then with_status status r else r)
               records,
           Body (record_id, status))
        /\ In (with_status status row) (fst (set_record_status records record_id status))
        /\ forall it, _row_to_ap_item (with_status status row) = Ok (Some it) ->
             get "status" it = Some (VStr status)
             /\ (is_open it = true <-> status = "open")).
Proof.
split; [|split].
- intros H1 H2. unfold set_record_status.
  destruct (String.eqb_spec status "open"); [contradiction|].
  destruct (String.eqb_spec status "paid"); [contradiction|]. reflexivity.
- intros Hs Hno. unfold set_record_status.
  replace (String.eqb status "open" || String.eqb status "paid") with true
    by (destruct Hs as [-> | ->]; reflexivity).
  cbn [negb]. rewrite (proj2 (select_record_none records record_id) Hno). reflexivity.
- intros Hs Hnd row Hin Hid.
  assert (E : set_record_status records record_id status
              = (map (fun r => if String.eqb (r_id r) record_id
                               then with_status status r else r) records,
                 Body (record_id, status))).
  { unfold set_record_status.
    replace (String.eqb status "open" || String.eqb status "paid") with true
      by (destruct Hs as [-> | ->]; reflexivity).
    cbn [negb]. destruct (select_record records record_id) as [row0|] eqn:Es.
    - apply select_record_some in Es as [Hin0 Hid0].
      assert (row0 = row) by (apply (unique_id records); congruence). subst row0.
      f_equal. unfold update_fields. apply map_ext_in. intros r Hr.
      destruct (String.eqb_spec (r_id r) record_id) as [Er|_]; [|reflexivity].
      assert (r = row) by (apply (unique_id records); congruence). now subst r.
    - exfalso. exact (proj1 (select_record_none records record_id) Es row Hin Hid). }
  split; [exact E|]. split.
  + rewrite E. cbn [fst]. apply in_map_iff. exists row. split; [|exact Hin].
    rewrite Hid, String.eqb_refl. reflexivity.
  + intros it Hit.
    assert (Hne : status <> EmptyString) by (destruct Hs as [-> | ->]; discriminate).
    pose proof (item_status row status it Hne Hit) as Hst.
    split; [exact Hst|].
    unfold is_open, get_or_none. rewrite Hst. cbn [default]. unfold or_, id.
    replace (truthy (VStr status)) with true
      by (destruct Hs as [-> | ->]; reflexivity).
    change (py_eq (VStr status) (VStr "open")) with (String.eqb status "open").
    apply String.eqb_eq.
Qed.

Lemma filter_other_id (records : list Record_) (record_id k : string) :
  k <> record_id ->
  List.filter (fun r => String.eqb (r_id r) k)
              (List.filter (fun r => negb (String.eqb (r_id r) record_id)) records)
  = List.filter (fun r => String.eqb (r_id r) k) records.
Proof.
intros Hk. induction records as [|x l IHl]; [reflexivity|]. simpl.
destruct (String.eqb_spec (r_id x) record_id) as [Ex|Ex]; cbn [negb]; simpl.
- destruct (String.eqb_spec (r_id x) k) as [Ek|_]; [congruence | exact IHl].
- destruct (String.eqb (r_id x) k); [f_equal|]; exact IHl.
Qed.

(** X17. [delete_record] answers 404 for an identifier that names
    no record and removes nothing then. Otherwise it removes the records
    of that identifier and no other: the rest of the table keeps its rows
    and their order, and deleting the same identifier again is a 404. *)
Theorem delete_record_effect (records : list Record_) (record_id : string) :
  ((forall row, In row records -> r_id row <> record_id) ->
   delete_record records record_id = (records, HTTPError 404 "record not found"))
  /\ (forall row, In row records -> r_id row = record_id ->
        delete_record records record_id
        = (List.filter (fun r => negb (String.eqb (r_id r) record_id)) records,
           Body record_id)
        /\ (forall r, In r (fst (delete_record records record_id)) <->
                      In r records /\ r_id r <> record_id)
        /\ (forall k, k <> record_id ->
              List.filter (fun r => String.eqb (r_id r) k)
                          (fst (delete_record records record_id))
              = List.filter (fun r => String.eqb (r_id r) k) records)
        /\ delete_record (fst (delete_record records record_id)) record_id
           = (fst (delete_record records record_id), HTTPError 404 "record not found")).
Proof.
split.
- intros Hno. unfold delete_record.
  rewrite (proj2 (select_record_none records record_id) Hno). reflexivity.
- intros row Hin Hid.
  assert (E : delete_record records record_id
              = (List.filter (fun r => negb (String.eqb (r_id r) record_id)) records,
                 Body record_id)).
  { unfold delete_record. destruct (select_record records record_id) eqn:Es;
      [reflexivity|].
    exfalso. exact (proj1 (select_record_none records record_id) Es row Hin Hid). }
  assert (Hmem : forall r, In r (List.filter (fun r => negb (String.eqb (r_id r) record_id))
                                             records)
                           <-> In r records /\ r_id r <> record_id).
  { intros r. rewrite filter_In, negb_true_iff, String.eqb_neq. reflexivity. }
  rewrite E. cbn [fst]. split; [reflexivity|]. split; [exact Hmem|]. split.
  + intros k Hk. apply filter_other_id, Hk.
  + unfold delete_record.
    rewrite (proj2 (select_record_none _ record_id)); [reflexivity|].
    intros r Hr. apply Hmem in Hr. tauto.
Qed.

End ApFacts.

(** *** Examples for the facts above *)

Section MoreExamples.
Import Val Models Ai.

Abbreviation upload_ex :=
  (Main.upload_dupcheck Examples.sqlite_text Examples.ratio_of_container).
Abbreviation detect_ex2 :=
  (Main.detect_duplicates Examples.sqlite_text Examples.ratio_of_container).
Abbreviation chat_ex := (_chat_json_with_images nat Examples.create Examples.json_loads true).
Abbreviation run_ex2 :=
  (run_extraction nat Examples.create Examples.json_loads Examples.float_of_str
     Examples.uuid12 Examples.render true "gpt-4o" "o3" Examples.classifier_prompt
     "Extract an invoice." "Extract a receipt." "Summarize." Examples.lax true).
Abbreviation run_receipt :=
  (run_extraction nat ReceiptExample.create ReceiptExample.json_loads
     Examples.float_of_str Examples.uuid12 Examples.render true "gpt-4o" "gpt-4o"
     Examples.classifier_prompt "Extract an invoice." "Extract a receipt."
     "Summarize." Examples.lax true).

Lemma norm_invoice_no_idempotent_witness :
  Main._norm_invoice_no (VStr "inv1024") = Ok (Some "inv1024").
Proof.
apply (norm_invoice_no_idempotent (VStr "INV-1024") "inv1024"). reflexivity.
Defined.

Lemma upload_conflict_iff_hash_stored_witness :
  exists detail,
    upload_ex Examples.store_1 "H1" "scan.pdf" (VDict [("vendor", VStr "Acme")])
    = Raise (HTTPException 409 detail).
Proof.
destruct (upload_conflict_iff_hash_stored Examples.sqlite_text
            Examples.ratio_of_container Examples.store_1 "H1" "scan.pdf"
            (VDict [("vendor", VStr "Acme")])) as (_ & H & _).
apply (H [("vendor", VStr "Acme")] (Some "acme") None
         {| Main.doc_id := "doc_1"; Main.hash_sha256 := Some "H1" |}).
- reflexivity.
- reflexivity.
- reflexivity.
- left. reflexivity.
- reflexivity.
Defined.

Lemma proposed_record_found_again_witness :
  exists r',
    In r' (Main.records Examples.store_acme)
    /\ Main.same_vendor_and_number Examples.sqlite_text "acme" "inv1024" r' = Ok true
    /\ upload_ex Examples.store_acme "H2" "again.pdf" (VDict Examples2.fields_acme_again)
       = Ok {| Main.notice := Some "This appears to be the same invoice (same vendor and invoice number).";
               Main.duplicate_suspect := Some (Main.likely_verdict (Main.rec_id r'));
               Main.proposed_hash := "H2";
               Main.proposed_filename := "again.pdf";
               Main.proposed_fields :=
                 set "invoice_number_norm" (VStr "inv1024")
                     (set "vendor_norm" (VStr "acme") Examples2.fields_acme_again) |}.
Proof.
eapply (proposed_record_found_again Examples.sqlite_text Examples.ratio_of_container
          Examples2.empty_store Examples.store_acme "H1" "H2" "first.pdf" "again.pdf"
          Examples2.fields_acme Examples2.fields_acme_again).
- reflexivity.
- reflexivity.
- reflexivity.
- reflexivity.
- reflexivity.
- repeat constructor.
- left. reflexivity.
- reflexivity.
- reflexivity.
- reflexivity.
- intros d [].
Defined.

Lemma without_number_total_and_date_witness :
  exists v,
    Main._norm_vendor (get_or_none "vendor" Examples2.fields_dated) = Ok (Some v)
    /\ Main.readable Examples2.store_dated
    /\ Main.possible_verdict
         [VDict [("type", VStr "record"); ("id", VStr "rec_1"); ("similarity", VFloat 0)]]
       = Main.possible_verdict
           (map (fun r => VDict [("type", VStr "record"); ("id", VStr (Main.rec_id r));
                                 ("similarity", VFloat 0)])
                (List.filter
                   (fun r => Main.holds (Main.same_vendor Examples.sqlite_text v r)
                             && (Main.total_close
                                   (get_or_none "total" Examples2.fields_dated)
                                   (get_or_none "total" (Main.rec_fields r))
                                 && Main.date_match
                                      (get_or_none "invoice_date" Examples2.fields_dated)
                                      (get_or_none "invoice_date" (Main.rec_fields r))))
                   (Main.records Examples2.store_dated))).
Proof.
apply (without_number_total_and_date Examples.sqlite_text Examples.ratio_of_container
         Examples2.store_dated "H" Examples2.fields_dated).
- reflexivity.
- intros x [].
- vm_compute. reflexivity.
Defined.

Lemma matches_at_most_lengths_witness :
  Difflib.matches (list_ascii_of_string "inv1024") (list_ascii_of_string "inv01024") <= 7.
Proof.
exact (proj1 (matches_at_most_lengths (list_ascii_of_string "inv1024")
                (list_ascii_of_string "inv01024"))).
Defined.

Lemma date_formats_exclusive_witness :
  Normalizer.first_parse (rev Normalizer.formats) "2024/01/05"
  = Normalizer.first_parse Normalizer.formats "2024/01/05".
Proof.
apply (proj2 (date_formats_exclusive "2024/01/05")). apply Permutation_rev.
Defined.

Lemma normalized_invoice_shape_witness :
  exists n,
    Normalizer._normalize_invoice_fields Examples.lax
      (set "po_box" (VStr "12") (Examples.invoice "01/05/2024")) "doc_1" = Ok n
    /\ List.NoDup (map fst n)
    /\ get "po_box" n = None.
Proof.
eexists. split; [vm_compute; reflexivity|].
split; [|reflexivity].
refine (proj1 (proj2 (normalized_invoice_shape Examples.lax
                        (set "po_box" (VStr "12") (Examples.invoice "01/05/2024"))
                        "doc_1" _ _))).
vm_compute. reflexivity.
Defined.

Lemma run_extraction_tables_witness :
  exists ex rec w',
    run_ex2 Examples.document_1 "" Examples.world_0 = (Ok ex, w')
    /\ extractions nat w' = [ex] /\ records nat w' = [rec]
    /\ r_fields rec = ex_fields ex /\ ex_model ex = "o3".
Proof.
destruct (run_extraction_tables nat Examples.create Examples.json_loads
            Examples.float_of_str Examples.uuid12 Examples.render true "gpt-4o" "o3"
            Examples.classifier_prompt "Extract an invoice." "Extract a receipt."
            "Summarize." Examples.lax true Examples.document_1 "" Examples.world_0)
  as [_ H].
edestruct H as (rec & He & Hr & _ & _ & _ & Hf & Hm & _); [vm_compute; reflexivity|].
eexists _, rec, _. split; [vm_compute; reflexivity|].
split; [exact He|]. split; [exact Hr|]. split; [exact Hf | exact Hm].
Defined.

Lemma text_only_extraction_witness :
  exists ex rec w',
    run_ex2 Examples2.document_txt "Dear customer" Examples.world_0 = (Ok ex, w')
    /\ calls nat w' = []
    /\ ex_fields ex = [("summary", VStr "Dear customer")]
    /\ r_type rec = OTHER.
Proof.
destruct (text_only_extraction nat Examples.create Examples.json_loads
            Examples.float_of_str Examples.uuid12 Examples.render true "gpt-4o" "o3"
            Examples.classifier_prompt "Extract an invoice." "Extract a receipt."
            "Summarize." Examples.lax true Examples2.document_txt "Dear customer"
            Examples.world_0)
  as (Hmime & _ & H).
destruct (H (Hmime ltac:(discriminate)))
  as (ex & rec & w' & Hrun & Hc & _ & _ & _ & Hf & _ & _ & _ & _ & Ht & _).
exists ex, rec, w'. auto.
Defined.

Lemma gateway_requests_and_faults_witness :
  exists rs,
    calls nat (snd (chat_ex "Summarize." "Summarize." ["page-1"] "o3" Examples.world_0))
    = (calls nat Examples.world_0 ++ rs)%list
    /\ forall e, fst (chat_ex "Summarize." "Summarize." ["page-1"] "o3" Examples.world_0)
                  = Raise e -> e <> JSONDecodeError.
Proof.
destruct (gateway_requests_and_faults nat Examples.create Examples.json_loads true
            "Summarize." "Summarize." ["page-1"] "o3" Examples.world_0
            (snd (chat_ex "Summarize." "Summarize." ["page-1"] "o3" Examples.world_0))
            (fst (chat_ex "Summarize." "Summarize." ["page-1"] "o3" Examples.world_0))
            (surjective_pairing _))
  as (rs & Hc & _ & _ & He).
exists rs. split; [exact Hc|]. intros e H. apply (He e H).
Defined.

Lemma upsert_is_insert_or_replace_witness :
  (exists w',
     upsert_record nat true Examples2.record_1 Examples.world_0 = (Ok tt, w')
     /\ List.find (fun y => String.eqb (r_id y) "rec_1") (records nat w')
        = Some Examples2.record_1)
  /\ upsert_record nat true Examples2.record_infinity Examples.world_0
     = (Raise OperationalError, Examples.world_0).
Proof.
split.
- destruct (upsert_is_insert_or_replace nat true Examples2.record_1
              Examples2.extraction_1 Examples.world_0) as (H & _).
  destruct (H eq_refl eq_refl) as (w' & H1 & _ & H3 & _).
  exists w'. split; [exact H1 | exact H3].
- destruct (upsert_is_insert_or_replace nat true Examples2.record_infinity
              Examples2.extraction_1 Examples.world_0) as (_ & _ & H & _).
  apply H; reflexivity.
Defined.

Lemma receipt_with_datetime_is_not_stored_witness :
  exists w',
    run_receipt Examples.document_1 "" Examples.world_0 = (Raise TypeError, w')
    /\ extractions nat w' = [] /\ records nat w' = [].
Proof.
edestruct (receipt_with_datetime_is_not_stored nat ReceiptExample.create
             ReceiptExample.json_loads Examples.float_of_str Examples.uuid12
             Examples.render true "gpt-4o" "gpt-4o" Examples.classifier_prompt
             "Extract an invoice." "Extract a receipt." "Summarize." Examples.lax true
             Examples.document_1 "" Examples.world_0)
  as (e & w' & Hrun & He & Hr & Hm).
- vm_compute. discriminate.
- vm_compute. reflexivity.
- vm_compute. reflexivity.
- reflexivity.
- discriminate.
- vm_compute in Hm. destruct Hm as (-> & _). exists w'. auto.
Defined.

End MoreExamples.

(** *** Vendor bills on an example table *)

Section ApExamples.
Import Val Models Ap.

Lemma bills_table_ids : List.NoDup (map r_id Examples2.bills_table).
Proof.
repeat (apply List.NoDup_cons; [simpl; intuition discriminate|]). apply List.NoDup_nil.
Qed.

Lemma ap_item_is_complete_witness :
  map _row_to_ap_item Examples2.bills_table
  = [Ok (Some [("id", VStr "rec_1"); ("vendor", VStr "Acme"); ("total", VFloat 120.5);
               ("due_date", VStr ""); ("number", VStr ""); ("memo", VStr "");
               ("description", VStr ""); ("status", VStr "open")]);
     Ok (Some [("id", VStr "rec_2"); ("vendor", VStr "Bolt"); ("total", VInt 0);
               ("due_date", VStr ""); ("number", VStr ""); ("memo", VStr "");
               ("description", VStr ""); ("status", VStr "paid")]);
     Ok None; Ok (Some [("id", VStr "rec_4"); ("vendor", VStr "Unknown vendor");
                        ("total", VInt 0); ("due_date", VStr ""); ("number", VStr "");
                        ("memo", VStr ""); ("description", VStr "");
                        ("status", VStr "open")])].
Proof.
cbn [map Examples2.bills_table].
rewrite (proj1 (ap_item_is_complete
                  {| r_id := "rec_3"; r_document_id := "doc_3"; r_extraction_id := None;
                     r_type := INVOICE;
                     r_fields := [("vendor", VStr "Customer");
                                  ("direction", VStr "outgoing")] |}) eq_refl).
reflexivity.
Defined.

Lemma list_ap_bills_status_filter_witness :
  list_ap_bills Examples2.bills_table "closed" = list_ap_bills Examples2.bills_table "paid"
  /\ option_map (map (get "id"))
       (match list_ap_bills Examples2.bills_table "paid" with
        | Ok l => Some l | Raise _ => None end)
     = Some [Some (VStr "rec_1"); Some (VStr "rec_2")].
Proof.
split.
- apply (proj1 (list_ap_bills_status_filter Examples2.bills_table "closed"
                  ltac:(discriminate))).
- reflexivity.
Defined.

Lemma mark_paid_effect_witness :
  map r_id (fst (mark_ap_bills_paid Examples2.bills_table ["rec_1"; "rec_9"; "rec_1"]))
  = ["rec_1"; "rec_2"; "rec_3"; "rec_4"]
  /\ snd (mark_ap_bills_paid Examples2.bills_table ["rec_1"; "rec_9"; "rec_1"])
     = Ok (2, []).
Proof.
destruct (mark_paid_effect Examples2.bills_table ["rec_1"; "rec_9"; "rec_1"]
            bills_table_ids) as (_ & _ & H & _).
split; [exact H | reflexivity].
Defined.

Lemma set_record_status_effect_witness :
  set_record_status Examples2.bills_table "rec_1" "void"
  = (Examples2.bills_table, HTTPError 400 "status must be 'open' or 'paid'").
Proof.
apply (proj1 (set_record_status_effect Examples2.bills_table "rec_1" "void"));
  discriminate.
Defined.

Lemma delete_record_effect_witness :
  delete_record Examples2.bills_table "rec_9"
  = (Examples2.bills_table, HTTPError 404 "record not found").
Proof.
apply (proj1 (delete_record_effect Examples2.bills_table "rec_9")).
intros row [<-|[<-|[<-|[<-|[]]]]]; discriminate.
Defined.

End ApExamples.

(** ** The placement log of [fill_pdf] *)

Section PdfFacts.
Import Val Models PdfFill.

Variable float_of_str : string -> option float.
Variable int_of_str : string -> option Z.
Variable T : schema.
Variable validate_int : Z -> option Z.
Variable draw : nat -> list PdfFillRow -> option exn.
Variable save : option exn.

Abbreviation fill := (fill_pdf float_of_str int_of_str T validate_int draw save).
Abbreviation parse := (parse_csv float_of_str int_of_str T validate_int).
Abbreviation parse_one := (parse_row float_of_str int_of_str T validate_int).
Abbreviation placing := (place draw).
Abbreviation builtin := ([("fontSize", VInt 10); ("page", VInt 1)] : dict).
Abbreviation defaults_of profile :=
  (match profile with Some d => d | None => builtin end).

(** The page a row asks for is an integer. *)
Abbreviation whole ix := (match ix with IInt _ => true | IFloat _ => false end).
(** An integer index in the pages [i, i + n). *)
Abbreviation between i n ix :=
  (match ix with
   | IInt z => (Z.of_nat i <=? z)%Z && (z <? Z.of_nat (i + n))%Z
   | IFloat _ => false
   end).

Lemma targets_inv (defaults : dict) (pages : nat) (rows : list PdfFillRow)
    (placed : list (PdfFillRow * index)) :
  targets defaults pages rows = Done placed ->
  map fst placed = rows
  /\ forall row ix, In (row, ix) placed ->
       target defaults row = Ok ix /\ out_of_range pages ix = false.
Proof.
revert placed. induction rows as [|row rest IH]; intros placed; simpl.
- intros [= <-]. split; [reflexivity | intros ? ? []].
- destruct (target defaults row) as [ix|e] eqn:Et; [|discriminate].
  destruct (out_of_range pages ix) eqn:Eo; [discriminate|].
  destruct (targets defaults pages rest) as [l|e]; [|discriminate].
  intros [= <-]. destruct (IH l eq_refl) as [H1 H2]. split; [simpl; now rewrite H1|].
  intros r i [[= <- <-]|Hin]; [auto | apply H2, Hin].
Qed.

Lemma place_inv (defaults : dict) (placed : list (PdfFillRow * index))
    (n i : nat) (log : list PlacementLog) :
  placing defaults placed n i = Done log ->
  map log_row log = flat_map (fun j => overlays j placed) (seq i n)
  /\ forall entry, In entry log ->
       i <= page_index entry < i + n
       /\ font_size entry = font_size_of defaults (log_row entry)
       /\ exists ix, In (log_row entry, ix) placed
                     /\ on_page (page_index entry) ix = true.
Proof.
revert i log. induction n as [|n IH]; intros i log; simpl.
- intros [= <-]. split; [reflexivity | intros ? []].
- destruct (match overlays i placed with [] => None | _ => draw i (overlays i placed) end);
    [discriminate|].
  destruct (placing defaults placed n (Datatypes.S i)) as [l|e] eqn:E; [|discriminate].
  intros [= <-]. destruct (IH _ _ E) as [H1 H2]. split.
  + rewrite map_app, map_map, H1. simpl. now rewrite map_id.
  + intros entry Hin. apply in_app_or in Hin as [Hin|Hin].
    * apply in_map_iff in Hin as (row & <- & Hrow). simpl.
      split; [lia|]. split; [reflexivity|].
      unfold overlays in Hrow. apply in_map_iff in Hrow as ([r ix] & <- & Hp).
      apply filter_In in Hp as [Hp Hon]. exists ix. auto.
    * destruct (H2 entry Hin) as (Hr & Hf & Hx). split; [lia | auto].
Qed.

Lemma filter_split {A} (p q : A -> bool) (l : list A) :
  (forall x, In x l -> p x && q x = false) ->
  Permutation (List.filter p l ++ List.filter q l)
              (List.filter (fun x => p x || q x) l).
Proof.
induction l as [|a l IH]; intros H; simpl; [constructor|].
assert (IH' : Permutation (List.filter p l ++ List.filter q l)
                          (List.filter (fun x => p x || q x) l))
  by (apply IH; intros x Hx; apply H; now right).
specialize (H a (or_introl eq_refl)).
destruct (p a), (q a); simpl in *; try discriminate.
- constructor. exact IH'.
- rewrite <- Permutation_middle. constructor. exact IH'.
- exact IH'.
Qed.

Lemma filter_all {A} (p : A -> bool) (l : list A) :
  (forall x, In x l -> p x = true) -> List.filter p l = l.
Proof.
induction l as [|a l IH]; intros H; simpl; [reflexivity|].
rewrite (H a (or_introl eq_refl)). f_equal. apply IH. intros x Hx. apply H. now right.
Qed.

Lemma overlays_pages (placed : list (PdfFillRow * index)) (n i : nat) :
  (forall p, In p placed -> whole (snd p) = true) ->
  Permutation (flat_map (fun j => List.filter (fun p => on_page j (snd p)) placed)
                        (seq i n))
              (List.filter (fun p => between i n (snd p)) placed).
Proof.
intros Hw. revert i. induction n as [|n IH]; intros i; cbn [flat_map seq].
- replace (List.filter _ placed) with (@nil (PdfFillRow * index)); [constructor|].
  symmetry. apply filter_nil_intro. intros [r [z|f]] _; cbn [snd]; [|reflexivity].
  apply andb_false_iff. rewrite Z.leb_gt, Z.ltb_ge. lia.
- rewrite (IH (Datatypes.S i)).
  rewrite filter_split.
  + apply Permutation_refl'. apply filter_ext_in.
    intros [r [z|f]] Hin; [|discriminate (Hw _ Hin)]. cbn [snd on_page].
    apply eq_true_iff_eq.
    rewrite orb_true_iff, !andb_true_iff, Z.eqb_eq, !Z.leb_le, !Z.ltb_lt. lia.
  + intros [r [z|f]] Hin; [|discriminate (Hw _ Hin)]. cbn [snd on_page].
    apply andb_false_iff. rewrite andb_false_iff, Z.eqb_neq, Z.leb_gt, Z.ltb_ge. lia.
Qed.

(** X18. The placement log [fill_pdf] returns is ordered by
    page; every entry names a page of the template, a row of the CSV that
    asks for that page, and the font size of the row or else the default.
    When the default page is an integer - as the built-in one is - the
    log has every row of the CSV exactly once: its length is the number
    of rows. *)
Theorem fill_pdf_log (csv : list csv_row) (pages : nat) (profile : option dict)
    (log : list PlacementLog) :
  fill true true csv pages profile = Done log ->
  exists rows,
    parse csv = Done rows
    /\ (forall entry, In entry log ->
          page_index entry < pages
          /\ In (log_row entry) rows
          /\ font_size entry = font_size_of (defaults_of profile) (log_row entry)
          /\ exists ix, target (defaults_of profile) (log_row entry) = Ok ix
                        /\ on_page (page_index entry) ix = true)
    /\ map page_index log
       = flat_map (fun j => map (fun _ => j)
                                (List.filter (fun row =>
                                   match target (defaults_of profile) row with
                                   | Ok ix => on_page j ix
                                   | Raise _ => false
                                   end) rows))
                  (seq 0 pages)
    /\ ((forall v, get "page" (defaults_of profile) = Some v -> exists z, v = VInt z) ->
        Permutation (map log_row log) rows /\ length log = length rows).
Proof.
unfold fill_pdf. cbn [negb].
destruct (parse csv) as [rows|e]; [|discriminate].
set (defaults := defaults_of profile).
destruct (targets defaults pages rows) as [placed|e] eqn:Et; [|discriminate].
destruct (placing defaults placed pages 0) as [l|e] eqn:Ep; [|discriminate].
destruct save; [discriminate|]. intros [= <-].
exists rows. split; [reflexivity|].
destruct (targets_inv _ _ _ _ Et) as [Hrows Hplaced].
destruct (place_inv _ _ _ _ _ Ep) as [Hlog Hentries].
split; [|split].
- intros entry Hin. destruct (Hentries entry Hin) as (Hr & Hf & ix & Hix & Hon).
  split; [lia|]. split; [|split; [exact Hf|]].
  + rewrite <- Hrows. apply (in_map fst _ _ Hix).
  + exists ix. split; [apply (Hplaced _ _ Hix) | exact Hon].
- clear Hentries Hlog. revert l Ep. generalize 0 as i. generalize pages as n.
  induction n as [|n IH]; intros i l; simpl.
  + intros [= <-]. reflexivity.
  + destruct (match overlays i placed with [] => None | _ => _ end); [discriminate|].
    destruct (placing defaults placed n (Datatypes.S i)) as [l'|e] eqn:E; [|discriminate].
    intros [= <-]. rewrite map_app, map_map, (IH _ _ E). f_equal. simpl.
    unfold overlays. rewrite <- Hrows. rewrite !map_map.
    clear -Hplaced. induction placed as [|[r ix] pl IHp]; [reflexivity|]. simpl.
    destruct (Hplaced r ix (or_introl eq_refl)) as [Hr _]. rewrite Hr.
    destruct (on_page i ix); simpl; [f_equal|]; apply IHp;
      intros r' ix' H'; apply Hplaced; now right.
- intros Hint.
  assert (Hall : forall p, In p placed -> between 0 pages (snd p) = true).
  { intros [r ix] Hin. destruct (Hplaced r ix Hin) as [Ht Ho]. simpl.
    unfold target in Ht.
    assert (Hd : exists z, default (VInt 1) (get "page" defaults) = VInt z).
    { destruct (get "page" defaults) as [v|] eqn:Eg; [|simpl; eauto].
      destruct (Hint v eq_refl) as (z0 & ->). simpl. eauto. }
    destruct Hd as (z0 & Hd). rewrite Hd in Ht.
    assert (Hz : exists z, ix = IInt z).
    { destruct (opt_page r) as [z|]; [destruct (z =? 0)%Z|]; injection Ht as <-; eauto. }
    destruct Hz as (z & ->). simpl in Ho. apply orb_false_iff in Ho as [H1 H2].
    apply Z.ltb_ge in H1. apply Z.leb_gt in H2.
    apply andb_true_iff. split; [apply Z.leb_le | apply Z.ltb_lt]; lia. }
  assert (Hperm : Permutation (map log_row l) rows).
  { rewrite Hlog, <- Hrows. unfold overlays.
    rewrite flat_map_concat_map.
    rewrite <- (map_map (fun j => List.filter (fun p => on_page j (snd p)) placed)
                        (map fst)).
    rewrite <- concat_map. apply Permutation_map.
    rewrite <- flat_map_concat_map. rewrite overlays_pages;
      [|intros [r [z|f]] Hin; [reflexivity | discriminate (Hall _ Hin)]].
    apply Permutation_refl'. apply filter_all. exact Hall. }
  split; [exact Hperm|].
  rewrite <- (length_map log_row l). apply Permutation_length, Hperm.
Qed.

(** ** The errors of [fill_pdf] *)

Lemma parse_csv_failed (csv : list csv_row) (e : error) :
  parse csv = Failed e ->
  exists before raw after,
    csv = (before ++ raw :: after)%list /\ e = InvalidRow raw
    /\ parse_one raw = None /\ Forall (fun r => parse_one r <> None) before.
Proof.
induction csv as [|raw rest IH]; simpl; [discriminate|].
destruct (parse_one raw) as [row|] eqn:Er.
- destruct (parse rest) as [l|e']; [discriminate|]. intros [= <-].
  destruct (IH eq_refl) as (b & r & a & -> & -> & Hr & Hb).
  exists (raw :: b), r, a. repeat split; auto. constructor; [congruence | exact Hb].
- intros [= <-]. exists [], raw, rest. repeat split; auto.
Qed.

Lemma parse_csv_first (before after : list csv_row) (raw : csv_row) :
  Forall (fun r => parse_one r <> None) before -> parse_one raw = None ->
  parse (before ++ raw :: after) = Failed (InvalidRow raw).
Proof.
intros Hb Hr. induction Hb as [|r b Hr' Hb IH]; simpl.
- now rewrite Hr.
- destruct (parse_one r); [|congruence]. now rewrite IH.
Qed.

Lemma targets_not_invalid (defaults : dict) (pages : nat) (rows : list PdfFillRow)
    (raw : csv_row) :
  targets defaults pages rows <> Failed (InvalidRow raw)
  /\ targets defaults pages rows <> Failed TemplateNotFound
  /\ targets defaults pages rows <> Failed CsvNotFound.
Proof.
induction rows as [|row rest IH]; simpl; [repeat split; discriminate|].
destruct (target defaults row) as [ix|]; [|repeat split; discriminate].
destruct (out_of_range pages ix); [repeat split; discriminate|].
destruct (targets defaults pages rest); [repeat split; discriminate|].
destruct IH as (H1 & H2 & H3). repeat split; congruence.
Qed.

Lemma place_only_other (defaults : dict) (placed : list (PdfFillRow * index))
    (n i : nat) (e : error) :
  placing defaults placed n i = Failed e -> exists x, e = Other x.
Proof.
revert i. induction n as [|n IH]; intros i; simpl; [discriminate|].
destruct (match overlays i placed with [] => None | _ => draw i (overlays i placed) end).
- intros [= <-]. eauto.
- destruct (placing defaults placed n (Datatypes.S i)) eqn:E; [discriminate|].
  intros [= <-]. apply (IH _ E).
Qed.

(** X19. The errors of [fill_pdf] come in a fixed order. It
    reports a missing template whenever there is none, a missing CSV when
    only the CSV is missing, and an invalid row exactly when both files
    exist and some row of the CSV does not parse: the row reported is the
    first such row, and it is reported before the page of any row - even
    an earlier one - is looked at. *)
Theorem fill_pdf_errors (template_exists csv_exists : bool) (csv : list csv_row)
    (pages : nat) (profile : option dict) :
  (fill template_exists csv_exists csv pages profile = Failed TemplateNotFound
   <-> template_exists = false)
  /\ (fill template_exists csv_exists csv pages profile = Failed CsvNotFound
      <-> template_exists = true /\ csv_exists = false)
  /\ (forall raw,
        fill template_exists csv_exists csv pages profile = Failed (InvalidRow raw)
        <-> template_exists = true /\ csv_exists = true
            /\ exists before after,
                 csv = (before ++ raw :: after)%list /\ parse_one raw = None
                 /\ Forall (fun r => parse_one r <> None) before).
Proof.
assert (Hin : forall e,
  fill true true csv pages profile = Failed e ->
  parse csv = Failed e
  \/ (exists rows, parse csv = Done rows
                   /\ targets (defaults_of profile) pages rows = Failed e)
  \/ exists x, e = Other x).
{ intros e. unfold fill_pdf. cbn [negb].
  destruct (parse csv) as [rows|e']; [|intros [= <-]; now left].
  destruct (targets _ pages rows) as [placed|e'] eqn:Et;
    [|intros [= <-]; right; left; eauto].
  destruct (placing _ placed pages 0) as [l|e'] eqn:Ep;
    [|intros [= <-]; right; right; apply (place_only_other _ _ _ _ _ Ep)].
  destruct save; [|discriminate]. intros [= <-]. right; right; eauto. }
split; [|split].
- destruct template_exists; [|split; reflexivity]. split; [|discriminate].
  destruct csv_exists; [|discriminate]. intros H.
  destruct (Hin _ H) as [H1|[(rows & _ & H1)|(x & H1)]]; [| |discriminate].
  + apply parse_csv_failed in H1 as (? & ? & ? & _ & H1 & _). discriminate.
  + destruct (proj1 (proj2 (targets_not_invalid _ _ _ [])) H1).
- destruct template_exists; [|split; [discriminate | intros [? _]; discriminate]].
  destruct csv_exists; [|split; [auto | reflexivity]].
  split; [|intros [_ ?]; discriminate]. intros H.
  destruct (Hin _ H) as [H1|[(rows & _ & H1)|(x & H1)]]; [| |discriminate].
  + apply parse_csv_failed in H1 as (? & ? & ? & _ & H1 & _). discriminate.
  + destruct (proj2 (proj2 (targets_not_invalid _ _ _ [])) H1).
- intros raw.
  destruct template_exists; [|split; [discriminate | intros [? _]; discriminate]].
  destruct csv_exists; [|split; [discriminate | intros (_ & ? & _); discriminate]].
  split.
  + intros H. split; [reflexivity|]. split; [reflexivity|].
    destruct (Hin _ H) as [H1|[(rows & _ & H1)|(x & H1)]]; [| |discriminate].
    * apply parse_csv_failed in H1 as (b & r & a & -> & [= <-] & Hr & Hb). eauto.
    * destruct (proj1 (targets_not_invalid _ _ _ raw) H1).
  + intros (_ & _ & b & a & -> & Hr & Hb). unfold fill_pdf. cbn [negb].
    now rewrite parse_csv_first.
Qed.

(** ** The page of a row *)

(** The page a row asks for when the default page is the integer [p]:
    its [opt_page], unless that is missing or [0]. *)
Abbreviation asked p row :=
  (match opt_page row with
   | Some z => if (z =? 0)%Z then p else z
   | None => p
   end).
Abbreviation in_template p pages row :=
  (1 <= asked p row <= Z.of_nat pages)%Z.

Lemma target_asked (defaults : dict) (p : Z) (row : PdfFillRow) :
  default (VInt 1) (get "page" defaults) = VInt p ->
  target defaults row = Ok (IInt (asked p row - 1)).
Proof.
intros Hd. unfold target. rewrite Hd.
destruct (opt_page row) as [z|]; [destruct (z =? 0)%Z|]; reflexivity.
Qed.

Lemma targets_asked (defaults : dict) (p : Z) (pages : nat) (rows : list PdfFillRow) :
  default (VInt 1) (get "page" defaults) = VInt p ->
  match targets defaults pages rows with
  | Done placed => Forall (fun row => in_template p pages row) rows
  | Failed e =>
      exists before row after,
        rows = (before ++ row :: after)%list
        /\ e = OutOfRangePage (row_id row) (IInt (asked p row - 1))
        /\ ~ in_template p pages row
        /\ Forall (fun r => in_template p pages r) before
  end.
Proof.
intros Hd. induction rows as [|row rest IH]; simpl; [constructor|].
rewrite (target_asked _ _ _ Hd). cbn [out_of_range].
destruct (_ || _) eqn:Eo.
- exists [], row, rest. repeat split; auto.
  apply orb_true_iff in Eo. rewrite Z.ltb_lt, Z.leb_le in Eo. lia.
- apply orb_false_iff in Eo. rewrite Z.ltb_ge, Z.leb_gt in Eo.
  destruct (targets defaults pages rest) as [l|e].
  + constructor; [lia | exact IH].
  + destruct IH as (b & r & a & -> & -> & Hr & Hb).
    exists (row :: b), r, a. repeat split; auto. constructor; [lia | exact Hb].
Qed.

(** X20. When the default page is an integer [p] - it is [1]
    without a profile - a row asks for its [opt_page], and for page [p]
    when it has none or has [0]. [fill_pdf] on a CSV that parses fails
    with the out-of-range error exactly when some row asks for a page
    that is not one of [1 .. pages]; the error names the first such row
    and carries its page index, whatever the rows after it are. *)
Theorem fill_pdf_page_range (csv : list csv_row) (pages : nat)
    (profile : option dict) (rows : list PdfFillRow) (p : Z) :
  parse csv = Done rows ->
  default (VInt 1) (get "page" (defaults_of profile)) = VInt p ->
  forall id ix,
    fill true true csv pages profile = Failed (OutOfRangePage id ix)
    <-> exists before row after,
          rows = (before ++ row :: after)%list
          /\ Forall (fun r => in_template p pages r) before
          /\ ~ in_template p pages row
          /\ id = row_id row /\ ix = IInt (asked p row - 1).
Proof.
intros Hp Hd id ix. unfold fill_pdf. cbn [negb]. rewrite Hp.
set (defaults := defaults_of profile) in *.
pose proof (targets_asked defaults p pages rows Hd) as Ht.
destruct (targets defaults pages rows) as [placed|e] eqn:Et.
- split.
  + destruct (placing defaults placed pages 0) as [l|e] eqn:Ep.
    * destruct save; discriminate.
    * intros [= ->]. apply place_only_other in Ep as (x & Hx). discriminate.
  + intros (b & r & a & -> & _ & Hr & _). exfalso. apply Hr.
    apply Forall_app in Ht as [_ Ht]. now inversion Ht.
- destruct Ht as (b & r & a & -> & -> & Hr & Hb). split.
  + intros [= <- <-]. exists b, r, a. repeat split; auto.
  + intros (b' & r' & a' & Heq & Hb' & Hr' & -> & ->).
    assert (Hsame : b = b' /\ r = r').
    { clear -Heq Hb Hr Hb' Hr'. revert b' Heq Hb'.
      induction b as [|x b IH]; intros [|y b'] Heq Hb'; simpl in Heq.
      - injection Heq as -> _. auto.
      - injection Heq as -> _. inversion Hb'; subst. contradiction.
      - injection Heq as -> _. inversion Hb; subst. contradiction.
      - injection Heq as -> Heq. inversion Hb; subst. inversion Hb'; subst.
        destruct (IH H2 b' Heq H4) as [-> ->]. auto. }
    destruct Hsame as [_ ->]. reflexivity.
Qed.

(** ** What a parsed row says about its line *)

Lemma optional_field_none {A B} (conv : string -> option A)
    (validate : A -> option B) (k : string) (raw : csv_row) (o : option B) :
  optional_field conv validate k raw = Some o ->
  (o = None <-> cell k raw = None \/ cell k raw = Some None
                \/ cell k raw = Some (Some ""))
  /\ (forall b, o = Some b ->
        exists s a, cell k raw = Some (Some s) /\ s <> ""
                    /\ conv s = Some a /\ validate a = Some b).
Proof.
unfold optional_field.
destruct (cell k raw) as [[s|]|].
- destruct s as [|c s]; simpl.
  + intros [= <-]. split; [tauto | discriminate].
  + destruct (conv (String c s)) as [a|] eqn:Ec; [|discriminate].
    destruct (validate a) as [b|] eqn:Ev; [|discriminate]. simpl. intros [= <-].
    split.
    * split; [discriminate | intros [H|[H|H]]; discriminate].
    * intros b' [= <-]. exists (String c s), a. repeat split; auto.
- intros [= <-]. split; [tauto | discriminate].
- intros [= <-]. split; [tauto | discriminate].
Qed.

(** X21. A line of the CSV that [parse_csv] accepts has a cell
    for [x] and for [y] wherever the header has the column - a line that
    stops short is an invalid row - and the cell is a number; a column
    the header does not have counts as [0]. The row has no [opt_page]
    (or [opt_font_size]) exactly when the column is absent or the cell is
    missing or empty, and otherwise holds the converted cell. An [id]
    column that is absent or cut short gives the text [None] as the id. *)
Theorem parse_row_fields (raw : csv_row) (row : PdfFillRow) :
  parse_one raw = Some row ->
  (forall k coord, (k, coord) = ("x", row_x row) \/ (k, coord) = ("y", row_y row) ->
     match cell k raw with
     | None => validate_float T (VFloat 0) = Some coord
     | Some None => False
     | Some (Some s) => exists f, float_of_str s = Some f
                                  /\ validate_float T (VFloat f) = Some coord
     end)
  /\ (opt_page row = None
      <-> cell "opt_page" raw = None \/ cell "opt_page" raw = Some None
          \/ cell "opt_page" raw = Some (Some ""))
  /\ (forall z, opt_page row = Some z ->
        exists s a, cell "opt_page" raw = Some (Some s) /\ s <> ""
                    /\ int_of_str s = Some a /\ validate_int a = Some z)
  /\ (opt_font_size row = None
      <-> cell "opt_font_size" raw = None \/ cell "opt_font_size" raw = Some None
          \/ cell "opt_font_size" raw = Some (Some ""))
  /\ (forall f, opt_font_size row = Some f ->
        exists s a, cell "opt_font_size" raw = Some (Some s) /\ s <> ""
                    /\ float_of_str s = Some a
                    /\ validate_float T (VFloat a) = Some f)
  /\ validate_str T (match cell "id" raw with
                     | Some (Some s) => VStr s
                     | _ => VStr "None"
                     end) = Some (row_id row).
Proof.
unfold parse_row.
destruct (validate_str T _) as [i|] eqn:Ei; [|discriminate].
destruct (text_field T "label" raw) as [l|]; [|discriminate].
destruct (number_field float_of_str T "x" raw) as [x|] eqn:Ex; [|discriminate].
destruct (number_field float_of_str T "y" raw) as [y|] eqn:Ey; [|discriminate].
destruct (text_field T "value" raw) as [v|]; [|discriminate].
destruct (optional_field float_of_str _ "opt_font_size" raw) as [fs|] eqn:Ef;
  [|discriminate].
destruct (optional_field int_of_str _ "opt_page" raw) as [pg|] eqn:Eg;
  [|discriminate].
intros [= <-]. cbn [row_x row_y opt_page opt_font_size row_id].
destruct (optional_field_none _ _ _ _ _ Ef) as [F1 F2].
destruct (optional_field_none _ _ _ _ _ Eg) as [G1 G2].
split; [|repeat split; try apply F1; try apply G1; auto].
assert (Hnum : forall k c, number_field float_of_str T k raw = Some c ->
  match cell k raw with
  | None => validate_float T (VFloat 0) = Some c
  | Some None => False
  | Some (Some s) => exists f, float_of_str s = Some f
                               /\ validate_float T (VFloat f) = Some c
  end).
{ intros k c. unfold number_field. destruct (cell k raw) as [[s|]|]; auto.
  - destruct (float_of_str s) as [f|]; [eauto | discriminate].
  - discriminate. }
intros k coord [[= -> ->]|[= -> ->]]; apply Hnum; assumption.
Qed.

End PdfFacts.

(** *** [fill_pdf] on the example CSVs *)

Section PdfExamples.
Import Val Models PdfFill.

Lemma fill_pdf_log_witness :
  PdfExample.fill_pdf true true
    [PdfExample.line_second_page; PdfExample.line_first_page] 2 None
  = Done [{| log_row := PdfExample.row_first_page; page_index := 0;
             font_size := VInt 10 |};
          {| log_row := PdfExample.row_second_page; page_index := 1;
             font_size := VFloat 12 |}]
  /\ Permutation [PdfExample.row_first_page; PdfExample.row_second_page]
                 [PdfExample.row_second_page; PdfExample.row_first_page].
Proof.
assert (H : PdfExample.fill_pdf true true
    [PdfExample.line_second_page; PdfExample.line_first_page] 2 None
  = Done [{| log_row := PdfExample.row_first_page; page_index := 0;
             font_size := VInt 10 |};
          {| log_row := PdfExample.row_second_page; page_index := 1;
             font_size := VFloat 12 |}]) by (vm_compute; reflexivity).
split; [exact H|].
destruct (fill_pdf_log _ _ _ _ _ _ _ _ _ _ H) as (rows & Hrows & _ & _ & Hall).
injection Hrows as <-.
apply Hall. intros v [= <-]. eauto.
Defined.

Lemma fill_pdf_page_range_witness :
  PdfExample.fill_pdf true true
    [PdfExample.line_first_page; PdfExample.line_second_page; PdfExample.line_vendor]
    1 None
  = Failed (OutOfRangePage "a" (IInt 1)).
Proof.
apply (fill_pdf_page_range PdfExample.float_of_str PdfExample.int_of_str Examples.lax
         PdfExample.validate_int PdfExample.draw PdfExample.save
         [PdfExample.line_first_page; PdfExample.line_second_page;
          PdfExample.line_vendor] 1 None
         [PdfExample.row_first_page; PdfExample.row_second_page;
          PdfExample.row_vendor] 1 eq_refl eq_refl).
exists [PdfExample.row_first_page], PdfExample.row_second_page, [PdfExample.row_vendor].
split; [reflexivity|]. split; [repeat constructor; simpl; lia|].
split; [simpl; lia|]. split; reflexivity.
Defined.

Lemma parse_row_fields_witness :
  PdfExample.parse_row PdfExample.line_second_page = Some PdfExample.row_second_page
  /\ (exists f, PdfExample.float_of_str "10" = Some f
                /\ validate_float Examples.lax (VFloat f) = Some 10%float)
  /\ PdfExample.parse_row PdfExample.line_short = None.
Proof.
split; [reflexivity|]. split; [|reflexivity].
apply (proj1 (parse_row_fields PdfExample.float_of_str PdfExample.int_of_str Examples.lax
                PdfExample.validate_int PdfExample.line_second_page
                PdfExample.row_second_page eq_refl) "x" 10%float).
left. reflexivity.
Defined.

End PdfExamples.

(** ** Confirming a record *)

Section ConfirmFacts.
Import Val Models Confirm.

Variable St : Type.
Variable uuid12 : St -> string * St.
Variable float_of_str : string -> option float.
Variable T : schema.
Variable validate_dict : value -> option dict.
Variable indexed : bool.
(** A [str] given for a [str] field is taken as it is. *)
Hypothesis str_kept : forall s, validate_str T (VStr s) = Some s.

Abbreviation confirm :=
  (confirm_record St uuid12 float_of_str T validate_dict indexed).

Lemma upsert_fresh {A} (id_of : A -> string) (x : A) (rows : list A) :
  ~ In (id_of x) (map id_of rows) -> Ai.upsert id_of x rows = (rows ++ [x])%list.
Proof.
induction rows as [|y r IH]; simpl; intros H; [reflexivity|].
destruct (String.eqb_spec (id_of y) (id_of x)) as [E|_]; [tauto|].
rewrite IH; tauto.
Qed.

Lemma upsert_known {A} (id_of : A -> string) (x : A) (rows : list A) :
  In (id_of x) (map id_of rows) ->
  length (Ai.upsert id_of x rows) = length rows.
Proof.
induction rows as [|y r IH]; simpl; intros H; [tauto|].
destruct (String.eqb_spec (id_of y) (id_of x)) as [E|Hne]; [reflexivity|].
simpl. f_equal. apply IH. tauto.
Qed.

(** What a call that gets past the check of [doc_id] has done when it
    answers. *)
Lemma confirm_inv (payload : dict) (w w' : Ai.world St) (rid : string) :
  confirm payload w = (Ok (Ap.Body rid), w') ->
  exists kind extraction record,
    truthy (get_or_none "doc_id" payload) = true
    /\ lower_of (Ap.or_ (get_or_none "type" payload) (VStr "other")) = Ok kind
    /\ r_id record = rid
    /\ validate_str T (get_or_none "doc_id" payload) = Some (r_document_id record)
    /\ r_extraction_id record = Some (ex_id extraction)
    /\ r_type record = type_map_get kind
    /\ validate_dict (Ap.or_ (get_or_none "fields" payload) (VDict []))
       = Some (r_fields record)
    /\ ex_fields extraction = r_fields record
    /\ ex_doc_id extraction = r_document_id record
    /\ (truthy (get_or_none "extraction_id" payload) = true ->
        validate_str T (get_or_none "extraction_id" payload)
        = Some (ex_id extraction))
    /\ Ai.extractions St w' = Ai.upsert ex_id extraction (Ai.extractions St w)
    /\ Ai.records St w' = Ai.upsert r_id record (Ai.records St w)
    /\ Ai.calls St w' = Ai.calls St w.
Proof.
unfold confirm_record.
destruct (truthy (get_or_none "doc_id" payload)) eqn:Ed; cbn [negb].
2: { intros H. unfold Ai.ret in H. discriminate H. }
unfold Ai.bindM, Ai.lift, Ai.ret.
destruct (lower_of _) as [kind|e] eqn:Ek; [|discriminate].
set (doc_id := get_or_none "doc_id" payload) in *.
set (fields := Ap.or_ (get_or_none "fields" payload) (VDict [])).
set (xid := get_or_none "extraction_id" payload).
assert (Hid : exists id w1,
  (truthy xid = true -> id = xid)
  /\ Ai.extractions St w1 = Ai.extractions St w
  /\ Ai.records St w1 = Ai.records St w
  /\ Ai.calls St w1 = Ai.calls St w
  /\ (if truthy xid then Ai.ret St xid
      else Ai.bindM St (Ai.fresh_id St uuid12 "ext_")
                    (fun u => Ai.ret St (VStr u))) w = (Ok id, w1)).
{ destruct (truthy xid); [exists xid, w; auto 6|].
  unfold Ai.bindM, Ai.fresh_id, Ai.ret. destruct (uuid12 (Ai.service St w)) as [u st].
  exists (VStr ("ext_" ++ u)),
    {| Ai.service := st; Ai.calls := Ai.calls St w;
       Ai.extractions := Ai.extractions St w; Ai.records := Ai.records St w |}.
  split; [intros Hf; discriminate Hf | repeat split]. }
destruct Hid as (id & w1 & Hxid & He1 & Hr1 & Hc1 & Hstep).
unfold Ai.bindM, Ai.ret in Hstep. rewrite Hstep. clear Hstep.
destruct (py_float float_of_str _) as [c|e]; [|discriminate].
unfold Extraction_init.
destruct (validate_str T id) as [i|] eqn:Vi; [|discriminate].
destruct (validate_str T doc_id) as [d|] eqn:Vd; [|discriminate].
destruct (validate_str T (Ap.or_ (get_or_none "model" payload) _)) as [m|];
  [|discriminate].
destruct (validate_str T (Ap.or_ (get_or_none "schema" payload) _)) as [s|];
  [|discriminate].
destruct (validate_dict fields) as [f|] eqn:Vf; [|discriminate].
destruct (validate_float T (VFloat c)) as [c'|]; [|discriminate].
destruct (validate_dict (Ap.or_ (get_or_none "raw_json" payload) _)) as [r|];
  [|discriminate].
unfold Ai.upsert_extraction. cbn [ex_fields ex_raw_json ex_confidence ex_id].
destruct (json_safe (VDict f) && json_safe (VDict r)); [|discriminate].
destruct (PrimFloat.is_nan c'); [discriminate|].
unfold Ai.fresh_id. cbn [Ai.service Ai.calls Ai.extractions Ai.records].
destruct (uuid12 (Ai.service St w1)) as [u st].
unfold Record_init. rewrite Vd, Vf, !str_kept.
unfold Ai.upsert_record. cbn [r_fields r_id Ai.service Ai.calls Ai.extractions Ai.records].
destruct (json_safe (VDict f)); [|discriminate].
destruct (indexed && negb (sqlite_json (VDict f))); [discriminate|].
intros [= <- <-]. cbn [Ai.extractions Ai.records Ai.calls].
exists kind,
  {| ex_id := i; ex_doc_id := d; ex_model := m; ex_schema := s; ex_fields := f;
     ex_confidence := c'; ex_raw_json := r |},
  {| r_id := "rec_" ++ u; r_document_id := d; r_extraction_id := Some i;
     r_type := type_map_get kind; r_fields := f |}.
cbn [r_id r_document_id r_extraction_id r_type r_fields ex_id ex_fields ex_doc_id].
rewrite He1, Hr1, Hc1.
repeat split; auto. intros Hx. rewrite <- (Hxid Hx). exact Vi.
Qed.


Lemma confirm_raise (payload : dict) (w w' : Ai.world St) (e : exn) :
  confirm payload w = (Raise e, w') ->
  Ai.records St w' = Ai.records St w
  /\ Ai.calls St w' = Ai.calls St w
  /\ (Ai.extractions St w' = Ai.extractions St w
      \/ (e = OperationalError /\ indexed = true
          /\ exists extraction,
               Ai.extractions St w'
               = Ai.upsert ex_id extraction (Ai.extractions St w)
               /\ validate_dict (Ap.or_ (get_or_none "fields" payload) (VDict []))
                  = Some (ex_fields extraction)
               /\ sqlite_json (VDict (ex_fields extraction)) = false)).
Proof.
unfold confirm_record.
destruct (truthy (get_or_none "doc_id" payload)); cbn [negb].
2: { intros H. unfold Ai.ret in H. discriminate H. }
unfold Ai.bindM, Ai.lift, Ai.ret.
destruct (lower_of _) as [kind|e0]; [|intros [= <- <-]; auto].
set (xid := get_or_none "extraction_id" payload).
assert (Hid : exists id w1,
  Ai.extractions St w1 = Ai.extractions St w
  /\ Ai.records St w1 = Ai.records St w
  /\ Ai.calls St w1 = Ai.calls St w
  /\ (if truthy xid then Ai.ret St xid
      else Ai.bindM St (Ai.fresh_id St uuid12 "ext_")
                    (fun u => Ai.ret St (VStr u))) w = (Ok id, w1)).
{ destruct (truthy xid); [exists xid, w; auto 6|].
  unfold Ai.bindM, Ai.fresh_id, Ai.ret. destruct (uuid12 (Ai.service St w)) as [u st].
  exists (VStr ("ext_" ++ u)),
    {| Ai.service := st; Ai.calls := Ai.calls St w;
       Ai.extractions := Ai.extractions St w; Ai.records := Ai.records St w |}.
  repeat split. }
destruct Hid as (id & w1 & He1 & Hr1 & Hc1 & Hstep).
unfold Ai.bindM, Ai.ret in Hstep. rewrite Hstep. clear Hstep.
destruct (py_float float_of_str _) as [c|e0]; [|intros [= <- <-]; auto].
unfold Extraction_init.
destruct (validate_str T id) as [i|]; [|intros [= <- <-]; auto].
destruct (validate_str T (get_or_none "doc_id" payload)) as [d|] eqn:Vd;
  [|intros [= <- <-]; auto].
destruct (validate_str T (Ap.or_ (get_or_none "model" payload) _)) as [m|];
  [|intros [= <- <-]; auto].
destruct (validate_str T (Ap.or_ (get_or_none "schema" payload) _)) as [s|];
  [|intros [= <- <-]; auto].
destruct (validate_dict (Ap.or_ (get_or_none "fields" payload) _)) as [f|] eqn:Vf;
  [|intros [= <- <-]; auto].
destruct (validate_float T (VFloat c)) as [c'|]; [|intros [= <- <-]; auto].
destruct (validate_dict (Ap.or_ (get_or_none "raw_json" payload) _)) as [r|];
  [|intros [= <- <-]; auto].
unfold Ai.upsert_extraction. cbn [ex_fields ex_raw_json ex_confidence ex_id].
destruct (json_safe (VDict f)) eqn:Jf; cbn [andb]; [|intros [= <- <-]; auto].
destruct (json_safe (VDict r)); [|intros [= <- <-]; auto].
destruct (PrimFloat.is_nan c'); [intros [= <- <-]; auto|].
unfold Ai.fresh_id. cbn [Ai.service Ai.calls Ai.extractions Ai.records].
destruct (uuid12 (Ai.service St w1)) as [u st].
unfold Record_init. rewrite Vd, Vf, !str_kept.
unfold Ai.upsert_record. cbn [r_fields r_id Ai.service Ai.calls Ai.extractions Ai.records].
rewrite Jf. destruct indexed; cbn [andb]; [|discriminate].
destruct (sqlite_json (VDict f)) eqn:Hq; cbn [negb]; [discriminate|].
intros [= <- <-]. cbn [Ai.records Ai.calls Ai.extractions].
split; [exact Hr1|]. split; [exact Hc1|]. right.
split; [reflexivity|]. split; [reflexivity|].
exists {| ex_id := i; ex_doc_id := d; ex_model := m; ex_schema := s; ex_fields := f;
          ex_confidence := c'; ex_raw_json := r |}.
cbn [ex_fields]. rewrite He1. auto.
Qed.

(** X22. [confirm_record] asks for a [doc_id]: a payload
    whose [doc_id] is missing, null or empty is answered with the error
    400 and nothing is touched, and that is the only error answer. A call
    that raises instead - a type that is no text, a confidence that is
    no number, a value the models refuse or JSON cannot encode - has
    written no record, and no extraction either, with one exception:
    with the indexes on [records] in place, fields that hold a number
    that is not finite fail in [upsert_record] with an
    [OperationalError] after the extraction was written. *)
Theorem confirm_record_errors (payload : dict) (w : Ai.world St) :
  (truthy (get_or_none "doc_id" payload) = false ->
   confirm payload w = (Ok (Ap.HTTPError 400 "doc_id is required"), w))
  /\ (forall status detail w',
        confirm payload w = (Ok (Ap.HTTPError status detail), w') ->
        truthy (get_or_none "doc_id" payload) = false)
  /\ (forall e w',
        confirm payload w = (Raise e, w') ->
        truthy (get_or_none "doc_id" payload) = true
        /\ Ai.records St w' = Ai.records St w
        /\ (Ai.extractions St w' = Ai.extractions St w
            \/ (e = OperationalError /\ indexed = true
                /\ exists extraction,
                     Ai.extractions St w'
                     = Ai.upsert ex_id extraction (Ai.extractions St w)
                     /\ validate_dict (Ap.or_ (get_or_none "fields" payload) (VDict []))
                        = Some (ex_fields extraction)
                     /\ sqlite_json (VDict (ex_fields extraction)) = false))).
Proof.
split; [|split].
- intros H. unfold confirm_record. rewrite H. reflexivity.
- intros status detail w' H.
  destruct (truthy (get_or_none "doc_id" payload)) eqn:Ed; [|reflexivity].
  exfalso. revert H. unfold confirm_record. rewrite Ed. cbn [negb].
  unfold Ai.bindM, Ai.lift, Ai.ret.
  repeat match goal with
         | |- (let (_, _) := match ?x with _ => _ end in _) = _ -> _ => destruct x
         | |- match ?x with _ => _ end = _ -> _ => destruct x
         | |- (if ?x then _ else _) _ = _ -> _ => destruct x
         | |- (let (_, _) := ?x in _) = _ -> _ => destruct x
         end; try discriminate.
- intros e w' H. destruct (confirm_raise _ _ _ _ H) as (Hr & _ & He).
  split; [|auto].
  destruct (truthy (get_or_none "doc_id" payload)) eqn:Ed; [reflexivity|].
  revert H. unfold confirm_record. rewrite Ed. discriminate.
Qed.

(** X23. A call of [confirm_record] that answers has
    written one extraction and one record under a new identifier: the
    record carries the document, the fields and the type of the payload
    - the type read without regard to case, [other] when missing or
    unknown - and points to the extraction, whose identifier is the
    [extraction_id] of the payload when there is one. When the new
    identifier is not in the table the record is added at its end,
    whatever records the document already has. *)
Theorem confirm_record_adds (payload : dict) (w w' : Ai.world St) (rid : string) :
  confirm payload w = (Ok (Ap.Body rid), w') ->
  exists kind extraction record,
    lower_of (Ap.or_ (get_or_none "type" payload) (VStr "other")) = Ok kind
    /\ r_id record = rid
    /\ validate_str T (get_or_none "doc_id" payload) = Some (r_document_id record)
    /\ r_extraction_id record = Some (ex_id extraction)
    /\ r_type record = type_map_get kind
    /\ validate_dict (Ap.or_ (get_or_none "fields" payload) (VDict []))
       = Some (r_fields record)
    /\ (truthy (get_or_none "extraction_id" payload) = true ->
        validate_str T (get_or_none "extraction_id" payload)
        = Some (ex_id extraction))
    /\ Ai.extractions St w' = Ai.upsert ex_id extraction (Ai.extractions St w)
    /\ Ai.records St w' = Ai.upsert r_id record (Ai.records St w)
    /\ (~ In rid (map r_id (Ai.records St w)) ->
        Ai.records St w' = (Ai.records St w ++ [record])%list).
Proof.
intros H.
destruct (confirm_inv _ _ _ _ H)
  as (kind & e & r & _ & Hk & Hid & Hd & Hx & Ht & Hf & _ & _ & Hxid & He & Hr & _).
exists kind, e, r. repeat split; auto.
intros Hfresh. rewrite Hr. apply upsert_fresh. now rewrite Hid.
Qed.

Lemma upsert_has {A} (id_of : A -> string) (x : A) (rows : list A) :
  In (id_of x) (map id_of (Ai.upsert id_of x rows)).
Proof.
induction rows as [|y r IH]; simpl; [now left|].
destruct (String.eqb (id_of y) (id_of x)); simpl; [now left | now right].
Qed.

(** X24. Confirming is not idempotent: two calls of
    [confirm_record] with the same payload, each under an identifier the
    table does not have, leave two records at the end of the table that
    differ in their identifier only when the payload names its
    extraction - the second call then overwrites that one extraction
    instead of adding another. *)
Theorem confirm_record_twice (payload : dict) (w w1 w2 : Ai.world St)
    (rid1 rid2 : string) :
  confirm payload w = (Ok (Ap.Body rid1), w1) ->
  confirm payload w1 = (Ok (Ap.Body rid2), w2) ->
  ~ In rid1 (map r_id (Ai.records St w)) ->
  ~ In rid2 (map r_id (Ai.records St w1)) ->
  exists r1 r2,
    Ai.records St w2 = (Ai.records St w ++ [r1; r2])%list
    /\ r_id r1 = rid1 /\ r_id r2 = rid2 /\ rid1 <> rid2
    /\ r_document_id r1 = r_document_id r2
    /\ r_type r1 = r_type r2
    /\ r_fields r1 = r_fields r2
    /\ (truthy (get_or_none "extraction_id" payload) = true ->
        r_extraction_id r1 = r_extraction_id r2
        /\ length (Ai.extractions St w2) = length (Ai.extractions St w1)).
Proof.
intros H1 H2 F1 F2.
destruct (confirm_inv _ _ _ _ H1)
  as (k1 & e1 & r1 & _ & Hk1 & Hid1 & Hd1 & Hx1 & Ht1 & Hf1 & _ & _ & Hxid1 & He1 & Hr1 & _).
destruct (confirm_inv _ _ _ _ H2)
  as (k2 & e2 & r2 & _ & Hk2 & Hid2 & Hd2 & Hx2 & Ht2 & Hf2 & _ & _ & Hxid2 & He2 & Hr2 & _).
exists r1, r2.
assert (R1 : Ai.records St w1 = (Ai.records St w ++ [r1])%list)
  by (rewrite Hr1; apply upsert_fresh; now rewrite Hid1).
assert (R2 : Ai.records St w2 = (Ai.records St w1 ++ [r2])%list)
  by (rewrite Hr2; apply upsert_fresh; now rewrite Hid2).
split; [rewrite R2, R1, <- app_assoc; reflexivity|].
split; [exact Hid1|]. split; [exact Hid2|].
split.
{ intros E. apply F2. rewrite R1, map_app, <- E, <- Hid1. apply in_or_app. right.
  now left. }
split; [congruence|]. split; [congruence|]. split; [congruence|].
intros Hx. specialize (Hxid1 Hx). specialize (Hxid2 Hx).
assert (E : ex_id e1 = ex_id e2) by congruence.
split; [congruence|].
rewrite He2. apply upsert_known. rewrite He1, <- E. apply upsert_has.
Qed.

End ConfirmFacts.

(** ** The two type maps *)

(** X25. The type map of [confirm_record] and the map of the
    classifier give the same stored type for every kind but two:
    [invoice], which only [confirm_record] files as an invoice, and
    [estimate], which only the classifier files as a purchase order. *)
Theorem type_maps_agree (kind : string) :
  Ai.DOC_TYPE_MAP_get (Val.VStr kind) = Val.Ok (Confirm.type_map_get kind)
  <-> kind <> "invoice" /\ kind <> "estimate".
Proof.
unfold Ai.DOC_TYPE_MAP_get, Confirm.type_map_get. split.
- intros H. split; intros ->; discriminate H.
- intros [H1 H2].
  destruct (String.eqb_spec kind "invoice") as [E|_]; [contradiction|].
  destruct (String.eqb_spec kind "estimate") as [E|_]; [contradiction|].
  repeat match goal with
         | |- context [String.eqb kind ?s] => destruct (String.eqb kind s)
         end; reflexivity.
Qed.

(** *** [confirm_record] on the example payloads *)

Section ConfirmExamples.
Import Val Models Confirm.

Lemma lax_keeps_str (s : string) : validate_str Examples.lax (VStr s) = Some s.
Proof. reflexivity. Qed.

Lemma confirm_record_errors_witness :
  ConfirmExample.confirm_record ConfirmExample.payload_no_doc Examples.world_0
  = (Ok (Ap.HTTPError 400 "doc_id is required"), Examples.world_0).
Proof.
apply (proj1 (confirm_record_errors nat ConfirmExample.uuid12 Examples.float_of_str
                Examples.lax ConfirmExample.validate_dict false lax_keeps_str
                ConfirmExample.payload_no_doc Examples.world_0)).
reflexivity.
Defined.

Lemma confirm_record_adds_witness :
  exists record,
    Ai.records nat (snd (ConfirmExample.confirm_record ConfirmExample.payload_receipt
                           Examples.world_0))
    = [record]
    /\ r_type record = RECEIPT /\ r_extraction_id record = Some "ext_a".
Proof.
destruct (confirm_record_adds nat ConfirmExample.uuid12 Examples.float_of_str
            Examples.lax ConfirmExample.validate_dict false lax_keeps_str
            ConfirmExample.payload_receipt Examples.world_0
            (snd (ConfirmExample.confirm_record ConfirmExample.payload_receipt
                    Examples.world_0))
            "rec_000000000000" eq_refl)
  as (kind & e & r & Hk & _ & _ & Hx & Ht & _ & Hxid & _ & _ & Hfresh).
exists r. split; [apply Hfresh; simpl; tauto|].
split.
- rewrite Ht. injection Hk as <-. reflexivity.
- rewrite Hx. f_equal. specialize (Hxid eq_refl). injection Hxid as <-. reflexivity.
Defined.

Lemma confirm_record_twice_witness :
  exists r1 r2,
    Ai.records nat
      (snd (ConfirmExample.confirm_record ConfirmExample.payload_receipt
              (snd (ConfirmExample.confirm_record ConfirmExample.payload_receipt
                      Examples.world_0))))
    = [r1; r2]
    /\ r_id r1 = "rec_000000000000" /\ r_id r2 = "rec_000000000001"
    /\ r_fields r1 = r_fields r2.
Proof.
destruct (confirm_record_twice nat ConfirmExample.uuid12 Examples.float_of_str
            Examples.lax ConfirmExample.validate_dict false lax_keeps_str
            ConfirmExample.payload_receipt Examples.world_0 _ _
            "rec_000000000000" "rec_000000000001" eq_refl eq_refl)
  as (r1 & r2 & H & H1 & H2 & _ & _ & _ & Hf & _).
- simpl. tauto.
- vm_compute. intros [E|[]]. discriminate E.
- exists r1, r2. auto.
Defined.

End ConfirmExamples.

(** ** The CSV export *)

Section ExportFacts.
Import Val Models CsvExport.

Variable str_of : value -> string.

Abbreviation export_csv := (export_records_csv str_of).
(** The text of the lines [ls], each ended by a line feed. *)
Abbreviation text_of ls :=
  (fold_right (fun l t => (l ++ Ai.nl ++ t)%string) EmptyString ls).
Abbreviation header_of first :=
  (join "," ("id" :: "document_id" :: "type"
             :: map (fun kv => ("field_" ++ fst kv)%string) (r_fields first))).
(** The line of [r] under the header of [first]. *)
Abbreviation line_of first r :=
  (join "," (r_id r :: r_document_id r :: type_value (r_type r)
             :: map (fun kv => str_of (get_or_none (fst kv) (r_fields r)))
                    (r_fields first))).

Lemma lookup_field (k : string) (r : Record_) :
  lookup ("field_" ++ k) (export_row str_of r) = option_map str_of (get k (r_fields r)).
Proof.
unfold export_row. cbn [app lookup]. cbn [String.append String.eqb Ascii.eqb Bool.eqb].
induction (r_fields r) as [|[k' v] d IH]; [reflexivity|].
cbn [map lookup get fst snd]. cbn [String.append String.eqb Ascii.eqb Bool.eqb].
destruct (String.eqb k k'); [reflexivity | exact IH].
Qed.

Lemma has_key_get (k : string) (d : dict) :
  has_key k d = true <-> exists v, get k d = Some v.
Proof.
induction d as [|[k' v] d IH]; simpl.
- split; [discriminate | intros [v H]; discriminate].
- destruct (String.eqb k k'); simpl; [split; eauto | exact IH].
Qed.

Lemma cells_fields (fs : dict) (r : Record_) :
  match cells (map (fun kv => ("field_" ++ fst kv)%string) fs) (export_row str_of r) with
  | inr vs =>
      vs = map (fun kv => str_of (get_or_none (fst kv) (r_fields r))) fs
      /\ forall k, has_key k fs = true -> has_key k (r_fields r) = true
  | inl h =>
      exists k, h = ("field_" ++ k)%string /\ has_key k fs = true
                /\ has_key k (r_fields r) = false
  end.
Proof.
induction fs as [|[k v] fs IH]; [split; [reflexivity | discriminate]|].
cbn [map cells fst]. rewrite lookup_field.
destruct (get k (r_fields r)) as [x|] eqn:Eg; cbn [option_map].
- destruct (cells _ _) as [h|vs].
  + destruct IH as (k' & -> & H1 & H2). exists k'. repeat split; auto.
    simpl. rewrite H1. apply orb_true_r.
  + destruct IH as [-> IH]. split.
    * cbn [map fst]. unfold get_or_none. rewrite Eg. reflexivity.
    * intros k0. simpl. destruct (String.eqb_spec k0 k) as [->|_]; simpl; [|apply IH].
      intros _. apply has_key_get. eauto.
- exists k. repeat split.
  + simpl. now rewrite String.eqb_refl.
  + destruct (has_key k (r_fields r)) eqn:Eh; [|reflexivity].
    apply has_key_get in Eh as [x Hx]. congruence.
Qed.

Lemma cells_row (first r : Record_) :
  match cells (map fst (export_row str_of first)) (export_row str_of r) with
  | inr vs =>
      join "," vs = line_of first r
      /\ forall k, has_key k (r_fields first) = true -> has_key k (r_fields r) = true
  | inl h =>
      exists k, h = ("field_" ++ k)%string /\ has_key k (r_fields first) = true
                /\ has_key k (r_fields r) = false
  end.
Proof.
pose proof (cells_fields (r_fields first) r) as H.
unfold export_row at 1. rewrite map_app, map_map. cbn [map app fst].
cbn [cells]. unfold export_row at 1 2 3. cbn [app lookup String.eqb Ascii.eqb Bool.eqb].
fold (export_row str_of r).
destruct (cells _ (export_row str_of r)) as [h|vs]; [exact H|].
destruct H as [-> H]. split; [reflexivity | exact H].
Qed.

Lemma write_rows_spec (first : Record_) (rs : list Record_) :
  match write_rows (map fst (export_row str_of first)) (export_records str_of rs) with
  | inr text =>
      text = text_of (map (fun r => line_of first r) rs)
      /\ forall r k, In r rs -> has_key k (r_fields first) = true ->
                     has_key k (r_fields r) = true
  | inl h =>
      exists before r after k,
        rs = (before ++ r :: after)%list /\ h = ("field_" ++ k)%string
        /\ has_key k (r_fields first) = true /\ has_key k (r_fields r) = false
        /\ forall r' k', In r' before -> has_key k' (r_fields first) = true ->
                         has_key k' (r_fields r') = true
  end.
Proof.
induction rs as [|r rs IH]; [split; [reflexivity | intros ? ? []]|].
cbn [export_records map write_rows]. pose proof (cells_row first r) as Hc.
destruct (cells _ (export_row str_of r)) as [h|vs].
- destruct Hc as (k & -> & H1 & H2). exists [], r, rs, k. repeat split; auto.
- destruct Hc as [Hl Hk]. fold (export_records str_of rs).
  destruct (write_rows _ (export_records str_of rs)) as [h|text].
  + destruct IH as (b & r0 & a & k & -> & -> & H1 & H2 & Hb).
    exists (r :: b), r0, a, k. repeat split; auto.
    intros r' k' [<-|Hin]; [apply Hk | apply Hb, Hin].
  + destruct IH as [-> IH]. split.
    * rewrite Hl. reflexivity.
    * intros r' k' [<-|Hin]; [apply Hk | apply IH, Hin].
Qed.

Lemma export_csv_cons (first : Record_) (rest : list Record_) :
  export_csv (first :: rest)
  = match write_rows (map fst (export_row str_of first))
                     (export_records str_of (first :: rest)) with
    | inl k => KeyError k
    | inr text => Csv (header_of first ++ Ai.nl ++ text)
    end.
Proof.
unfold export_records_csv. cbn [export_records map]. do 2 f_equal.
unfold export_row. rewrite map_app, map_map. reflexivity.
Qed.

(** X26. The export of a table whose records all have the
    fields of the first one is a header line and one line per record, in
    the order of the records. The header is [id], [document_id], [type]
    and the fields of the first record; every line gives the cells of
    its record in the order of the header, joined by commas as they are,
    and a field the first record does not have appears nowhere. An empty
    table is answered with the empty list, not with a text. *)
Theorem export_csv_text (first : Record_) (rest : list Record_) :
  (forall r k, In r rest -> has_key k (r_fields first) = true ->
               has_key k (r_fields r) = true) ->
  export_csv (first :: rest)
  = Csv (text_of (header_of first :: map (fun r => line_of first r) (first :: rest)))
  /\ export_csv [] = Empty.
Proof.
intros H. split; [|reflexivity].
rewrite export_csv_cons.
pose proof (write_rows_spec first (first :: rest)) as Hw.
destruct (write_rows _ _) as [h|text].
- exfalso. destruct Hw as (b & r & a & k & Heq & _ & H1 & H2 & _).
  assert (Hin : In r (first :: rest)) by (rewrite Heq; apply in_elt).
  destruct Hin as [<-|Hin]; [congruence|].
  rewrite (H r k Hin H1) in H2. discriminate.
- destruct Hw as [-> _]. reflexivity.
Qed.

(** X27. The export fails with a [KeyError] exactly when a
    record lacks a field of the first record of the table: the key
    reported is the column [field_<name>] of a field the first such
    record lacks. The records before it have every field of the first
    one; what the records have beyond those fields plays no part. *)
Theorem export_csv_key_error (first : Record_) (rest : list Record_) :
  ((exists h, export_csv (first :: rest) = KeyError h)
   <-> exists r k, In r rest /\ has_key k (r_fields first) = true
                   /\ has_key k (r_fields r) = false)
  /\ forall h,
       export_csv (first :: rest) = KeyError h ->
       exists before r after k,
         rest = (before ++ r :: after)%list /\ h = ("field_" ++ k)%string
         /\ has_key k (r_fields first) = true /\ has_key k (r_fields r) = false
         /\ forall r' k', In r' before -> has_key k' (r_fields first) = true ->
                          has_key k' (r_fields r') = true.
Proof.
assert (Hgen : forall h,
  export_csv (first :: rest) = KeyError h ->
  exists before r after k,
    rest = (before ++ r :: after)%list /\ h = ("field_" ++ k)%string
    /\ has_key k (r_fields first) = true /\ has_key k (r_fields r) = false
    /\ forall r' k', In r' before -> has_key k' (r_fields first) = true ->
                     has_key k' (r_fields r') = true).
{ intros h. rewrite export_csv_cons.
  pose proof (write_rows_spec first (first :: rest)) as Hw.
  destruct (write_rows _ _) as [h'|text]; [|discriminate]. intros [= <-].
  destruct Hw as (b & r & a & k & Heq & -> & H1 & H2 & Hb).
  destruct b as [|x b]; simpl in Heq; injection Heq as <- ->; [congruence|].
  exists b, r, a, k. repeat split; auto. intros r' k' Hin. apply Hb. now right. }
split; [|exact Hgen]. split.
- intros [h Hh]. destruct (Hgen h Hh) as (b & r & a & k & -> & _ & H1 & H2 & _).
  exists r, k. split; [apply in_elt | auto].
- intros (r & k & Hin & H1 & H2). rewrite export_csv_cons.
  pose proof (write_rows_spec first (first :: rest)) as Hw.
  destruct (write_rows _ _) as [h'|text]; [eauto|].
  destruct Hw as [_ Hw]. rewrite (Hw r k (or_intror Hin) H1) in H2. discriminate.
Qed.

End ExportFacts.

(** *** The export of the example records *)

Section ExportExamples.
Import Val Models CsvExport.

Lemma export_csv_text_witness :
  export_records_csv ExportExample.str_of
    [ExportExample.record_acme; ExportExample.record_bolt]
  = Csv ("id,document_id,type,field_vendor" ++ Ai.nl
         ++ "rec_1,doc_1,invoice,Acme, Inc" ++ Ai.nl
         ++ "rec_2,doc_2,receipt,Bolt" ++ Ai.nl).
Proof.
refine (proj1 (export_csv_text ExportExample.str_of ExportExample.record_acme
                 [ExportExample.record_bolt] _)).
intros r k [<-|[]] H. simpl in H. rewrite orb_false_r in H.
apply String.eqb_eq in H. subst k. reflexivity.
Defined.

Lemma export_csv_key_error_witness :
  exists before r after k,
    [ExportExample.record_bolt; ExportExample.record_bare]
    = (before ++ r :: after)%list
    /\ "field_vendor" = ("field_" ++ k)%string
    /\ has_key k (r_fields ExportExample.record_acme) = true
    /\ has_key k (r_fields r) = false
    /\ forall r' k', In r' before ->
                     has_key k' (r_fields ExportExample.record_acme) = true ->
                     has_key k' (r_fields r') = true.
Proof.
apply (proj2 (export_csv_key_error ExportExample.str_of ExportExample.record_acme
                [ExportExample.record_bolt; ExportExample.record_bare])
             "field_vendor").
reflexivity.
Defined.

End ExportExamples.

(** ** Listing records *)

Section ListingFacts.
Import Val Models Listing.

Variable json_dumps : dict -> string.

(** A text without the two wildcards of [LIKE]. *)
Abbreviation no_wildcard t :=
  (Py.str_forall (fun c => negb (Ascii.eqb c "%" || Ascii.eqb c "_")) t).
(** [t] occurs in [s], the case of ASCII letters apart. *)
Abbreviation occurs t s :=
  (exists a m b, s = (a ++ m ++ b)%string
                 /\ Py.sqlite_lower m = Py.sqlite_lower t).

Lemma filter_true {A} (p : A -> bool) (l : list A) :
  (forall x, p x = true) -> List.filter p l = l.
Proof.
intros H. induction l as [|a l IH]; simpl; [reflexivity|]. now rewrite H, IH.
Qed.

Lemma like_any (p t : string) :
  like (String "%" p) t = true
  <-> exists a b, t = (a ++ b)%string /\ like p b = true.
Proof.
cbn [like Ascii.eqb Bool.eqb].
induction t as [|d t IH].
- split.
  + intros H. apply orb_true_iff in H as [H|H]; [|discriminate].
    exists EmptyString, EmptyString. auto.
  + intros (a & b & Hab & Hb). destruct a; [|discriminate]. simpl in Hab. subst b.
    rewrite Hb. reflexivity.
- split.
  + intros H. apply orb_true_iff in H as [H|H].
    * exists EmptyString, (String d t). auto.
    * apply IH in H as (a & b & -> & Hb). exists (String d a), b. auto.
  + intros (a & b & Hab & Hb). apply orb_true_iff.
    destruct a as [|c a]; simpl in Hab.
    * subst b. now left.
    * injection Hab as <- ->. right. apply IH. eauto.
Qed.

Lemma like_percent (t : string) : like "%" t = true.
Proof.
apply like_any. exists t, EmptyString. split; [|reflexivity].
induction t as [|c t IH]; simpl; [reflexivity | now rewrite <- IH].
Qed.

Lemma like_plain (t q s : string) :
  no_wildcard t = true ->
  (like (t ++ q) s = true
   <-> exists m b, s = (m ++ b)%string
                   /\ Py.sqlite_lower m = Py.sqlite_lower t /\ like q b = true).
Proof.
revert s. induction t as [|c t IH]; intros s Hw.
- simpl. split.
  + intros H. exists EmptyString, s. auto.
  + intros (m & b & -> & Hm & Hb). destruct m; [exact Hb | discriminate].
- simpl in Hw. apply andb_true_iff in Hw as [Hc Hw].
  apply negb_true_iff, orb_false_iff in Hc as [Hc1 Hc2].
  change ((String c t ++ q)%string) with (String c (t ++ q)).
  cbn [like]. rewrite Hc1.
  destruct s as [|d s].
  + split; [discriminate|]. intros (m & b & Hs & Hm & _).
    destruct m; [discriminate Hm | discriminate Hs].
  + rewrite Hc2. cbn [orb]. rewrite andb_true_iff, (IH s Hw). unfold like_char. split.
    * intros [Hcd (m & b & -> & Hm & Hb)]. exists (String d m), b.
      split; [reflexivity|]. split; [|exact Hb].
      apply Ascii.eqb_eq in Hcd. unfold Py.sqlite_lower in *. simpl. congruence.
    * intros (m & b & Hs & Hm & Hb). destruct m as [|d' m]; [discriminate Hm|].
      simpl in Hs. injection Hs as <- ->. unfold Py.sqlite_lower in *.
      simpl in Hm. injection Hm as Hd Hm.
      split; [apply Ascii.eqb_eq; congruence|]. exists m, b. auto.
Qed.

Lemma like_contains (t s : string) :
  no_wildcard t = true ->
  like ("%" ++ t ++ "%") s = true <-> occurs t s.
Proof.
intros Hw. change (("%" ++ t ++ "%")%string) with (String "%" (t ++ "%")).
rewrite like_any. split.
- intros (a & b & -> & Hb). apply (like_plain t "%" b Hw) in Hb as (m & b' & -> & Hm & _).
  exists a, m, b'. auto.
- intros (a & m & b & -> & Hm). exists a, (m ++ b)%string. split; [reflexivity|].
  apply (like_plain t "%" _ Hw). exists m, b. split; [reflexivity|].
  split; [exact Hm | apply like_percent].
Qed.

Lemma until_nul_append (a b : string) :
  Py.until_nul a = a -> Py.until_nul (a ++ b) = (a ++ Py.until_nul b)%string.
Proof.
induction a as [|c a IH]; simpl; [reflexivity|].
destruct (Py.code c =? 0)%N; [discriminate|]. intros [= H]. now rewrite (IH H).
Qed.

Lemma utf8_length_append (a b : string) :
  utf8_length (a ++ b) = (utf8_length a + utf8_length b)%N.
Proof.
induction a as [|c a IH]; simpl; [reflexivity|]. rewrite IH. lia.
Qed.

Lemma utf8_length_pattern (text : string) :
  utf8_length ("%" ++ text ++ "%") = (utf8_length text + 2)%N.
Proof.
change (("%" ++ text ++ "%")%string) with (String "%" (text ++ "%")).
cbn [utf8_length]. rewrite utf8_length_append.
change (Py.code "%" <? 128)%N with true. cbv iota.
change (utf8_length "%") with 1%N. lia.
Qed.

(** The pattern of a query within the limit and without U+0000 is
    matched as it is. *)
Lemma sqlite_like_query (text s : string) :
  Py.until_nul text = text ->
  (utf8_length text <= 49998)%N ->
  sqlite_like ("%" ++ text ++ "%") s
  = Ok (like ("%" ++ text ++ "%") (Py.until_nul s)).
Proof.
intros Hz Hl. unfold sqlite_like. rewrite utf8_length_pattern.
unfold like_limit. destruct (N.ltb_spec 50000 (utf8_length text + 2)) as [H|_]; [lia|].
change (("%" ++ text ++ "%")%string) with (String "%" (text ++ "%")).
cbn [Py.until_nul]. change (Py.code "%" =? 0)%N with false. cbv iota.
rewrite (until_nul_append _ _ Hz). reflexivity.
Qed.

Lemma sqlite_like_long (text s : string) :
  (49998 < utf8_length text)%N ->
  sqlite_like ("%" ++ text ++ "%") s = Raise OperationalError.
Proof.
intros Hl. unfold sqlite_like. rewrite utf8_length_pattern.
unfold like_limit. destruct (N.ltb_spec 50000 (utf8_length text + 2)) as [_|H]; [|lia].
reflexivity.
Qed.

(** A statement whose clause fails on no row yields the rows that pass
    it. *)
Lemma select_filter (clause : Record_ -> result bool) (p : Record_ -> bool)
    (rows : list Record_) :
  (forall r, In r rows -> clause r = Ok (p r)) ->
  select clause rows = Ok (List.filter p rows).
Proof.
induction rows as [|r rest IH]; intros H; simpl; [reflexivity|].
rewrite (H r (or_introl eq_refl)). cbn [bind].
rewrite IH by (intros x Hx; apply H; right; exact Hx). reflexivity.
Qed.

Lemma given_nonempty (s : string) : s <> EmptyString -> given (Some s) = Some s.
Proof.
destruct s; [congruence | reflexivity].
Qed.

(** The clause of a row, its filters read. *)
Ltac open_where :=
  unfold where_; rewrite ?given_nonempty by (assumption || discriminate);
  change (given None) with (@None string); cbv iota.

(** X28. [get_records] with a query that has neither [%] nor
    [_] nor U+0000 and whose pattern is within the limit of SQLite (not
    more than 49998 bytes of query) lists, in the order of the table,
    exactly the records whose stored fields text, read up to its first
    U+0000, contains the query, the case of ASCII letters apart; a type
    given as well keeps the records of exactly that type text. A query
    or type that is empty is no filter. A query of more than 49998 bytes
    fails with [OperationalError] as soon as the table has a row. *)
Theorem get_records_query (records : list Record_) (type_ : option string)
    (text : string) :
  text <> EmptyString ->
  no_wildcard text = true ->
  Py.until_nul text = text ->
  (utf8_length text <= 49998)%N ->
  (exists rows, get_records json_dumps records type_ None = Ok rows
     /\ get_records json_dumps records type_ (Some text)
        = Ok (List.filter
                (fun r => like ("%" ++ text ++ "%")
                               (Py.until_nul (json_dumps (r_fields r))))
                rows))
  /\ (exists l, get_records json_dumps records None (Some text) = Ok l
        /\ l = List.filter
                 (fun r => like ("%" ++ text ++ "%")
                                (Py.until_nul (json_dumps (r_fields r))))
                 records
        /\ forall r, In r l
                     <-> In r records
                         /\ occurs text (Py.until_nul (json_dumps (r_fields r))))
  /\ (forall kind, kind <> EmptyString ->
        get_records json_dumps records (Some kind) None
        = Ok (List.filter
                (fun r => String.eqb (CsvExport.type_value (r_type r)) kind)
                records))
  /\ get_records json_dumps records (Some "") (Some "") = Ok records
  /\ (forall long r rs, (49998 < utf8_length long)%N -> records = r :: rs ->
        get_records json_dumps records None (Some long) = Raise OperationalError).
Proof.
intros Hne Hw Hz Hl. unfold get_records, list_records.
rewrite !(given_nonempty text Hne). change (given (given None)) with (@None string).
split; [|split; [|split; [|split]]].
- exists (List.filter
            (fun r => match given (given type_) with
                      | Some doc_type =>
                          String.eqb (CsvExport.type_value (r_type r)) doc_type
                      | None => true
                      end) records).
  split.
  + apply select_filter. intros r _. open_where.
    destruct (match given (given type_) with Some _ => _ | None => true end);
      reflexivity.
  + rewrite (select_filter _
               (fun r => match given (given type_) with
                         | Some doc_type =>
                             String.eqb (CsvExport.type_value (r_type r)) doc_type
                         | None => true
                         end
                         && like ("%" ++ text ++ "%")
                                 (Py.until_nul (json_dumps (r_fields r))))).
    * f_equal. induction records as [|r rs IH]; [reflexivity|]. cbn [List.filter].
      destruct (match given (given type_) with Some _ => _ | None => true end);
        cbn [andb List.filter]; rewrite IH; reflexivity.
    * intros r _. open_where.
      destruct (match given (given type_) with Some _ => _ | None => true end);
        cbn [andb]; [|reflexivity].
      apply sqlite_like_query; assumption.
- eexists. split; [|split; [reflexivity|]].
  + apply select_filter. intros r _. open_where.
    apply sqlite_like_query; assumption.
  + intros r. rewrite filter_In, (like_contains _ _ Hw). reflexivity.
- intros kind Hk. rewrite !(given_nonempty kind Hk).
  apply select_filter. intros r _. open_where.
  destruct (String.eqb _ kind); reflexivity.
- cbn [given Py.is_empty].
  rewrite (select_filter _ (fun _ => true)); [|reflexivity].
  f_equal. apply filter_true. reflexivity.
- intros long r rs Hlong ->.
  assert (Hn : long <> EmptyString) by (intros ->; simpl in Hlong; lia).
  rewrite !(given_nonempty long Hn). cbn [select]. open_where.
  rewrite (sqlite_like_long _ _ Hlong). reflexivity.
Qed.

(** X29. The query of [get_records] is put into the [LIKE]
    pattern as it is, so its [%] and [_] are wildcards and SQLite reads
    it up to its first U+0000: the query [%] lists every record; a query
    made of [_] only, within the limit of SQLite, lists the records whose
    fields text has at least as many characters before its first U+0000;
    and a query within the limit that begins with U+0000 lists every
    record. *)
Theorem get_records_wildcards (records : list Record_) (n : nat) :
  (N.of_nat n < 49998)%N ->
  get_records json_dumps records None (Some "%") = Ok records
  /\ get_records json_dumps records None
       (Some (String "_" (string_of_list_ascii (repeat "_"%char n))))
     = Ok (List.filter
             (fun r => Nat.ltb n (String.length (Py.until_nul (json_dumps (r_fields r)))))
             records)
  /\ (forall q, (utf8_length q <= 49997)%N ->
        get_records json_dumps records None (Some (String Ascii.zero q))
        = Ok records).
Proof.
intros Hn.
assert (Hall : forall text,
  text <> EmptyString -> (utf8_length text <= 49998)%N ->
  (forall s, like (Py.until_nul ("%" ++ text ++ "%")) s = true) ->
  get_records json_dumps records None (Some text) = Ok records).
{ intros text Hne Hl Hm. unfold get_records, list_records.
  rewrite !(given_nonempty text Hne). change (given (given None)) with (@None string).
  rewrite (select_filter _ (fun _ => true)).
  - f_equal. apply filter_true. reflexivity.
  - intros r _. open_where. unfold sqlite_like.
    rewrite utf8_length_pattern. unfold like_limit.
    destruct (N.ltb_spec 50000 (utf8_length text + 2)) as [H|_]; [lia|].
    now rewrite Hm. }
split; [|split].
- apply Hall; [discriminate | simpl; lia |]. intros s.
  change (Py.until_nul ("%" ++ "%" ++ "%")) with (String "%" "%%").
  apply like_any. exists EmptyString, s.
  split; [reflexivity|]. apply like_any. exists EmptyString, s.
  split; [reflexivity | apply like_percent].
- set (q := String "_" (string_of_list_ascii (repeat "_"%char n))).
  assert (Hq : Py.until_nul q = q /\ utf8_length q = N.of_nat (Datatypes.S n)).
  { unfold q. clear. induction n as [|k [IH1 IH2]]; [split; reflexivity|].
    split.
    - change (repeat "_"%char (Datatypes.S k)) with ("_"%char :: repeat "_"%char k).
      cbn [string_of_list_ascii]. cbn [Py.until_nul] in *.
      change (Py.code "_" =? 0)%N with false in *. cbv iota in *.
      now rewrite IH1.
    - change (repeat "_"%char (Datatypes.S k)) with ("_"%char :: repeat "_"%char k).
      cbn [string_of_list_ascii]. cbn [utf8_length] in *.
      change (Py.code "_" <? 128)%N with true in *. cbv iota in *. lia. }
  destruct Hq as [Hz Hl].
  unfold get_records, list_records.
  rewrite !(given_nonempty q ltac:(discriminate)).
  change (given (given None)) with (@None string).
  apply select_filter. intros r _. open_where.
  rewrite (sqlite_like_query _ _ Hz) by lia. f_equal.
  assert (H : forall s k,
    like (string_of_list_ascii (repeat "_"%char k) ++ "%") s = true
    <-> k <= String.length s).
  { intros s k. revert s. induction k as [|k IH]; intros s.
    - simpl repeat. simpl string_of_list_ascii. simpl append.
      split; [lia | intros _; apply like_percent].
    - simpl repeat. simpl string_of_list_ascii.
      change ((String "_" ?x ++ "%")%string) with (String "_" (x ++ "%")).
      cbn [like Ascii.eqb Bool.eqb]. destruct s as [|d s]; simpl String.length.
      + split; [discriminate | lia].
      + cbn [orb andb]. rewrite IH. lia. }
  apply eq_true_iff_eq. rewrite Nat.ltb_lt. unfold q.
  change (("%" ++ String "_" ?x ++ "%")%string)
    with (String "%" (string_of_list_ascii (repeat "_"%char (Datatypes.S n)) ++ "%")).
  rewrite like_any. split.
  + intros (a & b & Hab & Hb). apply H in Hb. rewrite Hab, length_append. lia.
  + intros Hlt. exists EmptyString, (Py.until_nul (json_dumps (r_fields r))).
    split; [reflexivity|]. apply H. lia.
- intros q Hq. apply Hall; [discriminate | |].
  + cbn [utf8_length]. change (Py.code Ascii.zero <? 128)%N with true. cbv iota. lia.
  + intros s. change (("%" ++ String Ascii.zero q ++ "%")%string)
      with (String "%" (String Ascii.zero (q ++ "%"))).
    cbn [Py.until_nul]. change (Py.code "%" =? 0)%N with false.
    change (Py.code Ascii.zero =? 0)%N with true. cbv iota. apply like_percent.
Qed.

End ListingFacts.

(** *** Listing the example records *)

Section ListingExamples.
Import Val Models Listing.

Lemma get_records_query_witness :
  get_records ListingExample.json_dumps ListingExample.table None (Some "acme")
  = Ok [ExportExample.record_acme]
  /\ get_records ListingExample.json_dumps ListingExample.table (Some "invoice") None
     = Ok [ExportExample.record_acme].
Proof.
destruct (get_records_query ListingExample.json_dumps ListingExample.table
            None "acme" ltac:(discriminate) eq_refl eq_refl ltac:(vm_compute; discriminate))
  as (_ & (l & H1 & H2 & _) & H3 & _).
split.
- rewrite H1, H2. reflexivity.
- rewrite (H3 "invoice" ltac:(discriminate)). reflexivity.
Defined.

Lemma get_records_wildcards_witness :
  get_records ListingExample.json_dumps ListingExample.table None (Some "__")
  = Ok ListingExample.table
  /\ get_records ListingExample.json_dumps ListingExample.table None
       (Some (String Ascii.zero "x"))
     = Ok ListingExample.table.
Proof.
destruct (get_records_wildcards ListingExample.json_dumps ListingExample.table 1
            ltac:(vm_compute; reflexivity))
  as (_ & H1 & H2).
split.
- exact H1.
- apply H2. vm_compute. discriminate.
Defined.

End ListingExamples.
